(** * Memory-access benchmarks: strided scan, loop orders, blocked product

    A shallow embedding of the three C programs of the repository
    (exercice01/exercice1.c, the loop-order comparison and
    exercice03/mxm_bloc.c) and the properties of their loop nests.

    - [double] is IEEE binary64: Rocq's primitive [float].
    - [int] is a 32-bit signed integer, carried as a [Z]; an addition
      whose result leaves the range is undefined behaviour ([Fault]).
    - A [double **] matrix is a row-pointer table whose entries point to
      separately allocated row buffers, so two matrices (or two rows) may
      alias; the store keeps tables and row buffers by location.
    - A command maps a state to an [outcome]: it finishes ([Done]), runs
      into undefined behaviour ([Fault]: null or out-of-range access,
      signed overflow) or does not leave a loop ([Diverge]). *)

From Stdlib Require Import String.
From Stdlib Require Import ZArith Lia List Bool.
From Stdlib Require Import Floats Uint63.
From stdpp Require Import base option list gmap.

Local Open Scope Z_scope.

(** ** Outcomes *)

Inductive outcome (X : Type) : Type :=
| Done (x : X)
| Fault
| Diverge.
Arguments Done {X} x.
Arguments Fault {X}.
Arguments Diverge {X}.

#[global] Instance outcome_ret : MRet outcome := fun _ x => Done x.
#[global] Instance outcome_bind : MBind outcome := fun _ _ f m =>
  match m with
  | Done x => f x
  | Fault => Fault
  | Diverge => Diverge
  end.

(** A partial operation of the abstract machine: [None] is undefined
    behaviour. *)
Definition lift {X : Type} (o : option X) : outcome X :=
  match o with
  | Some x => Done x
  | None => Fault
  end.

(** ** Machine integers *)

Definition INT_MAX : Z := 2147483647.
Definition INT_MIN : Z := -2147483648.

Definition in_int (z : Z) : bool := (INT_MIN <=? z) && (z <=? INT_MAX).

(** [a + b] on [int]. *)
Definition int_add (a b : Z) : option Z :=
  if in_int (a + b) then Some (a + b) else None.

(** An [int] used as a subscript: a negative one is out of every object. *)
Definition idx (i : Z) : option nat :=
  if 0 <=? i then Some (Z.to_nat i) else None.

(** ** Counted loops

    [for (int i = lo; i < hi; i += step) body(i)].  With [step >= 1] the
    loop makes at most [hi - lo] iterations, which is the budget
    [for_loop] gives to [for_fuel]; the budget runs out only when
    [step <= 0], where the C loop never leaves through its test. *)

Fixpoint for_fuel {St : Type} (fuel : nat) (i hi step : Z)
    (body : Z -> St -> outcome St) (s : St) : outcome St :=
  if i <? hi then
    match fuel with
    | O => Diverge
    | S fuel' =>
        s' ← body i s;
        i' ← lift (int_add i step);
        for_fuel fuel' i' hi step body s'
    end
  else Done s.

Definition for_loop {St : Type} (lo hi step : Z)
    (body : Z -> St -> outcome St) (s : St) : outcome St :=
  for_fuel (Z.to_nat (hi - lo)) lo hi step body s.

(** ** The store *)

Definition loc := positive.

(** A pointer: [None] is [NULL]. *)
Definition ptr := option loc.

Record store : Type := Store {
  tables : gmap loc (list ptr);   (* blocks of [double *]: row-pointer tables *)
  rows : gmap loc (list float)    (* blocks of [double]: row buffers *)
}.

(** The table a [double **] points to. *)
Definition table_of (st : store) (T : ptr) : option (list ptr) :=
  t ← T; tables st !! t.

(** [T[i]] for [double **T]. *)
Definition load_row (st : store) (T : ptr) (i : Z) : option ptr :=
  tab ← table_of st T; n ← idx i; tab !! n.

(** [R[j]] for [double *R]. *)
Definition load (st : store) (R : ptr) (j : Z) : option float :=
  r ← R; row ← rows st !! r; n ← idx j; row !! n.

(** [R[j] = v] for [double *R]. *)
Definition store_d (st : store) (R : ptr) (j : Z) (v : float) : option store :=
  r ← R; row ← rows st !! r; n ← idx j;
  if (n <? length row)%nat
  then Some (Store (tables st) (<[r := <[n := v]> row]> (rows st)))
  else None.

(** [T[i][j]] and [T[i][j] = v]. *)
Definition load2 (st : store) (T : ptr) (i j : Z) : option float :=
  r ← load_row st T i; load st r j.

Definition store2 (st : store) (T : ptr) (i j : Z) (v : float) : option store :=
  r ← load_row st T i; store_d st r j v.

(** [C[i][j] += A[i][k] * B[k][j];] : the three operands are read, then
    the product is added to the old value and stored. *)
Definition mac (A B C : ptr) (i k j : Z) (st : store) : outcome store :=
  lift (c ← load2 st C i j;
        a ← load2 st A i k;
        b ← load2 st B k j;
        store2 st C i j (c + a * b)%float).


(** [T[i] = v] for [double **T]. *)
Definition store_p (st : store) (T : ptr) (i : Z) (v : ptr) : option store :=
  t ← T; tab ← tables st !! t; n ← idx i;
  if (n <? length tab)%nat
  then Some (Store (<[t := <[n := v]> tab]> (tables st)) (rows st))
  else None.

(** * The C runtime of the drivers

    What the programs take from their environment is a [world]: the
    clock, the allocator, the generator behind [rand] and whether the
    result file can be opened.  [CLOCKS_PER_SEC] is the macro of
    [<time.h>]. *)

Record world : Type := World {
  CLOCKS_PER_SEC : Z;
  clock_value : nat -> Z;               (* result of the t-th call of clock() *)
  malloc_succeeds : nat -> bool;        (* does the a-th call of malloc() *)
  fresh_doubles : nat -> nat -> float;  (* contents of the a-th block, *)
  fresh_pointers : nat -> nat -> ptr;   (*   indeterminate *)
  rand_value : Z -> nat -> Z;           (* t-th rand() after srand(seed) *)
  fopen_succeeds : bool
}.

(** An argument of a [printf], and a call of [printf] or [fprintf]. *)
Inductive arg : Type :=
| AInt (z : Z)
| ADouble (f : float).

Record print : Type := Print { format : string; args : list arg }.

Record proc : Type := Proc {
  mem : store;
  n_malloc : nat;           (* calls of malloc() so far *)
  n_clock : nat;            (* calls of clock() so far *)
  rng_seed : Z;             (* argument of the last srand() *)
  rng_draws : nat;          (* calls of rand() since *)
  stdout : list print;
  file : list print         (* what was written to the result file *)
}.

(** The process at the start of [main]: nothing allocated, and [rand]
    as after [srand(1)]. *)
Definition start : proc :=
  Proc (Store ∅ ∅) 0 0 1 0 [] [].

Definition set_mem (p : proc) (m : store) : proc :=
  Proc m (n_malloc p) (n_clock p) (rng_seed p) (rng_draws p)
       (stdout p) (file p).

Definition printf (fmt : string) (a : list arg) (p : proc) : proc :=
  Proc (mem p) (n_malloc p) (n_clock p) (rng_seed p) (rng_draws p)
       (stdout p ++ [Print fmt a]) (file p).

Definition fprintf (fmt : string) (a : list arg) (p : proc) : proc :=
  Proc (mem p) (n_malloc p) (n_clock p) (rng_seed p) (rng_draws p)
       (stdout p) (file p ++ [Print fmt a]).

(** [clock()]. *)
Definition clock (w : world) (p : proc) : Z * proc :=
  (clock_value w (n_clock p),
   Proc (mem p) (n_malloc p) (S (n_clock p)) (rng_seed p) (rng_draws p)
        (stdout p) (file p)).

(** [srand(seed)] and [rand()]. *)
Definition srand (seed : Z) (p : proc) : proc :=
  Proc (mem p) (n_malloc p) (n_clock p) seed 0 (stdout p) (file p).

Definition rand (w : world) (p : proc) : Z * proc :=
  (rand_value w (rng_seed p) (rng_draws p),
   Proc (mem p) (n_malloc p) (n_clock p) (rng_seed p) (S (rng_draws p))
        (stdout p) (file p)).

(** The location of the block the [a]-th call of [malloc] returns. *)
Definition block (a : nat) : loc := Pos.of_succ_nat a.

Definition count_malloc (p : proc) (m : store) : proc :=
  Proc m (S (n_malloc p)) (n_clock p) (rng_seed p) (rng_draws p)
       (stdout p) (file p).

(** [(double * ) malloc(count * sizeof(double))]: a block of [count]
    doubles with indeterminate contents, or [NULL]. *)
Definition malloc_doubles (w : world) (count : Z) (p : proc) : ptr * proc :=
  let a := n_malloc p in
  if malloc_succeeds w a && (0 <=? count) then
    (Some (block a),
     count_malloc p
       (Store (tables (mem p))
              (<[block a := map (fresh_doubles w a) (seq 0 (Z.to_nat count))]>
                 (rows (mem p)))))
  else (None, count_malloc p (mem p)).

(** [(double ** ) malloc(count * sizeof(double * ))]. *)
Definition malloc_pointers (w : world) (count : Z) (p : proc) : ptr * proc :=
  let a := n_malloc p in
  if malloc_succeeds w a && (0 <=? count) then
    (Some (block a),
     count_malloc p
       (Store (<[block a := map (fresh_pointers w a) (seq 0 (Z.to_nat count))]>
                 (tables (mem p)))
              (rows (mem p))))
  else (None, count_malloc p (mem p)).

(** [free(q)]; [free(NULL)] does nothing. *)
Definition free (q : ptr) (p : proc) : proc :=
  match q with
  | Some l =>
      set_mem p (Store (delete l (tables (mem p))) (delete l (rows (mem p))))
  | None => p
  end.

(** [a * b] on [int]. *)
Definition int_mul (a b : Z) : option Z :=
  if in_int (a * b) then Some (a * b) else None.

(** [long long]: 64 bits, signed. *)
Definition LLONG_MAX : Z := 9223372036854775807.
Definition LLONG_MIN : Z := -9223372036854775808.

(** [a * b] on [long long]. *)
Definition ll_mul (a b : Z) : option Z :=
  if (LLONG_MIN <=? a * b) && (a * b <=? LLONG_MAX) then Some (a * b)
  else None.

(** The conversion of a 64-bit unsigned value to [long long]. *)
Definition to_ll (u : Z) : Z :=
  let u := u mod 2 ^ 64 in if u <? 2 ^ 63 then u else u - 2 ^ 64.

(** [(double) z] for an integer [z] of at most 63 bits. *)
Definition double_of_Z (z : Z) : float :=
  if z <? 0 then (- PrimFloat.of_uint63 (Uint63.of_Z (- z)))%float
  else PrimFloat.of_uint63 (Uint63.of_Z z).

(** [(double)clock() / CLOCKS_PER_SEC]. *)
Definition seconds (w : world) (c : Z) : float :=
  (double_of_Z c / double_of_Z (CLOCKS_PER_SEC w))%float.

(** [msec = (end - start) * 1000.0]. *)
Definition elapsed_ms (start end_ : float) : float :=
  ((end_ - start) * 1000)%float.

(** * exercice01/exercice1.c: the stride experiment *)

Module Exercice1.

Definition MAX_STRIDE : Z := 20.

(** [for (int i = 0; i < N * i_stride; i += i_stride) sum += a[i];]
    from [sum = 0.0]. *)
Definition scan (st : store) (a : ptr) (N i_stride : Z) : outcome float :=
  hi ← lift (int_mul N i_stride);
  for_loop 0 hi i_stride
    (fun i sum => v ← lift (load st a i); Done (sum + v)%float)
    0%float.

(** The body of [main] for a number [N] of touches and [MAX_STRIDE]. *)
Definition experiment (w : world) (N MAX_STRIDE : Z) (p0 : proc)
    : outcome (Z * proc) :=
  count ← lift (int_mul N MAX_STRIDE);
  let '(a, p1) := malloc_doubles w count p0 in
  p2 ← for_loop 0 count 1
         (fun i p => m ← lift (store_d (mem p) a i 1%float);
                     Done (set_mem p m)) p1;
  let p3 := printf "stride , sum, time (msec), rate (MB/s)\n" [] p2 in
  p4 ← for_loop 1 (MAX_STRIDE + 1) 1
         (fun i_stride p =>
            let '(c0, p) := clock w p in
            let start := seconds w c0 in
            sum ← scan (mem p) a N i_stride;
            let '(c1, p) := clock w p in
            let end_ := seconds w c1 in
            let msec := elapsed_ms start end_ in
            let rate :=
              (double_of_Z (8 * N) * (1000 / msec)
               / double_of_Z (1024 * 1024))%float in
            Done (printf "%d, %f, %f, %f\n"
                    [AInt i_stride; ADouble sum; ADouble msec; ADouble rate]
                    p)) p3;
  Done (0, free a p4).

Definition main (w : world) : outcome (Z * proc) :=
  experiment w 1000000 MAX_STRIDE start.

End Exercice1.

(** * The loop-order comparison (second program)

    [main] runs, on the same [m1] and [m2], the product in the order
    i-j-k into [result_ijk] and then in the order i-k-j into
    [result_ikj].  [R1], [C2] and [R2] are the macros of the file (all
    512 there). *)

Module Mxm.

(** Version 1: i-j-k loop order. *)
Definition version_ijk (m1 m2 result_ijk : ptr) (R1 C2 R2 : Z)
    : store -> outcome store :=
  for_loop 0 R1 1 (fun i =>
    for_loop 0 C2 1 (fun j =>
      for_loop 0 R2 1 (fun k =>
        mac m1 m2 result_ijk i k j))).

(** Version 2: i-k-j loop order. *)
Definition version_ikj (m1 m2 result_ikj : ptr) (R1 C2 R2 : Z)
    : store -> outcome store :=
  for_loop 0 R1 1 (fun i =>
    for_loop 0 R2 1 (fun k =>
      for_loop 0 C2 1 (fun j =>
        mac m1 m2 result_ikj i k j))).

(** Both versions, one after the other. *)
Definition both_versions (m1 m2 result_ijk result_ikj : ptr) (R1 C2 R2 : Z)
    (st : store) : outcome store :=
  st1 ← version_ijk m1 m2 result_ijk R1 C2 R2 st;
  version_ikj m1 m2 result_ikj R1 C2 R2 st1.

End Mxm.

(** * exercice03/mxm_bloc.c: the blocked product and its driver *)

Module MxmBloc.

(** [#define N 512] *)
Definition N : Z := 512.

Definition EXIT_FAILURE : Z := 1.

Definition min (a b : Z) : Z := if a <? b then a else b.

(** [for (int x = off; x < min(off + block_size, n); x++) body(x)] *)
Definition for_tile (off block_size n : Z)
    (body : Z -> store -> outcome store) (st : store) : outcome store :=
  e ← lift (int_add off block_size);
  for_loop off (min e n) 1 body st.

Definition matrix_multiply_blocked (A B C : ptr) (n block_size : Z)
    : store -> outcome store :=
  for_loop 0 n block_size (fun ii =>
    for_loop 0 n block_size (fun jj =>
      for_loop 0 n block_size (fun kk =>
        for_tile ii block_size n (fun i =>
          for_tile kk block_size n (fun k =>
            for_tile jj block_size n (fun j =>
              mac A B C i k j)))))).

Definition matrix_multiply_standard (A B C : ptr) (n : Z)
    : store -> outcome store :=
  for_loop 0 n 1 (fun i =>
    for_loop 0 n 1 (fun k =>
      for_loop 0 n 1 (fun j =>
        mac A B C i k j))).

(** ** [main], by parts; [N] is the macro *)

(** [T[i] = (double * )malloc(N * sizeof(double));] *)
Definition allocate_row (w : world) (T : ptr) (N i : Z) (p : proc)
    : outcome proc :=
  let '(r, p) := malloc_doubles w N p in
  m ← lift (store_p (mem p) T i r);
  Done (set_mem p m).

(** Lines 49-51: a row of each matrix. *)
Definition allocate_rows (w : world) (A B C : ptr) (N i : Z) (p : proc)
    : outcome proc :=
  p ← allocate_row w A N i p;
  p ← allocate_row w B N i p;
  allocate_row w C N i p.

(** Lines 44-52: the three tables, then the rows.  No result of
    [malloc] is tested. *)
Definition allocate (w : world) (N : Z) (p : proc)
    : outcome (ptr * ptr * ptr * proc) :=
  let '(A, p) := malloc_pointers w N p in
  let '(B, p) := malloc_pointers w N p in
  let '(C, p) := malloc_pointers w N p in
  p ← for_loop 0 N 1 (allocate_rows w A B C N) p;
  Done (A, B, C, p).

(** [(double)(rand() % 10) + 1.0] *)
Definition draw (w : world) (p : proc) : float * proc :=
  let '(r, p) := rand w p in
  ((double_of_Z (Z.rem r 10) + 1)%float, p).

(** Lines 58-60. *)
Definition seed_cell (w : world) (A B C : ptr) (i j : Z) (p : proc)
    : outcome proc :=
  let '(v, p) := draw w p in
  m ← lift (store2 (mem p) A i j v);
  let '(v, p) := draw w (set_mem p m) in
  m ← lift (store2 (mem p) B i j v);
  m ← lift (store2 m C i j 0%float);
  Done (set_mem p m).

(** Lines 55-62: [srand(42)], then [A] and [B] filled and [C] cleared. *)
Definition seed (w : world) (A B C : ptr) (N : Z) (p : proc) : outcome proc :=
  for_loop 0 N 1 (fun i => for_loop 0 N 1 (seed_cell w A B C i)) (srand 42 p).

(** [C[i][j] = 0.0;] *)
Definition clear_cell (C : ptr) (i j : Z) (p : proc) : outcome proc :=
  m ← lift (store2 (mem p) C i j 0%float); Done (set_mem p m).

Definition clear (C : ptr) (N : Z) : proc -> outcome proc :=
  for_loop 0 N 1 (fun i => for_loop 0 N 1 (clear_cell C i)).

(** A multiplier run on the memory of the process. *)
Definition on_mem (c : store -> outcome store) (p : proc) : outcome proc :=
  m ← c (mem p); Done (set_mem p m).

(** [long long total_ops = 4LL * N * N * N;] *)
Definition total_ops (N : Z) : option Z :=
  a ← ll_mul 4 N; b ← ll_mul a N; ll_mul b N.

(** [long long total_bytes = total_ops * sizeof(double);] : the product is
    taken in [size_t] and converted back. *)
Definition total_bytes (N : Z) : option Z :=
  ops ← total_ops N; Some (to_ll (ops mod 2 ^ 64 * 8)).

(** [total_bytes * (1000.0 / msec) / (1024 * 1024)] *)
Definition bandwidth (total_bytes : Z) (msec : float) : float :=
  (double_of_Z total_bytes * (1000 / msec) / double_of_Z (1024 * 1024))%float.

Definition block_sizes : list Z := [8; 16; 32; 64; 128; 256].

Definition row_format : string := "%4d, %10.2f, %12.2f, %6.2fx\n".

(** Lines 88-119: one configuration of the sweep; the state of the loop
    is the process and [standard_time]. *)
Definition sweep_step (w : world) (A B C : ptr) (N total_bytes : Z)
    (block_sizes : list Z) (bs_idx : Z) (s : proc * float)
    : outcome (proc * float) :=
  let '(p, standard_time) := s in
  block_size ← lift (n ← idx bs_idx; block_sizes !! n);
  p ← clear C N p;
  let '(c0, p) := clock w p in
  let start := seconds w c0 in
  p ← on_mem (if block_size =? 512
              then matrix_multiply_standard A B C N
              else matrix_multiply_blocked A B C N block_size) p;
  let '(c1, p) := clock w p in
  let end_ := seconds w c1 in
  let msec := elapsed_ms start end_ in
  let bandwidth := bandwidth total_bytes msec in
  let standard_time :=
    if (block_size =? 512) || (bs_idx =? 0) then msec else standard_time in
  let speedup := (standard_time / msec)%float in
  let line := [AInt block_size; ADouble msec; ADouble bandwidth;
               ADouble speedup] in
  Done (fprintf row_format line (printf row_format line p), standard_time).

(** Lines 87-120. *)
Definition sweep (w : world) (A B C : ptr) (N total_bytes : Z)
    (block_sizes : list Z) (p : proc) : outcome (proc * float) :=
  for_loop 0 (Z.of_nat (length block_sizes)) 1
    (sweep_step w A B C N total_bytes block_sizes) (p, 0%float).

Definition standard_format : string :=
  "Standard (no blocking), %10.2f, %12.2f, %6.2fx\n".

(** Lines 122-136: the unblocked run recorded after the sweep. *)
Definition final_run (w : world) (A B C : ptr) (N total_bytes : Z) (p : proc)
    : outcome proc :=
  p ← clear C N p;
  let '(c0, p) := clock w p in
  let start := seconds w c0 in
  p ← on_mem (matrix_multiply_standard A B C N) p;
  let '(c1, p) := clock w p in
  let end_ := seconds w c1 in
  let msec := elapsed_ms start end_ in
  let bandwidth := bandwidth total_bytes msec in
  let line := [ADouble msec; ADouble bandwidth; ADouble 1] in
  Done (fprintf standard_format line (printf standard_format line p)).

(** Lines 142-149. *)
Definition release (A B C : ptr) (N : Z) (p : proc) : outcome proc :=
  p ← for_loop 0 N 1
        (fun i p =>
           a ← lift (load_row (mem p) A i);
           b ← lift (load_row (mem p) B i);
           c ← lift (load_row (mem p) C i);
           Done (free c (free b (free a p)))) p;
  Done (free C (free B (free A p))).

(** [main] for a dimension [N] and a list of block sizes: the exit status
    and the final process. *)
Definition run (w : world) (N : Z) (block_sizes : list Z)
    : outcome (Z * proc) :=
  '(A, B, C, p) ← allocate w N start;
  p ← seed w A B C N p;
  if fopen_succeeds w then
    let p := fprintf "Block Matrix Multiplication Performance Analysis\n" [] p in
    let p := fprintf "Matrix size: %d x %d\n\n" [AInt N; AInt N] p in
    let p :=
      fprintf "Block Size, Time (msec), Bandwidth (MB/s), Speedup vs Standard\n"
        [] p in
    let p := printf "Block Matrix Multiplication Performance Analysis\n" [] p in
    let p := printf "Matrix size: %d x %d\n\n" [AInt N; AInt N] p in
    let p := printf "Block Size, Time (msec), Bandwidth (MB/s), Speedup\n" [] p in
    total_bytes ← lift (total_bytes N);
    '(p, _) ← sweep w A B C N total_bytes block_sizes p;
    p ← final_run w A B C N total_bytes p;
    let p := printf "\nResults saved to mxm_bloc_results.txt\n" [] p in
    p ← release A B C N p;
    Done (0, p)
  else
    Done (EXIT_FAILURE, printf "Error opening file!\n" [] p).

Definition main (w : world) : outcome (Z * proc) := run w N block_sizes.

End MxmBloc.

(** * Loops as traces

    The bounds of a counted loop do not depend on the state, so a loop is
    the sequence of its bodies at the successive values of its counter. *)

Fixpoint range_fuel (fuel : nat) (i hi step : Z) : list Z :=
  if i <? hi then
    match fuel with
    | O => []
    | S fuel' => i :: range_fuel fuel' (i + step) hi step
    end
  else [].

(** The values the counter of [for (i = lo; i < hi; i += step)] takes. *)
Definition range (lo hi step : Z) : list Z :=
  range_fuel (Z.to_nat (hi - lo)) lo hi step.

Fixpoint run_list {St : Type} (cs : list (St -> outcome St)) (s : St)
    : outcome St :=
  match cs with
  | [] => Done s
  | c :: cs' => s' ← c s; run_list cs' s'
  end.

Lemma run_list_app {St : Type} (c1 c2 : list (St -> outcome St)) (s : St) :
  run_list (c1 ++ c2) s = s' ← run_list c1 s; run_list c2 s'.
Proof.
  revert s; induction c1 as [|c c1 IH]; intros s; simpl; [reflexivity|].
  destruct (c s); simpl; auto.
Qed.

Lemma run_list_flat {St X Op : Type} (c : Op -> St -> outcome St)
    (tr : X -> list Op) (l : list X) (s : St) :
  run_list (map (fun x => run_list (map c (tr x))) l) s
  = run_list (map c (flat_map tr l)) s.
Proof.
  revert s; induction l as [|x l IH]; intros s; simpl; [reflexivity|].
  rewrite map_app, run_list_app.
  destruct (run_list (map c (tr x)) s); simpl; auto.
Qed.

Lemma run_list_ext {St X : Type} (f g : X -> St -> outcome St) (l : list X) :
  (forall x s, In x l -> f x s = g x s) ->
  forall s, run_list (map f l) s = run_list (map g l) s.
Proof.
  induction l as [|x l IH]; intros H s; simpl; [reflexivity|].
  rewrite (H x s) by (left; reflexivity).
  destruct (g x s); simpl; auto.
  apply IH. intros; apply H; right; assumption.
Qed.

Lemma int_add_ok (a b : Z) :
  INT_MIN <= a + b <= INT_MAX -> int_add a b = Some (a + b).
Proof.
  intros H. unfold int_add, in_int.
  destruct (Z.leb_spec INT_MIN (a + b)); [|lia].
  destruct (Z.leb_spec (a + b) INT_MAX); [reflexivity|lia].
Qed.

Lemma for_fuel_range {St : Type} (body : Z -> St -> outcome St)
    (hi step : Z) (fuel : nat) :
  1 <= step -> hi + step <= INT_MAX + 1 ->
  forall (i : Z) (s : St),
    (Z.to_nat (hi - i) <= fuel)%nat -> INT_MIN <= i ->
    for_fuel fuel i hi step body s
    = run_list (map body (range_fuel fuel i hi step)) s.
Proof.
  intros Hstep Hhi. induction fuel as [|fuel IH]; intros i s Hf Hi; simpl.
  - destruct (Z.ltb_spec i hi); [lia|reflexivity].
  - destruct (Z.ltb_spec i hi); [|reflexivity]. simpl.
    destruct (body i s) as [s'| |]; simpl; try reflexivity.
    rewrite int_add_ok by lia. simpl.
    apply IH; lia.
Qed.

Lemma range_fuel_irrel (hi step : Z) :
  1 <= step ->
  forall (f1 f2 : nat) (i : Z),
    (Z.to_nat (hi - i) <= f1)%nat -> (Z.to_nat (hi - i) <= f2)%nat ->
    range_fuel f1 i hi step = range_fuel f2 i hi step.
Proof.
  intros Hstep. induction f1 as [|f1 IH]; intros f2 i H1 H2.
  - destruct f2; simpl; destruct (Z.ltb_spec i hi); try lia; reflexivity.
  - destruct f2 as [|f2]; simpl; destruct (Z.ltb_spec i hi); try lia;
      try reflexivity.
    f_equal. apply IH; lia.
Qed.

Lemma range_unfold (lo hi step : Z) :
  1 <= step ->
  range lo hi step
  = if lo <? hi then lo :: range (lo + step) hi step else [].
Proof.
  intros Hstep. unfold range at 1.
  destruct (Z.ltb_spec lo hi) as [Hlt|Hge].
  - destruct (Z.to_nat (hi - lo)) as [|m] eqn:Em; [lia|]. simpl.
    destruct (Z.ltb_spec lo hi); [|lia]. f_equal.
    apply range_fuel_irrel; lia.
  - destruct (Z.to_nat (hi - lo)); simpl;
      destruct (Z.ltb_spec lo hi); try lia; reflexivity.
Qed.

(** Well-founded induction along a counted loop. *)
Lemma range_ind (hi step : Z) (P : Z -> Prop) :
  1 <= step ->
  (forall lo, hi <= lo -> P lo) ->
  (forall lo, lo < hi -> P (lo + step) -> P lo) ->
  forall lo, P lo.
Proof.
  intros Hstep Hbase Hind lo.
  remember (Z.to_nat (hi - lo)) as m eqn:Em.
  revert lo Em. induction m as [m IH] using lt_wf_ind. intros lo Em.
  destruct (Z_lt_le_dec lo hi) as [Hlt|Hge]; [|auto].
  apply Hind; [assumption|].
  apply (IH (Z.to_nat (hi - (lo + step)))); [lia|reflexivity].
Qed.

Lemma for_loop_range {St : Type} (body : Z -> St -> outcome St)
    (lo hi step : Z) (s : St) :
  1 <= step -> INT_MIN <= lo -> hi + step <= INT_MAX + 1 ->
  for_loop lo hi step body s = run_list (map body (range lo hi step)) s.
Proof.
  intros. unfold for_loop, range. apply for_fuel_range; auto; lia.
Qed.

(** A loop whose body at [x] runs the operations [tr x] runs the
    operations of all its iterations, in order. *)
Lemma for_loop_flat {St Op : Type} (c : Op -> St -> outcome St)
    (tr : Z -> list Op) (body : Z -> St -> outcome St)
    (lo hi step : Z) (s : St) :
  1 <= step -> INT_MIN <= lo -> hi + step <= INT_MAX + 1 ->
  (forall x s', In x (range lo hi step) ->
     body x s' = run_list (map c (tr x)) s') ->
  for_loop lo hi step body s
  = run_list (map c (flat_map tr (range lo hi step))) s.
Proof.
  intros Hstep Hlo Hhi Hbody.
  rewrite for_loop_range by assumption.
  rewrite <- run_list_flat.
  apply run_list_ext. exact Hbody.
Qed.

Lemma in_range (lo hi step x : Z) :
  1 <= step -> In x (range lo hi step) -> lo <= x < hi.
Proof.
  intros Hstep. revert lo.
  apply (range_ind hi step
           (fun lo => In x (range lo hi step) -> lo <= x < hi) Hstep).
  - intros lo Hge. rewrite range_unfold by assumption.
    destruct (Z.ltb_spec lo hi); [lia|]. intros [].
  - intros lo Hlt IH. rewrite range_unfold by assumption.
    destruct (Z.ltb_spec lo hi); [|lia].
    intros [->|Hin]; [lia|]. specialize (IH Hin). lia.
Qed.

Lemma in_range_1 (lo hi x : Z) : In x (range lo hi 1) <-> lo <= x < hi.
Proof.
  split; [apply in_range; lia|].
  revert lo.
  apply (range_ind hi 1
           (fun lo => lo <= x < hi -> In x (range lo hi 1))); [lia| |].
  - intros lo Hge Hx. lia.
  - intros lo Hlt IH Hx. rewrite range_unfold by lia.
    destruct (Z.ltb_spec lo hi); [|lia].
    destruct (Z.eq_dec lo x) as [->|Hne]; [left; reflexivity|].
    right. apply IH. lia.
Qed.

(** ** The traces of the multipliers *)

(** One multiply-add [C[i][j] += A[i][k] * B[k][j]], as [(i, k, j)]. *)
Definition op : Type := Z * Z * Z.

Definition run_op (A B C : ptr) (o : op) : store -> outcome store :=
  mac A B C o.1.1 o.1.2 o.2.

Definition exec (A B C : ptr) (ops : list op) : store -> outcome store :=
  run_list (map (run_op A B C) ops).

Definition trace_standard (n : Z) : list op :=
  flat_map (fun i =>
    flat_map (fun k =>
      flat_map (fun j => [(i, k, j)]) (range 0 n 1))
      (range 0 n 1))
    (range 0 n 1).

(** The counter values of a clamped tile loop. *)
Definition tile (off block_size n : Z) : list Z :=
  range off (MxmBloc.min (off + block_size) n) 1.

Definition trace_blocked (n block_size : Z) : list op :=
  flat_map (fun ii =>
    flat_map (fun jj =>
      flat_map (fun kk =>
        flat_map (fun i =>
          flat_map (fun k =>
            flat_map (fun j => [(i, k, j)]) (tile jj block_size n))
            (tile kk block_size n))
          (tile ii block_size n))
        (range 0 n block_size))
      (range 0 n block_size))
    (range 0 n block_size).

Lemma bind_Done {X : Type} (m : outcome X) : (x ← m; Done x) = m.
Proof. destruct m; reflexivity. Qed.

Lemma min_le_r (a b : Z) : MxmBloc.min a b <= b.
Proof. unfold MxmBloc.min. destruct (Z.ltb_spec a b); lia. Qed.

Lemma min_le_l (a b : Z) : MxmBloc.min a b <= a.
Proof. unfold MxmBloc.min. destruct (Z.ltb_spec a b); lia. Qed.

Lemma min_spec (a b : Z) : MxmBloc.min a b = Z.min a b.
Proof. unfold MxmBloc.min. destruct (Z.ltb_spec a b); lia. Qed.

Lemma for_tile_flat {Op : Type} (c : Op -> store -> outcome store)
    (tr : Z -> list Op) (body : Z -> store -> outcome store)
    (off block_size n : Z) (s : store) :
  INT_MIN <= off -> INT_MIN <= off + block_size <= INT_MAX -> n <= INT_MAX ->
  (forall x s', In x (tile off block_size n) ->
     body x s' = run_list (map c (tr x)) s') ->
  MxmBloc.for_tile off block_size n body s
  = run_list (map c (flat_map tr (tile off block_size n))) s.
Proof.
  intros Hoff Hsum Hn Hbody. unfold MxmBloc.for_tile.
  rewrite int_add_ok by assumption. simpl.
  apply for_loop_flat; try lia; [|exact Hbody].
  pose proof (min_le_r (off + block_size) n). lia.
Qed.

Lemma standard_is_trace (A B C : ptr) (n : Z) (st : store) :
  n <= INT_MAX ->
  MxmBloc.matrix_multiply_standard A B C n st
  = exec A B C (trace_standard n) st.
Proof.
  intros Hn. unfold MxmBloc.matrix_multiply_standard, exec, trace_standard.
  apply for_loop_flat; try (unfold INT_MIN; lia). intros i s1 _.
  apply for_loop_flat; try (unfold INT_MIN; lia). intros k s2 _.
  apply for_loop_flat; try (unfold INT_MIN; lia). intros j s3 _.
  simpl. unfold run_op. simpl. symmetry. apply bind_Done.
Qed.

Lemma blocked_is_trace (A B C : ptr) (n block_size : Z) (st : store) :
  1 <= block_size -> n - 1 + block_size <= INT_MAX ->
  MxmBloc.matrix_multiply_blocked A B C n block_size st
  = exec A B C (trace_blocked n block_size) st.
Proof.
  intros Hbs Hn.
  assert (Hmin : INT_MIN <= 0) by (unfold INT_MIN; lia).
  unfold MxmBloc.matrix_multiply_blocked, exec, trace_blocked.
  apply for_loop_flat; try lia. intros ii s1 Hii.
  apply in_range in Hii; [|assumption].
  apply for_loop_flat; try lia. intros jj s2 Hjj.
  apply in_range in Hjj; [|assumption].
  apply for_loop_flat; try lia. intros kk s3 Hkk.
  apply in_range in Hkk; [|assumption].
  apply for_tile_flat; try lia. intros i s4 _.
  apply for_tile_flat; try lia. intros k s5 _.
  apply for_tile_flat; try lia. intros j s6 _.
  simpl. unfold run_op. simpl. symmetry. apply bind_Done.
Qed.

(** ** Which reduction indices reach a cell, and in which order *)

(** The [k]s of the multiply-adds of [ops] that update cell [(i0, j0)],
    in the order they are run. *)
Definition ks (ops : list op) (i0 j0 : Z) : list Z :=
  flat_map (fun o : op =>
              if (o.1.1 =? i0) && (o.2 =? j0) then [o.1.2] else []) ops.

Ltac zbool :=
  repeat match goal with
    | |- context [?a <=? ?b] => destruct (Z.leb_spec a b)
    | |- context [?a <? ?b] => destruct (Z.ltb_spec a b)
    | |- context [?a =? ?b] => destruct (Z.eqb_spec a b)
    end;
  simpl; rewrite ?app_nil_r; try reflexivity; try lia.

Lemma flat_map_flat_map {X Y W : Type} (f : X -> list Y) (g : Y -> list W)
    (l : list X) :
  flat_map g (flat_map f l) = flat_map (fun x => flat_map g (f x)) l.
Proof.
  induction l as [|x l IH]; simpl; [reflexivity|].
  rewrite flat_map_app, IH. reflexivity.
Qed.

Lemma flat_map_if {X Y : Type} (b : bool) (f : X -> list Y) (l : list X) :
  flat_map (fun x => if b then f x else []) l
  = if b then flat_map f l else [].
Proof.
  destruct b; [reflexivity|]. induction l; simpl; auto.
Qed.

Lemma flat_map_single {X : Type} (l : list X) :
  flat_map (fun x => [x]) l = l.
Proof. induction l; simpl; congruence. Qed.

Lemma pick_range (x0 lo hi : Z) {Y : Type} (g : list Y) :
  flat_map (fun x => if x =? x0 then g else []) (range lo hi 1)
  = if (lo <=? x0) && (x0 <? hi) then g else [].
Proof.
  revert lo. apply range_ind with (hi := hi) (step := 1); [lia| |].
  - intros lo Hge. rewrite range_unfold by lia. zbool.
  - intros lo Hlt IH. rewrite range_unfold by lia.
    destruct (Z.ltb_spec lo hi); [|lia]. simpl. rewrite IH. zbool.
Qed.

(** Exactly one tile of an axis holds a given index of [lo, n). *)
Lemma pick_tile (x0 lo n bs : Z) {Y : Type} (g : list Y) :
  1 <= bs ->
  flat_map (fun off =>
              if (off <=? x0) && (x0 <? MxmBloc.min (off + bs) n)
              then g else []) (range lo n bs)
  = if (lo <=? x0) && (x0 <? n) then g else [].
Proof.
  intros Hbs. revert lo. apply range_ind with (hi := n) (step := bs);
    [lia| |].
  - intros lo Hge. rewrite range_unfold by lia. zbool.
  - intros lo Hlt IH. rewrite range_unfold by lia.
    destruct (Z.ltb_spec lo n); [|lia]. simpl. rewrite IH.
    rewrite min_spec. zbool.
Qed.

Lemma range_empty (lo hi step : Z) : hi <= lo -> range lo hi step = [].
Proof.
  intros H. unfold range. replace (Z.to_nat (hi - lo)) with 0%nat by lia.
  simpl. destruct (Z.ltb_spec lo hi); [lia|reflexivity].
Qed.

Lemma range_app (lo mid hi : Z) :
  lo <= mid <= hi -> range lo mid 1 ++ range mid hi 1 = range lo hi 1.
Proof.
  revert lo.
  apply (range_ind mid 1
           (fun lo => lo <= mid <= hi ->
                      range lo mid 1 ++ range mid hi 1 = range lo hi 1));
    [lia| |].
  - intros lo Hge Hle. assert (lo = mid) by lia. subst lo.
    rewrite (range_empty mid mid) by lia. reflexivity.
  - intros lo Hlt IH Hle.
    rewrite (range_unfold lo mid), (range_unfold lo hi) by lia.
    destruct (Z.ltb_spec lo mid); [|lia].
    destruct (Z.ltb_spec lo hi); [|lia].
    simpl. f_equal. apply IH. lia.
Qed.

(** The tiles of an axis, one after the other, are the axis. *)
Lemma tiles_cover (lo n bs : Z) :
  1 <= bs ->
  flat_map (fun off => tile off bs n) (range lo n bs) = range lo n 1.
Proof.
  intros Hbs. revert lo. apply range_ind with (hi := n) (step := bs);
    [lia| |].
  - intros lo Hge. rewrite !range_empty by lia. reflexivity.
  - intros lo Hlt IH. rewrite (range_unfold lo n bs) by lia.
    destruct (Z.ltb_spec lo n); [|lia]. simpl. rewrite IH.
    unfold tile. rewrite min_spec.
    destruct (Z_lt_le_dec (lo + bs) n).
    + rewrite Z.min_l by lia. apply range_app. lia.
    + rewrite Z.min_r by lia. rewrite (range_empty (lo + bs)) by lia.
      apply app_nil_r.
Qed.

Lemma ks_flat_map {X : Type} (f : X -> list op) (l : list X) (i0 j0 : Z) :
  ks (flat_map f l) i0 j0 = flat_map (fun x => ks (f x) i0 j0) l.
Proof. unfold ks. apply flat_map_flat_map. Qed.

Lemma ks_row (i k i0 j0 lo hi : Z) :
  ks (flat_map (fun j => [(i, k, j)]) (range lo hi 1)) i0 j0
  = if (lo <=? j0) && (j0 <? hi)
    then (if i =? i0 then [k] else []) else [].
Proof.
  rewrite ks_flat_map. rewrite <- pick_range.
  apply flat_map_ext. intros j. unfold ks. simpl. zbool.
Qed.

Lemma ks_standard (n i0 j0 : Z) :
  0 <= i0 < n -> 0 <= j0 < n ->
  ks (trace_standard n) i0 j0 = range 0 n 1.
Proof.
  intros Hi Hj. unfold trace_standard.
  rewrite ks_flat_map.
  rewrite (flat_map_ext _ (fun i => if i =? i0 then range 0 n 1 else [])).
  - rewrite pick_range. zbool.
  - intros i. rewrite ks_flat_map.
    rewrite (flat_map_ext _ (fun k => if i =? i0 then [k] else [])).
    + rewrite flat_map_if, flat_map_single. reflexivity.
    + intros k. rewrite ks_row. zbool.
Qed.

Lemma ks_blocked (n bs i0 j0 : Z) :
  1 <= bs -> 0 <= i0 < n -> 0 <= j0 < n ->
  ks (trace_blocked n bs) i0 j0 = range 0 n 1.
Proof.
  intros Hbs Hi Hj. unfold trace_blocked.
  set (inside := fun off x0 : Z =>
                   (off <=? x0) && (x0 <? MxmBloc.min (off + bs) n)).
  rewrite ks_flat_map.
  rewrite (flat_map_ext _
             (fun ii => if inside ii i0 then range 0 n 1 else [])).
  { unfold inside. rewrite pick_tile by assumption. zbool. }
  intros ii. rewrite ks_flat_map.
  rewrite (flat_map_ext _
             (fun jj => if inside jj j0
                        then (if inside ii i0 then range 0 n 1 else [])
                        else [])).
  { unfold inside at 1. rewrite pick_tile by assumption. zbool. }
  intros jj. rewrite ks_flat_map.
  rewrite (flat_map_ext _
             (fun kk => if inside jj j0 && inside ii i0
                        then tile kk bs n else [])).
  { rewrite flat_map_if, tiles_cover by assumption.
    destruct (inside jj j0), (inside ii i0); reflexivity. }
  intros kk. rewrite ks_flat_map.
  rewrite (flat_map_ext _
             (fun i => if i =? i0
                       then (if inside jj j0 then tile kk bs n else [])
                       else [])).
  { change (tile ii bs n) with (range ii (MxmBloc.min (ii + bs) n) 1).
    rewrite pick_range. fold (inside ii i0).
    destruct (inside jj j0), (inside ii i0); reflexivity. }
  intros i. rewrite ks_flat_map.
  rewrite (flat_map_ext _
             (fun k => if inside jj j0 && (i =? i0) then [k] else [])).
  { rewrite flat_map_if, flat_map_single.
    destruct (inside jj j0), (i =? i0); reflexivity. }
  intros k. unfold tile. rewrite ks_row. fold (inside jj j0).
  destruct (inside jj j0), (i =? i0); reflexivity.
Qed.

(** * Matrices in the store *)

(** [p] points to a row buffer of [n] doubles. *)
Definition is_row (st : store) (n : nat) (p : ptr) : bool :=
  match p ≫= (rows st !!.) with
  | Some row => bool_decide (length row = n)
  | None => false
  end.

(** [T] is an [n] x [n] matrix: a table of [n] pointers to rows of [n]
    doubles. *)
Definition is_matrix (st : store) (T : ptr) (n : Z) : bool :=
  match table_of st T with
  | Some tab =>
      bool_decide (length tab = Z.to_nat n)
      && forallb (is_row st (Z.to_nat n)) tab
  | None => false
  end.

(** No aliasing into the accumulator: the rows of [C] are pairwise
    distinct buffers and none of them is a row of [A] or of [B]. *)
Definition separate (st : store) (A B C : ptr) : bool :=
  match table_of st A, table_of st B, table_of st C with
  | Some tA, Some tB, Some tC =>
      bool_decide (NoDup tC)
      && forallb (fun p => bool_decide (p ∉ tA) && bool_decide (p ∉ tB)) tC
  | _, _, _ => false
  end.

(** The value of a matrix, row by row. *)
Definition read_matrix (st : store) (T : ptr) : option (list (list float)) :=
  tab ← table_of st T; mapM (fun p : ptr => p ≫= (rows st !!.)) tab.

Definition zeros (n : Z) : list (list float) :=
  replicate (Z.to_nat n) (replicate (Z.to_nat n) 0%float).

(** [T[i][j]] as a total function, for use in sums. *)
Definition rd (st : store) (T : ptr) (i j : Z) : float :=
  default 0%float (load2 st T i j).

(** The sum of the products [A[i][k] * B[k][j]], added to [c] one after
    the other for the [k] of [l], from left to right. *)
Definition accumulate (st : store) (A B : ptr) (i j : Z) (l : list Z)
    (c : float) : float :=
  fold_left (fun acc k => (acc + rd st A i k * rd st B k j)%float) l c.

Section Multiply.

Variables (A B C : ptr) (n : Z) (tA tB tC : list ptr).

Definition row_at (st : store) (p : ptr) : Prop :=
  exists r row, p = Some r /\ rows st !! r = Some row
                /\ length row = Z.to_nat n.

Record wf (st : store) : Prop := {
  wf_A : table_of st A = Some tA;
  wf_B : table_of st B = Some tB;
  wf_C : table_of st C = Some tC;
  wf_lenA : length tA = Z.to_nat n;
  wf_lenB : length tB = Z.to_nat n;
  wf_lenC : length tC = Z.to_nat n;
  wf_rowsA : forall p, p ∈ tA -> row_at st p;
  wf_rowsB : forall p, p ∈ tB -> row_at st p;
  wf_rowsC : forall p, p ∈ tC -> row_at st p;
  wf_nodup : NoDup tC;
  wf_sepA : forall p, p ∈ tC -> p ∉ tA;
  wf_sepB : forall p, p ∈ tC -> p ∉ tB
}.

Lemma idx_ok (i : Z) : 0 <= i -> idx i = Some (Z.to_nat i).
Proof. intros H. unfold idx. destruct (Z.leb_spec 0 i); [reflexivity|lia]. Qed.

Lemma load_row_table (st : store) (T : ptr) (tab : list ptr) (i : Z) :
  table_of st T = Some tab -> 0 <= i ->
  load_row st T i = tab !! Z.to_nat i.
Proof.
  intros HT Hi. unfold load_row. rewrite HT. simpl.
  rewrite idx_ok by assumption. reflexivity.
Qed.

Lemma load_row_elem (st : store) (T : ptr) (tab : list ptr) (i : Z) (p : ptr) :
  table_of st T = Some tab -> load_row st T i = Some p -> p ∈ tab.
Proof.
  intros HT. unfold load_row. rewrite HT. simpl.
  destruct (idx i) as [m|]; simpl; [|discriminate].
  apply list_elem_of_lookup_2.
Qed.

(** A cell of a matrix of the store, located. *)
Lemma cell_at (st : store) (T : ptr) (tab : list ptr) (i j : Z) :
  table_of st T = Some tab -> length tab = Z.to_nat n ->
  (forall p, p ∈ tab -> row_at st p) ->
  0 <= i < n -> 0 <= j < n ->
  exists r row v,
    tab !! Z.to_nat i = Some (Some r) /\ rows st !! r = Some row
    /\ length row = Z.to_nat n /\ row !! Z.to_nat j = Some v
    /\ load_row st T i = Some (Some r) /\ load2 st T i j = Some v.
Proof.
  intros HT Hlen Hrows Hi Hj.
  destruct (lookup_lt_is_Some_2 tab (Z.to_nat i)) as [p Hp]; [lia|].
  destruct (Hrows p) as (r & row & -> & Hr & Hl).
  { eapply list_elem_of_lookup_2; eassumption. }
  destruct (lookup_lt_is_Some_2 row (Z.to_nat j)) as [v Hv]; [lia|].
  exists r, row, v.
  assert (Hlr : load_row st T i = Some (Some r)).
  { rewrite (load_row_table st T tab) by (assumption || lia). exact Hp. }
  repeat split; try assumption.
  unfold load2. rewrite Hlr. simpl. rewrite Hr. simpl.
  rewrite idx_ok by lia. exact Hv.
Qed.

Lemma load2_unfold (st : store) (T : ptr) (i j : Z) :
  load2 st T i j
  = p ← load_row st T i; r ← p; row ← rows st !! r; m ← idx j; row !! m.
Proof. reflexivity. Qed.

(** Overwriting the row buffer [rc] leaves the matrices that do not use
    it as they were. *)
Lemma load2_other (st : store) (rc : loc) (new : list float)
    (T : ptr) (tab : list ptr) (i j : Z) :
  table_of st T = Some tab -> Some rc ∉ tab ->
  load2 (Store (tables st) (<[rc := new]> (rows st))) T i j = load2 st T i j.
Proof.
  intros HT Hnot. rewrite !load2_unfold.
  change (load_row (Store (tables st) (<[rc := new]> (rows st))) T i)
    with (load_row st T i).
  destruct (load_row st T i) as [p|] eqn:Hp; [|reflexivity]. simpl.
  destruct p as [r|]; [|reflexivity]. simpl.
  assert (r <> rc).
  { intros ->. apply Hnot. eapply load_row_elem; eassumption. }
  rewrite lookup_insert_ne by congruence. reflexivity.
Qed.

Lemma row_at_insert (st : store) (rc : loc) (old new : list float) (p : ptr) :
  rows st !! rc = Some old -> length new = length old ->
  row_at st p ->
  row_at (Store (tables st) (<[rc := new]> (rows st))) p.
Proof.
  intros Hold Hlen (r & row & -> & Hr & Hl).
  destruct (decide (r = rc)) as [->|Hne].
  - exists rc, new. simpl. rewrite lookup_insert_eq.
    repeat split. congruence.
  - exists r, row. simpl. rewrite lookup_insert_ne by congruence.
    repeat split; assumption.
Qed.

(** One multiply-add on well-formed matrices. *)
Lemma mac_step (st : store) (i k j : Z) :
  wf st -> 0 <= i < n -> 0 <= k < n -> 0 <= j < n ->
  exists st',
    mac A B C i k j st = Done st'
    /\ wf st'
    /\ tables st' = tables st
    /\ (forall r, Some r ∉ tC -> rows st' !! r = rows st !! r)
    /\ (forall i' j', load2 st' A i' j' = load2 st A i' j')
    /\ (forall i' j', load2 st' B i' j' = load2 st B i' j')
    /\ (forall i' j', 0 <= i' < n -> 0 <= j' < n ->
          load2 st' C i' j'
          = if (i' =? i) && (j' =? j)
            then Some (rd st C i j + rd st A i k * rd st B k j)%float
            else load2 st C i' j').
Proof.
  intros Hwf Hi Hk Hj. destruct Hwf.
  destruct (cell_at st C tC i j)
    as (rc & rowc & cv & HtC & Hrc & Hlc & Hcv & HlrC & HldC); auto.
  destruct (cell_at st A tA i k)
    as (ra & rowa & av & _ & _ & _ & _ & _ & HldA); auto.
  destruct (cell_at st B tB k j)
    as (rb & rowb & bv & _ & _ & _ & _ & _ & HldB); auto.
  unfold rd. rewrite HldC, HldA, HldB. simpl.
  set (v := (cv + av * bv)%float).
  set (new := <[Z.to_nat j := v]> rowc).
  assert (HinC : Some rc ∈ tC)
    by (eapply list_elem_of_lookup_2; eassumption).
  assert (Hnew : length new = length rowc) by apply length_insert.
  exists (Store (tables st) (<[rc := new]> (rows st))).
  split; [|split; [|split; [|split; [|split; [|split]]]]].
  - unfold mac. rewrite HldC, HldA, HldB. simpl.
    unfold store2. rewrite HlrC. simpl. unfold store_d. simpl.
    rewrite Hrc. simpl. rewrite idx_ok by lia. simpl.
    destruct (Nat.ltb_spec (Z.to_nat j) (length rowc)); [reflexivity|lia].
  - constructor; auto; intros p Hp;
      apply (row_at_insert st rc rowc new); auto.
  - reflexivity.
  - intros r Hr. simpl. apply lookup_insert_ne. congruence.
  - intros i' j'. apply (load2_other st rc new A tA); auto.
  - intros i' j'. apply (load2_other st rc new B tB); auto.
  - intros i' j' Hi' Hj'.
    destruct (cell_at st C tC i' j')
      as (r' & row' & v' & HtC' & Hr' & Hl' & Hv' & HlrC' & HldC'); auto.
    rewrite load2_unfold.
    change (load_row (Store (tables st) (<[rc := new]> (rows st))) C i')
      with (load_row st C i').
    rewrite HlrC'. simpl. rewrite idx_ok by lia.
    destruct (Z.eqb_spec i' i) as [->|Hne]; simpl.
    + assert (r' = rc) by congruence. subst r'.
      assert (row' = rowc) by congruence. subst row'.
      rewrite lookup_insert_eq. simpl. unfold new.
      destruct (Z.eqb_spec j' j) as [->|Hnej].
      * apply list_lookup_insert_eq. lia.
      * rewrite list_lookup_insert_ne by lia. rewrite HldC'. exact Hv'.
    + assert (r' <> rc).
      { intros ->. apply Hne.
        pose proof (NoDup_lookup tC _ _ _ wf_nodup0 HtC' HtC). lia. }
      rewrite lookup_insert_ne by congruence. rewrite Hr'. simpl.
      rewrite HldC'. exact Hv'.
Qed.

(** An operation within the matrices. *)
Definition inb (o : op) : Prop :=
  0 <= o.1.1 < n /\ 0 <= o.1.2 < n /\ 0 <= o.2 < n.

Lemma fold_left_pointwise {X Y : Type} (f g : X -> Y -> X) (l : list Y) :
  (forall a y, f a y = g a y) ->
  forall a, fold_left f l a = fold_left g l a.
Proof.
  intros H. induction l as [|y l IH]; intros a; simpl; [reflexivity|].
  rewrite H. apply IH.
Qed.

Lemma accumulate_same (st st' : store) (i j : Z) (l : list Z) (c : float) :
  (forall i' j', load2 st' A i' j' = load2 st A i' j') ->
  (forall i' j', load2 st' B i' j' = load2 st B i' j') ->
  accumulate st' A B i j l c = accumulate st A B i j l c.
Proof.
  intros HA HB. unfold accumulate. apply fold_left_pointwise.
  intros a k. unfold rd. rewrite HA, HB. reflexivity.
Qed.

(** Running operations within the matrices: every cell of [C] receives
    the products of the operations that name it, in the order they come;
    nothing else changes. *)
Lemma exec_spec (ops : list op) :
  Forall inb ops ->
  forall st, wf st ->
  exists st',
    exec A B C ops st = Done st'
    /\ wf st'
    /\ tables st' = tables st
    /\ (forall r, Some r ∉ tC -> rows st' !! r = rows st !! r)
    /\ (forall i j, load2 st' A i j = load2 st A i j)
    /\ (forall i j, load2 st' B i j = load2 st B i j)
    /\ (forall i0 j0, 0 <= i0 < n -> 0 <= j0 < n ->
          load2 st' C i0 j0
          = Some (accumulate st A B i0 j0 (ks ops i0 j0) (rd st C i0 j0))).
Proof.
  induction 1 as [|o ops Ho _ IH]; intros st Hwf.
  - exists st. do 6 (split; [auto|]).
    intros i0 j0 Hi0 Hj0. simpl.
    destruct (cell_at st C tC i0 j0)
      as (r & row & v & _ & _ & _ & _ & _ & Hld);
      try apply Hwf; auto.
    unfold rd. rewrite Hld. reflexivity.
  - destruct o as [[i k] j]. destruct Ho as (Hi & Hk & Hj). simpl in *.
    destruct (mac_step st i k j Hwf Hi Hk Hj)
      as (st1 & Hmac & Hwf1 & Htab1 & Hfr1 & HA1 & HB1 & HC1).
    destruct (IH st1 Hwf1)
      as (st' & Hex & Hwf' & Htab' & Hfr' & HA' & HB' & HC').
    exists st'. split; [|split; [|split; [|split; [|split; [|split]]]]].
    + unfold exec. simpl.
      change (run_op A B C (i, k, j) st) with (mac A B C i k j st).
      rewrite Hmac. exact Hex.
    + exact Hwf'.
    + congruence.
    + intros r Hr. rewrite Hfr', Hfr1 by assumption. reflexivity.
    + intros. rewrite HA', HA1. reflexivity.
    + intros. rewrite HB', HB1. reflexivity.
    + intros i0 j0 Hi0 Hj0. rewrite HC' by assumption.
      rewrite (accumulate_same st st1) by assumption.
      f_equal. unfold rd at 1. rewrite HC1 by assumption.
      unfold ks. simpl. unfold accumulate. rewrite fold_left_app.
      destruct (Z.eqb_spec i0 i) as [->|Hne1];
        destruct (Z.eqb_spec j0 j) as [->|Hne2]; simpl.
      * rewrite !Z.eqb_refl. reflexivity.
      * rewrite Z.eqb_refl. destruct (Z.eqb_spec j j0); [lia|]. reflexivity.
      * destruct (Z.eqb_spec i i0); [lia|]. reflexivity.
      * destruct (Z.eqb_spec i i0); [lia|]. reflexivity.
Qed.

(** Two final stores that agree on the cells of [C] are the same store. *)
Lemma store_eq (st st1 st2 : store) :
  wf st1 -> wf st2 ->
  tables st1 = tables st -> tables st2 = tables st ->
  (forall r, Some r ∉ tC -> rows st1 !! r = rows st !! r) ->
  (forall r, Some r ∉ tC -> rows st2 !! r = rows st !! r) ->
  (forall i j, 0 <= i < n -> 0 <= j < n ->
     load2 st1 C i j = load2 st2 C i j) ->
  st1 = st2.
Proof.
  intros Hwf1 Hwf2 Ht1 Ht2 Hf1 Hf2 Hcells.
  destruct st1 as [t1 r1], st2 as [t2 r2]. simpl in *.
  f_equal; [congruence|].
  apply map_eq. intros r.
  destruct (decide (Some r ∈ tC)) as [Hin|Hnot].
  - apply list_elem_of_lookup_1 in Hin as [m Hm].
    assert (Hmlt : (m < Z.to_nat n)%nat).
    { rewrite <- (wf_lenC _ Hwf1). eapply lookup_lt_Some; eassumption. }
    assert (Hrow : forall st', wf st' ->
              exists row, rows st' !! r = Some row
                          /\ length row = Z.to_nat n
                          /\ forall j, 0 <= j < n ->
                               load2 st' C (Z.of_nat m) j = row !! Z.to_nat j).
    { intros st' Hwf'.
      destruct (wf_rowsC _ Hwf' (Some r)) as (r' & row & Heq & Hr & Hl).
      { eapply list_elem_of_lookup_2; eassumption. }
      injection Heq as <-. exists row. repeat split; auto.
      intros j Hj. rewrite load2_unfold.
      rewrite (load_row_table st' C tC) by (try apply Hwf'; lia).
      rewrite Nat2Z.id. unfold ptr in *. rewrite Hm. simpl. rewrite Hr. simpl.
      rewrite idx_ok by lia. reflexivity. }
    destruct (Hrow _ Hwf1) as (row1 & Hr1 & Hl1 & Hg1).
    destruct (Hrow _ Hwf2) as (row2 & Hr2 & Hl2 & Hg2).
    simpl in *. rewrite Hr1, Hr2. f_equal.
    apply list_eq. intros q.
    destruct (Nat.lt_ge_cases q (Z.to_nat n)) as [Hq|Hq].
    + specialize (Hg1 (Z.of_nat q)). specialize (Hg2 (Z.of_nat q)).
      rewrite Nat2Z.id in Hg1, Hg2.
      rewrite <- Hg1, <- Hg2 by lia. apply Hcells; lia.
    + rewrite !lookup_ge_None_2 by lia. reflexivity.
  - rewrite Hf1, Hf2 by assumption. reflexivity.
Qed.

End Multiply.

(** ** From the checks to the invariant *)

Lemma is_row_spec (st : store) (n : Z) (p : ptr) :
  is_row st (Z.to_nat n) p = true -> row_at n st p.
Proof.
  unfold is_row, row_at. destruct p as [r|]; simpl; [|discriminate].
  destruct (rows st !! r) as [row|] eqn:Hr; [|discriminate].
  intros H. apply bool_decide_eq_true in H.
  exists r, row. auto.
Qed.

Lemma is_matrix_spec (st : store) (T : ptr) (n : Z) :
  is_matrix st T n = true ->
  exists tab, table_of st T = Some tab /\ length tab = Z.to_nat n
              /\ forall p, p ∈ tab -> row_at n st p.
Proof.
  unfold is_matrix. destruct (table_of st T) as [tab|]; [|discriminate].
  intros H. apply andb_prop in H as [Hlen Hrows].
  apply bool_decide_eq_true in Hlen.
  exists tab. repeat split; auto.
  intros p Hp. apply is_row_spec.
  rewrite forallb_forall in Hrows. apply Hrows.
  apply list_elem_of_In. exact Hp.
Qed.

Lemma checks_wf (st : store) (A B C : ptr) (n : Z) :
  is_matrix st A n = true -> is_matrix st B n = true ->
  is_matrix st C n = true -> separate st A B C = true ->
  exists tA tB tC, wf A B C n tA tB tC st.
Proof.
  intros HA HB HC Hsep.
  apply is_matrix_spec in HA as (tA & HtA & HlA & HrA).
  apply is_matrix_spec in HB as (tB & HtB & HlB & HrB).
  apply is_matrix_spec in HC as (tC & HtC & HlC & HrC).
  unfold separate in Hsep. rewrite HtA, HtB, HtC in Hsep.
  apply andb_prop in Hsep as [Hnd Hdis].
  apply bool_decide_eq_true in Hnd.
  rewrite forallb_forall in Hdis.
  exists tA, tB, tC. constructor; auto.
  - intros p Hp. apply list_elem_of_In, Hdis in Hp.
    apply andb_prop in Hp as [Hp _]. apply bool_decide_eq_true in Hp. exact Hp.
  - intros p Hp. apply list_elem_of_In, Hdis in Hp.
    apply andb_prop in Hp as [_ Hp]. apply bool_decide_eq_true in Hp. exact Hp.
Qed.

(** A zero-initialised accumulator reads [0.0] at every cell. *)
Lemma zeros_load (st : store) (C : ptr) (n i j : Z) :
  read_matrix st C = Some (zeros n) ->
  0 <= i < n -> 0 <= j < n ->
  load2 st C i j = Some 0%float.
Proof.
  unfold read_matrix. intros H Hi Hj.
  destruct (table_of st C) as [tab|] eqn:Htab; [|discriminate]. simpl in H.
  apply mapM_Some_1 in H.
  assert (Hz : zeros n !! Z.to_nat i
               = Some (replicate (Z.to_nat n) 0%float)).
  { unfold zeros. apply lookup_replicate_2. lia. }
  destruct (Forall2_lookup_r _ _ _ _ _ H Hz) as (p & Hp & Hrow).
  rewrite load2_unfold, (load_row_table st C tab) by (assumption || lia).
  unfold ptr in *. rewrite Hp. simpl.
  destruct p as [r|]; [|discriminate]. simpl in *. rewrite Hrow. simpl.
  rewrite idx_ok by lia. apply lookup_replicate_2. lia.
Qed.

(** ** The operations of the traces lie within the matrices *)

Lemma trace_standard_inb (n : Z) : Forall (inb n) (trace_standard n).
Proof.
  apply List.Forall_forall. intros [[i k] j] H. unfold trace_standard in H.
  apply in_flat_map in H as (i' & Hi & H).
  apply in_flat_map in H as (k' & Hk & H).
  apply in_flat_map in H as (j' & Hj & H).
  destruct H as [H|[]]. injection H as <- <- <-.
  apply in_range_1 in Hi, Hk, Hj. unfold inb. simpl. lia.
Qed.

Lemma in_tile (off bs n x : Z) :
  In x (tile off bs n) <-> off <= x < off + bs /\ x < n.
Proof.
  unfold tile. rewrite in_range_1, min_spec. lia.
Qed.

Lemma trace_blocked_inb (n bs : Z) :
  1 <= bs -> Forall (inb n) (trace_blocked n bs).
Proof.
  intros Hbs. apply List.Forall_forall. intros [[i k] j] H.
  unfold trace_blocked in H.
  apply in_flat_map in H as (ii & Hii & H).
  apply in_flat_map in H as (jj & Hjj & H).
  apply in_flat_map in H as (kk & Hkk & H).
  apply in_flat_map in H as (i' & Hi & H).
  apply in_flat_map in H as (k' & Hk & H).
  apply in_flat_map in H as (j' & Hj & H).
  destruct H as [H|[]]. injection H as <- <- <-.
  apply in_range in Hii, Hjj, Hkk; try assumption.
  apply in_tile in Hi, Hk, Hj. unfold inb. simpl. lia.
Qed.

(** ** Ranges, explicitly *)

(** [0, 1, ..., n - 1]. *)
Definition upto (n : Z) : list Z := map Z.of_nat (seq 0 (Z.to_nat n)).

Lemma range_seq (lo hi : Z) :
  range lo hi 1
  = map (fun q => lo + Z.of_nat q) (seq 0 (Z.to_nat (hi - lo))).
Proof.
  revert lo. apply range_ind with (hi := hi) (step := 1); [lia| |].
  - intros lo Hge. rewrite range_empty by lia.
    replace (Z.to_nat (hi - lo)) with 0%nat by lia. reflexivity.
  - intros lo Hlt IH. rewrite range_unfold by lia.
    destruct (Z.ltb_spec lo hi); [|lia]. rewrite IH.
    replace (Z.to_nat (hi - lo)) with (S (Z.to_nat (hi - (lo + 1)))) by lia.
    simpl. f_equal; [lia|].
    rewrite <- seq_shift, map_map. apply map_ext. intros q. lia.
Qed.

Lemma range_upto (n : Z) : range 0 n 1 = upto n.
Proof.
  rewrite range_seq. unfold upto. rewrite Z.sub_0_r.
  apply map_ext. intros q. lia.
Qed.

Lemma length_range (lo hi : Z) :
  Z.of_nat (length (range lo hi 1)) = Z.max 0 (hi - lo).
Proof. rewrite range_seq, length_map, length_seq. lia. Qed.

(** The counter of a stepped loop from 0 only takes multiples of the step. *)
Lemma in_range_multiple (hi step x : Z) :
  1 <= step -> In x (range 0 hi step) -> x mod step = 0.
Proof.
  intros Hstep.
  assert (H : forall lo, lo mod step = 0 ->
                In x (range lo hi step) -> x mod step = 0).
  { apply (range_ind hi step
             (fun lo => lo mod step = 0 ->
                        In x (range lo hi step) -> x mod step = 0) Hstep).
    - intros lo Hge _. rewrite range_empty by lia. intros [].
    - intros lo Hlt IH Hlo. rewrite range_unfold by lia.
      destruct (Z.ltb_spec lo hi); [|lia].
      intros [<-|Hin]; [assumption|]. apply IH; [|assumption].
      rewrite <- Zplus_mod_idemp_l, Hlo. simpl. apply Z_mod_same_full. }
  apply H. apply Zmod_0_l.
Qed.

(** ** Tiles *)

(** The number of counter values of the tile that starts at [off]. *)
Definition tile_extent (off block_size n : Z) : Z :=
  Z.of_nat (length (tile off block_size n)).

Lemma tile_extent_eq (off bs n : Z) :
  1 <= bs -> off < n ->
  tile_extent off bs n = MxmBloc.min (off + bs) n - off.
Proof.
  intros Hbs Hoff. unfold tile_extent, tile.
  rewrite length_range, min_spec. lia.
Qed.

(** The last tile of an axis reaches the edge of the matrix. *)
Lemma last_tile_reaches (n bs off : Z) :
  1 <= bs -> last (range 0 n bs) = Some off -> n <= off + bs.
Proof.
  intros Hbs.
  apply (range_ind n bs
           (fun lo => last (range lo n bs) = Some off -> n <= off + bs) Hbs).
  - intros lo Hge. rewrite range_empty by lia. discriminate.
  - intros lo Hlt IH. rewrite range_unfold by lia.
    destruct (Z.ltb_spec lo n); [|lia]. rewrite last_cons.
    destruct (last (range (lo + bs) n bs)) as [y|] eqn:Hl.
    + intros Hy. apply IH. exact Hy.
    + intros Hy. injection Hy as <-.
      rewrite range_unfold in Hl by lia.
      destruct (Z.ltb_spec (lo + bs) n); [|lia].
      rewrite last_cons in Hl. destruct (last _); discriminate.
Qed.

Lemma last_tile_extent (n bs off : Z) :
  1 <= bs -> In off (range 0 n bs) -> n <= off + bs ->
  tile_extent off bs n = if n mod bs =? 0 then bs else n mod bs.
Proof.
  intros Hbs Hin Hlast.
  pose proof (in_range_multiple n bs off Hbs Hin) as Hmul.
  apply in_range in Hin; [|assumption].
  rewrite tile_extent_eq, min_spec by lia.
  rewrite Z.min_r by lia.
  apply Z.mod_divide in Hmul as [q Hq]; [|lia]. subst off.
  destruct (Z.eq_dec (n - q * bs) bs) as [He|Hne].
  - replace n with ((q + 1) * bs) by lia.
    rewrite Z_mod_mult. simpl. lia.
  - assert (Hm : n mod bs = n - q * bs).
    { replace n with ((n - q * bs) + q * bs) at 1 by lia.
      rewrite Z_mod_plus_full. apply Z.mod_small. lia. }
    rewrite Hm. destruct (Z.eqb_spec (n - q * bs) 0); lia.
Qed.

(** ** A 4 x 4 fixture

    Four matrices with tables at locations 1 to 4 and rows at 10 + r,
    20 + r, 30 + r and 40 + r; the last two are zero. *)

Definition fixture_A : ptr := Some 1%positive.
Definition fixture_B : ptr := Some 2%positive.
Definition fixture_C : ptr := Some 3%positive.
Definition fixture_D : ptr := Some 4%positive.

Definition fixture : store :=
  Store
    (list_to_map
       [(1, [Some 10; Some 11; Some 12; Some 13]);
        (2, [Some 20; Some 21; Some 22; Some 23]);
        (3, [Some 30; Some 31; Some 32; Some 33]);
        (4, [Some 40; Some 41; Some 42; Some 43])]%positive)
    (list_to_map
       [(10%positive, [1; 2; 3; 4]%float);
        (11%positive, [5; 6; 7; 8]%float);
        (12%positive, [9; 10; 1; 2]%float);
        (13%positive, [3; 4; 5; 6]%float);
        (20%positive, [2; 0.5; 1; 3]%float);
        (21%positive, [7; 1; 0.25; 4]%float);
        (22%positive, [1; 9; 8; 0.125]%float);
        (23%positive, [6; 5; 10; 2]%float);
        (30%positive, [0; 0; 0; 0]%float);
        (31%positive, [0; 0; 0; 0]%float);
        (32%positive, [0; 0; 0; 0]%float);
        (33%positive, [0; 0; 0; 0]%float);
        (40%positive, [0; 0; 0; 0]%float);
        (41%positive, [0; 0; 0; 0]%float);
        (42%positive, [0; 0; 0; 0]%float);
        (43%positive, [0; 0; 0; 0]%float)]).

(** * The multipliers *)

(** C3: on an accumulator cleared to zero, [matrix_multiply_standard]
    returns, having run its multiply-adds in the order row [i], reduction
    [k], column [j]; every [C[i][j]] is then the sum of the products
    [A[i][k] * B[k][j]] accumulated from [0.0] for [k = 0, 1, ..., n - 1]
    in this order. *)
Theorem standard_computes_product (st : store) (A B C : ptr) (n : Z) :
  n <= INT_MAX ->
  is_matrix st A n = true -> is_matrix st B n = true ->
  is_matrix st C n = true -> separate st A B C = true ->
  read_matrix st C = Some (zeros n) ->
  MxmBloc.matrix_multiply_standard A B C n st
  = exec A B C (trace_standard n) st
  /\ exists st',
       MxmBloc.matrix_multiply_standard A B C n st = Done st'
       /\ forall i j, 0 <= i < n -> 0 <= j < n ->
            load2 st' C i j
            = Some (accumulate st A B i j (upto n) 0%float).
Proof.
  intros Hn HA HB HC Hsep Hzero.
  split; [apply standard_is_trace; assumption|].
  destruct (checks_wf st A B C n HA HB HC Hsep) as (tA & tB & tC & Hwf).
  destruct (exec_spec A B C n tA tB tC _ (trace_standard_inb n) st Hwf)
    as (st' & Hex & _ & _ & _ & _ & _ & Hcells).
  exists st'. split.
  - rewrite standard_is_trace by assumption. exact Hex.
  - intros i j Hi Hj. rewrite Hcells by assumption.
    rewrite ks_standard, range_upto by assumption.
    unfold rd. rewrite (zeros_load st C n) by assumption. reflexivity.
Qed.

Lemma standard_computes_product_witness :
  exists st',
    MxmBloc.matrix_multiply_standard fixture_A fixture_B fixture_C 4 fixture
    = Done st'
    /\ forall i j, 0 <= i < 4 -> 0 <= j < 4 ->
         load2 st' fixture_C i j
         = Some (accumulate fixture fixture_A fixture_B i j (upto 4) 0%float).
Proof.
  apply (standard_computes_product fixture fixture_A fixture_B fixture_C 4);
    solve [ vm_compute; discriminate | vm_compute; reflexivity ].
Defined.

(** C1: for a block size between 1 and [n], [matrix_multiply_blocked]
    and [matrix_multiply_standard] return the same store from the same
    store: every cell of [C] receives the same products in the same
    order, so the results are equal bit for bit, whatever the accumulator
    held at the start (zero in particular) and for [block_size = n] as for
    any other block size. *)
Theorem blocked_equals_standard (st : store) (A B C : ptr)
    (n block_size : Z) :
  1 <= block_size <= n -> n - 1 + block_size <= INT_MAX ->
  is_matrix st A n = true -> is_matrix st B n = true ->
  is_matrix st C n = true -> separate st A B C = true ->
  exists st',
    MxmBloc.matrix_multiply_blocked A B C n block_size st = Done st'
    /\ MxmBloc.matrix_multiply_standard A B C n st = Done st'.
Proof.
  intros Hbs Hn HA HB HC Hsep.
  destruct (checks_wf st A B C n HA HB HC Hsep) as (tA & tB & tC & Hwf).
  destruct (exec_spec A B C n tA tB tC _
              (trace_blocked_inb n block_size (proj1 Hbs)) st Hwf)
    as (s1 & Hex1 & Hwf1 & Ht1 & Hf1 & _ & _ & Hc1).
  destruct (exec_spec A B C n tA tB tC _ (trace_standard_inb n) st Hwf)
    as (s2 & Hex2 & Hwf2 & Ht2 & Hf2 & _ & _ & Hc2).
  assert (s1 = s2) as <-.
  { apply (store_eq A B C n tA tB tC st); auto.
    intros i j Hi Hj. rewrite Hc1, Hc2 by assumption.
    rewrite ks_blocked, ks_standard by (assumption || lia). reflexivity. }
  exists s1. split.
  - rewrite blocked_is_trace by lia. exact Hex1.
  - rewrite standard_is_trace by lia. exact Hex2.
Qed.

Lemma blocked_equals_standard_witness :
  exists st',
    MxmBloc.matrix_multiply_blocked fixture_A fixture_B fixture_C 4 3 fixture
    = Done st'
    /\ MxmBloc.matrix_multiply_standard fixture_A fixture_B fixture_C 4 fixture
       = Done st'.
Proof.
  apply (blocked_equals_standard fixture fixture_A fixture_B fixture_C 4 3);
    solve [ lia | vm_compute; discriminate | vm_compute; reflexivity ].
Defined.

(** C2: for a block size between 1 and [n], dividing [n] or not, the
    multiply-adds [matrix_multiply_blocked] runs are those of
    [trace_blocked], whose row, reduction and column indices all lie in
    [0, n); on [n] x [n] matrices the call returns without any access
    outside a table or a row.  A tile that does not reach the edge has
    extent [block_size]; the last tile of an axis is cut at [n] by [min]
    and has extent [n mod block_size] when [block_size] does not divide
    [n]. *)
Theorem blocked_accesses_in_bounds (n block_size : Z) :
  1 <= block_size <= n -> n - 1 + block_size <= INT_MAX ->
  (forall A B C st,
     MxmBloc.matrix_multiply_blocked A B C n block_size st
     = exec A B C (trace_blocked n block_size) st)
  /\ (forall i k j, In (i, k, j) (trace_blocked n block_size) ->
        0 <= i < n /\ 0 <= k < n /\ 0 <= j < n)
  /\ (forall A B C st,
        is_matrix st A n = true -> is_matrix st B n = true ->
        is_matrix st C n = true -> separate st A B C = true ->
        exists st',
          MxmBloc.matrix_multiply_blocked A B C n block_size st = Done st')
  /\ (forall off, In off (range 0 n block_size) ->
        tile off block_size n
        = range off (MxmBloc.min (off + block_size) n) 1
        /\ tile_extent off block_size n
           = MxmBloc.min (off + block_size) n - off
        /\ (off + block_size < n -> tile_extent off block_size n = block_size)
        /\ (n <= off + block_size ->
            tile_extent off block_size n
            = if n mod block_size =? 0 then block_size
              else n mod block_size))
  /\ (forall off, last (range 0 n block_size) = Some off ->
        n <= off + block_size).
Proof.
  intros Hbs Hn.
  split; [|split; [|split; [|split]]].
  - intros. apply blocked_is_trace; lia.
  - intros i k j Hin.
    pose proof (trace_blocked_inb n block_size (proj1 Hbs)) as Hall.
    rewrite List.Forall_forall in Hall. exact (Hall _ Hin).
  - intros A B C st HA HB HC Hsep.
    destruct (checks_wf st A B C n HA HB HC Hsep) as (tA & tB & tC & Hwf).
    destruct (exec_spec A B C n tA tB tC _
                (trace_blocked_inb n block_size (proj1 Hbs)) st Hwf)
      as (st' & Hex & _).
    exists st'. rewrite blocked_is_trace by lia. exact Hex.
  - intros off Hin. split; [reflexivity|].
    pose proof (in_range _ _ _ _ (proj1 Hbs) Hin) as Hoff.
    split; [apply tile_extent_eq; lia|]. split.
    + intros Hlt. rewrite tile_extent_eq, min_spec by lia. lia.
    + intros Hge. apply last_tile_extent; auto; lia.
  - intros off. apply last_tile_reaches. lia.
Qed.

Lemma blocked_accesses_in_bounds_witness :
  (forall i k j, In (i, k, j) (trace_blocked 4 3) ->
     0 <= i < 4 /\ 0 <= k < 4 /\ 0 <= j < 4)
  /\ tile_extent 3 3 4 = 1.
Proof.
  destruct (blocked_accesses_in_bounds 4 3) as (_ & Hin & _ & Htile & _);
    [lia | vm_compute; discriminate |].
  split; [exact Hin|].
  destruct (Htile 3) as (_ & _ & _ & Hlast);
    [vm_compute; auto | exact (Hlast ltac:(lia))].
Defined.

(** ** What a multiplier may write *)

(** [r] is one of the row buffers of the matrix [C]. *)
Definition row_of (st : store) (C : ptr) (r : loc) : Prop :=
  exists tab, table_of st C = Some tab /\ Some r ∈ tab.

(** From [st] to [st'] only row buffers of [C] were written. *)
Definition only_rows_of (C : ptr) (st st' : store) : Prop :=
  tables st' = tables st
  /\ forall r, ~ row_of st C r -> rows st' !! r = rows st !! r.

Lemma only_rows_of_refl (C : ptr) (st : store) : only_rows_of C st st.
Proof. split; auto. Qed.

Lemma only_rows_of_trans (C : ptr) (s1 s2 s3 : store) :
  only_rows_of C s1 s2 -> only_rows_of C s2 s3 -> only_rows_of C s1 s3.
Proof.
  intros [Ht1 Hr1] [Ht2 Hr2]. split; [congruence|].
  intros r Hr. rewrite Hr2, Hr1; auto.
  intros (tab & Htab & Hin). apply Hr. exists tab. split; [|assumption].
  unfold table_of in *. rewrite <- Ht1. exact Htab.
Qed.

Lemma mac_only_rows_of (A B C : ptr) (i k j : Z) (st st' : store) :
  mac A B C i k j st = Done st' -> only_rows_of C st st'.
Proof.
  unfold mac.
  destruct (load2 st C i j) as [c|]; [|discriminate]. simpl.
  destruct (load2 st A i k) as [a|]; [|discriminate]. simpl.
  destruct (load2 st B k j) as [b|]; [|discriminate]. simpl.
  unfold store2.
  destruct (load_row st C i) as [p|] eqn:Hp; [|discriminate]. simpl.
  unfold store_d. destruct p as [rc|]; [|discriminate]. simpl.
  destruct (rows st !! rc) as [row|]; [|discriminate]. simpl.
  destruct (idx j) as [m|]; [|discriminate]. simpl.
  destruct (m <? length row)%nat; [|discriminate]. simpl.
  intros H. injection H as <-. split; [reflexivity|].
  intros r Hr. simpl. apply lookup_insert_ne. intros ->. apply Hr.
  destruct (table_of st C) as [tab|] eqn:Htab.
  - exists tab. split; [assumption|].
    eapply load_row_elem; eassumption.
  - unfold load_row in Hp. rewrite Htab in Hp. discriminate.
Qed.

(** A relation kept by every body is kept by the loop. *)
Lemma for_fuel_keeps {St : Type} (R : St -> St -> Prop)
    (body : Z -> St -> outcome St) (hi step : Z) :
  (forall s, R s s) ->
  (forall s1 s2 s3, R s1 s2 -> R s2 s3 -> R s1 s3) ->
  (forall x s s', body x s = Done s' -> R s s') ->
  forall fuel i s s',
    for_fuel fuel i hi step body s = Done s' -> R s s'.
Proof.
  intros Hrefl Htrans Hbody. induction fuel as [|fuel IH]; intros i s s';
    simpl; destruct (i <? hi).
  - discriminate.
  - intros H. injection H as <-. apply Hrefl.
  - destruct (body i s) as [s1| |] eqn:Hb; simpl; try discriminate.
    destruct (int_add i step) as [i'|]; simpl; [|discriminate].
    intros H. eapply Htrans; [eapply Hbody; eassumption|].
    eapply IH; eassumption.
  - intros H. injection H as <-. apply Hrefl.
Qed.

Lemma for_loop_keeps {St : Type} (R : St -> St -> Prop)
    (body : Z -> St -> outcome St) (lo hi step : Z) :
  (forall s, R s s) ->
  (forall s1 s2 s3, R s1 s2 -> R s2 s3 -> R s1 s3) ->
  (forall x s s', body x s = Done s' -> R s s') ->
  forall s s', for_loop lo hi step body s = Done s' -> R s s'.
Proof. intros ? ? ? s s'. unfold for_loop. eapply for_fuel_keeps; eauto. Qed.

Lemma for_tile_keeps (R : store -> store -> Prop)
    (body : Z -> store -> outcome store) (off bs n : Z) :
  (forall s, R s s) ->
  (forall s1 s2 s3, R s1 s2 -> R s2 s3 -> R s1 s3) ->
  (forall x s s', body x s = Done s' -> R s s') ->
  forall s s', MxmBloc.for_tile off bs n body s = Done s' -> R s s'.
Proof.
  intros ? ? ? s s'. unfold MxmBloc.for_tile.
  destruct (int_add off bs); simpl; [|discriminate].
  eapply for_loop_keeps; eauto.
Qed.

Lemma standard_only_rows_of (A B C : ptr) (n : Z) (st st' : store) :
  MxmBloc.matrix_multiply_standard A B C n st = Done st' ->
  only_rows_of C st st'.
Proof.
  unfold MxmBloc.matrix_multiply_standard.
  pose proof (only_rows_of_refl C) as Hr.
  pose proof (only_rows_of_trans C) as Ht.
  apply for_loop_keeps; auto. intros i.
  apply for_loop_keeps; auto. intros k.
  apply for_loop_keeps; auto. intros j.
  apply mac_only_rows_of.
Qed.

Lemma blocked_only_rows_of (A B C : ptr) (n bs : Z) (st st' : store) :
  MxmBloc.matrix_multiply_blocked A B C n bs st = Done st' ->
  only_rows_of C st st'.
Proof.
  unfold MxmBloc.matrix_multiply_blocked.
  pose proof (only_rows_of_refl C) as Hr.
  pose proof (only_rows_of_trans C) as Ht.
  apply for_loop_keeps; auto. intros ii.
  apply for_loop_keeps; auto. intros jj.
  apply for_loop_keeps; auto. intros kk.
  apply for_tile_keeps; auto. intros i.
  apply for_tile_keeps; auto. intros k.
  apply for_tile_keeps; auto. intros j.
  apply mac_only_rows_of.
Qed.

(** A matrix none of whose rows is a row of [C] keeps its value. *)
Lemma read_matrix_kept (C T : ptr) (st st' : store) (tab : list ptr) :
  only_rows_of C st st' ->
  table_of st T = Some tab ->
  (forall r, Some r ∈ tab -> ~ row_of st C r) ->
  read_matrix st' T = read_matrix st T.
Proof.
  intros [Ht Hr] Htab Hsep. unfold read_matrix.
  assert (Htab' : table_of st' T = Some tab).
  { unfold table_of in *. rewrite Ht. exact Htab. }
  rewrite Htab, Htab'. simpl. clear Htab Htab'.
  induction tab as [|p tab IH]; [reflexivity|]. simpl.
  rewrite IH by (intros r Hin; apply Hsep; right; exact Hin).
  destruct p as [r|]; [|reflexivity]. simpl.
  rewrite Hr by (apply Hsep; left). reflexivity.
Qed.

Lemma separate_spec (st : store) (A B C : ptr) :
  separate st A B C = true ->
  exists tA tB,
    table_of st A = Some tA /\ table_of st B = Some tB
    /\ (forall r, Some r ∈ tA -> ~ row_of st C r)
    /\ (forall r, Some r ∈ tB -> ~ row_of st C r).
Proof.
  unfold separate.
  destruct (table_of st A) as [tA|]; [|discriminate].
  destruct (table_of st B) as [tB|]; [|discriminate].
  destruct (table_of st C) as [tC|] eqn:HC; [|discriminate].
  intros H. apply andb_prop in H as [_ H]. rewrite forallb_forall in H.
  exists tA, tB. repeat split; auto.
  - intros r Hin (tab & Htab & HinC).
    unfold row_of in *. rewrite HC in Htab. injection Htab as <-.
    apply list_elem_of_In, H, andb_prop in HinC as [HnA _].
    apply bool_decide_eq_true in HnA. contradiction.
  - intros r Hin (tab & Htab & HinC).
    rewrite HC in Htab. injection Htab as <-.
    apply list_elem_of_In, H, andb_prop in HinC as [_ HnB].
    apply bool_decide_eq_true in HnB. contradiction.
Qed.

(** C8: whatever the store, the matrices and the block size, a call of
    either multiplier that returns has left every table and every row
    buffer that is not a row of [C] as it was; when no row of [C] is a row
    of [A] or [B], the matrices [A] and [B] have the values they had.  On
    [n] x [n] matrices without such aliasing both calls return. *)
Theorem multipliers_write_only_C (st : store) (A B C : ptr)
    (n block_size : Z) :
  (forall st',
     MxmBloc.matrix_multiply_standard A B C n st = Done st'
     \/ MxmBloc.matrix_multiply_blocked A B C n block_size st = Done st' ->
     tables st' = tables st
     /\ (forall r, ~ row_of st C r -> rows st' !! r = rows st !! r)
     /\ (separate st A B C = true ->
         read_matrix st' A = read_matrix st A
         /\ read_matrix st' B = read_matrix st B))
  /\ (1 <= block_size -> n - 1 + block_size <= INT_MAX ->
      is_matrix st A n = true -> is_matrix st B n = true ->
      is_matrix st C n = true -> separate st A B C = true ->
      exists s1 s2,
        MxmBloc.matrix_multiply_standard A B C n st = Done s1
        /\ MxmBloc.matrix_multiply_blocked A B C n block_size st = Done s2).
Proof.
  split.
  - intros st' Hdone.
    assert (Hfr : only_rows_of C st st').
    { destruct Hdone as [H|H];
        [eapply standard_only_rows_of | eapply blocked_only_rows_of];
        eassumption. }
    split; [apply Hfr|]. split; [apply Hfr|].
    intros Hsep.
    apply separate_spec in Hsep as (tA & tB & HtA & HtB & HsA & HsB).
    split; eapply read_matrix_kept; eauto.
  - intros Hbs Hn HA HB HC Hsep.
    destruct (checks_wf st A B C n HA HB HC Hsep) as (tA & tB & tC & Hwf).
    destruct (exec_spec A B C n tA tB tC _ (trace_standard_inb n) st Hwf)
      as (s1 & Hex1 & _).
    destruct (exec_spec A B C n tA tB tC _
                (trace_blocked_inb n block_size Hbs) st Hwf)
      as (s2 & Hex2 & _).
    exists s1, s2. split.
    + rewrite standard_is_trace by lia. exact Hex1.
    + rewrite blocked_is_trace by lia. exact Hex2.
Qed.

Lemma multipliers_write_only_C_witness :
  exists s1 s2,
    MxmBloc.matrix_multiply_standard fixture_A fixture_B fixture_C 4 fixture
    = Done s1
    /\ MxmBloc.matrix_multiply_blocked fixture_A fixture_B fixture_C 4 3
         fixture = Done s2
    /\ read_matrix s1 fixture_A = read_matrix fixture fixture_A
    /\ read_matrix s2 fixture_B = read_matrix fixture fixture_B.
Proof.
  destruct (multipliers_write_only_C fixture fixture_A fixture_B fixture_C 4 3)
    as [Hkept Hdone].
  assert (Hsep : separate fixture fixture_A fixture_B fixture_C = true)
    by (vm_compute; reflexivity).
  destruct Hdone as (s1 & s2 & H1 & H2);
    [ lia | vm_compute; discriminate | vm_compute; reflexivity
    | vm_compute; reflexivity | vm_compute; reflexivity | exact Hsep | ].
  exists s1, s2. split; [exact H1|]. split; [exact H2|]. split.
  - apply (Hkept s1 (or_introl H1)). exact Hsep.
  - apply (Hkept s2 (or_intror H2)). exact Hsep.
Defined.

(** The 4 x 4 fixture with tiles of 3: the clamped blocked product is the
    product computed by hand ([C[0][0] = 1*2 + 2*7 + 3*1 + 4*6 = 43]). *)
Example fixture_blocked_product :
  (st' ← MxmBloc.matrix_multiply_blocked fixture_A fixture_B fixture_C 4 3
          fixture;
   lift (read_matrix st' fixture_C))
  = Done [[43; 49.5; 65.5; 19.375];
          [107; 111.5; 142.5; 55.875];
          [101; 33.5; 39.5; 71.125];
          [75; 80.5; 104; 37.625]]%float.
Proof. vm_compute. reflexivity. Qed.

(** With aliasing the input is written: when the accumulator is the
    matrix [A] itself, [A] changes. *)
Example aliased_accumulator_changes_A :
  load2 fixture fixture_A 0 0 = Some 1%float
  /\ (st' ← MxmBloc.matrix_multiply_standard fixture_A fixture_B fixture_A 4
             fixture;
      lift (load2 st' fixture_A 0 0))
     = Done 333.5625%float.
Proof. vm_compute. split; reflexivity. Qed.


Definition trace_ijk (R1 C2 R2 : Z) : list op :=
  flat_map (fun i =>
    flat_map (fun j =>
      flat_map (fun k => [(i, k, j)]) (range 0 R2 1))
      (range 0 C2 1))
    (range 0 R1 1).

Definition trace_ikj (R1 C2 R2 : Z) : list op :=
  flat_map (fun i =>
    flat_map (fun k =>
      flat_map (fun j => [(i, k, j)]) (range 0 C2 1))
      (range 0 R2 1))
    (range 0 R1 1).

Lemma version_ijk_is_trace (m1 m2 r : ptr) (R1 C2 R2 : Z) (st : store) :
  R1 <= INT_MAX -> C2 <= INT_MAX -> R2 <= INT_MAX ->
  Mxm.version_ijk m1 m2 r R1 C2 R2 st = exec m1 m2 r (trace_ijk R1 C2 R2) st.
Proof.
  intros H1 H2 H3. unfold Mxm.version_ijk, exec, trace_ijk.
  apply for_loop_flat; try (unfold INT_MIN; lia). intros i s1 _.
  apply for_loop_flat; try (unfold INT_MIN; lia). intros j s2 _.
  apply for_loop_flat; try (unfold INT_MIN; lia). intros k s3 _.
  simpl. unfold run_op. simpl. symmetry. apply bind_Done.
Qed.

Lemma version_ikj_is_trace (m1 m2 r : ptr) (R1 C2 R2 : Z) (st : store) :
  R1 <= INT_MAX -> C2 <= INT_MAX -> R2 <= INT_MAX ->
  Mxm.version_ikj m1 m2 r R1 C2 R2 st = exec m1 m2 r (trace_ikj R1 C2 R2) st.
Proof.
  intros H1 H2 H3. unfold Mxm.version_ikj, exec, trace_ikj.
  apply for_loop_flat; try (unfold INT_MIN; lia). intros i s1 _.
  apply for_loop_flat; try (unfold INT_MIN; lia). intros k s2 _.
  apply for_loop_flat; try (unfold INT_MIN; lia). intros j s3 _.
  simpl. unfold run_op. simpl. symmetry. apply bind_Done.
Qed.

Lemma trace_ijk_inb (n : Z) : Forall (inb n) (trace_ijk n n n).
Proof.
  apply List.Forall_forall. intros [[i k] j] H. unfold trace_ijk in H.
  apply in_flat_map in H as (i' & Hi & H).
  apply in_flat_map in H as (j' & Hj & H).
  apply in_flat_map in H as (k' & Hk & H).
  destruct H as [H|[]]. injection H as <- <- <-.
  apply in_range_1 in Hi, Hk, Hj. unfold inb. simpl. lia.
Qed.

Lemma trace_ikj_inb (n : Z) : Forall (inb n) (trace_ikj n n n).
Proof.
  apply List.Forall_forall. intros [[i k] j] H. unfold trace_ikj in H.
  apply in_flat_map in H as (i' & Hi & H).
  apply in_flat_map in H as (k' & Hk & H).
  apply in_flat_map in H as (j' & Hj & H).
  destruct H as [H|[]]. injection H as <- <- <-.
  apply in_range_1 in Hi, Hk, Hj. unfold inb. simpl. lia.
Qed.

Lemma ks_ikj (R1 C2 R2 i0 j0 : Z) :
  0 <= i0 < R1 -> 0 <= j0 < C2 ->
  ks (trace_ikj R1 C2 R2) i0 j0 = range 0 R2 1.
Proof.
  intros Hi Hj. unfold trace_ikj.
  rewrite ks_flat_map.
  rewrite (flat_map_ext _ (fun i => if i =? i0 then range 0 R2 1 else [])).
  - rewrite pick_range. zbool.
  - intros i. rewrite ks_flat_map.
    rewrite (flat_map_ext _ (fun k => if i =? i0 then [k] else [])).
    + rewrite flat_map_if, flat_map_single. reflexivity.
    + intros k. rewrite ks_row. zbool.
Qed.

Lemma ks_ijk (R1 C2 R2 i0 j0 : Z) :
  0 <= i0 < R1 -> 0 <= j0 < C2 ->
  ks (trace_ijk R1 C2 R2) i0 j0 = range 0 R2 1.
Proof.
  intros Hi Hj. unfold trace_ijk.
  rewrite ks_flat_map.
  rewrite (flat_map_ext _ (fun i => if i =? i0 then range 0 R2 1 else [])).
  - rewrite pick_range. zbool.
  - intros i. rewrite ks_flat_map.
    rewrite (flat_map_ext _
               (fun j => if j =? j0
                         then (if i =? i0 then range 0 R2 1 else [])
                         else [])).
    + rewrite pick_range. zbool.
    + intros j. rewrite ks_flat_map.
      rewrite (flat_map_ext _
                 (fun k => if (i =? i0) && (j =? j0) then [k] else [])).
      * rewrite flat_map_if, flat_map_single.
        destruct (i =? i0), (j =? j0); reflexivity.
      * intros k. unfold ks. simpl. rewrite app_nil_r. reflexivity.
Qed.

(** No row of [X] is a row of [Y]. *)
Definition disjoint (st : store) (X Y : ptr) : bool :=
  match table_of st X, table_of st Y with
  | Some tX, Some tY => forallb (fun p => bool_decide (p ∉ tX)) tY
  | _, _ => false
  end.

Lemma load2_kept (st st' : store) (T : ptr) (tab tC : list ptr) (i j : Z) :
  tables st' = tables st ->
  (forall r, Some r ∉ tC -> rows st' !! r = rows st !! r) ->
  table_of st T = Some tab ->
  (forall p, p ∈ tab -> p ∉ tC) ->
  load2 st' T i j = load2 st T i j.
Proof.
  intros Ht Hr Htab Hsep. rewrite !load2_unfold.
  assert (Hlr : load_row st' T i = load_row st T i).
  { unfold load_row, table_of. rewrite Ht. reflexivity. }
  rewrite Hlr.
  destruct (load_row st T i) as [p|] eqn:Hp; [|reflexivity]. simpl.
  destruct p as [r|]; [|reflexivity]. simpl.
  rewrite Hr; [reflexivity|].
  apply Hsep. eapply load_row_elem; eassumption.
Qed.

Lemma wf_kept (A B C : ptr) (n : Z) (tA tB tC : list ptr) (st st' : store) :
  wf A B C n tA tB tC st ->
  tables st' = tables st ->
  (forall p, row_at n st p -> row_at n st' p) ->
  wf A B C n tA tB tC st'.
Proof.
  intros [] Ht Hrow. constructor; auto;
    unfold table_of in *; rewrite ?Ht; auto.
Qed.

(** C9: on zero-initialised result matrices, the i-j-k nest and then the
    i-k-j nest return, and every cell of [result_ijk] and of [result_ikj]
    holds the same value: the products [m1[i][k] * m2[k][j]] accumulated
    from [0.0] for [k = 0, 1, ..., n - 1] in this order. *)
Theorem loop_orders_agree (st : store) (m1 m2 result_ijk result_ikj : ptr)
    (n : Z) :
  n <= INT_MAX ->
  is_matrix st m1 n = true -> is_matrix st m2 n = true ->
  is_matrix st result_ijk n = true -> is_matrix st result_ikj n = true ->
  separate st m1 m2 result_ijk = true ->
  separate st m1 m2 result_ikj = true ->
  disjoint st result_ijk result_ikj = true ->
  read_matrix st result_ijk = Some (zeros n) ->
  read_matrix st result_ikj = Some (zeros n) ->
  exists st',
    Mxm.both_versions m1 m2 result_ijk result_ikj n n n st = Done st'
    /\ forall i j, 0 <= i < n -> 0 <= j < n ->
         load2 st' result_ijk i j
         = Some (accumulate st m1 m2 i j (upto n) 0%float)
         /\ load2 st' result_ikj i j = load2 st' result_ijk i j.
Proof.
  intros Hn H1 H2 Ha Hb Hsa Hsb Hdis Hza Hzb.
  destruct (checks_wf st m1 m2 result_ijk n H1 H2 Ha Hsa)
    as (tA & tB & tRa & Hwfa).
  destruct (checks_wf st m1 m2 result_ikj n H1 H2 Hb Hsb)
    as (tA' & tB' & tRb & Hwfb).
  assert (tA' = tA) as ->
    by (pose proof (wf_A _ _ _ _ _ _ _ _ Hwfa);
        pose proof (wf_A _ _ _ _ _ _ _ _ Hwfb); congruence).
  assert (tB' = tB) as ->
    by (pose proof (wf_B _ _ _ _ _ _ _ _ Hwfa);
        pose proof (wf_B _ _ _ _ _ _ _ _ Hwfb); congruence).
  pose proof (wf_C _ _ _ _ _ _ _ _ Hwfa) as HtRa.
  pose proof (wf_C _ _ _ _ _ _ _ _ Hwfb) as HtRb.
  assert (Hab : forall p, p ∈ tRb -> p ∉ tRa).
  { unfold disjoint in Hdis. rewrite HtRa, HtRb in Hdis.
    rewrite forallb_forall in Hdis. intros p Hp.
    apply list_elem_of_In, Hdis, bool_decide_eq_true in Hp. exact Hp. }
  assert (Hba : forall p, p ∈ tRa -> p ∉ tRb).
  { intros p Hp Hp'. exact (Hab p Hp' Hp). }
  destruct (exec_spec m1 m2 result_ijk n tA tB tRa _ (trace_ijk_inb n) st Hwfa)
    as (s1 & Hex1 & Hwf1 & Ht1 & Hf1 & HA1 & HB1 & Hc1).
  assert (Hwfb1 : wf m1 m2 result_ikj n tA tB tRb s1).
  { apply (wf_kept _ _ _ _ _ _ _ st); auto.
    intros p (r & row & -> & Hr & Hl).
    destruct (decide (Some r ∈ tRa)) as [Hin|Hnot].
    - apply (wf_rowsC _ _ _ _ _ _ _ _ Hwf1). exact Hin.
    - exists r, row. rewrite Hf1 by assumption. auto. }
  destruct (exec_spec m1 m2 result_ikj n tA tB tRb _ (trace_ikj_inb n) s1 Hwfb1)
    as (s2 & Hex2 & Hwf2 & Ht2 & Hf2 & HA2 & HB2 & Hc2).
  exists s2. split.
  - unfold Mxm.both_versions.
    rewrite version_ijk_is_trace, Hex1 by assumption. simpl.
    rewrite version_ikj_is_trace by assumption. exact Hex2.
  - intros i j Hi Hj.
    assert (Hra : load2 s2 result_ijk i j
                  = Some (accumulate st m1 m2 i j (upto n) 0%float)).
    { rewrite (load2_kept s1 s2 result_ijk tRa tRb); auto.
      - rewrite Hc1 by assumption. rewrite ks_ijk, range_upto by assumption.
        unfold rd. rewrite (zeros_load st result_ijk n) by assumption.
        reflexivity.
      - unfold table_of in *. rewrite Ht1. exact HtRa. }
    split; [exact Hra|]. rewrite Hra.
    rewrite Hc2 by assumption. rewrite ks_ikj, range_upto by assumption.
    rewrite (accumulate_same m1 m2 st s1) by assumption.
    unfold rd. rewrite (load2_kept st s1 result_ikj tRb tRa) by auto.
    rewrite (zeros_load st result_ikj n) by assumption. reflexivity.
Qed.

Lemma loop_orders_agree_witness :
  exists st',
    Mxm.both_versions fixture_A fixture_B fixture_C fixture_D 4 4 4 fixture
    = Done st'
    /\ forall i j, 0 <= i < 4 -> 0 <= j < 4 ->
         load2 st' fixture_C i j
         = Some (accumulate fixture fixture_A fixture_B i j (upto 4) 0%float)
         /\ load2 st' fixture_D i j = load2 st' fixture_C i j.
Proof.
  apply (loop_orders_agree fixture fixture_A fixture_B fixture_C fixture_D 4);
    [ vm_compute; discriminate | vm_compute; reflexivity .. ].
Defined.


(** A world for examples: a clock that advances by 2500 ticks per call,
    an allocator that never fails, a linear congruential [rand]. *)
Definition calm : world :=
  World 1000000
        (fun t => 2500 * Z.of_nat t)
        (fun _ => true)
        (fun _ _ => 0.5%float)
        (fun _ _ => None)
        (fun seed t => (seed * 1103515245 + 12345 * Z.of_nat (S t)) mod 32768)
        true.

(** The first two arguments of the lines printed after the header. *)
Definition strides_and_sums (out : list print) : list (list arg) :=
  map (fun l => take 2 (args l)) (tail out).

Example small_experiment :
  (r ← Exercice1.experiment calm 5 3 start;
   Done (r.1, strides_and_sums (stdout r.2)))
  = Done (0, [[AInt 1; ADouble 5]; [AInt 2; ADouble 5]; [AInt 3; ADouble 5]]).
Proof. vm_compute. reflexivity. Qed.

(** ** Loops by iteration count *)

Lemma run_list_count {St : Type} (I : nat -> St -> Prop)
    (body : Z -> St -> outcome St) (g : nat -> Z) (T : nat) :
  forall (k : nat) (s : St),
    I k s ->
    (forall t s0, (k <= t < k + T)%nat -> I t s0 ->
       exists s', body (g t) s0 = Done s' /\ I (S t) s') ->
    exists s', run_list (map body (map g (seq k T))) s = Done s'
               /\ I (k + T)%nat s'.
Proof.
  induction T as [|T IH]; intros k s Hk Hstep; simpl.
  - exists s. rewrite Nat.add_0_r. auto.
  - destruct (Hstep k s) as (s1 & Hb & H1); [lia|assumption|].
    rewrite Hb. simpl.
    destruct (IH (S k) s1 H1) as (s' & Hrun & HI).
    { intros t s0 Ht. apply Hstep. lia. }
    exists s'. split; [exact Hrun|].
    replace (k + S T)%nat with (S k + T)%nat by lia. exact HI.
Qed.

(** The counter of a stepped loop from 0 up to [N * step]. *)
Lemma range_strided (N step : Z) :
  1 <= step -> 0 <= N ->
  range 0 (N * step) step
  = map (fun t => Z.of_nat t * step) (seq 0 (Z.to_nat N)).
Proof.
  intros Hstep HN.
  assert (H : forall (m : nat) (q : Z),
             range (q * step) ((q + Z.of_nat m) * step) step
             = map (fun t => (q + Z.of_nat t) * step) (seq 0 m)).
  { induction m as [|m IH]; intros q.
    - rewrite range_empty by lia. reflexivity.
    - rewrite range_unfold by lia.
      destruct (Z.ltb_spec (q * step) ((q + Z.of_nat (S m)) * step)); [|nia].
      simpl. f_equal; [f_equal; lia|].
      replace (q * step + step) with ((q + 1) * step) by lia.
      replace (q + Z.of_nat (S m)) with (q + 1 + Z.of_nat m) by lia.
      rewrite IH, <- seq_shift, map_map.
      apply map_ext. intros t. f_equal. lia. }
  specialize (H (Z.to_nat N) 0). simpl in H.
  rewrite Z2Nat.id in H by lia. exact H.
Qed.

(** ** The stride experiment *)

Lemma int_mul_ok (a b : Z) :
  INT_MIN <= a * b <= INT_MAX -> int_mul a b = Some (a * b).
Proof.
  intros H. unfold int_mul, in_int.
  destruct (Z.leb_spec INT_MIN (a * b)); [|lia].
  destruct (Z.leb_spec (a * b) INT_MAX); [reflexivity|lia].
Qed.

(** The sum of [n] ones, added one after the other to [0.0]. *)
Definition ones_sum (n : nat) : float :=
  Nat.iter n (fun x => (x + 1)%float) 0%float.

(** A scan with stride [s] of a buffer of ones adds [N] ones. *)
Lemma scan_ones (st : store) (l : loc) (len : nat) (N s : Z) :
  rows st !! l = Some (replicate len 1%float) ->
  1 <= s -> 0 <= N -> N * s <= Z.of_nat len -> N * s + s <= INT_MAX + 1 ->
  Exercice1.scan st (Some l) N s = Done (ones_sum (Z.to_nat N)).
Proof.
  intros Hl Hs HN Hlen Hmax. unfold Exercice1.scan.
  rewrite int_mul_ok by (unfold INT_MIN; nia). simpl.
  rewrite for_loop_range by (unfold INT_MIN; lia).
  rewrite range_strided by assumption.
  destruct (run_list_count
              (fun t sum => sum = ones_sum t)
              (fun i sum => v ← lift (load st (Some l) i); Done (sum + v)%float)
              (fun t => Z.of_nat t * s) (Z.to_nat N) 0%nat 0%float)
    as (sum & Hrun & Hsum); [reflexivity| |].
  - intros t s0 Ht ->. exists (ones_sum (S t)). split; [|reflexivity].
    unfold load. simpl. rewrite Hl. simpl.
    rewrite idx_ok by nia. simpl.
    rewrite lookup_replicate_2 by nia. reflexivity.
  - simpl in Hsum. subst sum. exact Hrun.
Qed.

Lemma ones_sum_million : ones_sum (Z.to_nat 1000000) = 1000000%float.
Proof.
  unfold ones_sum. rewrite <- (Z_N_nat 1000000), <- Nnat.N2Nat.inj_iter.
  vm_compute. reflexivity.
Qed.

Lemma set_mem_id (p : proc) : set_mem p (mem p) = p.
Proof. destruct p. reflexivity. Qed.

Lemma insert_next_one (t : nat) (junk : list float) :
  (t < length junk)%nat ->
  <[t := 1%float]> (replicate t 1%float ++ drop t junk)
  = replicate (S t) 1%float ++ drop (S t) junk.
Proof.
  intros Ht.
  destruct (lookup_lt_is_Some_2 junk t Ht) as [y Hy].
  rewrite replicate_S_end, <- app_assoc.
  rewrite insert_app_r_alt by (rewrite length_replicate; lia).
  rewrite length_replicate, Nat.sub_diag.
  rewrite (drop_S junk y t Hy). reflexivity.
Qed.

(** The initialisation loop leaves a buffer of ones. *)
Lemma init_ones (p1 : proc) (l : loc) (junk : list float) (count : Z) :
  rows (mem p1) !! l = Some junk -> length junk = Z.to_nat count ->
  count <= INT_MAX ->
  for_loop 0 count 1
    (fun i p => m ← lift (store_d (mem p) (Some l) i 1%float);
                Done (set_mem p m)) p1
  = Done (set_mem p1
            (Store (tables (mem p1))
                   (<[l := replicate (Z.to_nat count) 1%float]>
                      (rows (mem p1))))).
Proof.
  intros Hl Hlen Hmax.
  rewrite for_loop_range by (unfold INT_MIN; lia).
  rewrite range_upto. unfold upto.
  set (shape := fun (t : nat) =>
         set_mem p1
           (Store (tables (mem p1))
                  (<[l := replicate t 1%float ++ drop t junk]>
                     (rows (mem p1))))).
  destruct (run_list_count
              (fun t p => p = shape t)
              (fun i p => m ← lift (store_d (mem p) (Some l) i 1%float);
                          Done (set_mem p m))
              Z.of_nat (Z.to_nat count) 0%nat p1)
    as (p2 & Hrun & Hp2).
  - unfold shape. simpl. rewrite drop_0, insert_id by assumption.
    destruct p1 as [[] ]; reflexivity.
  - intros t p Ht ->. exists (shape (S t)). split; [|reflexivity].
    unfold shape at 1. unfold store_d. simpl.
    rewrite lookup_insert_eq. simpl. rewrite idx_ok by lia. simpl.
    rewrite Nat2Z.id.
    assert (Hlt : (t < length (replicate t 1%float ++ drop t junk))%nat).
    { rewrite length_app, length_replicate, length_drop. lia. }
    apply Nat.ltb_lt in Hlt. rewrite Hlt. simpl.
    rewrite insert_insert_eq, insert_next_one by lia.
    unfold shape, set_mem. simpl. reflexivity.
  - rewrite Hrun, Hp2. unfold shape. simpl.
    rewrite drop_ge, app_nil_r by lia. reflexivity.
Qed.

(** The experiment with [N] touches and strides 1 to [MAX_STRIDE]: it
    returns 0 and prints, for every stride, the sum of [N] ones. *)
Lemma experiment_sums (w : world) (N MAX_STRIDE : Z) :
  malloc_succeeds w 0 = true ->
  0 <= N -> 0 <= MAX_STRIDE < INT_MAX ->
  N * MAX_STRIDE + MAX_STRIDE <= INT_MAX ->
  exists p,
    Exercice1.experiment w N MAX_STRIDE start = Done (0, p)
    /\ strides_and_sums (stdout p)
       = map (fun t => [AInt (1 + Z.of_nat t);
                        ADouble (ones_sum (Z.to_nat N))])
             (seq 0 (Z.to_nat MAX_STRIDE)).
Proof.
  intros Hm HN HM Hmax. unfold Exercice1.experiment.
  assert (Hprod : 0 <= N * MAX_STRIDE) by (apply Z.mul_nonneg_nonneg; lia).
  rewrite int_mul_ok by (unfold INT_MIN; lia). simpl.
  unfold malloc_doubles. simpl n_malloc. rewrite Hm.
  destruct (Z.leb_spec 0 (N * MAX_STRIDE)); [|lia]. simpl andb. cbv iota.
  set (junk := map (fresh_doubles w 0) (seq 0 (Z.to_nat (N * MAX_STRIDE)))).
  set (p1 := count_malloc start _).
  rewrite (init_ones p1 (block 0) junk).
  2: { unfold p1. simpl. apply lookup_insert_eq. }
  2: { unfold junk. rewrite length_map, length_seq. reflexivity. }
  2: { lia. }
  simpl mbind at 1. cbv beta.
  set (ones := replicate (Z.to_nat (N * MAX_STRIDE)) 1%float).
  set (p3 := printf _ _ _).
  rewrite for_loop_range by (unfold INT_MIN; lia).
  rewrite range_seq. replace (MAX_STRIDE + 1 - 1) with MAX_STRIDE by lia.
  set (sum := ones_sum (Z.to_nat N)).
  match goal with
  | |- context [run_list (map ?body _) p3] =>
      destruct (run_list_count
                  (fun t p =>
                     mem p = mem p3
                     /\ map (fun l => take 2 (args l)) (stdout p)
                        = map (fun l => take 2 (args l)) (stdout p3)
                          ++ map (fun t => [AInt (1 + Z.of_nat t);
                                            ADouble sum])
                               (seq 0 t))
                  body (fun q => 1 + Z.of_nat q) (Z.to_nat MAX_STRIDE)
                  0%nat p3)
        as (p4 & Hrun & Hmem & Hout)
  end.
  - split; reflexivity.
  - intros t p Ht [Hmem Hout]. eexists. split.
    + simpl.
      rewrite (scan_ones _ (block 0) (Z.to_nat (N * MAX_STRIDE)) N
                 (1 + Z.of_nat t)); try nia.
      2: { rewrite Hmem. unfold p3, p1. simpl. apply lookup_insert_eq. }
      simpl. reflexivity.
    + split; [exact Hmem|].
      rewrite seq_S, (map_app _ (seq 0 t)), app_assoc, <- Hout.
      simpl. rewrite map_app. reflexivity.
  - rewrite Hrun. simpl. eexists. split; [reflexivity|].
    unfold strides_and_sums. simpl stdout. simpl in Hout.
    destruct (stdout p4) as [|header rest]; [discriminate|].
    injection Hout as _ Hout. exact Hout.
Qed.

(** C10: in the stride experiment, for every stride [s] from 1 to
    [MAX_STRIDE] = 20 the scan takes its counter through the 1,000,000
    indices [s * t], [0 <= t < 1,000,000], all inside the buffer of
    [1,000,000 * MAX_STRIDE] doubles; on the buffer of ones it returns
    the sum 1000000.0, and [main] prints that sum for every stride. *)
Theorem stride_scan_sums (w : world) :
  malloc_succeeds w 0 = true ->
  (forall s, 1 <= s <= Exercice1.MAX_STRIDE ->
     range 0 (1000000 * s) s
     = map (fun t => Z.of_nat t * s) (seq 0 (Z.to_nat 1000000))
     /\ Z.of_nat (length (range 0 (1000000 * s) s)) = 1000000
     /\ (forall i, In i (range 0 (1000000 * s) s) ->
           0 <= i < 1000000 * Exercice1.MAX_STRIDE)
     /\ (forall st l,
           rows st !! l
           = Some (replicate (Z.to_nat (1000000 * Exercice1.MAX_STRIDE))
                     1%float) ->
           Exercice1.scan st (Some l) 1000000 s = Done 1000000%float))
  /\ exists p,
       Exercice1.main w = Done (0, p)
       /\ strides_and_sums (stdout p)
          = map (fun s => [AInt s; ADouble 1000000%float])
                (range 1 (Exercice1.MAX_STRIDE + 1) 1).
Proof.
  intros Hm. split.
  - intros s Hs. unfold Exercice1.MAX_STRIDE in *.
    assert (Hr := range_strided 1000000 s ltac:(lia) ltac:(lia)).
    split; [exact Hr|]. split; [|split].
    + rewrite Hr, length_map, length_seq. apply Z2Nat.id. lia.
    + intros i Hi. apply in_range in Hi; lia.
    + intros st l Hl. rewrite <- ones_sum_million.
      eapply scan_ones; try eassumption; try lia.
      unfold INT_MAX. lia.
  - destruct (experiment_sums w 1000000 Exercice1.MAX_STRIDE Hm)
      as (p & Hrun & Hout);
      try (unfold Exercice1.MAX_STRIDE, INT_MAX; lia).
    exists p. split; [exact Hrun|].
    rewrite Hout, ones_sum_million, range_seq, map_map.
    replace (Exercice1.MAX_STRIDE + 1 - 1) with Exercice1.MAX_STRIDE by lia.
    reflexivity.
Qed.

Lemma stride_scan_sums_witness :
  exists p,
    Exercice1.main calm = Done (0, p)
    /\ strides_and_sums (stdout p)
       = map (fun s => [AInt s; ADouble 1000000%float])
             (range 1 (Exercice1.MAX_STRIDE + 1) 1).
Proof. apply (stride_scan_sums calm). reflexivity. Defined.

(** * The driver of the blocked benchmark *)

(** ** Allocation *)

(** What the [a]-th call of [malloc] returns. *)
Definition entry (w : world) (a : nat) : ptr :=
  if malloc_succeeds w a then Some (block a) else None.

Definition junk_row (w : world) (N : Z) (a : nat) : list float :=
  map (fresh_doubles w a) (seq 0 (Z.to_nat N)).

Definition junk_table (w : world) (N : Z) (a : nat) : list ptr :=
  map (fresh_pointers w a) (seq 0 (Z.to_nat N)).

(** The row pointers of the first [t] rows of the matrix number [k]
    (0 for [A], 1 for [B], 2 for [C]): row [i] comes from the call
    [3 + 3 i + k] of [malloc]. *)
Definition row_ptrs (w : world) (k t : nat) : list ptr :=
  map (fun i => entry w (3 + 3 * i + k)) (seq 0 t).

Arguments block : simpl never.
Arguments row_ptrs : simpl never.
Arguments junk_row : simpl never.
Arguments junk_table : simpl never.

Lemma block_inj (a b : nat) : block a = block b -> a = b.
Proof. unfold block. apply SuccNat2Pos.inj. Qed.

Lemma malloc_doubles_eq (w : world) (N : Z) (p : proc) :
  0 <= N ->
  malloc_doubles w N p
  = (entry w (n_malloc p),
     count_malloc p
       (Store (tables (mem p))
              (if malloc_succeeds w (n_malloc p)
               then <[block (n_malloc p) := junk_row w N (n_malloc p)]>
                      (rows (mem p))
               else rows (mem p)))).
Proof.
  intros HN. unfold malloc_doubles, entry.
  destruct (Z.leb_spec 0 N); [|lia].
  destruct (malloc_succeeds w (n_malloc p)); simpl; [reflexivity|].
  destruct p as [[] ]; reflexivity.
Qed.

Lemma insert_extend {X : Type} (pre J : list X) (x : X) (t : nat) :
  length pre = t -> (t < length J)%nat ->
  <[t := x]> (pre ++ drop t J) = (pre ++ [x]) ++ drop (S t) J.
Proof.
  intros <- Hlt.
  destruct (lookup_lt_is_Some_2 J (length pre) Hlt) as [y Hy].
  rewrite <- app_assoc.
  rewrite insert_app_r_alt by lia.
  rewrite Nat.sub_diag, (drop_S J y _ Hy). reflexivity.
Qed.

Lemma length_row_ptrs (w : world) (k t : nat) : length (row_ptrs w k t) = t.
Proof. unfold row_ptrs. rewrite length_map, length_seq. reflexivity. Qed.

Lemma row_ptrs_S (w : world) (k t : nat) :
  row_ptrs w k (S t) = row_ptrs w k t ++ [entry w (3 + 3 * t + k)].
Proof. unfold row_ptrs. rewrite seq_S, map_app. reflexivity. Qed.

(** The process when the tables hold [tA], [tB] and [tC] row pointers. *)
Record allocated (w : world) (N : Z) (tA tB tC : nat) (p : proc) : Prop := {
  al_count : n_malloc p = (3 + tA + tB + tC)%nat;
  al_A : tables (mem p) !! block 0
         = Some (row_ptrs w 0 tA ++ drop tA (junk_table w N 0));
  al_B : tables (mem p) !! block 1
         = Some (row_ptrs w 1 tB ++ drop tB (junk_table w N 1));
  al_C : tables (mem p) !! block 2
         = Some (row_ptrs w 2 tC ++ drop tC (junk_table w N 2));
  al_rows : forall a, (3 <= a < n_malloc p)%nat -> malloc_succeeds w a = true ->
            rows (mem p) !! block a = Some (junk_row w N a);
  al_clock : n_clock p = 0%nat;
  al_seed : rng_seed p = 1;
  al_draws : rng_draws p = 0%nat;
  al_stdout : stdout p = [];
  al_file : file p = []
}.

Lemma store_p_table (st : store) (t : loc) (tab : list ptr) (i : nat) (v : ptr) :
  tables st !! t = Some tab -> (i < length tab)%nat ->
  store_p st (Some t) (Z.of_nat i) v
  = Some (Store (<[t := <[i := v]> tab]> (tables st)) (rows st)).
Proof.
  intros Ht Hi. unfold store_p. simpl. rewrite Ht. simpl.
  rewrite idx_ok by lia. simpl. rewrite Nat2Z.id.
  apply Nat.ltb_lt in Hi. rewrite Hi. reflexivity.
Qed.

(** One statement [T[t] = malloc(...)] on the table at [block k], whose
    first [t] entries are set. *)
Lemma allocate_row_eq (w : world) (N : Z) (k t : nat) (p : proc) :
  (t < Z.to_nat N)%nat ->
  n_malloc p = (3 + 3 * t + k)%nat ->
  tables (mem p) !! block k
  = Some (row_ptrs w k t ++ drop t (junk_table w N k)) ->
  MxmBloc.allocate_row w (Some (block k)) N (Z.of_nat t) p
  = Done (Proc
            (Store (<[block k := row_ptrs w k (S t)
                                 ++ drop (S t) (junk_table w N k)]>
                      (tables (mem p)))
                   (if malloc_succeeds w (n_malloc p)
                    then <[block (n_malloc p) := junk_row w N (n_malloc p)]>
                           (rows (mem p))
                    else rows (mem p)))
            (S (n_malloc p)) (n_clock p) (rng_seed p) (rng_draws p)
            (stdout p) (file p)).
Proof.
  intros Ht Hc Htab.
  assert (Hjl : length (junk_table w N k) = Z.to_nat N)
    by (unfold junk_table; rewrite length_map, length_seq; reflexivity).
  assert (Hext : row_ptrs w k (S t) ++ drop (S t) (junk_table w N k)
                 = <[t := entry w (n_malloc p)]>
                     (row_ptrs w k t ++ drop t (junk_table w N k))).
  { rewrite row_ptrs_S, Hc. symmetry.
    apply insert_extend; [apply length_row_ptrs | lia]. }
  rewrite Hext. unfold MxmBloc.allocate_row.
  rewrite malloc_doubles_eq by lia. cbv beta iota zeta.
  erewrite (store_p_table _ (block k) _ t); [| exact Htab |].
  2: { rewrite length_app, length_row_ptrs, length_drop, Hjl. lia. }
  reflexivity.
Qed.

Lemma rows_after_malloc (w : world) (N : Z) (p : proc) (a : nat) :
  (forall a, (3 <= a < n_malloc p)%nat -> malloc_succeeds w a = true ->
             rows (mem p) !! block a = Some (junk_row w N a)) ->
  (3 <= a < S (n_malloc p))%nat -> malloc_succeeds w a = true ->
  (if malloc_succeeds w (n_malloc p)
   then <[block (n_malloc p) := junk_row w N (n_malloc p)]> (rows (mem p))
   else rows (mem p)) !! block a = Some (junk_row w N a).
Proof.
  intros Hr Ha Hok.
  destruct (decide (a = n_malloc p)) as [->|Hne].
  - rewrite Hok. apply lookup_insert_eq.
  - assert (Hold : rows (mem p) !! block a = Some (junk_row w N a))
      by (apply Hr; [lia|assumption]).
    destruct (malloc_succeeds w (n_malloc p)); [|exact Hold].
    rewrite lookup_insert_ne; [exact Hold|].
    intros H. apply block_inj in H. lia.
Qed.

Lemma block_ne (a b : nat) : a <> b -> block a <> block b.
Proof. intros Hne H. apply Hne, block_inj, H. Qed.

Lemma allocate_rows_step (w : world) (N : Z) (t : nat) (p : proc) :
  (t < Z.to_nat N)%nat -> allocated w N t t t p ->
  exists p',
    MxmBloc.allocate_rows w (Some (block 0)) (Some (block 1)) (Some (block 2))
      N (Z.of_nat t) p = Done p'
    /\ allocated w N (S t) (S t) (S t) p'.
Proof.
  intros Ht H0. unfold MxmBloc.allocate_rows.
  rewrite (allocate_row_eq w N 0 t p Ht);
    [| rewrite (al_count _ _ _ _ _ _ H0); lia | apply H0].
  set (p1 := Proc _ _ _ _ _ _ _).
  assert (H1 : allocated w N (S t) t t p1).
  { destruct H0. constructor; unfold p1; simpl; auto; try lia.
    - apply lookup_insert_eq.
    - rewrite lookup_insert_ne by (apply block_ne; lia). assumption.
    - rewrite lookup_insert_ne by (apply block_ne; lia). assumption.
    - intros a Ha Hok. apply rows_after_malloc; assumption. }
  clearbody p1. simpl mbind.
  rewrite (allocate_row_eq w N 1 t p1 Ht);
    [| rewrite (al_count _ _ _ _ _ _ H1); lia | apply H1].
  set (p2 := Proc _ _ _ _ _ _ _).
  assert (H2 : allocated w N (S t) (S t) t p2).
  { destruct H1. constructor; unfold p2; simpl; auto; try lia.
    - rewrite lookup_insert_ne by (apply block_ne; lia). assumption.
    - apply lookup_insert_eq.
    - rewrite lookup_insert_ne by (apply block_ne; lia). assumption.
    - intros a Ha Hok. apply rows_after_malloc; assumption. }
  clearbody p2. simpl mbind.
  rewrite (allocate_row_eq w N 2 t p2 Ht);
    [| rewrite (al_count _ _ _ _ _ _ H2); lia | apply H2].
  eexists. split; [reflexivity|].
  destruct H2. constructor; simpl; auto; try lia.
  - rewrite lookup_insert_ne by (apply block_ne; lia). assumption.
  - rewrite lookup_insert_ne by (apply block_ne; lia). assumption.
  - apply lookup_insert_eq.
  - intros a Ha Hok. apply rows_after_malloc; assumption.
Qed.

Lemma malloc_pointers_eq (w : world) (N : Z) (p : proc) :
  0 <= N ->
  malloc_pointers w N p
  = (entry w (n_malloc p),
     count_malloc p
       (Store (if malloc_succeeds w (n_malloc p)
               then <[block (n_malloc p) := junk_table w N (n_malloc p)]>
                      (tables (mem p))
               else tables (mem p))
              (rows (mem p)))).
Proof.
  intros HN. unfold malloc_pointers, entry.
  destruct (Z.leb_spec 0 N); [|lia].
  destruct (malloc_succeeds w (n_malloc p)); simpl; [reflexivity|].
  destruct p as [[] ]; reflexivity.
Qed.

(** The process after the three tables were requested. *)
Definition with_tables (w : world) (N : Z) : proc :=
  (malloc_pointers w N (malloc_pointers w N (malloc_pointers w N start).2).2).2.

Lemma allocate_unfold (w : world) (N : Z) :
  0 <= N ->
  MxmBloc.allocate w N start
  = (p ← for_loop 0 N 1
           (MxmBloc.allocate_rows w (entry w 0) (entry w 1) (entry w 2) N)
           (with_tables w N);
     Done (entry w 0, entry w 1, entry w 2, p)).
Proof.
  intros HN. unfold MxmBloc.allocate, with_tables.
  rewrite !malloc_pointers_eq by assumption. reflexivity.
Qed.

Lemma with_tables_allocated (w : world) (N : Z) :
  0 <= N ->
  malloc_succeeds w 0 = true -> malloc_succeeds w 1 = true ->
  malloc_succeeds w 2 = true ->
  allocated w N 0 0 0 (with_tables w N).
Proof.
  intros HN H0 H1 H2. unfold with_tables.
  rewrite !malloc_pointers_eq by assumption. simpl.
  rewrite H0, H1, H2.
  constructor; simpl; auto.
  intros a Ha. lia.
Qed.

(** With its three tables allocated, the allocation loop returns,
    whether or not the rows could be allocated. *)
Lemma allocate_tables_ok (w : world) (N : Z) :
  0 <= N <= INT_MAX ->
  malloc_succeeds w 0 = true -> malloc_succeeds w 1 = true ->
  malloc_succeeds w 2 = true ->
  exists p,
    MxmBloc.allocate w N start
    = Done (Some (block 0), Some (block 1), Some (block 2), p)
    /\ allocated w N (Z.to_nat N) (Z.to_nat N) (Z.to_nat N) p.
Proof.
  intros HN H0 H1 H2. rewrite allocate_unfold by lia.
  unfold entry. rewrite H0, H1, H2.
  rewrite for_loop_range by (unfold INT_MIN; lia).
  rewrite range_upto. unfold upto.
  destruct (run_list_count
              (fun t p => allocated w N t t t p)
              (MxmBloc.allocate_rows w (Some (block 0)) (Some (block 1))
                 (Some (block 2)) N)
              Z.of_nat (Z.to_nat N) 0%nat (with_tables w N))
    as (p & Hrun & Hp).
  - apply with_tables_allocated; auto; lia.
  - intros t p Ht Hp. apply allocate_rows_step; [lia|assumption].
  - exists p. rewrite Hrun. split; [reflexivity|exact Hp].
Qed.

(** A loop whose first body runs into undefined behaviour does so. *)
Lemma for_loop_first_fault {St : Type} (body : Z -> St -> outcome St)
    (lo hi : Z) (s : St) :
  lo < hi -> INT_MIN <= lo -> hi <= INT_MAX ->
  body lo s = Fault -> for_loop lo hi 1 body s = Fault.
Proof.
  intros Hlt Hlo Hhi Hb. rewrite for_loop_range by lia.
  rewrite range_unfold by lia.
  destruct (Z.ltb_spec lo hi); [|lia]. simpl. rewrite Hb. reflexivity.
Qed.



(** ** Seeding *)

(** The [t]-th value [(double)(rand() % 10) + 1.0] after [srand(42)]. *)
Definition drawn (w : world) (t : nat) : float :=
  (double_of_Z (Z.rem (rand_value w 42 t) 10) + 1)%float.

(** The row buffer of the [a]-th allocation holds [v] at index [j]. *)
Definition cell (rs : gmap loc (list float)) (a j : nat) (v : float) : Prop :=
  exists row, rs !! block a = Some row /\ row !! j = Some v.

(** The process when the first [k] cells, in row-major order, are
    seeded. *)
Record seeding (w : world) (N : Z) (k : nat) (p : proc) : Prop := {
  sd_A : tables (mem p) !! block 0 = Some (row_ptrs w 0 (Z.to_nat N));
  sd_B : tables (mem p) !! block 1 = Some (row_ptrs w 1 (Z.to_nat N));
  sd_C : tables (mem p) !! block 2 = Some (row_ptrs w 2 (Z.to_nat N));
  sd_rows : forall a, (3 <= a < 3 + 3 * Z.to_nat N)%nat ->
            malloc_succeeds w a = true ->
            exists row, rows (mem p) !! block a = Some row
                        /\ length row = Z.to_nat N;
  sd_cells : forall i j, (i < Z.to_nat N)%nat -> (j < Z.to_nat N)%nat ->
             (i * Z.to_nat N + j < k)%nat ->
             cell (rows (mem p)) (3 + 3 * i + 0) j
                  (drawn w (2 * (i * Z.to_nat N + j)))
             /\ cell (rows (mem p)) (3 + 3 * i + 1) j
                     (drawn w (2 * (i * Z.to_nat N + j) + 1))
             /\ cell (rows (mem p)) (3 + 3 * i + 2) j 0%float;
  sd_seed : rng_seed p = 42;
  sd_draws : rng_draws p = (2 * k)%nat;
  sd_malloc : n_malloc p = (3 + 3 * Z.to_nat N)%nat;
  sd_clock : n_clock p = 0%nat;
  sd_stdout : stdout p = [];
  sd_file : file p = []
}.

Lemma row_ptrs_lookup (w : world) (k n i : nat) :
  (i < n)%nat -> row_ptrs w k n !! i = Some (entry w (3 + 3 * i + k)).
Proof.
  intros Hi. unfold row_ptrs.
  rewrite list_lookup_fmap, lookup_seq_lt by assumption. reflexivity.
Qed.

(** A store into row [i] of the matrix number [k]. *)
Lemma store2_row (w : world) (st : store) (k n i j : nat) (row : list float)
    (v : float) :
  tables st !! block k = Some (row_ptrs w k n) -> (i < n)%nat ->
  malloc_succeeds w (3 + 3 * i + k) = true ->
  rows st !! block (3 + 3 * i + k) = Some row -> (j < length row)%nat ->
  store2 st (Some (block k)) (Z.of_nat i) (Z.of_nat j) v
  = Some (Store (tables st)
                (<[block (3 + 3 * i + k) := <[j := v]> row]> (rows st))).
Proof.
  intros Htab Hi Hok Hrow Hj.
  pose proof (row_ptrs_lookup w k n i Hi) as Hp.
  unfold entry in Hp. rewrite Hok in Hp.
  remember (3 + 3 * i + k)%nat as a eqn:Ea. clear Ea.
  unfold store2, load_row, table_of. simpl.
  rewrite Htab. simpl. rewrite idx_ok by lia. simpl.
  rewrite Nat2Z.id, Hp. simpl.
  unfold store_d. simpl. rewrite Hrow. simpl.
  rewrite idx_ok by lia. simpl. rewrite Nat2Z.id.
  apply Nat.ltb_lt in Hj. rewrite Hj. reflexivity.
Qed.


Lemma cell_written (rs : gmap loc (list float)) (a j : nat)
    (row : list float) (v : float) :
  (j < length row)%nat ->
  cell (<[block a := <[j := v]> row]> rs) a j v.
Proof.
  intros Hj. exists (<[j := v]> row). split.
  - apply lookup_insert_eq.
  - apply list_lookup_insert_eq. exact Hj.
Qed.

Lemma cell_kept (rs : gmap loc (list float)) (a j a' j' : nat)
    (row : list float) (v v' : float) :
  rs !! block a = Some row -> a' <> a \/ j' <> j ->
  cell rs a' j' v' -> cell (<[block a := <[j := v]> row]> rs) a' j' v'.
Proof.
  intros Hrow Hne (row' & Hr' & Hv').
  destruct (decide (a' = a)) as [->|Hna].
  - assert (row' = row) by congruence. subst row'.
    exists (<[j := v]> row). split; [apply lookup_insert_eq|].
    rewrite list_lookup_insert_ne by (destruct Hne; congruence). exact Hv'.
  - exists row'. split; [|exact Hv'].
    rewrite lookup_insert_ne by (apply block_ne; congruence). exact Hr'.
Qed.

Lemma rows_kept (rs : gmap loc (list float)) (a j a' n : nat)
    (row : list float) (v : float) :
  rs !! block a = Some row -> length row = n ->
  (exists row', rs !! block a' = Some row' /\ length row' = n) ->
  exists row', <[block a := <[j := v]> row]> rs !! block a' = Some row'
               /\ length row' = n.
Proof.
  intros Hrow Hlen (row' & Hr' & Hl').
  destruct (decide (a' = a)) as [->|Hna].
  - exists (<[j := v]> row). rewrite lookup_insert_eq, length_insert. auto.
  - exists row'. rewrite lookup_insert_ne by (apply block_ne; congruence). auto.
Qed.

Arguments MxmBloc.draw : simpl never.
Arguments drawn : simpl never.
Arguments store2 : simpl never.
Arguments entry : simpl never.

Lemma bind_lift_Some {X Y : Type} (x : X) (f : X -> outcome Y) :
  (lift (Some x) ≫= f) = f x.
Proof. reflexivity. Qed.

Lemma draw_eq (w : world) (p : proc) :
  rng_seed p = 42 ->
  MxmBloc.draw w p
  = (drawn w (rng_draws p),
     Proc (mem p) (n_malloc p) (n_clock p) (rng_seed p) (S (rng_draws p))
          (stdout p) (file p)).
Proof. intros Hs. unfold MxmBloc.draw, rand, drawn. rewrite Hs. reflexivity. Qed.

(** The three stores of one cell, on the rows. *)
Definition seeded_rows (rs : gmap loc (list float)) (i j : nat)
    (rowA rowB rowC : list float) (vA vB : float) : gmap loc (list float) :=
  <[block (3 + 3 * i + 2) := <[j := 0%float]> rowC]>
    (<[block (3 + 3 * i + 1) := <[j := vB]> rowB]>
       (<[block (3 + 3 * i + 0) := <[j := vA]> rowA]> rs)).

Lemma seeded_rows_kept (rs : gmap loc (list float)) (i j a' j' : nat)
    (rowA rowB rowC : list float) (vA vB v' : float) :
  rs !! block (3 + 3 * i + 0) = Some rowA ->
  rs !! block (3 + 3 * i + 1) = Some rowB ->
  rs !! block (3 + 3 * i + 2) = Some rowC ->
  (a' < 3 + 3 * i \/ 3 + 3 * i + 2 < a')%nat \/ j' <> j ->
  cell rs a' j' v' ->
  cell (seeded_rows rs i j rowA rowB rowC vA vB) a' j' v'.
Proof.
  intros HA HB HC Hne Hc. unfold seeded_rows.
  apply cell_kept; [| lia |].
  { rewrite !lookup_insert_ne by (apply block_ne; lia). exact HC. }
  apply cell_kept; [| lia |].
  { rewrite lookup_insert_ne by (apply block_ne; lia). exact HB. }
  apply cell_kept; [exact HA | lia | exact Hc].
Qed.

Lemma seed_cell_step (w : world) (N : Z) (i j : nat) (p : proc) :
  (i < Z.to_nat N)%nat -> (j < Z.to_nat N)%nat ->
  malloc_succeeds w (3 + 3 * i + 0) = true ->
  malloc_succeeds w (3 + 3 * i + 1) = true ->
  malloc_succeeds w (3 + 3 * i + 2) = true ->
  seeding w N (i * Z.to_nat N + j) p ->
  exists p',
    MxmBloc.seed_cell w (Some (block 0)) (Some (block 1)) (Some (block 2))
      (Z.of_nat i) (Z.of_nat j) p = Done p'
    /\ seeding w N (i * Z.to_nat N + j + 1) p'.
Proof.
  intros Hi Hj HokA HokB HokC Hsd.
  set (n := Z.to_nat N) in *.
  destruct (sd_rows _ _ _ _ Hsd (3 + 3 * i + 0)%nat) as (rowA & HrA & HlA);
    [lia|assumption|].
  destruct (sd_rows _ _ _ _ Hsd (3 + 3 * i + 1)%nat) as (rowB & HrB & HlB);
    [lia|assumption|].
  destruct (sd_rows _ _ _ _ Hsd (3 + 3 * i + 2)%nat) as (rowC & HrC & HlC);
    [lia|assumption|].
  destruct Hsd as [HtA HtB HtC Hrows Hcells Hseed Hdraws Hmal Hclk Hout Hfile].
  unfold MxmBloc.seed_cell.
  rewrite draw_eq by assumption. cbv beta iota zeta.
  erewrite (store2_row w _ 0 n i j rowA);
    [| exact HtA | assumption | assumption | exact HrA | lia].
  rewrite bind_lift_Some.
  rewrite draw_eq by assumption. cbv beta iota zeta.
  erewrite (store2_row w _ 1 n i j rowB);
    [| exact HtB | assumption | assumption | | lia].
  2: { cbn [rows mem set_mem].
       rewrite lookup_insert_ne by (apply block_ne; lia). exact HrB. }
  rewrite bind_lift_Some.
  erewrite (store2_row w _ 2 n i j rowC);
    [| exact HtC | assumption | assumption | | lia].
  2: { cbn [rows mem set_mem].
       rewrite !lookup_insert_ne by (apply block_ne; lia). exact HrC. }
  rewrite bind_lift_Some. eexists. split; [reflexivity|].
  cbn [rows tables mem set_mem rng_draws]. rewrite Hdraws.
  fold (seeded_rows (rows (mem p)) i j rowA rowB rowC
          (drawn w (2 * (i * n + j))) (drawn w (S (2 * (i * n + j))))).
  constructor;
    cbn [rows tables mem set_mem rng_draws rng_seed n_malloc n_clock
         stdout file]; auto; try lia.
  - intros a Ha Hok. unfold seeded_rows.
    apply rows_kept; auto.
    { rewrite !lookup_insert_ne by (apply block_ne; lia). exact HrC. }
    apply rows_kept; auto.
    { rewrite lookup_insert_ne by (apply block_ne; lia). exact HrB. }
    apply rows_kept; auto.
  - intros i' j' Hi' Hj' Hlt. fold n in Hi', Hj', Hlt |- *.
    destruct (decide (i' = i /\ j' = j)) as [[-> ->]|Hne].
    + replace (2 * (i * n + j) + 1)%nat with (S (2 * (i * n + j))) by lia.
      unfold seeded_rows. split; [|split].
      * apply cell_kept; [| lia |].
        { rewrite !lookup_insert_ne by (apply block_ne; lia). exact HrC. }
        apply cell_kept; [| lia |].
        { rewrite lookup_insert_ne by (apply block_ne; lia). exact HrB. }
        apply cell_written. lia.
      * apply cell_kept; [| lia |].
        { rewrite !lookup_insert_ne by (apply block_ne; lia). exact HrC. }
        apply cell_written. lia.
      * apply cell_written. lia.
    + assert (Hold : (i' * n + j' < i * n + j)%nat).
      { assert (i' * n + j' <> i * n + j)%nat; [|lia].
        intros Heq. apply Hne.
        assert (Hii : i' = i).
        { destruct (Nat.lt_trichotomy i' i) as [H|[H|H]];
            [exfalso|assumption|exfalso].
          - assert ((i' + 1) * n <= i * n)%nat by (apply Nat.mul_le_mono_r; lia).
            lia.
          - assert ((i + 1) * n <= i' * n)%nat by (apply Nat.mul_le_mono_r; lia).
            lia. }
        subst i'. split; [reflexivity|lia]. }
      destruct (Hcells i' j' Hi' Hj' Hold) as (cA & cB & cC).
      assert (Hsep : forall k',
                ((3 + 3 * i' + k' < 3 + 3 * i
                  \/ 3 + 3 * i + 2 < 3 + 3 * i' + k')%nat \/ j' <> j)
                \/ (k' > 2)%nat).
      { intros k'. destruct (decide (i' = i)) as [->|Hni]; [|lia].
        destruct (decide (j' = j)) as [->|Hnj]; [|lia].
        exfalso. apply Hne. auto. }
      split; [|split]; apply seeded_rows_kept; auto.
      * destruct (Hsep 0%nat); [assumption|lia].
      * destruct (Hsep 1%nat); [assumption|lia].
      * destruct (Hsep 2%nat); [assumption|lia].
Qed.

(** A loop whose body keeps an invariant for [t0] rounds and then runs
    into undefined behaviour does so. *)
Lemma run_list_count_fault {St : Type} (I : nat -> St -> Prop)
    (body : Z -> St -> outcome St) (g : nat -> Z) (T t0 : nat) (s : St) :
  (t0 < T)%nat ->
  I 0%nat s ->
  (forall t s0, (t < t0)%nat -> I t s0 ->
     exists s', body (g t) s0 = Done s' /\ I (S t) s') ->
  (forall s0, I t0 s0 -> body (g t0) s0 = Fault) ->
  run_list (map body (map g (seq 0 T))) s = Fault.
Proof.
  intros Ht H0 Hstep Hfault.
  replace T with (t0 + S (T - S t0))%nat by lia.
  rewrite seq_app, !map_app, run_list_app.
  destruct (run_list_count I body g t0 0%nat s H0) as (s1 & Hrun & H1).
  { intros t s0 Hlt. apply Hstep. lia. }
  rewrite Hrun. simpl.
  rewrite (Hfault s1 H1). reflexivity.
Qed.


(** One row of the seeding loop. *)
Lemma seed_row (w : world) (N : Z) (i : nat) (p : proc) :
  N <= INT_MAX -> (i < Z.to_nat N)%nat ->
  malloc_succeeds w (3 + 3 * i + 0) = true ->
  malloc_succeeds w (3 + 3 * i + 1) = true ->
  malloc_succeeds w (3 + 3 * i + 2) = true ->
  seeding w N (i * Z.to_nat N) p ->
  exists p',
    for_loop 0 N 1
      (MxmBloc.seed_cell w (Some (block 0)) (Some (block 1)) (Some (block 2))
         (Z.of_nat i)) p = Done p'
    /\ seeding w N (S i * Z.to_nat N) p'.
Proof.
  intros HN Hi HokA HokB HokC Hsd.
  rewrite for_loop_range by (unfold INT_MIN; lia).
  rewrite range_upto. unfold upto.
  destruct (run_list_count
              (fun j p => seeding w N (i * Z.to_nat N + j) p)
              (MxmBloc.seed_cell w (Some (block 0)) (Some (block 1))
                 (Some (block 2)) (Z.of_nat i))
              Z.of_nat (Z.to_nat N) 0%nat p)
    as (p' & Hrun & Hp').
  - rewrite Nat.add_0_r. exact Hsd.
  - intros j p0 Hj Hp0.
    replace (i * Z.to_nat N + S j)%nat with (i * Z.to_nat N + j + 1)%nat
      by lia.
    apply seed_cell_step; auto; lia.
  - exists p'. split; [exact Hrun|].
    replace (S i * Z.to_nat N)%nat with (i * Z.to_nat N + (0 + Z.to_nat N))%nat
      by lia.
    exact Hp'.
Qed.

Lemma allocated_seeding (w : world) (N : Z) (p : proc) :
  allocated w N (Z.to_nat N) (Z.to_nat N) (Z.to_nat N) p ->
  seeding w N 0 (srand 42 p).
Proof.
  intros [Hc HA HB HC Hr Hk Hs Hd Ho Hf].
  assert (Hjl : forall a, length (junk_table w N a) = Z.to_nat N)
    by (intros; unfold junk_table; rewrite length_map, length_seq; reflexivity).
  rewrite drop_ge, app_nil_r in HA, HB, HC by (rewrite Hjl; lia).
  constructor; cbn [srand mem rng_seed rng_draws n_malloc n_clock stdout file];
    auto; try lia.
  intros a Ha Hok. exists (junk_row w N a). split.
  - apply Hr; [lia|assumption].
  - unfold junk_row. rewrite length_map, length_seq. reflexivity.
Qed.

(** With every allocation successful the seeding returns. *)
Lemma seed_ok (w : world) (N : Z) (p : proc) :
  N <= INT_MAX ->
  (forall a, (a < 3 + 3 * Z.to_nat N)%nat -> malloc_succeeds w a = true) ->
  allocated w N (Z.to_nat N) (Z.to_nat N) (Z.to_nat N) p ->
  exists p',
    MxmBloc.seed w (Some (block 0)) (Some (block 1)) (Some (block 2)) N p
    = Done p'
    /\ seeding w N (Z.to_nat N * Z.to_nat N) p'.
Proof.
  intros HN Hok Hal. unfold MxmBloc.seed.
  rewrite for_loop_range by (unfold INT_MIN; lia).
  rewrite range_upto. unfold upto.
  destruct (run_list_count
              (fun i p => seeding w N (i * Z.to_nat N) p)
              (fun i =>
                 for_loop 0 N 1
                   (MxmBloc.seed_cell w (Some (block 0)) (Some (block 1))
                      (Some (block 2)) i))
              Z.of_nat (Z.to_nat N) 0%nat (srand 42 p))
    as (p' & Hrun & Hp').
  - apply allocated_seeding. exact Hal.
  - intros i p0 Hi Hp0. apply seed_row; auto; try lia; apply Hok; lia.
  - exists p'. split; [exact Hrun|exact Hp'].
Qed.


(** ** The seeded matrices *)

(** The matrix number [k] after seeding: [A] takes the even draws, [B]
    the odd ones, in row-major order. *)
Definition seeded (w : world) (N : Z) (k : nat) : list (list float) :=
  map (fun i =>
         map (fun j => drawn w (2 * (i * Z.to_nat N + j) + k))
             (seq 0 (Z.to_nat N)))
      (seq 0 (Z.to_nat N)).

Lemma row_ptrs_all (w : world) (k n : nat) :
  (forall a, (a < 3 + 3 * n)%nat -> malloc_succeeds w a = true) ->
  (k < 3)%nat ->
  row_ptrs w k n = map (fun i => Some (block (3 + 3 * i + k))) (seq 0 n).
Proof.
  intros Hok Hk. unfold row_ptrs. apply map_ext_in. intros i Hi.
  apply in_seq in Hi. unfold entry. rewrite Hok by lia. reflexivity.
Qed.

Lemma read_rows (st : store) (T : ptr) (k n : nat) (V : nat -> nat -> float) :
  table_of st T = Some (map (fun i => Some (block (3 + 3 * i + k))) (seq 0 n)) ->
  (forall i, (i < n)%nat ->
     exists row, rows st !! block (3 + 3 * i + k) = Some row
                 /\ length row = n
                 /\ forall j, (j < n)%nat -> row !! j = Some (V i j)) ->
  read_matrix st T = Some (map (fun i => map (V i) (seq 0 n)) (seq 0 n)).
Proof.
  intros Htab Hrows. unfold read_matrix. rewrite Htab. simpl.
  apply mapM_Some_2. apply Forall2_fmap, Forall_Forall2_diag.
  apply Forall_forall. intros i Hi. apply elem_of_seq in Hi.
  destruct (Hrows i) as (row & Hr & Hl & Hv); [lia|].
  change (rows st !! block (3 + 3 * i + k) = Some (map (V i) (seq 0 n))).
  rewrite Hr. f_equal. apply list_eq. intros j.
  destruct (Nat.lt_ge_cases j n) as [Hj|Hj].
  - rewrite Hv by assumption.
    rewrite list_lookup_fmap, lookup_seq_lt by assumption. reflexivity.
  - rewrite !lookup_ge_None_2; auto.
    + rewrite length_map, length_seq. lia.
    + lia.
Qed.

Lemma seeding_read (w : world) (N : Z) (p : proc) :
  (forall a, (a < 3 + 3 * Z.to_nat N)%nat -> malloc_succeeds w a = true) ->
  seeding w N (Z.to_nat N * Z.to_nat N) p ->
  read_matrix (mem p) (Some (block 0)) = Some (seeded w N 0)
  /\ read_matrix (mem p) (Some (block 1)) = Some (seeded w N 1)
  /\ read_matrix (mem p) (Some (block 2)) = Some (zeros N).
Proof.
  intros Hok Hsd. set (n := Z.to_nat N) in *.
  assert (Hcell : forall i j, (i < n)%nat -> (j < n)%nat ->
            (i * n + j < n * n)%nat).
  { intros i j Hi Hj.
    assert ((i + 1) * n <= n * n)%nat by (apply Nat.mul_le_mono_r; lia). lia. }
  assert (Hrow : forall k V,
            (k < 3)%nat ->
            (forall i j, (i < n)%nat -> (j < n)%nat ->
               cell (rows (mem p)) (3 + 3 * i + k) j (V i j)) ->
            read_matrix (mem p) (Some (block k))
            = Some (map (fun i => map (V i) (seq 0 n)) (seq 0 n))).
  { intros k V Hk HV. apply (read_rows _ _ k).
    - unfold table_of. cbn [mbind option_bind].
      rewrite <- (row_ptrs_all w k n Hok Hk).
      destruct k as [|[|[|k]]];
        [ exact (sd_A _ _ _ _ Hsd) | exact (sd_B _ _ _ _ Hsd)
        | exact (sd_C _ _ _ _ Hsd) | lia ].
    - intros i Hi.
      destruct (sd_rows _ _ _ _ Hsd (3 + 3 * i + k)%nat) as (row & Hr & Hl);
        [fold n; lia | apply Hok; fold n; lia |].
      exists row. split; [exact Hr|]. split; [exact Hl|].
      intros j Hj. destruct (HV i j Hi Hj) as (row' & Hr' & Hv).
      congruence. }
  split; [|split].
  - unfold seeded. fold n.
    rewrite (Hrow 0%nat (fun i j => drawn w (2 * (i * n + j) + 0))); auto.
    intros i j Hi Hj.
    destruct (sd_cells _ _ _ _ Hsd i j Hi Hj (Hcell i j Hi Hj)) as (c & _).
    replace (2 * (i * n + j) + 0)%nat with (2 * (i * n + j))%nat by lia.
    exact c.
  - unfold seeded. fold n.
    rewrite (Hrow 1%nat (fun i j => drawn w (2 * (i * n + j) + 1))); auto.
    intros i j Hi Hj.
    destruct (sd_cells _ _ _ _ Hsd i j Hi Hj (Hcell i j Hi Hj)) as (_ & c & _).
    exact c.
  - rewrite (Hrow 2%nat (fun _ _ => 0%float)); auto.
    + unfold zeros. fold n. f_equal.
      assert (Hrep : forall {X Y : Type} (y : Y) (l : list X),
                map (fun _ => y) l = replicate (length l) y).
      { intros X Y y l. induction l; simpl; congruence. }
      rewrite !Hrep, !length_seq. reflexivity.
    + intros i j Hi Hj.
      destruct (sd_cells _ _ _ _ Hsd i j Hi Hj (Hcell i j Hi Hj))
        as (_ & _ & c).
      exact c.
Qed.

(** A draw is one of the ten values 1.0, ..., 10.0. *)
Lemma drawn_range (w : world) (t : nat) :
  0 <= rand_value w 42 t ->
  In (drawn w t) [1; 2; 3; 4; 5; 6; 7; 8; 9; 10]%float.
Proof.
  intros Hr. unfold drawn.
  pose proof (Z.rem_bound_pos (rand_value w 42 t) 10 Hr ltac:(lia)) as Hb.
  set (r := Z.rem (rand_value w 42 t) 10) in *.
  assert (Hcases : r = 0 \/ r = 1 \/ r = 2 \/ r = 3 \/ r = 4 \/ r = 5
                   \/ r = 6 \/ r = 7 \/ r = 8 \/ r = 9) by lia.
  repeat (destruct Hcases as [->|Hcases]; [vm_compute; tauto|]).
  subst r. rewrite Hcases. vm_compute. tauto.
Qed.

(** ** Allocation failure *)

Lemma first_failure (ok : nat -> bool) (n : nat) :
  (forall a, (a < n)%nat -> ok a = true)
  \/ exists a0, (a0 < n)%nat /\ ok a0 = false
                /\ forall a, (a < a0)%nat -> ok a = true.
Proof.
  induction n as [|n [IH|IH]].
  - left. intros a Ha. lia.
  - destruct (ok n) eqn:Hn.
    + left. intros a Ha. destruct (decide (a = n)) as [->|]; [assumption|].
      apply IH. lia.
    + right. exists n. split; [lia|]. split; assumption.
  - right. destruct IH as (a0 & Ha0 & Hf & Hmin).
    exists a0. split; [lia|]. split; assumption.
Qed.

(** A world whose [k]-th allocation fails, and no other. *)
Definition out_of_memory_at (k : nat) : world :=
  World 1000000
        (fun t => 2500 * Z.of_nat t)
        (fun a => negb (a =? k)%nat)
        (fun _ _ => 0.5%float)
        (fun _ _ => None)
        (fun seed t => (seed * 1103515245 + 12345 * Z.of_nat (S t)) mod 32768)
        true.

(** A world in which the result file cannot be opened. *)
Definition read_only : world :=
  World 1000000
        (fun t => 2500 * Z.of_nat t)
        (fun _ => true)
        (fun _ _ => 0.5%float)
        (fun _ _ => None)
        (fun seed t => (seed * 1103515245 + 12345 * Z.of_nat (S t)) mod 32768)
        false.




(** With every allocation successful, allocation and seeding return. *)
Lemma prepare_ok (w : world) (N : Z) :
  0 <= N <= INT_MAX ->
  (forall a, (a < 3 + 3 * Z.to_nat N)%nat -> malloc_succeeds w a = true) ->
  exists q p,
    MxmBloc.allocate w N start
    = Done (Some (block 0), Some (block 1), Some (block 2), q)
    /\ MxmBloc.seed w (Some (block 0)) (Some (block 1)) (Some (block 2)) N q
       = Done p
    /\ seeding w N (Z.to_nat N * Z.to_nat N) p.
Proof.
  intros HN Hok.
  destruct (allocate_tables_ok w N) as (q & Hal & Hq);
    [lia | apply Hok; lia ..|].
  destruct (seed_ok w N q) as (p & Hseed & Hp); [lia|assumption..|].
  exists q, p. auto.
Qed.




(** ** Determinism of the inputs *)

(** The matrices [A] and [B] an execution of the driver holds once it
    has allocated and seeded them. *)
Definition seeded_inputs (w : world) (N : Z)
    : outcome (list (list float) * list (list float)) :=
  '(A, B, C, p) ← MxmBloc.allocate w N start;
  p ← MxmBloc.seed w A B C N p;
  lift (a ← read_matrix (mem p) A; b ← read_matrix (mem p) B; Some (a, b)).

Lemma seeded_same_generator (w1 w2 : world) (N : Z) (k : nat) :
  (forall t, rand_value w1 42 t = rand_value w2 42 t) ->
  seeded w1 N k = seeded w2 N k.
Proof.
  intros Hr. unfold seeded. apply map_ext. intros i. apply map_ext. intros j.
  unfold drawn. rewrite Hr. reflexivity.
Qed.

Lemma seeded_inputs_eq (w : world) (N : Z) :
  0 <= N <= INT_MAX ->
  (forall a, (a < 3 + 3 * Z.to_nat N)%nat -> malloc_succeeds w a = true) ->
  seeded_inputs w N = Done (seeded w N 0, seeded w N 1).
Proof.
  intros HN Hok.
  destruct (prepare_ok w N HN Hok) as (q & p & Ha & Hs & Hp).
  destruct (seeding_read w N p Hok Hp) as (HA & HB & _).
  unfold seeded_inputs. rewrite Ha. simpl. rewrite Hs. simpl.
  rewrite HA, HB. reflexivity.
Qed.

(** C7: two executions of the driver, whatever their clocks, the
    addresses and the initial contents of their memory, that run with the
    same [rand] and whose allocations succeed hold the same matrices [A]
    and [B] after seeding, element for element: the draws after
    [srand(42)] in row-major order, [A] taking the even ones and [B] the
    odd ones; every element, [(rand() % 10) + 1.0], is one of 1.0, ...,
    10.0. *)
Theorem seeding_is_deterministic (w1 w2 : world) (N : Z) :
  0 <= N <= INT_MAX ->
  (forall a, (a < 3 + 3 * Z.to_nat N)%nat -> malloc_succeeds w1 a = true) ->
  (forall a, (a < 3 + 3 * Z.to_nat N)%nat -> malloc_succeeds w2 a = true) ->
  (forall t, rand_value w1 42 t = rand_value w2 42 t) ->
  seeded_inputs w1 N = Done (seeded w1 N 0, seeded w1 N 1)
  /\ seeded_inputs w2 N = seeded_inputs w1 N
  /\ ((forall t, 0 <= rand_value w1 42 t) ->
      forall k row v, In row (seeded w1 N k) -> In v row ->
        In v [1; 2; 3; 4; 5; 6; 7; 8; 9; 10]%float).
Proof.
  intros HN Hok1 Hok2 Hrand. split; [|split].
  - apply seeded_inputs_eq; assumption.
  - rewrite !seeded_inputs_eq by assumption.
    rewrite (seeded_same_generator w1 w2 N 0 Hrand).
    rewrite (seeded_same_generator w1 w2 N 1 Hrand). reflexivity.
  - intros Hpos k row v Hrow Hv. unfold seeded in Hrow.
    apply in_map_iff in Hrow as (i & <- & _).
    apply in_map_iff in Hv as (j & <- & _).
    apply drawn_range, Hpos.
Qed.

(** A world with another clock, other contents of fresh memory and no
    result file, but the generator of [calm]. *)
Definition other_run : world :=
  World 1000
        (fun t => 17 * Z.of_nat t + 3)
        (fun _ => true)
        (fun a i => 7.25%float)
        (fun _ _ => Some 1%positive)
        (rand_value calm)
        false.

Lemma seeding_is_deterministic_witness :
  seeded_inputs calm 3
  = Done ([[2; 2; 4]; [6; 8; 8]; [10; 2; 4]]%float,
          [[7; 9; 9]; [1; 3; 5]; [7; 7; 9]]%float)
  /\ seeded_inputs other_run 3 = seeded_inputs calm 3.
Proof.
  destruct (seeding_is_deterministic calm other_run 3) as (H1 & H2 & _).
  - vm_compute. split; discriminate.
  - intros a _. reflexivity.
  - intros a _. reflexivity.
  - intros t. reflexivity.
  - split; [|exact H2]. rewrite H1. vm_compute. reflexivity.
Defined.

(** ** The sweep *)

(** The row pointers of the matrix number [k] when every allocation
    succeeded. *)
Definition row_table (k n : nat) : list ptr :=
  map (fun i => Some (block (3 + 3 * i + k))) (seq 0 n).

Arguments row_table : simpl never.

(** The three matrices of the driver, allocated and not aliased. *)
Definition ready (N : Z) (st : store) : Prop :=
  wf (Some (block 0)) (Some (block 1)) (Some (block 2)) N
     (row_table 0 (Z.to_nat N)) (row_table 1 (Z.to_nat N))
     (row_table 2 (Z.to_nat N)) st.

Lemma row_table_elem (k n : nat) (p : ptr) :
  p ∈ row_table k n ->
  exists i, (i < n)%nat /\ p = Some (block (3 + 3 * i + k)).
Proof.
  unfold row_table. intros H. apply list_elem_of_fmap in H as (i & -> & Hi).
  apply elem_of_seq in Hi. exists i. split; [lia|reflexivity].
Qed.

Lemma row_table_nodup (k n : nat) : NoDup (row_table k n).
Proof.
  unfold row_table. apply NoDup_fmap_2; [|apply NoDup_seq].
  intros i j H. injection H as H. apply block_inj in H. lia.
Qed.

Lemma row_table_disjoint (k k' n : nat) (p : ptr) :
  (k < 3)%nat -> (k' < 3)%nat -> k <> k' ->
  p ∈ row_table k n -> p ∉ row_table k' n.
Proof.
  intros Hk Hk' Hne H1 H2.
  apply row_table_elem in H1 as (i & _ & ->).
  apply row_table_elem in H2 as (i' & _ & H).
  injection H as H. apply block_inj in H. lia.
Qed.

Lemma seeding_ready (w : world) (N : Z) (k : nat) (p : proc) :
  (forall a, (a < 3 + 3 * Z.to_nat N)%nat -> malloc_succeeds w a = true) ->
  seeding w N k p -> ready N (mem p).
Proof.
  intros Hok Hsd. set (n := Z.to_nat N) in *.
  assert (Htab : forall k', (k' < 3)%nat -> row_ptrs w k' n = row_table k' n).
  { intros k' Hk'. apply row_ptrs_all; assumption. }
  assert (Hrow : forall k' p0, (k' < 3)%nat -> p0 ∈ row_table k' n ->
            row_at N (mem p) p0).
  { intros k' p0 Hk' Hin. apply row_table_elem in Hin as (i & Hi & ->).
    destruct (sd_rows _ _ _ _ Hsd (3 + 3 * i + k')%nat) as (row & Hr & Hl);
      [fold n; lia | apply Hok; fold n; lia |].
    exists (block (3 + 3 * i + k')), row. auto. }
  unfold ready. fold n. constructor.
  - unfold table_of. cbn [mbind option_bind].
    rewrite <- Htab by lia. exact (sd_A _ _ _ _ Hsd).
  - unfold table_of. cbn [mbind option_bind].
    rewrite <- Htab by lia. exact (sd_B _ _ _ _ Hsd).
  - unfold table_of. cbn [mbind option_bind].
    rewrite <- Htab by lia. exact (sd_C _ _ _ _ Hsd).
  - unfold row_table. rewrite length_map, length_seq. reflexivity.
  - unfold row_table. rewrite length_map, length_seq. reflexivity.
  - unfold row_table. rewrite length_map, length_seq. reflexivity.
  - intros p0. apply Hrow. lia.
  - intros p0. apply Hrow. lia.
  - intros p0. apply Hrow. lia.
  - apply row_table_nodup.
  - intros p0. apply row_table_disjoint; lia.
  - intros p0. apply row_table_disjoint; lia.
Qed.

(** A store into the accumulator keeps the matrices well formed. *)
Lemma store2_wf (A B C : ptr) (n : Z) (tA tB tC : list ptr) (st : store)
    (i j : Z) (v : float) :
  wf A B C n tA tB tC st -> 0 <= i < n -> 0 <= j < n ->
  exists st', store2 st C i j v = Some st' /\ wf A B C n tA tB tC st'.
Proof.
  intros Hwf Hi Hj. destruct Hwf.
  destruct (cell_at n st C tC i j)
    as (rc & rowc & cv & HtC & Hrc & Hlc & Hcv & HlrC & HldC); auto.
  exists (Store (tables st) (<[rc := <[Z.to_nat j := v]> rowc]> (rows st))).
  split.
  - unfold store2. rewrite HlrC. cbn [mbind option_bind]. unfold store_d.
    cbn [mbind option_bind]. rewrite Hrc. cbn [mbind option_bind].
    rewrite idx_ok by lia. cbn [mbind option_bind].
    destruct (Nat.ltb_spec (Z.to_nat j) (length rowc)); [reflexivity|lia].
  - constructor; auto; intros p Hp;
      apply (row_at_insert n st rc rowc); auto; apply length_insert.
Qed.

Lemma clear_cell_ok (A B C : ptr) (n : Z) (tA tB tC : list ptr) (p0 : proc)
    (i j : Z) (p : proc) :
  0 <= i < n -> 0 <= j < n ->
  (exists m, p = set_mem p0 m /\ wf A B C n tA tB tC m) ->
  exists p', MxmBloc.clear_cell C i j p = Done p'
             /\ exists m, p' = set_mem p0 m /\ wf A B C n tA tB tC m.
Proof.
  intros Hi Hj (m & -> & Hwf).
  destruct (store2_wf A B C n tA tB tC m i j 0%float Hwf Hi Hj)
    as (m' & Hst & Hwf').
  unfold MxmBloc.clear_cell. cbn [mem set_mem]. rewrite Hst.
  rewrite bind_lift_Some. eexists. split; [reflexivity|].
  exists m'. split; [reflexivity|exact Hwf'].
Qed.

(** Clearing the accumulator returns and touches nothing but memory. *)
Lemma clear_ok (A B C : ptr) (n : Z) (tA tB tC : list ptr) (p : proc) :
  n <= INT_MAX -> wf A B C n tA tB tC (mem p) ->
  exists m, MxmBloc.clear C n p = Done (set_mem p m)
            /\ wf A B C n tA tB tC m.
Proof.
  intros Hn Hwf. unfold MxmBloc.clear.
  rewrite for_loop_range by (unfold INT_MIN; lia).
  rewrite range_upto. unfold upto.
  destruct (run_list_count
              (fun _ p' => exists m, p' = set_mem p m /\ wf A B C n tA tB tC m)
              (fun i => for_loop 0 n 1 (MxmBloc.clear_cell C i))
              Z.of_nat (Z.to_nat n) 0%nat p)
    as (p' & Hrun & m & -> & Hm).
  - exists (mem p). split; [symmetry; apply set_mem_id|exact Hwf].
  - intros i p1 Hi Hp1.
    rewrite for_loop_range by (unfold INT_MIN; lia).
    rewrite range_upto. unfold upto.
    apply (run_list_count
             (fun _ p' => exists m, p' = set_mem p m /\ wf A B C n tA tB tC m)
             (MxmBloc.clear_cell C (Z.of_nat i))
             Z.of_nat (Z.to_nat n) 0%nat p1 Hp1).
    intros j p2 Hj Hp2.
    apply (clear_cell_ok A B C n tA tB tC p); [lia|lia|exact Hp2].
  - exists m. split; [exact Hrun|exact Hm].
Qed.

(** Either multiplier, run on the memory of the process, returns and keeps
    the matrices well formed. *)
Lemma multiply_ok (A B C : ptr) (n : Z) (tA tB tC : list ptr) (bs : Z)
    (p : proc) :
  1 <= bs -> n - 1 + bs <= INT_MAX ->
  wf A B C n tA tB tC (mem p) ->
  exists m,
    MxmBloc.on_mem (if bs =? 512
                    then MxmBloc.matrix_multiply_standard A B C n
                    else MxmBloc.matrix_multiply_blocked A B C n bs) p
    = Done (set_mem p m)
    /\ wf A B C n tA tB tC m.
Proof.
  intros Hbs Hn Hwf. unfold MxmBloc.on_mem.
  destruct (bs =? 512).
  - rewrite standard_is_trace by lia.
    destruct (exec_spec A B C n tA tB tC (trace_standard n)
                (trace_standard_inb n) (mem p) Hwf) as (m & Hex & Hwf' & _).
    rewrite Hex. exists m. split; [reflexivity|exact Hwf'].
  - rewrite blocked_is_trace by lia.
    destruct (exec_spec A B C n tA tB tC (trace_blocked n bs)
                (trace_blocked_inb n bs Hbs) (mem p) Hwf)
      as (m & Hex & Hwf' & _).
    rewrite Hex. exists m. split; [reflexivity|exact Hwf'].
Qed.

(** The elapsed time, in milliseconds, between the [c]-th call of
    [clock()] and the next one. *)
Definition timed (w : world) (c : nat) : float :=
  elapsed_ms (seconds w (clock_value w c)) (seconds w (clock_value w (S c))).

(** The arguments of the line a configuration prints, from its block size,
    its elapsed time and the baseline. *)
Definition row_args (total_bytes block_size : Z) (msec standard_time : float)
    : list arg :=
  [AInt block_size; ADouble msec;
   ADouble (MxmBloc.bandwidth total_bytes msec);
   ADouble (standard_time / msec)%float].

Arguments timed : simpl never.
Arguments row_args : simpl never.

Lemma sweep_step_ok (w : world) (A B C : ptr) (N tb : Z)
    (tA tB tC : list ptr) (bss : list Z) (t : nat) (bs : Z) (p : proc)
    (std : float) :
  bss !! t = Some bs -> 1 <= bs -> N - 1 + bs <= INT_MAX ->
  wf A B C N tA tB tC (mem p) ->
  let msec := timed w (n_clock p) in
  let std' := if (bs =? 512) || (Z.of_nat t =? 0) then msec else std in
  let line := Print MxmBloc.row_format (row_args tb bs msec std') in
  exists m,
    MxmBloc.sweep_step w A B C N tb bss (Z.of_nat t) (p, std)
    = Done (Proc m (n_malloc p) (S (S (n_clock p))) (rng_seed p)
                 (rng_draws p) (stdout p ++ [line]) (file p ++ [line]),
            std')
    /\ wf A B C N tA tB tC m.
Proof.
  intros Hbs H1 Hn Hwf msec std' line.
  unfold MxmBloc.sweep_step.
  rewrite idx_ok by lia. cbn [mbind option_bind].
  rewrite Nat2Z.id, Hbs. rewrite bind_lift_Some.
  destruct (clear_ok A B C N tA tB tC p) as (m1 & Hcl & Hwf1); [lia|exact Hwf|].
  rewrite Hcl. cbn [mbind outcome_bind].
  unfold clock. cbn [mem n_malloc n_clock rng_seed rng_draws stdout file
                     set_mem].
  match goal with
  | |- context [MxmBloc.on_mem ?c ?q] =>
      destruct (multiply_ok A B C N tA tB tC bs q H1 Hn) as (m2 & Hmul & Hwf2);
        [exact Hwf1|]
  end.
  rewrite Hmul. cbn [mbind outcome_bind].
  cbn [mem n_malloc n_clock rng_seed rng_draws stdout file set_mem
       printf fprintf].
  exists m2. split; [reflexivity|exact Hwf2].
Qed.

(** The lines of the first [t] configurations of a sweep whose first call
    of [clock()] is the [c0]-th of the process. *)
Definition sweep_row (w : world) (tb : Z) (bss : list Z) (c0 i : nat)
    : print :=
  Print MxmBloc.row_format
        (row_args tb (default 0 (bss !! i)) (timed w (c0 + 2 * i))
                  (timed w c0)).

Definition sweep_rows (w : world) (tb : Z) (bss : list Z) (c0 t : nat)
    : list print :=
  map (sweep_row w tb bss c0) (seq 0 t).

Arguments sweep_row : simpl never.
Arguments sweep_rows : simpl never.

Lemma sweep_rows_S (w : world) (tb : Z) (bss : list Z) (c0 t : nat) :
  sweep_rows w tb bss c0 (S t)
  = sweep_rows w tb bss c0 t ++ [sweep_row w tb bss c0 t].
Proof. unfold sweep_rows. rewrite seq_S, map_app. reflexivity. Qed.

(** A block size the sweep times with the blocked routine. *)
Definition swept (N bs : Z) : Prop :=
  1 <= bs /\ bs <> 512 /\ N - 1 + bs <= INT_MAX.

Lemma sweep_ok (w : world) (A B C : ptr) (N tb : Z) (tA tB tC : list ptr)
    (bss : list Z) (p : proc) :
  Forall (swept N) bss -> Z.of_nat (length bss) < INT_MAX ->
  wf A B C N tA tB tC (mem p) ->
  exists m std,
    MxmBloc.sweep w A B C N tb bss p
    = Done (Proc m (n_malloc p) (n_clock p + 2 * length bss) (rng_seed p)
                 (rng_draws p)
                 (stdout p ++ sweep_rows w tb bss (n_clock p) (length bss))
                 (file p ++ sweep_rows w tb bss (n_clock p) (length bss)),
            std)
    /\ wf A B C N tA tB tC m.
Proof.
  intros Hbss Hlen Hwf. unfold MxmBloc.sweep.
  rewrite for_loop_range by (unfold INT_MIN; lia).
  rewrite range_upto. unfold upto. rewrite Nat2Z.id.
  set (c0 := n_clock p).
  destruct (run_list_count
              (fun t (s : proc * float) =>
                 (exists m,
                    wf A B C N tA tB tC m
                    /\ s.1 = Proc m (n_malloc p) (c0 + 2 * t) (rng_seed p)
                               (rng_draws p)
                               (stdout p ++ sweep_rows w tb bss c0 t)
                               (file p ++ sweep_rows w tb bss c0 t))
                 /\ ((0 < t)%nat -> s.2 = timed w c0))
              (MxmBloc.sweep_step w A B C N tb bss)
              Z.of_nat (length bss) 0%nat (p, 0%float))
    as ([q std] & Hrun & (m & Hm & Hq) & _).
  - split; [|intros H; inversion H].
    exists (mem p). split; [exact Hwf|]. cbn [fst].
    unfold sweep_rows. cbn [seq map]. rewrite !app_nil_r.
    replace (c0 + 2 * 0)%nat with (n_clock p) by (unfold c0; lia).
    destruct p; reflexivity.
  - intros t [q std] Ht ((m & Hm & Hq) & Hstd). cbn [fst snd] in Hq, Hstd.
    destruct (lookup_lt_is_Some_2 bss t) as [bs Hbs]; [lia|].
    assert (Hsw : swept N bs).
    { eapply Forall_lookup_1; eassumption. }
    destruct Hsw as (H1 & H512 & HN).
    destruct (sweep_step_ok w A B C N tb tA tB tC bss t bs q std Hbs H1 HN)
      as (m' & Hstep & Hm').
    { rewrite Hq. exact Hm. }
    rewrite Hstep. eexists. split; [reflexivity|].
    destruct (Z.eqb_spec bs 512) as [|_]; [contradiction|].
    cbn [orb fst snd].
    assert (Hbase : (if Z.of_nat t =? 0 then timed w (n_clock q) else std)
                    = timed w c0).
    { destruct (Z.eqb_spec (Z.of_nat t) 0) as [H0|H0].
      - rewrite Hq. cbn [n_clock]. f_equal. lia.
      - apply Hstd. lia. }
    split; [|intros _; exact Hbase].
    exists m'. split; [exact Hm'|].
    rewrite Hbase, !sweep_rows_S. unfold sweep_row. rewrite Hbs.
    rewrite Hq. cbn [n_malloc n_clock rng_seed rng_draws stdout file default].
    rewrite !app_assoc.
    replace (c0 + 2 * S t)%nat with (S (S (c0 + 2 * t))) by lia.
    reflexivity.
  - cbn [fst] in Hq. exists m, std. rewrite Hrun, Hq.
    split; [reflexivity|exact Hm].
Qed.

Lemma standard_ok (A B C : ptr) (n : Z) (tA tB tC : list ptr) (p : proc) :
  n <= INT_MAX -> wf A B C n tA tB tC (mem p) ->
  exists m,
    MxmBloc.on_mem (MxmBloc.matrix_multiply_standard A B C n) p
    = Done (set_mem p m)
    /\ wf A B C n tA tB tC m.
Proof.
  intros Hn Hwf. unfold MxmBloc.on_mem.
  rewrite standard_is_trace by lia.
  destruct (exec_spec A B C n tA tB tC (trace_standard n)
              (trace_standard_inb n) (mem p) Hwf) as (m & Hex & Hwf' & _).
  rewrite Hex. exists m. split; [reflexivity|exact Hwf'].
Qed.

(** The line of the run recorded after the sweep. *)
Definition standard_row (w : world) (tb : Z) (c : nat) : print :=
  Print MxmBloc.standard_format
        [ADouble (timed w c); ADouble (MxmBloc.bandwidth tb (timed w c));
         ADouble 1].

Arguments standard_row : simpl never.

Lemma final_run_ok (w : world) (A B C : ptr) (N tb : Z)
    (tA tB tC : list ptr) (p : proc) :
  N <= INT_MAX -> wf A B C N tA tB tC (mem p) ->
  exists m,
    MxmBloc.final_run w A B C N tb p
    = Done (Proc m (n_malloc p) (S (S (n_clock p))) (rng_seed p)
                 (rng_draws p)
                 (stdout p ++ [standard_row w tb (n_clock p)])
                 (file p ++ [standard_row w tb (n_clock p)]))
    /\ wf A B C N tA tB tC m.
Proof.
  intros HN Hwf. unfold MxmBloc.final_run.
  destruct (clear_ok A B C N tA tB tC p) as (m1 & Hcl & Hwf1); [lia|exact Hwf|].
  rewrite Hcl. cbn [mbind outcome_bind].
  unfold clock. cbn [mem n_malloc n_clock rng_seed rng_draws stdout file
                     set_mem].
  match goal with
  | |- context [MxmBloc.on_mem ?c ?q] =>
      destruct (standard_ok A B C N tA tB tC q HN) as (m2 & Hmul & Hwf2);
        [exact Hwf1|]
  end.
  rewrite Hmul. cbn [mbind outcome_bind].
  cbn [mem n_malloc n_clock rng_seed rng_draws stdout file set_mem
       printf fprintf].
  exists m2. split; [reflexivity|exact Hwf2].
Qed.

Lemma row_table_lookup (k n i : nat) :
  (i < n)%nat -> row_table k n !! i = Some (Some (block (3 + 3 * i + k))).
Proof.
  intros Hi. unfold row_table.
  rewrite list_lookup_fmap, lookup_seq_lt by assumption. reflexivity.
Qed.

(** The pointer tables of the three matrices are those of the driver. *)
Definition tables_at (n : nat) (m : store) : Prop :=
  forall k, (k < 3)%nat -> tables m !! block k = Some (row_table k n).

Lemma free_row_tables (n a : nat) (p : proc) (m0 : store) :
  (3 <= a)%nat -> tables_at n m0 ->
  exists m, free (Some (block a)) (set_mem p m0) = set_mem p m
            /\ tables_at n m.
Proof.
  intros Ha Ht. unfold free. eexists. split; [reflexivity|].
  intros k Hk. cbn [tables].
  rewrite lookup_delete_ne by (apply block_ne; lia). apply Ht, Hk.
Qed.

Lemma release_ok (N : Z) (p : proc) :
  0 <= N <= INT_MAX -> tables_at (Z.to_nat N) (mem p) ->
  exists m,
    MxmBloc.release (Some (block 0)) (Some (block 1)) (Some (block 2)) N p
    = Done (set_mem p m).
Proof.
  intros HN Ht. unfold MxmBloc.release.
  rewrite for_loop_range by (unfold INT_MIN; lia).
  rewrite range_upto. unfold upto.
  set (n := Z.to_nat N) in *.
  match goal with
  | |- context [run_list (map ?body _) p] =>
      destruct (run_list_count
                  (fun _ q => exists m, q = set_mem p m /\ tables_at n m)
                  body Z.of_nat n 0%nat p)
        as (q & Hrun & m & -> & Hm)
  end.
  - exists (mem p). split; [symmetry; apply set_mem_id|exact Ht].
  - intros i q Hi (m & -> & Hm). cbn [mem set_mem].
    assert (Hrow : forall k, (k < 3)%nat ->
              load_row m (Some (block k)) (Z.of_nat i)
              = Some (Some (block (3 + 3 * i + k)))).
    { intros k Hk. rewrite (load_row_table m _ (row_table k n)); [|apply Hm, Hk|lia].
      rewrite Nat2Z.id. apply row_table_lookup. lia. }
    rewrite (Hrow 0%nat), (Hrow 1%nat), (Hrow 2%nat) by lia.
    rewrite !bind_lift_Some.
    destruct (free_row_tables n (3 + 3 * i + 0) p m)
      as (m1 & -> & Hm1); [lia|exact Hm|].
    destruct (free_row_tables n (3 + 3 * i + 1) p m1)
      as (m2 & -> & Hm2); [lia|exact Hm1|].
    destruct (free_row_tables n (3 + 3 * i + 2) p m2)
      as (m3 & -> & Hm3); [lia|exact Hm2|].
    eexists. split; [reflexivity|]. exists m3. split; [reflexivity|exact Hm3].
  - rewrite Hrun. cbn [mbind outcome_bind]. unfold free. cbn [mem set_mem].
    eexists. reflexivity.
Qed.

Lemma total_bytes_eq (N : Z) :
  0 <= N -> 32 * (N * N * N) <= LLONG_MAX ->
  MxmBloc.total_bytes N = Some (32 * (N * N * N)).
Proof.
  intros HN Hb. unfold MxmBloc.total_bytes, MxmBloc.total_ops.
  assert (H1 : 0 <= N * N) by nia.
  assert (H2 : 0 <= N * N * N) by nia.
  assert (H3 : N <= N * N * N \/ N = 0) by nia.
  assert (H4 : N * N <= N * N * N \/ N = 0) by nia.
  unfold ll_mul, LLONG_MIN, LLONG_MAX in *.
  destruct (Z.leb_spec (-9223372036854775808) (4 * N)); [|lia].
  destruct (Z.leb_spec (4 * N) 9223372036854775807); [|nia].
  cbn [andb mbind option_bind].
  destruct (Z.leb_spec (-9223372036854775808) (4 * N * N)); [|nia].
  destruct (Z.leb_spec (4 * N * N) 9223372036854775807); [|nia].
  cbn [andb mbind option_bind].
  destruct (Z.leb_spec (-9223372036854775808) (4 * N * N * N)); [|nia].
  destruct (Z.leb_spec (4 * N * N * N) 9223372036854775807); [|nia].
  cbn [andb mbind option_bind]. f_equal. unfold to_ll.
  rewrite (Z.mod_small (4 * N * N * N)) by nia.
  rewrite Z.mod_small by nia.
  destruct (Z.ltb_spec (4 * N * N * N * 8) (2 ^ 63)); nia.
Qed.

(** What a complete run prints and writes. *)
Definition header_out (N : Z) : list print :=
  [Print "Block Matrix Multiplication Performance Analysis\n" [];
   Print "Matrix size: %d x %d\n\n" [AInt N; AInt N];
   Print "Block Size, Time (msec), Bandwidth (MB/s), Speedup\n" []].

Definition header_file (N : Z) : list print :=
  [Print "Block Matrix Multiplication Performance Analysis\n" [];
   Print "Matrix size: %d x %d\n\n" [AInt N; AInt N];
   Print "Block Size, Time (msec), Bandwidth (MB/s), Speedup vs Standard\n"
         []].

Definition saved : print :=
  Print "\nResults saved to mxm_bloc_results.txt\n" [].

Lemma run_ok (w : world) (N : Z) (bss : list Z) :
  0 <= N <= INT_MAX -> 32 * (N * N * N) <= LLONG_MAX ->
  Forall (swept N) bss -> Z.of_nat (length bss) < INT_MAX ->
  (forall a, (a < 3 + 3 * Z.to_nat N)%nat -> malloc_succeeds w a = true) ->
  fopen_succeeds w = true ->
  let tb := 32 * (N * N * N) in
  let rows := sweep_rows w tb bss 0 (length bss) in
  let last := standard_row w tb (2 * length bss) in
  exists p,
    MxmBloc.run w N bss = Done (0, p)
    /\ stdout p = header_out N ++ rows ++ [last; saved]
    /\ file p = header_file N ++ rows ++ [last].
Proof.
  intros HN Hb Hbss Hlen Hok Hopen tb rows last.
  destruct (prepare_ok w N) as (q & p & Ha & Hs & Hp); [lia|assumption|].
  pose proof (seeding_ready w N _ p Hok Hp) as Hready.
  unfold MxmBloc.run. rewrite Ha. cbn [mbind outcome_bind].
  rewrite Hs. cbn [mbind outcome_bind]. rewrite Hopen.
  rewrite total_bytes_eq by lia. rewrite bind_lift_Some. fold tb.
  match goal with
  | |- context [MxmBloc.sweep w ?A ?B ?C N tb bss ?p0] =>
      destruct (sweep_ok w A B C N tb (row_table 0 (Z.to_nat N))
                  (row_table 1 (Z.to_nat N)) (row_table 2 (Z.to_nat N))
                  bss p0 Hbss Hlen)
        as (m1 & std & Hsw & Hwf1); [exact Hready|]; rewrite Hsw
  end.
  cbn [mbind outcome_bind].
  match goal with
  | |- context [MxmBloc.final_run w ?A ?B ?C N tb ?p0] =>
      destruct (final_run_ok w A B C N tb (row_table 0 (Z.to_nat N))
                  (row_table 1 (Z.to_nat N)) (row_table 2 (Z.to_nat N)) p0)
        as (m2 & Hfin & Hwf2); [lia | exact Hwf1 |]; rewrite Hfin
  end.
  cbn [mbind outcome_bind].
  match goal with
  | |- context [MxmBloc.release ?A ?B ?C N ?p0] =>
      destruct (release_ok N p0) as (m3 & Hrel); [lia | |]; [|rewrite Hrel]
  end.
  - intros k Hk. cbn [mem printf].
    destruct Hwf2 as [HA HB HC _ _ _ _ _ _ _ _ _].
    unfold table_of in HA, HB, HC. cbn [mbind option_bind] in HA, HB, HC.
    destruct k as [|[|[|k]]]; [assumption..|lia].
  - cbn [mbind outcome_bind]. eexists. split; [reflexivity|].
    cbn [stdout file set_mem printf fprintf n_clock].
    rewrite (sd_stdout _ _ _ _ Hp), (sd_file _ _ _ _ Hp), (sd_clock _ _ _ _ Hp).
    cbn [app Nat.add]. fold rows. fold last.
    split.
    + unfold header_out, saved. cbn [app]. rewrite <- app_assoc. reflexivity.
    + reflexivity.
Qed.

Lemma sweep_rows_lookup (w : world) (tb : Z) (bss : list Z) (c0 t : nat)
    (bs : Z) :
  bss !! t = Some bs ->
  sweep_rows w tb bss c0 (length bss) !! t
  = Some (Print MxmBloc.row_format
                (row_args tb bs (timed w (c0 + 2 * t)) (timed w c0))).
Proof.
  intros Hbs. pose proof (lookup_lt_Some _ _ _ Hbs) as Hlt.
  unfold sweep_rows.
  rewrite list_lookup_fmap, lookup_seq_lt by assumption.
  rewrite Nat.add_0_l. unfold sweep_row.
  cbn [fmap option_fmap option_map]. rewrite Hbs. reflexivity.
Qed.

Lemma length_sweep_rows (w : world) (tb : Z) (bss : list Z) (c0 t : nat) :
  length (sweep_rows w tb bss c0 t) = t.
Proof. unfold sweep_rows. rewrite length_map, length_seq. reflexivity. Qed.

(** The line of the configuration number [t] in a report that starts with
    three lines of headers. *)
Lemma report_lookup (h rows rest : list print) (t : nat) (r : print) :
  length h = 3%nat -> rows !! t = Some r ->
  (h ++ rows ++ rest) !! (3 + t)%nat = Some r.
Proof.
  intros Hh Hr. rewrite lookup_app_r by lia.
  replace (3 + t - length h)%nat with t by lia.
  rewrite lookup_app_l by (eapply lookup_lt_Some; eassumption). exact Hr.
Qed.

(** The line after the [T] lines of the configurations. *)
Lemma report_lookup_last (h rows rest : list print) (T : nat) (r : print) :
  length h = 3%nat -> length rows = T -> rest !! 0%nat = Some r ->
  (h ++ rows ++ rest) !! (3 + T)%nat = Some r.
Proof.
  intros Hh Hrows Hr. rewrite lookup_app_r by lia.
  replace (3 + T - length h)%nat with T by lia.
  rewrite lookup_app_r by lia.
  replace (T - length rows)%nat with 0%nat by lia. exact Hr.
Qed.

(** ** Quotients of doubles *)




(** ** The speedup column *)



(** A machine on which the processor time is not available: [clock()]
    returns [(clock_t)(-1)] at every call. *)
Definition no_clock : world :=
  World 1000000
        (fun _ => -1)
        (fun _ => true)
        (fun _ _ => 0.5%float)
        (fun _ _ => None)
        (fun seed t => (seed * 1103515245 + 12345 * Z.of_nat (S t)) mod 32768)
        true.


(** ** Magnitudes of doubles

    The operations of binary64, as [SpecFloat] defines them, on operands
    far from the overflow and underflow thresholds: the result is finite
    and its exponent is known up to two units. *)

Lemma fexp_normal (mu : Z) :
  -1074 <= mu - 53 -> fexp prec emax mu = mu - 53.
Proof. intros H. unfold fexp, emin, prec, emax. lia. Qed.

Lemma digits2_pos_bounds (m : positive) :
  2 ^ (Z.pos (digits2_pos m) - 1) <= Z.pos m < 2 ^ Z.pos (digits2_pos m).
Proof.
  induction m as [m IH|m IH|]; cbn [digits2_pos].
  - rewrite Pos2Z.inj_succ, Z.pow_succ_r by lia.
    replace (Z.succ (Z.pos (digits2_pos m)) - 1)
      with (Z.succ (Z.pos (digits2_pos m) - 1)) by lia.
    rewrite Z.pow_succ_r by lia. lia.
  - rewrite Pos2Z.inj_succ, Z.pow_succ_r by lia.
    replace (Z.succ (Z.pos (digits2_pos m)) - 1)
      with (Z.succ (Z.pos (digits2_pos m) - 1)) by lia.
    rewrite Z.pow_succ_r by lia. lia.
  - simpl. lia.
Qed.

Lemma digits2_pos_unique (m : positive) (d : Z) :
  2 ^ (d - 1) <= Z.pos m < 2 ^ d -> Z.pos (digits2_pos m) = d.
Proof.
  intros [Hlo Hhi]. pose proof (digits2_pos_bounds m) as [Hlo' Hhi'].
  assert (Hd : 0 < d).
  { destruct (Z.ltb_spec 0 d) as [|Hle]; [assumption|].
    assert (2 ^ d <= 2 ^ 0) by (apply Z.pow_le_mono_r; lia).
    simpl in *. lia. }
  destruct (Z.lt_trichotomy (Z.pos (digits2_pos m)) d) as [Hlt|[Heq|Hgt]].
  - assert (2 ^ Z.pos (digits2_pos m) <= 2 ^ (d - 1))
      by (apply Z.pow_le_mono_r; lia). lia.
  - exact Heq.
  - assert (2 ^ d <= 2 ^ (Z.pos (digits2_pos m) - 1))
      by (apply Z.pow_le_mono_r; lia). lia.
Qed.

Lemma digits2_pos_le (m : positive) (d : Z) :
  Z.pos m < 2 ^ d -> Z.pos (digits2_pos m) <= d.
Proof.
  intros Hhi. pose proof (digits2_pos_bounds m) as [Hlo' _].
  destruct (Z.leb_spec (Z.pos (digits2_pos m)) d) as [|Hgt]; [assumption|].
  assert (0 <= d \/ d < 0) as [Hd|Hd] by lia.
  - assert (2 ^ d <= 2 ^ (Z.pos (digits2_pos m) - 1))
      by (apply Z.pow_le_mono_r; lia). lia.
  - rewrite Z.pow_neg_r in Hhi by assumption. lia.
Qed.

Lemma shr_1_m (mrs : shr_record) :
  0 <= shr_m mrs -> shr_m (shr_1 mrs) = shr_m mrs / 2.
Proof.
  destruct mrs as [m r s]. cbn [shr_m]. intros Hm.
  destruct m as [|[p|p|]|p]; cbn [shr_1 shr_m]; try lia; try reflexivity.
  - rewrite Pos2Z.inj_xI. apply Z.div_unique with 1; lia.
  - rewrite Pos2Z.inj_xO. apply Z.div_unique with 0; lia.
Qed.

Lemma iter_shr_m (p : positive) :
  forall mrs, 0 <= shr_m mrs ->
  shr_m (SpecFloat.iter_pos shr_1 p mrs) = shr_m mrs / 2 ^ Z.pos p.
Proof.
  assert (Hnn : forall a k, 0 <= a -> 0 <= a / 2 ^ Z.pos k).
  { intros a k Ha. apply Z.div_pos; [assumption|]. apply Z.pow_pos_nonneg; lia. }
  assert (Hpos : forall k, 0 < 2 ^ Z.pos k).
  { intros k. apply Z.pow_pos_nonneg; lia. }
  induction p as [p IH|p IH|]; intros mrs Hm; cbn [SpecFloat.iter_pos].
  - rewrite IH, IH, shr_1_m; try assumption.
    + rewrite !Z.div_div by (try apply Hpos; lia).
      f_equal. rewrite (Pos2Z.inj_xI p).
      replace (2 * Z.pos p + 1) with (1 + Z.pos p + Z.pos p) by lia.
      rewrite !Z.pow_add_r by lia. lia.
    + rewrite shr_1_m by assumption. apply Z.div_pos; lia.
    + rewrite IH.
      * apply Hnn. rewrite shr_1_m by assumption. apply Z.div_pos; lia.
      * rewrite shr_1_m by assumption. apply Z.div_pos; lia.
  - rewrite IH, IH; try assumption.
    + rewrite !Z.div_div by (try apply Hpos; lia).
      f_equal. rewrite (Pos2Z.inj_xO p).
      replace (2 * Z.pos p) with (Z.pos p + Z.pos p) by lia.
      rewrite !Z.pow_add_r by lia. lia.
    + rewrite IH by assumption. apply Hnn. assumption.
  - rewrite shr_1_m by assumption. reflexivity.
Qed.

(** A right shift divides the mantissa and adds to the exponent. *)
Lemma shr_spec (mrs : shr_record) (e n : Z) :
  0 <= n -> 0 <= shr_m mrs ->
  exists mrs', shr mrs e n = (mrs', e + n)
               /\ shr_m mrs' = shr_m mrs / 2 ^ n.
Proof.
  intros Hn Hm. destruct n as [|p|p]; [| |lia].
  - exists mrs. cbn [shr]. rewrite Z.add_0_r, Z.pow_0_r, Z.div_1_r. auto.
  - eexists. cbn [shr]. split; [reflexivity|]. apply iter_shr_m, Hm.
Qed.

Lemma shr_record_of_loc_m (m : Z) (l : location) :
  shr_m (shr_record_of_loc m l) = m.
Proof. destruct l as [|[]]; reflexivity. Qed.

Lemma round_nearest_even_bounds (m : Z) (l : location) :
  m <= round_nearest_even m l <= m + 1.
Proof.
  unfold round_nearest_even. destruct l as [|[]]; try lia.
  destruct (Z.even m); lia.
Qed.
(** Rounding a positive mantissa of at least 53 digits whose magnitude
    [mu] is in the normal range: a finite result, of exponent [mu - 53] or
    [mu - 52]. *)
Lemma binary_round_aux_normal (sx : bool) (mx : positive) (ex : Z)
    (lx : location) :
  let mu := Z.pos (digits2_pos mx) + ex in
  ex <= mu - 53 -> -1074 <= mu - 53 -> mu <= 1023 ->
  exists m e,
    binary_round_aux prec emax sx (Z.pos mx) ex lx = S754_finite sx m e
    /\ mu - 53 <= e <= mu - 52.
Proof.
  intros mu Hex Hlo Hhi.
  pose proof (digits2_pos_bounds mx) as [Hdlo Hdhi].
  set (d := Z.pos (digits2_pos mx)) in *.
  set (n := mu - 53 - ex).
  assert (Hn : 0 <= n) by (unfold n; lia).
  assert (Hd : d = 53 + n) by (unfold n, mu; lia).
  unfold binary_round_aux, shr_fexp. cbn [Zdigits2]. fold d. fold mu.
  rewrite fexp_normal by assumption. fold n.
  destruct (shr_spec (shr_record_of_loc (Z.pos mx) lx) ex n)
    as (mrs & Hshr & Hm); [assumption | rewrite shr_record_of_loc_m; lia |].
  rewrite Hshr. rewrite shr_record_of_loc_m in Hm.
  replace (ex + n) with (mu - 53) by (unfold n; lia).
  assert (Hpow : 0 < 2 ^ n) by (apply Z.pow_pos_nonneg; lia).
  assert (Hm1 : 2 ^ 52 <= shr_m mrs).
  { rewrite Hm. apply Z.div_le_lower_bound; [assumption|].
    replace (2 ^ n * 2 ^ 52) with (2 ^ (d - 1)); [assumption|].
    rewrite Hd. replace (53 + n - 1) with (n + 52) by lia.
    apply Z.pow_add_r; lia. }
  assert (Hm2 : shr_m mrs < 2 ^ 53).
  { rewrite Hm. apply Z.div_lt_upper_bound; [assumption|].
    replace (2 ^ n * 2 ^ 53) with (2 ^ d); [assumption|].
    rewrite Hd. replace (53 + n) with (n + 53) by lia.
    apply Z.pow_add_r; lia. }
  pose proof (round_nearest_even_bounds (shr_m mrs) (loc_of_shr_record mrs))
    as Hr.
  set (mr := round_nearest_even (shr_m mrs) (loc_of_shr_record mrs)) in *.
  destruct mr as [|q|q] eqn:Hq; [lia| |lia].
  destruct (Z.eq_dec (Z.pos q) (2 ^ 53)) as [Htop|Hlow].
  - assert (Hdq : Z.pos (digits2_pos q) = 54).
    { apply digits2_pos_unique. change (54 - 1) with 53.
      rewrite Htop. split; [lia|]. apply Z.pow_lt_mono_r; lia. }
    cbn [Zdigits2]. rewrite Hdq.
    replace (fexp prec emax (54 + (mu - 53)) - (mu - 53)) with 1
      by (rewrite fexp_normal; lia).
    cbn [shr shr_record_of_loc SpecFloat.iter_pos].
    destruct (Z.leb_spec (mu - 53 + 1) (emax - prec)) as [|Hbad];
      [| unfold emax, prec in Hbad; lia].
    destruct q as [q|q|]; cbn [shr_1 shr_m orb].
    + exfalso. rewrite Pos2Z.inj_xI in Htop.
      change (2 ^ 53) with (2 * 2 ^ 52) in Htop. lia.
    + eexists _, _. split; [reflexivity|]. lia.
    + exfalso. change (2 ^ 53) with (2 * 2 ^ 52) in Htop. lia.
  - assert (Hdq : Z.pos (digits2_pos q) = 53).
    { apply digits2_pos_unique. change (53 - 1) with 52. lia. }
    cbn [Zdigits2]. rewrite Hdq.
    replace (fexp prec emax (53 + (mu - 53)) - (mu - 53)) with 0
      by (rewrite fexp_normal; lia).
    cbn [shr shr_record_of_loc shr_m].
    destruct (Z.leb_spec (mu - 53) (emax - prec)) as [|Hbad];
      [| unfold emax, prec in Hbad; lia].
    eexists _, _. split; [reflexivity|]. lia.
Qed.
Lemma iter_xO (d m : positive) :
  Z.pos (Pos.iter xO m d) = Z.pos m * 2 ^ Z.pos d.
Proof.
  induction d as [|d IH] using Pos.peano_ind.
  - cbn [Pos.iter]. rewrite Pos2Z.inj_xO. change (2 ^ 1) with 2. lia.
  - rewrite Pos.iter_succ, Pos2Z.inj_xO, IH, Pos2Z.inj_succ,
      Z.pow_succ_r by lia. lia.
Qed.

Lemma digits2_pos_shift (d m : positive) :
  Z.pos (digits2_pos (Pos.iter xO m d)) = Z.pos (digits2_pos m) + Z.pos d.
Proof.
  apply digits2_pos_unique. rewrite iter_xO.
  pose proof (digits2_pos_bounds m) as [Hlo Hhi].
  assert (Hpow : 0 < 2 ^ Z.pos d) by (apply Z.pow_pos_nonneg; lia).
  replace (Z.pos (digits2_pos m) + Z.pos d - 1)
    with (Z.pos (digits2_pos m) - 1 + Z.pos d) by lia.
  rewrite !Z.pow_add_r by lia. nia.
Qed.

(** Normalising a positive integer mantissa whose magnitude [mu] is in the
    normal range. *)
Lemma binary_round_normal (sx : bool) (mx : positive) (ex : Z) :
  let mu := Z.pos (digits2_pos mx) + ex in
  -1021 <= mu <= 1023 ->
  exists m e,
    binary_round prec emax sx mx ex = S754_finite sx m e
    /\ mu - 53 <= e <= mu - 52.
Proof.
  intros mu Hmu. unfold binary_round, shl_align. fold mu.
  rewrite fexp_normal by lia.
  destruct (mu - 53 - ex) as [|d|d] eqn:Hd.
  - apply (binary_round_aux_normal sx mx ex loc_Exact); fold mu; lia.
  - apply (binary_round_aux_normal sx mx ex loc_Exact); fold mu; lia.
  - pose proof (digits2_pos_shift d mx) as Hs.
    destruct (binary_round_aux_normal sx (Pos.iter xO mx d) (mu - 53)
                loc_Exact) as (m & e & Hr & He); try (rewrite Hs; lia).
    exists m, e. split; [exact Hr|]. rewrite Hs in He. lia.
Qed.
Lemma digits2_pos_ge (m : positive) (d : Z) :
  2 ^ (d - 1) <= Z.pos m -> d <= Z.pos (digits2_pos m).
Proof.
  intros Hlo. pose proof (digits2_pos_bounds m) as [_ Hhi].
  destruct (Z.leb_spec d (Z.pos (digits2_pos m))) as [|Hgt]; [assumption|].
  assert (2 ^ Z.pos (digits2_pos m) <= 2 ^ (d - 1))
    by (apply Z.pow_le_mono_r; lia). lia.
Qed.

(** The mantissa of a valid double above the subnormal range has 53
    digits. *)
Lemma valid_digits (s : bool) (m : positive) (e : Z) :
  valid_binary (S754_finite s m e) = true -> -1074 < e ->
  Z.pos (digits2_pos m) = 53.
Proof.
  intros Hv He. cbn [SpecFloat.valid_binary] in Hv. unfold bounded in Hv.
  apply andb_prop in Hv as [Hc _]. unfold canonical_mantissa in Hc.
  apply Z.eqb_eq in Hc. unfold fexp, emin, prec, emax in Hc. lia.
Qed.

Lemma SFmul_normal (sx sy : bool) (mx my : positive) (ex ey : Z) :
  Z.pos (digits2_pos mx) = 53 -> Z.pos (digits2_pos my) = 53 ->
  -1074 <= ex + ey + 52 -> ex + ey + 106 <= 1023 ->
  exists m e,
    SFmul prec emax (S754_finite sx mx ex) (S754_finite sy my ey)
    = S754_finite (xorb sx sy) m e
    /\ ex + ey + 52 <= e <= ex + ey + 54.
Proof.
  intros Hdx Hdy Hlo Hhi. cbn [SFmul].
  pose proof (digits2_pos_bounds mx) as [Hx1 Hx2].
  pose proof (digits2_pos_bounds my) as [Hy1 Hy2].
  rewrite Hdx in Hx1, Hx2. rewrite Hdy in Hy1, Hy2.
  change (53 - 1) with 52 in Hx1, Hy1.
  assert (Hd1 : 105 <= Z.pos (digits2_pos (mx * my))).
  { apply digits2_pos_ge. rewrite Pos2Z.inj_mul.
    change (2 ^ (105 - 1)) with (2 ^ 52 * 2 ^ 52). nia. }
  assert (Hd2 : Z.pos (digits2_pos (mx * my)) <= 106).
  { apply digits2_pos_le. rewrite Pos2Z.inj_mul.
    change (2 ^ 106) with (2 ^ 53 * 2 ^ 53). nia. }
  destruct (binary_round_aux_normal (xorb sx sy) (mx * my) (ex + ey)
              loc_Exact) as (m & e & Hr & He); try lia.
  exists m, e. split; [exact Hr|lia].
Qed.

Lemma SFdiv_normal (sx sy : bool) (mx my : positive) (ex ey : Z) :
  Z.pos (digits2_pos mx) = 53 -> Z.pos (digits2_pos my) = 53 ->
  -1074 <= ex - ey - 53 -> ex - ey + 1 <= 1023 ->
  exists m e,
    SFdiv prec emax (S754_finite sx mx ex) (S754_finite sy my ey)
    = S754_finite (xorb sx sy) m e
    /\ ex - ey - 53 <= e <= ex - ey - 51.
Proof.
  intros Hdx Hdy Hlo Hhi. cbn [SFdiv].
  pose proof (digits2_pos_bounds mx) as [Hx1 Hx2].
  pose proof (digits2_pos_bounds my) as [Hy1 Hy2].
  rewrite Hdx in Hx1, Hx2. rewrite Hdy in Hy1, Hy2.
  change (53 - 1) with 52 in Hx1, Hy1.
  unfold SFdiv_core_binary. cbn [Zdigits2]. rewrite Hdx, Hdy.
  replace (53 + ex - (53 + ey)) with (ex - ey) by lia.
  rewrite fexp_normal by lia.
  replace (Z.min (ex - ey - 53) (ex - ey)) with (ex - ey - 53) by lia.
  replace (ex - ey - (ex - ey - 53)) with 53 by lia.
  cbv iota beta zeta.
  rewrite Z.shiftl_mul_pow2 by lia.
  set (a := Z.pos mx * 2 ^ 53).
  assert (Hde : Z.div_eucl a (Z.pos my) = (a / Z.pos my, a mod Z.pos my)).
  { unfold Z.div, Z.modulo. destruct (Z.div_eucl a (Z.pos my)); reflexivity. }
  rewrite Hde.
  assert (Hq1 : 2 ^ 52 <= a / Z.pos my).
  { apply Z.div_le_lower_bound; [lia|]. unfold a.
    change (2 ^ 53) with (2 * 2 ^ 52) in *. nia. }
  assert (Hq2 : a / Z.pos my < 2 ^ 54).
  { apply Z.div_lt_upper_bound; [lia|]. unfold a.
    change (2 ^ 54) with (2 * 2 ^ 53). nia. }
  destruct (a / Z.pos my) as [|q|q] eqn:Hq; [lia| |lia].
  assert (Hd1 : 53 <= Z.pos (digits2_pos q))
    by (apply digits2_pos_ge; change (53 - 1) with 52; lia).
  assert (Hd2 : Z.pos (digits2_pos q) <= 54)
    by (apply digits2_pos_le; lia).
  destruct (binary_round_aux_normal (xorb sx sy) q (ex - ey - 53)
              (new_location (Z.pos my) (a mod Z.pos my)))
    as (m & e & Hr & He); try lia.
  exists m, e. split; [exact Hr|lia].
Qed.
(** The exponent of a double that is a zero or a finite number. *)
Definition exponent_in (a b : Z) (x : spec_float) : Prop :=
  match x with
  | S754_zero _ => True
  | S754_finite _ _ e => a <= e <= b
  | _ => False
  end.

Lemma shl_align_fst (mx : positive) (ex ez : Z) :
  ez <= ex ->
  Z.pos (fst (shl_align mx ex ez)) = Z.pos mx * 2 ^ (ex - ez).
Proof.
  intros Hle. unfold shl_align.
  destruct (ez - ex) as [|d|d] eqn:Hd.
  - replace (ex - ez) with 0 by lia. cbn [fst]. lia.
  - lia.
  - cbn [fst]. rewrite iter_xO. f_equal. f_equal. lia.
Qed.

Lemma binary_normalize_normal (D ez hi : Z) :
  Z.abs D < 2 ^ (hi - ez) -> -1022 <= ez -> ez <= hi <= 1023 ->
  exponent_in (ez - 52) (hi - 52) (binary_normalize prec emax D ez false).
Proof.
  intros HD Hez Hhi.
  destruct D as [|d|d]; cbn [binary_normalize exponent_in]; [exact I| |].
  - assert (Hd : Z.pos (digits2_pos d) <= hi - ez)
      by (apply digits2_pos_le; lia).
    destruct (binary_round_normal false d ez) as (m & e & -> & He); [lia|].
    cbn [exponent_in]. lia.
  - assert (Hd : Z.pos (digits2_pos d) <= hi - ez)
      by (apply digits2_pos_le; lia).
    destruct (binary_round_normal true d ez) as (m & e & -> & He); [lia|].
    cbn [exponent_in]. lia.
Qed.

Lemma SFsub_normal (sx sy : bool) (mx my : positive) (ex ey a b : Z) :
  Z.pos (digits2_pos mx) = 53 -> Z.pos (digits2_pos my) = 53 ->
  a <= ex <= b -> a <= ey <= b -> -1022 <= a -> b <= 969 ->
  exponent_in (a - 52) (b + 2)
    (SFsub prec emax (S754_finite sx mx ex) (S754_finite sy my ey)).
Proof.
  intros Hdx Hdy Hex Hey Ha Hb. cbn [SFsub].
  pose proof (digits2_pos_bounds mx) as [_ Hx2].
  pose proof (digits2_pos_bounds my) as [_ Hy2].
  rewrite Hdx in Hx2. rewrite Hdy in Hy2.
  set (ez := Z.min ex ey).
  rewrite !shl_align_fst by (unfold ez; lia).
  assert (Hpx : Z.pos mx * 2 ^ (ex - ez) < 2 ^ (53 + b - ez)).
  { replace (53 + b - ez) with (53 + (b - ex) + (ex - ez)) by lia.
    rewrite (Z.pow_add_r 2 (53 + (b - ex))) by (unfold ez; lia).
    assert (2 ^ 53 <= 2 ^ (53 + (b - ex))) by (apply Z.pow_le_mono_r; lia).
    assert (0 < 2 ^ (ex - ez)) by (apply Z.pow_pos_nonneg; unfold ez; lia).
    nia. }
  assert (Hpy : Z.pos my * 2 ^ (ey - ez) < 2 ^ (53 + b - ez)).
  { replace (53 + b - ez) with (53 + (b - ey) + (ey - ez)) by lia.
    rewrite (Z.pow_add_r 2 (53 + (b - ey))) by (unfold ez; lia).
    assert (2 ^ 53 <= 2 ^ (53 + (b - ey))) by (apply Z.pow_le_mono_r; lia).
    assert (0 < 2 ^ (ey - ez)) by (apply Z.pow_pos_nonneg; unfold ez; lia).
    nia. }
  assert (Hpow : 2 ^ (54 + b - ez) = 2 * 2 ^ (53 + b - ez)).
  { replace (54 + b - ez) with (Z.succ (53 + b - ez)) by lia.
    apply Z.pow_succ_r. unfold ez. lia. }
  set (Mx := Z.pos mx * 2 ^ (ex - ez)) in *.
  set (My := Z.pos my * 2 ^ (ey - ez)) in *.
  assert (HMx : 0 < Mx).
  { unfold Mx. apply Z.mul_pos_pos; [lia|].
    apply Z.pow_pos_nonneg; unfold ez; lia. }
  assert (HMy : 0 < My).
  { unfold My. apply Z.mul_pos_pos; [lia|].
    apply Z.pow_pos_nonneg; unfold ez; lia. }
  assert (HD : Z.abs (cond_Zopp sx Mx - cond_Zopp sy My)
               < 2 ^ (54 + b - ez)).
  { rewrite Hpow. unfold cond_Zopp. destruct sx, sy; lia. }
  pose proof (binary_normalize_normal
                (cond_Zopp sx Mx - cond_Zopp sy My) ez (54 + b) HD) as Hn.
  assert (Hez : a <= ez <= b) by (unfold ez; lia).
  destruct (binary_normalize prec emax (cond_Zopp sx Mx - cond_Zopp sy My)
              ez false); cbn [exponent_in] in *;
    try (apply Hn; lia); try exact I.
  assert (ez - 52 <= e <= 54 + b - 52) by (apply Hn; lia). lia.
Qed.
(** A double that is a zero or a finite number of exponent in [a, b], and
    a positive finite double of exponent in [a, b]. *)
Definition sized (a b : Z) (x : float) : Prop :=
  exponent_in a b (Prim2SF x).

Definition positive_sized (a b : Z) (x : float) : Prop :=
  match Prim2SF x with
  | S754_finite false _ e => a <= e <= b
  | _ => False
  end.

Lemma of_uint63_sized (n : int) : sized (-52) 11 (of_uint63 n).
Proof.
  unfold sized. rewrite of_uint63_spec.
  pose proof (Uint63.to_Z_bounded n) as Hn.
  change wB with (2 ^ 63) in Hn.
  apply (binary_normalize_normal (to_Z n) 0 63); [|lia..].
  rewrite Z.abs_eq by lia. change (63 - 0) with 63. lia.
Qed.

Lemma of_uint63_positive (n : int) :
  0 < to_Z n -> positive_sized (-52) 11 (of_uint63 n).
Proof.
  intros Hpos. unfold positive_sized. rewrite of_uint63_spec.
  pose proof (Uint63.to_Z_bounded n) as Hn.
  change wB with (2 ^ 63) in Hn.
  destruct (to_Z n) as [|d|d]; [lia| |lia]. cbn [binary_normalize].
  assert (Hd : Z.pos (digits2_pos d) <= 63) by (apply digits2_pos_le; lia).
  destruct (binary_round_normal false d 0) as (m & e & -> & He); lia.
Qed.

Lemma SFopp_exponent (a b : Z) (x : spec_float) :
  exponent_in a b x -> exponent_in a b (SFopp x).
Proof. destruct x; cbn [SFopp exponent_in]; auto. Qed.

Lemma positive_sized_sized (a b : Z) (x : float) :
  positive_sized a b x -> sized a b x.
Proof.
  unfold positive_sized, sized.
  destruct (Prim2SF x) as [| | |[] m e]; cbn [exponent_in]; tauto.
Qed.

Lemma sized_weaken (a b a' b' : Z) (x : float) :
  sized a b x -> a' <= a -> b <= b' -> sized a' b' x.
Proof.
  unfold sized. destruct (Prim2SF x); cbn [exponent_in]; auto. lia.
Qed.

Lemma div_sized (x y : float) (a1 b1 a2 b2 : Z) :
  sized a1 b1 x -> positive_sized a2 b2 y ->
  -1074 < a1 -> -1074 < a2 ->
  -1074 <= a1 - b2 - 53 -> b1 - a2 + 1 <= 1023 ->
  sized (a1 - b2 - 53) (b1 - a2 - 51) (x / y).
Proof.
  unfold sized, positive_sized. intros Hx Hy Ha1 Ha2 Hlo Hhi.
  rewrite FloatAxioms.div_spec.
  pose proof (Prim2SF_valid x) as Hvx. pose proof (Prim2SF_valid y) as Hvy.
  destruct (Prim2SF x) as [sx|sx| |sx mx ex];
    destruct (Prim2SF y) as [sy|sy| |[] my ey];
    cbn [exponent_in] in *; try contradiction; try exact I.
  destruct (SFdiv_normal sx false mx my ex ey) as (m & e & Hr & He);
    try (eapply valid_digits; [eassumption|lia]); try lia.
  unfold SF64div. rewrite Hr. cbn [exponent_in]. lia.
Qed.

Lemma div_positive (x y : float) (a1 b1 a2 b2 : Z) :
  positive_sized a1 b1 x -> positive_sized a2 b2 y ->
  -1074 < a1 -> -1074 < a2 ->
  -1074 <= a1 - b2 - 53 -> b1 - a2 + 1 <= 1023 ->
  positive_sized (a1 - b2 - 53) (b1 - a2 - 51) (x / y).
Proof.
  unfold positive_sized. intros Hx Hy Ha1 Ha2 Hlo Hhi.
  rewrite FloatAxioms.div_spec.
  pose proof (Prim2SF_valid x) as Hvx. pose proof (Prim2SF_valid y) as Hvy.
  destruct (Prim2SF x) as [sx|sx| |[] mx ex];
    destruct (Prim2SF y) as [sy|sy| |[] my ey]; try contradiction.
  destruct (SFdiv_normal false false mx my ex ey) as (m & e & Hr & He);
    try (eapply valid_digits; [eassumption|lia]); try lia.
  unfold SF64div. rewrite Hr. cbn [xorb]. lia.
Qed.

Lemma mul_sized (x y : float) (a1 b1 a2 b2 : Z) :
  sized a1 b1 x -> positive_sized a2 b2 y ->
  -1074 < a1 -> -1074 < a2 ->
  -1074 <= a1 + a2 + 52 -> b1 + b2 + 106 <= 1023 ->
  sized (a1 + a2 + 52) (b1 + b2 + 54) (x * y).
Proof.
  unfold sized, positive_sized. intros Hx Hy Ha1 Ha2 Hlo Hhi.
  rewrite FloatAxioms.mul_spec.
  pose proof (Prim2SF_valid x) as Hvx. pose proof (Prim2SF_valid y) as Hvy.
  destruct (Prim2SF x) as [sx|sx| |sx mx ex];
    destruct (Prim2SF y) as [sy|sy| |[] my ey];
    cbn [exponent_in] in *; try contradiction; try exact I.
  destruct (SFmul_normal sx false mx my ex ey) as (m & e & Hr & He);
    try (eapply valid_digits; [eassumption|lia]); try lia.
  unfold SF64mul. rewrite Hr. cbn [exponent_in]. lia.
Qed.

Lemma mul_positive (x y : float) (a1 b1 a2 b2 : Z) :
  positive_sized a1 b1 x -> positive_sized a2 b2 y ->
  -1074 < a1 -> -1074 < a2 ->
  -1074 <= a1 + a2 + 52 -> b1 + b2 + 106 <= 1023 ->
  positive_sized (a1 + a2 + 52) (b1 + b2 + 54) (x * y).
Proof.
  unfold positive_sized. intros Hx Hy Ha1 Ha2 Hlo Hhi.
  rewrite FloatAxioms.mul_spec.
  pose proof (Prim2SF_valid x) as Hvx. pose proof (Prim2SF_valid y) as Hvy.
  destruct (Prim2SF x) as [sx|sx| |[] mx ex];
    destruct (Prim2SF y) as [sy|sy| |[] my ey]; try contradiction.
  destruct (SFmul_normal false false mx my ex ey) as (m & e & Hr & He);
    try (eapply valid_digits; [eassumption|lia]); try lia.
  unfold SF64mul. rewrite Hr. cbn [xorb]. lia.
Qed.

Lemma sub_sized (x y : float) (a b : Z) :
  sized a b x -> sized a b y -> -1022 <= a -> b <= 969 ->
  sized (a - 52) (b + 2) (x - y).
Proof.
  unfold sized. intros Hx Hy Ha Hb.
  rewrite FloatAxioms.sub_spec.
  pose proof (Prim2SF_valid x) as Hvx. pose proof (Prim2SF_valid y) as Hvy.
  destruct (Prim2SF x) as [sx|sx| |sx mx ex];
    destruct (Prim2SF y) as [sy|sy| |sy my ey];
    cbn [exponent_in] in *; try contradiction.
  - unfold SF64sub. cbn [SFsub]. destruct sx, sy; exact I.
  - unfold SF64sub. cbn [SFsub exponent_in]. lia.
  - unfold SF64sub. cbn [SFsub exponent_in]. lia.
  - apply SFsub_normal; try lia;
      (eapply valid_digits; [eassumption|lia]).
Qed.

Lemma positive_of_sized (x : float) (a b : Z) :
  sized a b x -> (0 <? x)%float = true -> positive_sized a b x.
Proof.
  unfold sized, positive_sized. rewrite FloatAxioms.ltb_spec.
  change (Prim2SF 0) with (S754_zero false).
  destruct (Prim2SF x) as [s|s| |[] m e]; cbn; auto; discriminate.
Qed.

(** A positive finite double is above zero and below infinity. *)
Lemma positive_sized_finite (x : float) (a b : Z) :
  positive_sized a b x ->
  (0 <? x)%float = true /\ (x <? infinity)%float = true.
Proof.
  unfold positive_sized. rewrite !FloatAxioms.ltb_spec.
  change (Prim2SF 0) with (S754_zero false).
  change (Prim2SF infinity) with (S754_infinity false).
  destruct (Prim2SF x) as [s|s| |[] m e]; cbn; tauto.
Qed.

(** ** The bandwidth column *)

Lemma double_of_Z_sized (z : Z) : sized (-52) 11 (double_of_Z z).
Proof.
  unfold double_of_Z. destruct (z <? 0); [|apply of_uint63_sized].
  unfold sized. rewrite FloatAxioms.opp_spec.
  apply SFopp_exponent, of_uint63_sized.
Qed.

Lemma double_of_Z_positive (z : Z) :
  0 < z < 2 ^ 63 -> positive_sized (-52) 11 (double_of_Z z).
Proof.
  intros Hz. unfold double_of_Z. destruct (Z.ltb_spec z 0); [lia|].
  apply of_uint63_positive. rewrite Uint63.of_Z_spec.
  change wB with (2 ^ 63). rewrite Z.mod_small; lia.
Qed.

Lemma seconds_sized (w : world) (c : Z) :
  0 < CLOCKS_PER_SEC w < 2 ^ 63 -> sized (-116) 12 (seconds w c).
Proof.
  intros Hcps. unfold seconds.
  apply (div_sized _ _ (-52) 11 (-52) 11); try lia.
  - apply double_of_Z_sized.
  - apply double_of_Z_positive, Hcps.
Qed.

Lemma thousand_sized : positive_sized (-43) (-43) 1000.
Proof. unfold positive_sized. vm_compute. split; discriminate. Qed.

Lemma elapsed_ms_sized (start end_ : float) :
  sized (-116) 12 start -> sized (-116) 12 end_ ->
  sized (-159) 25 (elapsed_ms start end_).
Proof.
  intros Hs He. unfold elapsed_ms.
  apply (mul_sized _ _ (-168) 14 (-43) (-43)); try lia.
  - apply (sub_sized end_ start (-116) 12); auto; lia.
  - apply thousand_sized.
Qed.

(** Every elapsed time the driver measures is a zero or a finite double
    between [2 ^ -107] and [2 ^ 78] in magnitude. *)
Lemma timed_sized (w : world) (c : nat) :
  0 < CLOCKS_PER_SEC w < 2 ^ 63 -> sized (-159) 25 (timed w c).
Proof.
  intros Hcps. unfold timed. apply elapsed_ms_sized; apply seconds_sized, Hcps.
Qed.

Lemma bandwidth_positive (tb : Z) (msec : float) :
  0 < tb < 2 ^ 63 -> sized (-159) 25 msec -> (0 <? msec)%float = true ->
  (0 <? MxmBloc.bandwidth tb msec)%float = true
  /\ (MxmBloc.bandwidth tb msec <? infinity)%float = true.
Proof.
  intros Htb Hsz Hpos. unfold MxmBloc.bandwidth.
  apply (positive_sized_finite _ (-185) 131).
  apply (div_positive _ _ (-121) 130 (-52) 11); try lia.
  - apply (mul_positive _ _ (-52) 11 (-121) 65); try lia.
    + apply double_of_Z_positive, Htb.
    + apply (div_positive _ _ (-43) (-43) (-159) 25); try lia.
      * apply thousand_sized.
      * apply positive_of_sized; assumption.
  - apply double_of_Z_positive. vm_compute. split; reflexivity.
Qed.

Lemma bandwidth_formula (N : Z) (msec : float) :
  MxmBloc.bandwidth (32 * (N * N * N)) msec
  = (double_of_Z (4 * (N * N * N) * 8) * (1000 / msec)
     / double_of_Z (1024 * 1024))%float.
Proof.
  unfold MxmBloc.bandwidth.
  replace (4 * (N * N * N) * 8) with (32 * (N * N * N)) by lia. reflexivity.
Qed.

(** C5: when every allocation and [fopen] succeed and [CLOCKS_PER_SEC] is
    a positive [clock_t], the driver returns 0 and the line of each
    configuration of the sweep, and the line of the final unblocked run,
    printed and written to the file, reports next to its elapsed time
    [elapsed_ms] the bandwidth
    [4 * N^3 * sizeof(double) * (1000.0 / elapsed_ms) / (1024 * 1024)],
    computed in doubles in this order; whenever [elapsed_ms > 0] that
    bandwidth is greater than zero and less than infinity. *)
Theorem bandwidth_reported (w : world) (N : Z) (block_sizes : list Z) :
  1 <= N <= INT_MAX -> 32 * (N * N * N) <= LLONG_MAX ->
  Forall (swept N) block_sizes ->
  Z.of_nat (length block_sizes) < INT_MAX ->
  (forall a, (a < 3 + 3 * Z.to_nat N)%nat -> malloc_succeeds w a = true) ->
  fopen_succeeds w = true ->
  0 < CLOCKS_PER_SEC w < 2 ^ 63 ->
  let sizeof_double := 8 in
  let reported (elapsed_ms : float) : float :=
    (double_of_Z (4 * (N * N * N) * sizeof_double) * (1000 / elapsed_ms)
     / double_of_Z (1024 * 1024))%float in
  exists p,
    MxmBloc.run w N block_sizes = Done (0, p)
    /\ (forall t block_size, block_sizes !! t = Some block_size ->
          exists elapsed_ms speedup,
            let line :=
              Print MxmBloc.row_format
                    [AInt block_size; ADouble elapsed_ms;
                     ADouble (reported elapsed_ms); ADouble speedup] in
            elapsed_ms = timed w (2 * t)
            /\ stdout p !! (3 + t)%nat = Some line
            /\ file p !! (3 + t)%nat = Some line
            /\ ((0 <? elapsed_ms)%float = true ->
                (0 <? reported elapsed_ms)%float = true
                /\ (reported elapsed_ms <? infinity)%float = true))
    /\ (exists elapsed_ms,
          let line :=
            Print MxmBloc.standard_format
                  [ADouble elapsed_ms; ADouble (reported elapsed_ms);
                   ADouble 1] in
          elapsed_ms = timed w (2 * length block_sizes)
          /\ stdout p !! (3 + length block_sizes)%nat = Some line
          /\ file p !! (3 + length block_sizes)%nat = Some line
          /\ ((0 <? elapsed_ms)%float = true ->
              (0 <? reported elapsed_ms)%float = true
              /\ (reported elapsed_ms <? infinity)%float = true)).
Proof.
  intros HN Hb Hbss Hlen Hok Hopen Hcps sizeof_double reported.
  destruct (run_ok w N block_sizes) as (p & Hrun & Hout & Hfile);
    [lia | assumption..|].
  assert (Hrep : forall msec,
            reported msec = MxmBloc.bandwidth (32 * (N * N * N)) msec).
  { intros msec. symmetry. apply bandwidth_formula. }
  assert (Htb : 0 < 32 * (N * N * N) < 2 ^ 63).
  { unfold LLONG_MAX in Hb. split; [nia|lia]. }
  assert (Hfin : forall c,
            (0 <? timed w c)%float = true ->
            (0 <? reported (timed w c))%float = true
            /\ (reported (timed w c) <? infinity)%float = true).
  { intros c Hpos. rewrite Hrep.
    apply bandwidth_positive; [exact Htb | apply timed_sized, Hcps | exact Hpos]. }
  exists p. split; [exact Hrun|]. split.
  - intros t bs Hbs.
    exists (timed w (2 * t)), (timed w 0 / timed w (2 * t))%float.
    pose proof (sweep_rows_lookup w (32 * (N * N * N)) block_sizes 0 t bs Hbs)
      as Hl.
    change (0 + 2 * t)%nat with (2 * t)%nat in Hl.
    unfold row_args in Hl. rewrite <- Hrep in Hl.
    split; [reflexivity|]. rewrite Hout, Hfile.
    split; [apply report_lookup; [reflexivity|exact Hl]|].
    split; [apply report_lookup; [reflexivity|exact Hl]|].
    apply Hfin.
  - exists (timed w (2 * length block_sizes)).
    split; [reflexivity|]. rewrite Hout, Hfile.
    split; [|split; [|apply Hfin]].
    + apply report_lookup_last;
        [reflexivity | apply length_sweep_rows |].
      unfold standard_row. rewrite <- Hrep. reflexivity.
    + apply report_lookup_last;
        [reflexivity | apply length_sweep_rows |].
      unfold standard_row. rewrite <- Hrep. reflexivity.
Qed.

Lemma bandwidth_reported_witness :
  let reported (elapsed_ms : float) : float :=
    (double_of_Z (4 * (MxmBloc.N * MxmBloc.N * MxmBloc.N) * 8)
     * (1000 / elapsed_ms) / double_of_Z (1024 * 1024))%float in
  exists p,
    MxmBloc.run calm MxmBloc.N MxmBloc.block_sizes = Done (0, p)
    /\ (forall t block_size,
          MxmBloc.block_sizes !! t = Some block_size ->
          exists elapsed_ms speedup,
            let line :=
              Print MxmBloc.row_format
                    [AInt block_size; ADouble elapsed_ms;
                     ADouble (reported elapsed_ms); ADouble speedup] in
            elapsed_ms = timed calm (2 * t)
            /\ stdout p !! (3 + t)%nat = Some line
            /\ file p !! (3 + t)%nat = Some line
            /\ ((0 <? elapsed_ms)%float = true ->
                (0 <? reported elapsed_ms)%float = true
                /\ (reported elapsed_ms <? infinity)%float = true))
    /\ (exists elapsed_ms,
          let line :=
            Print MxmBloc.standard_format
                  [ADouble elapsed_ms; ADouble (reported elapsed_ms);
                   ADouble 1] in
          elapsed_ms = timed calm (2 * length MxmBloc.block_sizes)
          /\ stdout p !! (3 + length MxmBloc.block_sizes)%nat = Some line
          /\ file p !! (3 + length MxmBloc.block_sizes)%nat = Some line
          /\ ((0 <? elapsed_ms)%float = true ->
              (0 <? reported elapsed_ms)%float = true
              /\ (reported elapsed_ms <? infinity)%float = true)).
Proof.
  apply (bandwidth_reported calm MxmBloc.N MxmBloc.block_sizes).
  - unfold MxmBloc.N, INT_MAX. lia.
  - vm_compute. discriminate.
  - unfold MxmBloc.block_sizes, swept, MxmBloc.N, INT_MAX.
    repeat constructor; lia.
  - vm_compute. reflexivity.
  - intros a _. reflexivity.
  - reflexivity.
  - vm_compute. split; reflexivity.
Defined.

(** On a machine whose clock advances by 2.5 ms between two calls, the
    line of the first configuration. *)
Example calm_first_row :
  sweep_rows calm (2 ^ 32) MxmBloc.block_sizes 0 6 !! 0%nat
  = Some (Print MxmBloc.row_format
                [AInt 8; ADouble 2.5; ADouble 1638400; ADouble 1]).
Proof. vm_compute. reflexivity. Qed.

(** * Further properties of the multipliers *)

(** ** Accumulation *)

(** The multipliers do not clear [C]: on [n] x [n] matrices whose
    accumulator shares no row with [A] or [B], each of them returns with
    every [C[i][j]] equal to its old value to which the products
    [A[i][k] * B[k][j]] were added one after the other for
    [k = 0, ..., n - 1]. *)
Theorem multipliers_accumulate (st : store) (A B C : ptr)
    (n block_size : Z) :
  1 <= block_size -> n - 1 + block_size <= INT_MAX ->
  is_matrix st A n = true -> is_matrix st B n = true ->
  is_matrix st C n = true -> separate st A B C = true ->
  exists st',
    MxmBloc.matrix_multiply_standard A B C n st = Done st'
    /\ MxmBloc.matrix_multiply_blocked A B C n block_size st = Done st'
    /\ forall i j, 0 <= i < n -> 0 <= j < n ->
         exists c, load2 st C i j = Some c
                   /\ load2 st' C i j
                      = Some (accumulate st A B i j (upto n) c).
Proof.
  intros Hbs Hn HA HB HC Hsep.
  destruct (checks_wf st A B C n HA HB HC Hsep) as (tA & tB & tC & Hwf).
  destruct (exec_spec A B C n tA tB tC _
              (trace_blocked_inb n block_size Hbs) st Hwf)
    as (s1 & Hex1 & Hwf1 & Ht1 & Hf1 & _ & _ & Hc1).
  destruct (exec_spec A B C n tA tB tC _ (trace_standard_inb n) st Hwf)
    as (s2 & Hex2 & Hwf2 & Ht2 & Hf2 & _ & _ & Hc2).
  assert (s1 = s2) as <-.
  { apply (store_eq A B C n tA tB tC st); auto.
    intros i j Hi Hj. rewrite Hc1, Hc2 by assumption.
    rewrite ks_blocked, ks_standard by (assumption || lia). reflexivity. }
  exists s1. split; [rewrite standard_is_trace by lia; exact Hex2|].
  split; [rewrite blocked_is_trace by lia; exact Hex1|].
  intros i j Hi Hj.
  pose proof Hwf as Hwf'. destruct Hwf'.
  destruct (cell_at n st C tC i j)
    as (rc & rowc & cv & _ & _ & _ & _ & _ & HldC); auto.
  exists cv. split; [exact HldC|].
  rewrite Hc2, ks_standard, range_upto by assumption.
  unfold rd. rewrite HldC. reflexivity.
Qed.

Lemma multipliers_accumulate_witness :
  exists st',
    MxmBloc.matrix_multiply_standard fixture_B fixture_B fixture_A 4 fixture
    = Done st'
    /\ MxmBloc.matrix_multiply_blocked fixture_B fixture_B fixture_A 4 3
         fixture = Done st'
    /\ forall i j, 0 <= i < 4 -> 0 <= j < 4 ->
         exists c, load2 fixture fixture_A i j = Some c
                   /\ load2 st' fixture_A i j
                      = Some (accumulate fixture fixture_B fixture_B i j
                                (upto 4) c).
Proof.
  apply (multipliers_accumulate fixture fixture_B fixture_B fixture_A 4 3);
    solve [ lia | vm_compute; discriminate | vm_compute; reflexivity ].
Defined.

(** ** Degenerate block sizes and dimensions *)

Lemma trace_blocked_one_tile (n bs : Z) :
  1 <= bs -> n <= bs -> trace_blocked n bs = trace_standard n.
Proof.
  intros Hbs Hn. unfold trace_blocked, trace_standard.
  destruct (Z_lt_le_dec 0 n) as [Hpos|Hneg].
  - assert (Hr : range 0 n bs = [0]).
    { rewrite range_unfold by assumption.
      destruct (Z.ltb_spec 0 n); [|lia].
      rewrite range_empty by lia. reflexivity. }
    assert (Ht : tile 0 bs n = range 0 n 1).
    { unfold tile. rewrite min_spec. f_equal. lia. }
    rewrite Hr. cbn [flat_map]. rewrite !app_nil_r, Ht. reflexivity.
  - rewrite !(range_empty 0 n) by lia. reflexivity.
Qed.

(** A block size that is at least the dimension gives a single tile per
    axis: [matrix_multiply_blocked] then behaves as
    [matrix_multiply_standard] on every store, well formed or not, the
    same multiply-adds being run in the same order. *)
Theorem blocked_with_one_tile (st : store) (A B C : ptr) (n block_size : Z) :
  1 <= block_size -> n <= block_size -> n - 1 + block_size <= INT_MAX ->
  MxmBloc.matrix_multiply_blocked A B C n block_size st
  = MxmBloc.matrix_multiply_standard A B C n st.
Proof.
  intros Hbs Hle Hmax.
  rewrite blocked_is_trace, standard_is_trace by lia.
  rewrite trace_blocked_one_tile by assumption. reflexivity.
Qed.

Lemma blocked_with_one_tile_witness :
  MxmBloc.matrix_multiply_blocked fixture_A fixture_B fixture_C 4 7 fixture
  = MxmBloc.matrix_multiply_standard fixture_A fixture_B fixture_C 4 fixture.
Proof.
  apply (blocked_with_one_tile fixture fixture_A fixture_B fixture_C 4 7);
    [lia | lia | vm_compute; discriminate].
Defined.

(** A loop whose counter does not advance towards its bound never leaves
    through its test. *)
Lemma for_fuel_no_progress {St : Type} (body : Z -> St -> outcome St)
    (hi step : Z) :
  step <= 0 ->
  forall fuel i s s', i < hi -> for_fuel fuel i hi step body s <> Done s'.
Proof.
  intros Hstep. induction fuel as [|fuel IH]; intros i s s' Hi; cbn [for_fuel];
    destruct (Z.ltb_spec i hi); try lia; [discriminate|].
  destruct (body i s) as [s1| |]; cbn [mbind outcome_bind]; try discriminate.
  unfold int_add. destruct (in_int (i + step)); cbn [lift];
    [|discriminate].
  apply IH. lia.
Qed.

Lemma for_fuel_stuck {St : Type} (body : Z -> St -> outcome St)
    (hi i : Z) (s : St) :
  i < hi -> INT_MIN <= i <= INT_MAX -> body i s = Done s ->
  forall fuel, for_fuel fuel i hi 0 body s = Diverge.
Proof.
  intros Hi Hint Hb. induction fuel as [|fuel IH]; cbn [for_fuel];
    destruct (Z.ltb_spec i hi); try lia; [reflexivity|].
  rewrite Hb. cbn [mbind outcome_bind].
  rewrite int_add_ok by lia. rewrite bind_lift_Some, Z.add_0_r. exact IH.
Qed.

Lemma for_loop_first_diverge {St : Type} (body : Z -> St -> outcome St)
    (lo hi step : Z) (s : St) :
  lo < hi -> body lo s = Diverge -> for_loop lo hi step body s = Diverge.
Proof.
  intros Hlt Hb. unfold for_loop.
  destruct (Z.to_nat (hi - lo)) as [|fuel] eqn:Hf; [lia|].
  cbn [for_fuel]. destruct (Z.ltb_spec lo hi); [|lia].
  rewrite Hb. reflexivity.
Qed.

(** Neither multiplier checks its sizes.  With [n <= 0] both return at
    once and leave the store as it is, whatever the three pointers are.
    With [n >= 1] a block size of zero makes the block loops spin: the call
    never returns; and with a negative block size the call does not return
    a result either. *)
Theorem degenerate_sizes (st : store) (A B C : ptr) (n block_size : Z) :
  (n <= 0 ->
   MxmBloc.matrix_multiply_standard A B C n st = Done st
   /\ MxmBloc.matrix_multiply_blocked A B C n block_size st = Done st)
  /\ (1 <= n -> block_size = 0 ->
      MxmBloc.matrix_multiply_blocked A B C n block_size st = Diverge)
  /\ (1 <= n -> block_size < 0 ->
      forall st',
        MxmBloc.matrix_multiply_blocked A B C n block_size st <> Done st').
Proof.
  split; [|split].
  - intros Hn.
    unfold MxmBloc.matrix_multiply_standard, MxmBloc.matrix_multiply_blocked,
      for_loop.
    replace (Z.to_nat (n - 0)) with 0%nat by lia. cbn [for_fuel].
    destruct (Z.ltb_spec 0 n); [lia|]. split; reflexivity.
  - intros Hn ->. unfold MxmBloc.matrix_multiply_blocked.
    apply for_loop_first_diverge; [lia|].
    apply for_loop_first_diverge; [lia|].
    unfold for_loop. apply for_fuel_stuck; [lia | unfold INT_MIN, INT_MAX; lia |].
    unfold MxmBloc.for_tile.
    rewrite int_add_ok by (unfold INT_MIN, INT_MAX; lia).
    rewrite bind_lift_Some, min_spec.
    unfold for_loop. replace (Z.to_nat (Z.min (0 + 0) n - 0)) with 0%nat by lia.
    cbn [for_fuel]. destruct (Z.ltb_spec 0 (Z.min (0 + 0) n)); [lia|reflexivity].
  - intros Hn Hbs st'. unfold MxmBloc.matrix_multiply_blocked, for_loop.
    apply for_fuel_no_progress; lia.
Qed.

Lemma degenerate_sizes_witness :
  (MxmBloc.matrix_multiply_standard None None None 0 fixture = Done fixture
   /\ MxmBloc.matrix_multiply_blocked None None None 0 8 fixture
      = Done fixture)
  /\ MxmBloc.matrix_multiply_blocked fixture_A fixture_B fixture_C 4 0 fixture
     = Diverge
  /\ forall st',
       MxmBloc.matrix_multiply_blocked fixture_A fixture_B fixture_C 4 (-2)
         fixture <> Done st'.
Proof.
  split; [|split].
  - apply (degenerate_sizes fixture None None None 0 8). lia.
  - apply (degenerate_sizes fixture fixture_A fixture_B fixture_C 4 0);
      [lia|reflexivity].
  - apply (degenerate_sizes fixture fixture_A fixture_B fixture_C 4 (-2)); lia.
Defined.

(** ** Null matrices *)

Lemma mac_null (A B C : ptr) (i k j : Z) (st : store) :
  A = None \/ B = None \/ C = None -> mac A B C i k j st = Fault.
Proof.
  intros H. unfold mac.
  destruct (load2 st C i j) as [c|] eqn:HC; cbn [mbind option_bind];
    [|reflexivity].
  destruct (load2 st A i k) as [a|] eqn:HA; cbn [mbind option_bind];
    [|reflexivity].
  destruct (load2 st B k j) as [b|] eqn:HB; cbn [mbind option_bind];
    [|reflexivity].
  destruct H as [->|[->| ->]]; discriminate.
Qed.

Lemma trace_standard_head (n : Z) :
  1 <= n -> exists tl, trace_standard n = (0, 0, 0) :: tl.
Proof.
  intros Hn. unfold trace_standard.
  rewrite (range_unfold 0 n 1) by lia.
  destruct (Z.ltb_spec 0 n); [|lia]. cbn [flat_map app].
  eexists. reflexivity.
Qed.

Lemma trace_blocked_head (n bs : Z) :
  1 <= n -> 1 <= bs -> exists tl, trace_blocked n bs = (0, 0, 0) :: tl.
Proof.
  intros Hn Hbs. unfold trace_blocked.
  rewrite (range_unfold 0 n bs) by lia.
  destruct (Z.ltb_spec 0 n); [|lia].
  assert (Ht : exists tl, tile 0 bs n = 0 :: tl).
  { unfold tile. rewrite range_unfold, min_spec by lia.
    destruct (Z.ltb_spec 0 (Z.min (0 + bs) n)); [|lia]. eexists. reflexivity. }
  destruct Ht as (tl & Ht). cbn [flat_map app]. rewrite Ht.
  cbn [flat_map app]. eexists. reflexivity.
Qed.

(** A null matrix is not detected: with [n >= 1] and [A], [B] or [C]
    null, the first multiply-add of either multiplier dereferences the
    null pointer. *)
Theorem null_matrix_faults (st : store) (A B C : ptr) (n block_size : Z) :
  1 <= n -> 1 <= block_size -> n - 1 + block_size <= INT_MAX ->
  A = None \/ B = None \/ C = None ->
  MxmBloc.matrix_multiply_standard A B C n st = Fault
  /\ MxmBloc.matrix_multiply_blocked A B C n block_size st = Fault.
Proof.
  intros Hn Hbs Hmax Hnull. split.
  - rewrite standard_is_trace by lia.
    destruct (trace_standard_head n Hn) as (tl & ->).
    unfold exec. cbn [map run_list]. unfold run_op. cbn [fst snd].
    rewrite mac_null by assumption. reflexivity.
  - rewrite blocked_is_trace by lia.
    destruct (trace_blocked_head n block_size Hn Hbs) as (tl & ->).
    unfold exec. cbn [map run_list]. unfold run_op. cbn [fst snd].
    rewrite mac_null by assumption. reflexivity.
Qed.

Lemma null_matrix_faults_witness :
  MxmBloc.matrix_multiply_standard fixture_A None fixture_C 4 fixture = Fault
  /\ MxmBloc.matrix_multiply_blocked fixture_A None fixture_C 4 3 fixture
     = Fault.
Proof.
  apply (null_matrix_faults fixture fixture_A None fixture_C 4 3);
    [lia | lia | vm_compute; discriminate | right; left; reflexivity].
Defined.

(** * Further properties of the stride experiment *)

(** ** The scan on any buffer *)

(** The elements a scan of stride [s] adds, from left to right. *)
Definition strided_sum (row : list float) (s : Z) (t : nat) : float :=
  fold_left (fun acc q => (acc + nth (Z.to_nat (Z.of_nat q * s)) row 0)%float)
            (seq 0 t) 0%float.

Lemma strided_sum_S (row : list float) (s : Z) (t : nat) :
  strided_sum row s (S t)
  = (strided_sum row s t + nth (Z.to_nat (Z.of_nat t * s)) row 0)%float.
Proof. unfold strided_sum. rewrite seq_S, fold_left_app. reflexivity. Qed.

Lemma scan_step (st : store) (l : loc) (row : list float) (s : Z) (t : nat)
    (sum : float) :
  rows st !! l = Some row -> 1 <= s ->
  (v ← lift (load st (Some l) (Z.of_nat t * s)); Done (sum + v)%float)
  = match row !! Z.to_nat (Z.of_nat t * s) with
    | Some v => Done (sum + v)%float
    | None => Fault
    end.
Proof.
  intros Hl Hs. unfold load. cbn [mbind option_bind]. rewrite Hl.
  cbn [mbind option_bind]. rewrite idx_ok by nia. cbn [mbind option_bind].
  destruct (row !! Z.to_nat (Z.of_nat t * s)); reflexivity.
Qed.

(** A scan of [N] touches with stride [s >= 1] of a buffer that holds the
    [N] indices [0, s, ..., (N - 1) * s] returns the sum of the elements
    at these indices, added to [0.0] in this order. *)
Theorem scan_sums_strided_elements (st : store) (l : loc) (row : list float)
    (N s : Z) :
  rows st !! l = Some row ->
  1 <= s -> 0 <= N -> N * s + s <= INT_MAX + 1 ->
  (N - 1) * s < Z.of_nat (length row) ->
  Exercice1.scan st (Some l) N s = Done (strided_sum row s (Z.to_nat N)).
Proof.
  intros Hl Hs HN Hmax Hlen. unfold Exercice1.scan.
  rewrite int_mul_ok by (unfold INT_MIN; nia). rewrite bind_lift_Some.
  rewrite for_loop_range by (unfold INT_MIN; lia).
  rewrite range_strided by assumption.
  destruct (run_list_count
              (fun t sum => sum = strided_sum row s t)
              (fun i sum => v ← lift (load st (Some l) i); Done (sum + v)%float)
              (fun t => Z.of_nat t * s) (Z.to_nat N) 0%nat 0%float)
    as (sum & Hrun & Hsum); [reflexivity| |].
  - intros t s0 Ht ->. exists (strided_sum row s (S t)).
    split; [|reflexivity].
    rewrite (scan_step st l row) by assumption.
    destruct (lookup_lt_is_Some_2 row (Z.to_nat (Z.of_nat t * s)))
      as [v Hv]; [nia|].
    rewrite Hv, strided_sum_S. rewrite (nth_lookup_Some _ _ _ _ Hv).
    reflexivity.
  - cbn [Nat.add] in Hsum. subst sum. exact Hrun.
Qed.

Lemma scan_sums_strided_elements_witness :
  Exercice1.scan fixture (Some 10%positive) 2 3
  = Done (strided_sum [1; 2; 3; 4]%float 3 2).
Proof.
  apply (scan_sums_strided_elements fixture 10%positive [1; 2; 3; 4]%float 2 3);
    [reflexivity | lia | lia | vm_compute; discriminate | simpl; lia].
Defined.

(** No bound is checked: a scan of [N >= 1] touches of a null buffer, or
    of a buffer too short to hold index [(N - 1) * s], runs into an access
    outside the buffer. *)
Theorem scan_outside_buffer_faults (st : store) (a : ptr) (N s : Z) :
  1 <= s -> 1 <= N -> N * s + s <= INT_MAX + 1 ->
  a = None
  \/ (exists l row, a = Some l /\ rows st !! l = Some row
                    /\ Z.of_nat (length row) <= (N - 1) * s) ->
  Exercice1.scan st a N s = Fault.
Proof.
  intros Hs HN Hmax Hbad. unfold Exercice1.scan.
  rewrite int_mul_ok by (unfold INT_MIN; nia). rewrite bind_lift_Some.
  rewrite for_loop_range by (unfold INT_MIN; lia).
  rewrite range_strided by lia.
  destruct Hbad as [->|(l & row & -> & Hl & Hlen)].
  - replace (Z.to_nat N) with (S (Z.to_nat N - 1)) by lia.
    cbn [seq map run_list]. reflexivity.
  - set (t0 := Z.to_nat ((Z.of_nat (length row) + s - 1) / s)).
    assert (Hdiv : Z.of_nat (length row) <= Z.of_nat t0 * s
                   /\ Z.of_nat t0 * s < Z.of_nat (length row) + s).
    { unfold t0. rewrite Z2Nat.id by (apply Z.div_pos; lia).
      pose proof (Z.div_mod (Z.of_nat (length row) + s - 1) s ltac:(lia)).
      pose proof (Z.mod_pos_bound (Z.of_nat (length row) + s - 1) s
                    ltac:(lia)).
      nia. }
    apply (run_list_count_fault (fun _ _ => True)) with (t0 := t0).
    + assert (Z.of_nat t0 <= N - 1) by nia. lia.
    + exact I.
    + intros t sum Ht _. rewrite (scan_step st l row) by assumption.
      destruct (lookup_lt_is_Some_2 row (Z.to_nat (Z.of_nat t * s)))
        as [v Hv]; [nia|].
      rewrite Hv. eexists. split; [reflexivity|exact I].
    + intros sum _. rewrite (scan_step st l row) by assumption.
      rewrite lookup_ge_None_2 by nia. reflexivity.
Qed.

Lemma scan_outside_buffer_faults_witness :
  Exercice1.scan fixture (Some 10%positive) 3 2 = Fault.
Proof.
  apply (scan_outside_buffer_faults fixture (Some 10%positive) 3 2);
    [lia | lia | vm_compute; discriminate |].
  right. exists 10%positive, [1; 2; 3; 4]%float.
  split; [reflexivity|]. split; [reflexivity|simpl; lia].
Defined.

(** ** The report of the experiment *)

(** [rate = sizeof(double) * N * (1000.0 / msec) / (1024 * 1024)] *)
Definition stride_rate (N : Z) (msec : float) : float :=
  (double_of_Z (8 * N) * (1000 / msec) / double_of_Z (1024 * 1024))%float.

(** The line of the stride number [t] (the stride [1 + t]). *)
Definition stride_line (w : world) (N : Z) (t : nat) : print :=
  Print "%d, %f, %f, %f\n"
        [AInt (1 + Z.of_nat t); ADouble (ones_sum (Z.to_nat N));
         ADouble (timed w (2 * t));
         ADouble (stride_rate N (timed w (2 * t)))].

Definition stride_header : print :=
  Print "stride , sum, time (msec), rate (MB/s)\n" [].

Arguments stride_line : simpl never.

Lemma experiment_ok (w : world) (N MAX_STRIDE : Z) :
  malloc_succeeds w 0 = true ->
  0 <= N -> 0 <= MAX_STRIDE < INT_MAX ->
  N * MAX_STRIDE + MAX_STRIDE <= INT_MAX ->
  Exercice1.experiment w N MAX_STRIDE start
  = Done (0, Proc (Store ∅ ∅) 1 (2 * Z.to_nat MAX_STRIDE) 1 0
                  (stride_header
                   :: map (stride_line w N) (seq 0 (Z.to_nat MAX_STRIDE)))
                  []).
Proof.
  intros Hm HN HM Hmax. unfold Exercice1.experiment.
  assert (Hprod : 0 <= N * MAX_STRIDE) by (apply Z.mul_nonneg_nonneg; lia).
  rewrite int_mul_ok by (unfold INT_MIN; lia). rewrite bind_lift_Some.
  unfold malloc_doubles. cbn [n_malloc start]. rewrite Hm.
  destruct (Z.leb_spec 0 (N * MAX_STRIDE)); [|lia]. cbn [andb].
  set (junk := map (fresh_doubles w 0) (seq 0 (Z.to_nat (N * MAX_STRIDE)))).
  set (p1 := count_malloc _ _).
  rewrite (init_ones p1 (block 0) junk).
  2: { unfold p1. cbn [mem count_malloc rows]. apply lookup_insert_eq. }
  2: { unfold junk. rewrite length_map, length_seq. reflexivity. }
  2: { lia. }
  cbn [mbind outcome_bind].
  set (ones := replicate (Z.to_nat (N * MAX_STRIDE)) 1%float).
  set (m3 := Store _ _).
  rewrite for_loop_range by (unfold INT_MIN; lia).
  rewrite range_seq. replace (MAX_STRIDE + 1 - 1) with MAX_STRIDE by lia.
  match goal with
  | |- context [run_list (map ?body _) ?p3] =>
      destruct (run_list_count
                  (fun t p =>
                     p = Proc m3 1 (2 * t) 1 0
                           (stride_header :: map (stride_line w N) (seq 0 t))
                           [])
                  body (fun q => 1 + Z.of_nat q) (Z.to_nat MAX_STRIDE)
                  0%nat p3)
        as (p4 & Hrun & ->)
  end.
  - reflexivity.
  - intros t p Ht ->. eexists. split.
    + unfold clock. cbn [mem n_clock n_malloc rng_seed rng_draws stdout file].
      rewrite (scan_ones m3 (block 0) (Z.to_nat (N * MAX_STRIDE)) N
                 (1 + Z.of_nat t)); try nia.
      2: { unfold m3. cbn [rows]. apply lookup_insert_eq. }
      cbn [mbind outcome_bind]. reflexivity.
    + unfold printf.
      cbn [mem n_clock n_malloc rng_seed rng_draws stdout file].
      rewrite seq_S, map_app. cbn [Nat.add map app].
      replace (2 * S t)%nat with (S (S (2 * t))) by lia.
      unfold stride_line at 3, stride_rate, timed. reflexivity.
  - rewrite Hrun. cbn [mbind outcome_bind Nat.add]. unfold free, set_mem.
    cbn [mem n_clock n_malloc rng_seed rng_draws stdout file].
    assert (Ht : delete (block 0) (tables m3) = ∅).
    { unfold m3, p1. cbn [tables rows mem count_malloc start].
      apply delete_empty. }
    assert (Hr : delete (block 0) (rows m3) = ∅).
    { unfold m3, p1. cbn [tables rows mem count_malloc start].
      rewrite insert_insert_eq. apply delete_insert_id, lookup_empty. }
    rewrite Ht, Hr. reflexivity.
Qed.

(** The stride experiment prints its header and then one line per stride
    [s = 1, ..., 20]: the stride, the sum [1000000.0], the elapsed time
    [msec] between the two calls of [clock()] around the scan (the calls
    number [2 (s - 1)] and [2 (s - 1) + 1]) and the rate
    [sizeof(double) * N * (1000.0 / msec) / (1024 * 1024)].  With a
    positive [CLOCKS_PER_SEC], a rate printed next to a positive elapsed
    time is positive and finite. *)
Theorem stride_report (w : world) :
  malloc_succeeds w 0 = true -> 0 < CLOCKS_PER_SEC w < 2 ^ 63 ->
  exists p,
    Exercice1.main w = Done (0, p)
    /\ length (stdout p) = 21%nat
    /\ stdout p !! 0%nat
       = Some (Print "stride , sum, time (msec), rate (MB/s)\n" [])
    /\ forall s, 1 <= s <= Exercice1.MAX_STRIDE ->
         exists msec rate,
           stdout p !! Z.to_nat s
           = Some (Print "%d, %f, %f, %f\n"
                         [AInt s; ADouble 1000000; ADouble msec;
                          ADouble rate])
           /\ msec = timed w (2 * (Z.to_nat s - 1))
           /\ rate = (double_of_Z (8 * 1000000) * (1000 / msec)
                      / double_of_Z (1024 * 1024))%float
           /\ ((0 <? msec)%float = true ->
               (0 <? rate)%float = true /\ (rate <? infinity)%float = true).
Proof.
  intros Hm Hcps. unfold Exercice1.main.
  rewrite experiment_ok
    by (try assumption; unfold Exercice1.MAX_STRIDE, INT_MAX; lia).
  eexists. split; [reflexivity|]. cbn [stdout].
  split; [reflexivity|]. split; [reflexivity|].
  intros s Hs. unfold Exercice1.MAX_STRIDE in Hs.
  exists (timed w (2 * (Z.to_nat s - 1))),
         (stride_rate 1000000 (timed w (2 * (Z.to_nat s - 1)))).
  split; [|split; [reflexivity|split; [reflexivity|]]].
  - replace (Z.to_nat s) with (S (Z.to_nat s - 1)) at 1 by lia.
    rewrite lookup_cons.
    change (Z.to_nat Exercice1.MAX_STRIDE) with 20%nat.
    rewrite list_lookup_fmap, lookup_seq_lt by lia.
    rewrite Nat.add_0_l. cbn [fmap option_fmap option_map].
    unfold stride_line. rewrite ones_sum_million.
    replace (1 + Z.of_nat (Z.to_nat s - 1)) with s by lia. reflexivity.
  - intros Hpos.
    apply (bandwidth_positive (8 * 1000000));
      [vm_compute; split; reflexivity | apply timed_sized, Hcps | exact Hpos].
Qed.

Lemma stride_report_witness :
  exists p,
    Exercice1.main calm = Done (0, p)
    /\ length (stdout p) = 21%nat
    /\ stdout p !! 0%nat
       = Some (Print "stride , sum, time (msec), rate (MB/s)\n" [])
    /\ forall s, 1 <= s <= Exercice1.MAX_STRIDE ->
         exists msec rate,
           stdout p !! Z.to_nat s
           = Some (Print "%d, %f, %f, %f\n"
                         [AInt s; ADouble 1000000; ADouble msec;
                          ADouble rate])
           /\ msec = timed calm (2 * (Z.to_nat s - 1))
           /\ rate = (double_of_Z (8 * 1000000) * (1000 / msec)
                      / double_of_Z (1024 * 1024))%float
           /\ ((0 <? msec)%float = true ->
               (0 <? rate)%float = true /\ (rate <? infinity)%float = true).
Proof.
  apply (stride_report calm); [reflexivity | vm_compute; split; reflexivity].
Defined.

(** When the experiment returns, the buffer, its only allocation, has
    been freed: nothing is left in memory.  [clock()] was called twice per
    stride, [malloc] once, and nothing was written to a file. *)
Theorem stride_experiment_releases_buffer (w : world) :
  malloc_succeeds w 0 = true ->
  exists p,
    Exercice1.main w = Done (0, p)
    /\ mem p = Store ∅ ∅
    /\ n_malloc p = 1%nat
    /\ n_clock p = 40%nat
    /\ file p = [].
Proof.
  intros Hm. unfold Exercice1.main.
  rewrite experiment_ok
    by (try assumption; unfold Exercice1.MAX_STRIDE, INT_MAX; lia).
  eexists. split; [reflexivity|]. repeat split.
Qed.

Lemma stride_experiment_releases_buffer_witness :
  exists p,
    Exercice1.main calm = Done (0, p)
    /\ mem p = Store ∅ ∅
    /\ n_malloc p = 1%nat
    /\ n_clock p = 40%nat
    /\ file p = [].
Proof. apply (stride_experiment_releases_buffer calm). reflexivity. Defined.



(** * Further properties of the driver of the blocked benchmark *)

(** ** What a timed run leaves in memory *)

(** One store into the accumulator. *)
Lemma store2_step (A B C : ptr) (n : Z) (tA tB tC : list ptr) (st : store)
    (i j : Z) (v : float) :
  wf A B C n tA tB tC st -> 0 <= i < n -> 0 <= j < n ->
  exists st',
    store2 st C i j v = Some st'
    /\ wf A B C n tA tB tC st'
    /\ tables st' = tables st
    /\ (forall r, Some r ∉ tC -> rows st' !! r = rows st !! r)
    /\ (forall i' j', 0 <= i' < n -> 0 <= j' < n ->
          load2 st' C i' j'
          = if (i' =? i) && (j' =? j) then Some v else load2 st C i' j').
Proof.
  intros Hwf Hi Hj. destruct Hwf.
  destruct (cell_at n st C tC i j)
    as (rc & rowc & cv & HtC & Hrc & Hlc & Hcv & HlrC & HldC); auto.
  set (new := <[Z.to_nat j := v]> rowc).
  assert (HinC : Some rc ∈ tC)
    by (eapply list_elem_of_lookup_2; eassumption).
  assert (Hnew : length new = length rowc) by apply length_insert.
  exists (Store (tables st) (<[rc := new]> (rows st))).
  split; [|split; [|split; [|split]]].
  - unfold store2. rewrite HlrC. cbn [mbind option_bind]. unfold store_d.
    cbn [mbind option_bind]. rewrite Hrc. cbn [mbind option_bind].
    rewrite idx_ok by lia. cbn [mbind option_bind].
    destruct (Nat.ltb_spec (Z.to_nat j) (length rowc)); [reflexivity|lia].
  - constructor; auto; intros p Hp;
      apply (row_at_insert n st rc rowc new); auto.
  - reflexivity.
  - intros r Hr. cbn [rows]. apply lookup_insert_ne. congruence.
  - intros i' j' Hi' Hj'.
    destruct (cell_at n st C tC i' j')
      as (r' & row' & v' & HtC' & Hr' & Hl' & Hv' & HlrC' & HldC'); auto.
    rewrite load2_unfold.
    change (load_row (Store (tables st) (<[rc := new]> (rows st))) C i')
      with (load_row st C i').
    rewrite HlrC'. cbn [mbind option_bind rows]. rewrite idx_ok by lia.
    cbn [mbind option_bind].
    destruct (Z.eqb_spec i' i) as [->|Hne]; cbn [andb].
    + assert (r' = rc) by congruence. subst r'.
      assert (row' = rowc) by congruence. subst row'.
      rewrite lookup_insert_eq. cbn [mbind option_bind]. unfold new.
      destruct (Z.eqb_spec j' j) as [->|Hnej].
      * apply list_lookup_insert_eq. lia.
      * rewrite list_lookup_insert_ne by lia. rewrite HldC'. exact Hv'.
    + assert (r' <> rc).
      { intros ->. apply Hne.
        pose proof (NoDup_lookup tC _ _ _ wf_nodup0 HtC' HtC). lia. }
      rewrite lookup_insert_ne by congruence. rewrite Hr'.
      cbn [mbind option_bind]. rewrite HldC'. exact Hv'.
Qed.

(** The memory [m'] is the memory [m] in which the cells of [C] that
    [cleared] selects hold [0.0]. *)
Definition cleared_where (A B C : ptr) (n : Z) (tA tB tC : list ptr)
    (cleared : Z -> Z -> bool) (m m' : store) : Prop :=
  wf A B C n tA tB tC m'
  /\ tables m' = tables m
  /\ (forall r, Some r ∉ tC -> rows m' !! r = rows m !! r)
  /\ (forall i j, 0 <= i < n -> 0 <= j < n ->
        load2 m' C i j = if cleared i j then Some 0%float else load2 m C i j).

Lemma clear_cell_step (A B C : ptr) (n : Z) (tA tB tC : list ptr)
    (cleared : Z -> Z -> bool) (m m' : store) (i j : Z) (p : proc) :
  0 <= i < n -> 0 <= j < n ->
  cleared_where A B C n tA tB tC cleared m m' ->
  exists m'',
    MxmBloc.clear_cell C i j (set_mem p m') = Done (set_mem p m'')
    /\ cleared_where A B C n tA tB tC
         (fun i' j' => cleared i' j' || ((i' =? i) && (j' =? j))) m m''.
Proof.
  intros Hi Hj (Hwf & Ht & Hf & Hc).
  destruct (store2_step A B C n tA tB tC m' i j 0%float Hwf Hi Hj)
    as (m'' & Hst & Hwf' & Ht' & Hf' & Hc').
  exists m''. split.
  - unfold MxmBloc.clear_cell. cbn [mem set_mem]. rewrite Hst.
    rewrite bind_lift_Some. reflexivity.
  - split; [exact Hwf'|]. split; [congruence|].
    split; [intros r Hr; rewrite Hf', Hf by assumption; reflexivity|].
    intros i' j' Hi' Hj'. rewrite Hc' by assumption.
    destruct ((i' =? i) && (j' =? j)).
    + rewrite orb_true_r. reflexivity.
    + rewrite orb_false_r. apply Hc; assumption.
Qed.

Lemma cleared_where_ext (A B C : ptr) (n : Z) (tA tB tC : list ptr)
    (c1 c2 : Z -> Z -> bool) (m m' : store) :
  (forall i j, 0 <= i < n -> 0 <= j < n -> c1 i j = c2 i j) ->
  cleared_where A B C n tA tB tC c1 m m' ->
  cleared_where A B C n tA tB tC c2 m m'.
Proof.
  intros Hext (Hwf & Ht & Hf & Hc).
  split; [exact Hwf|]. split; [exact Ht|]. split; [exact Hf|].
  intros i j Hi Hj. rewrite <- Hext by assumption. apply Hc; assumption.
Qed.

(** Clearing sets every cell of the accumulator to [0.0] and touches
    nothing else. *)
Lemma clear_zero (A B C : ptr) (n : Z) (tA tB tC : list ptr) (p : proc) :
  n <= INT_MAX -> wf A B C n tA tB tC (mem p) ->
  exists m,
    MxmBloc.clear C n p = Done (set_mem p m)
    /\ cleared_where A B C n tA tB tC (fun _ _ => true) (mem p) m.
Proof.
  intros Hn Hwf. unfold MxmBloc.clear.
  rewrite for_loop_range by (unfold INT_MIN; lia).
  rewrite range_upto. unfold upto.
  set (W := cleared_where A B C n tA tB tC).
  destruct (run_list_count
              (fun t p' => exists m, p' = set_mem p m
                 /\ W (fun i _ => i <? Z.of_nat t) (mem p) m)
              (fun i => for_loop 0 n 1 (MxmBloc.clear_cell C i))
              Z.of_nat (Z.to_nat n) 0%nat p)
    as (p' & Hrun & m & -> & Hm).
  - exists (mem p). split; [symmetry; apply set_mem_id|].
    split; [exact Hwf|]. split; [reflexivity|]. split; [reflexivity|].
    intros i j Hi Hj.
    destruct (Z.ltb_spec i (Z.of_nat 0)); [lia|reflexivity].
  - intros i p1 Hi (m1 & -> & Hm1).
    rewrite for_loop_range by (unfold INT_MIN; lia).
    rewrite range_upto. unfold upto.
    destruct (run_list_count
                (fun t p' => exists m, p' = set_mem p m
                   /\ W (fun i' j' => (i' <? Z.of_nat i)
                                      || ((i' =? Z.of_nat i)
                                          && (j' <? Z.of_nat t)))
                        (mem p) m)
                (MxmBloc.clear_cell C (Z.of_nat i))
                Z.of_nat (Z.to_nat n) 0%nat (set_mem p m1))
      as (p' & Hrun & m & -> & Hm).
    + exists m1. split; [reflexivity|].
      eapply cleared_where_ext; [|exact Hm1].
      intros i' j' Hi' Hj'.
      destruct (Z.ltb_spec i' (Z.of_nat i)), (Z.eqb_spec i' (Z.of_nat i)),
        (Z.ltb_spec j' (Z.of_nat 0)); cbn; lia || reflexivity.
    + intros j p2 Hj (m2 & -> & Hm2).
      destruct (clear_cell_step A B C n tA tB tC
                  (fun i' j' => (i' <? Z.of_nat i)
                                || ((i' =? Z.of_nat i) && (j' <? Z.of_nat j)))
                  (mem p) m2 (Z.of_nat i) (Z.of_nat j) p)
        as (m3 & Hst & Hm3); [lia | lia | exact Hm2 |].
      exists (set_mem p m3). split; [exact Hst|].
      exists m3. split; [reflexivity|].
      eapply cleared_where_ext; [|exact Hm3].
      intros i' j' Hi' Hj'. cbv beta.
      destruct (Z.ltb_spec i' (Z.of_nat i)), (Z.eqb_spec i' (Z.of_nat i)),
        (Z.ltb_spec j' (Z.of_nat j)), (Z.eqb_spec j' (Z.of_nat j)),
        (Z.ltb_spec j' (Z.of_nat (S j))); cbn; lia || reflexivity.
    + exists (set_mem p m). split; [exact Hrun|].
      exists m. split; [reflexivity|].
      eapply cleared_where_ext; [|exact Hm].
      intros i' j' Hi' Hj'. cbv beta.
      destruct (Z.ltb_spec i' (Z.of_nat i)), (Z.eqb_spec i' (Z.of_nat i)),
        (Z.ltb_spec j' (Z.of_nat (0 + Z.to_nat n))),
        (Z.ltb_spec i' (Z.of_nat (S i))); cbn; lia || reflexivity.
  - exists m. split; [exact Hrun|].
    eapply cleared_where_ext; [|exact Hm].
    intros i' j' Hi' Hj'. cbv beta.
    destruct (Z.ltb_spec i' (Z.of_nat (0 + Z.to_nat n))); [reflexivity|lia].
Qed.

(** The memory [m] holds the matrices of [m0], up to the contents of
    [C]. *)
Definition same_inputs (A B C : ptr) (n : Z) (tA tB tC : list ptr)
    (m0 m : store) : Prop :=
  wf A B C n tA tB tC m
  /\ tables m = tables m0
  /\ (forall r, Some r ∉ tC -> rows m !! r = rows m0 !! r).

(** Clearing brings back the memory in which [C] is zero. *)
Lemma clear_back (A B C : ptr) (n : Z) (tA tB tC : list ptr) (m0 : store)
    (p : proc) :
  n <= INT_MAX -> wf A B C n tA tB tC m0 ->
  (forall i j, 0 <= i < n -> 0 <= j < n -> load2 m0 C i j = Some 0%float) ->
  same_inputs A B C n tA tB tC m0 (mem p) ->
  MxmBloc.clear C n p = Done (set_mem p m0).
Proof.
  intros Hn Hwf0 Hzero (Hwf & Ht & Hf).
  destruct (clear_zero A B C n tA tB tC p Hn Hwf)
    as (m & Hcl & Hwfm & Htm & Hfm & Hcm).
  rewrite Hcl. f_equal. f_equal.
  apply (store_eq A B C n tA tB tC m0); auto.
  - congruence.
  - intros r Hr. rewrite Hfm, Hf by assumption. reflexivity.
  - intros i j Hi Hj. rewrite Hcm, Hzero by assumption. reflexivity.
Qed.

(** On well-formed matrices the multiply-adds of the blocked order give
    the store the unblocked order gives. *)
Lemma exec_blocked_standard (A B C : ptr) (n bs : Z) (tA tB tC : list ptr)
    (st : store) :
  1 <= bs -> wf A B C n tA tB tC st ->
  exec A B C (trace_blocked n bs) st = exec A B C (trace_standard n) st.
Proof.
  intros Hbs Hwf.
  destruct (exec_spec A B C n tA tB tC _ (trace_blocked_inb n bs Hbs) st Hwf)
    as (s1 & Hex1 & Hwf1 & Ht1 & Hf1 & _ & _ & Hc1).
  destruct (exec_spec A B C n tA tB tC _ (trace_standard_inb n) st Hwf)
    as (s2 & Hex2 & Hwf2 & Ht2 & Hf2 & _ & _ & Hc2).
  rewrite Hex1, Hex2. f_equal.
  apply (store_eq A B C n tA tB tC st); auto.
  intros i j Hi Hj. rewrite Hc1, Hc2 by assumption.
  rewrite ks_blocked, ks_standard by (assumption || lia). reflexivity.
Qed.

Lemma multiply_exact (A B C : ptr) (n bs : Z) (tA tB tC : list ptr)
    (m0 M : store) (p : proc) :
  1 <= bs -> n - 1 + bs <= INT_MAX ->
  wf A B C n tA tB tC m0 ->
  exec A B C (trace_standard n) m0 = Done M ->
  mem p = m0 ->
  MxmBloc.on_mem (if bs =? 512
                  then MxmBloc.matrix_multiply_standard A B C n
                  else MxmBloc.matrix_multiply_blocked A B C n bs) p
  = Done (set_mem p M).
Proof.
  intros Hbs Hn Hwf Hex Hp. unfold MxmBloc.on_mem. rewrite Hp.
  destruct (bs =? 512).
  - rewrite standard_is_trace by lia. rewrite Hex. reflexivity.
  - rewrite blocked_is_trace by lia.
    rewrite (exec_blocked_standard A B C n bs tA tB tC) by assumption.
    rewrite Hex. reflexivity.
Qed.

Section TimedRuns.

Variables (w : world) (A B C : ptr) (N tb : Z) (tA tB tC : list ptr).
Variables (m0 M : store).
Hypothesis HN : N <= INT_MAX.
Hypothesis Hwf0 : wf A B C N tA tB tC m0.
Hypothesis Hzero :
  forall i j, 0 <= i < N -> 0 <= j < N -> load2 m0 C i j = Some 0%float.
Hypothesis Hproduct : exec A B C (trace_standard N) m0 = Done M.

Lemma product_same_inputs : same_inputs A B C N tA tB tC m0 M.
Proof.
  destruct (exec_spec A B C N tA tB tC _ (trace_standard_inb N) m0 Hwf0)
    as (s & Hex & Hwf & Ht & Hf & _).
  assert (s = M) by congruence. subst s. split; [exact Hwf|]. split; assumption.
Qed.

Lemma sweep_step_exact (bss : list Z) (t : nat) (bs : Z) (p : proc)
    (std : float) :
  bss !! t = Some bs -> 1 <= bs -> N - 1 + bs <= INT_MAX ->
  same_inputs A B C N tA tB tC m0 (mem p) ->
  let msec := timed w (n_clock p) in
  let std' := if (bs =? 512) || (Z.of_nat t =? 0) then msec else std in
  let line := Print MxmBloc.row_format (row_args tb bs msec std') in
  MxmBloc.sweep_step w A B C N tb bss (Z.of_nat t) (p, std)
  = Done (Proc M (n_malloc p) (S (S (n_clock p))) (rng_seed p)
               (rng_draws p) (stdout p ++ [line]) (file p ++ [line]),
          std').
Proof.
  intros Hbs H1 Hn Hsame msec std' line.
  unfold MxmBloc.sweep_step.
  rewrite idx_ok by lia. cbn [mbind option_bind].
  rewrite Nat2Z.id, Hbs. rewrite bind_lift_Some.
  rewrite (clear_back A B C N tA tB tC m0) by assumption.
  cbn [mbind outcome_bind].
  unfold clock. cbn [mem n_malloc n_clock rng_seed rng_draws stdout file
                     set_mem].
  rewrite (multiply_exact A B C N bs tA tB tC m0 M)
    by (assumption || reflexivity).
  cbn [mbind outcome_bind].
  cbn [mem n_malloc n_clock rng_seed rng_draws stdout file set_mem
       printf fprintf].
  reflexivity.
Qed.

Lemma sweep_exact (bss : list Z) (p : proc) :
  Forall (swept N) bss -> Z.of_nat (length bss) < INT_MAX ->
  mem p = m0 ->
  exists p' std,
    MxmBloc.sweep w A B C N tb bss p = Done (p', std)
    /\ mem p' = (if length bss is O then m0 else M).
Proof.
  intros Hbss Hlen Hp. unfold MxmBloc.sweep.
  rewrite for_loop_range by (unfold INT_MIN; lia).
  rewrite range_upto. unfold upto. rewrite Nat2Z.id.
  destruct (run_list_count
              (fun t (s : proc * float) =>
                 mem s.1 = (if t is O then m0 else M))
              (MxmBloc.sweep_step w A B C N tb bss)
              Z.of_nat (length bss) 0%nat (p, 0%float))
    as ([q std] & Hrun & Hq).
  - exact Hp.
  - intros t [q std] Ht Hq. cbn [fst] in Hq.
    destruct (lookup_lt_is_Some_2 bss t) as [bs Hbs]; [lia|].
    assert (Hsw : swept N bs) by (eapply Forall_lookup_1; eassumption).
    destruct Hsw as (H1 & _ & Hmax).
    rewrite (sweep_step_exact bss t bs q std Hbs H1 Hmax).
    + eexists. split; reflexivity.
    + rewrite Hq. destruct t.
      * split; [exact Hwf0|]. split; reflexivity.
      * apply product_same_inputs.
  - exists q, std. split; [exact Hrun|exact Hq].
Qed.

Lemma final_run_exact (p : proc) :
  same_inputs A B C N tA tB tC m0 (mem p) ->
  exists p', MxmBloc.final_run w A B C N tb p = Done p' /\ mem p' = M.
Proof.
  intros Hsame. unfold MxmBloc.final_run.
  rewrite (clear_back A B C N tA tB tC m0) by assumption.
  cbn [mbind outcome_bind].
  unfold clock. cbn [mem n_malloc n_clock rng_seed rng_draws stdout file
                     set_mem].
  unfold MxmBloc.on_mem. cbn [mem].
  rewrite standard_is_trace, Hproduct by lia.
  cbn [mbind outcome_bind]. eexists. split; reflexivity.
Qed.

End TimedRuns.

(** Every timed run of the driver starts from the same inputs and leaves
    the same memory.  Once the matrices are allocated and seeded, let [M]
    be what [matrix_multiply_standard] makes of that memory: [A] and [B]
    as seeded and every [C[i][j]] the sum over [k] of
    [A[i][k] * B[k][j]].  The memory is exactly [M] after each
    configuration of the sweep, whatever the block sizes before it and
    its own, and again after the final unblocked run. *)
Theorem timed_runs_leave_the_product (w : world) (N tb : Z)
    (block_sizes : list Z) :
  0 <= N <= INT_MAX ->
  (forall a, (a < 3 + 3 * Z.to_nat N)%nat -> malloc_succeeds w a = true) ->
  Forall (swept N) block_sizes ->
  Z.of_nat (length block_sizes) < INT_MAX ->
  let A := Some (block 0) in
  let B := Some (block 1) in
  let C := Some (block 2) in
  exists q p M,
    MxmBloc.allocate w N start = Done (A, B, C, q)
    /\ MxmBloc.seed w A B C N q = Done p
    /\ MxmBloc.matrix_multiply_standard A B C N (mem p) = Done M
    /\ read_matrix M A = Some (seeded w N 0)
    /\ read_matrix M B = Some (seeded w N 1)
    /\ (forall i j, 0 <= i < N -> 0 <= j < N ->
          load2 M C i j
          = Some (accumulate (mem p) A B i j (upto N) 0%float))
    /\ (forall k, (1 <= k <= length block_sizes)%nat ->
          exists p1 std,
            MxmBloc.sweep w A B C N tb (take k block_sizes) p = Done (p1, std)
            /\ mem p1 = M)
    /\ (exists p1 std p2,
          MxmBloc.sweep w A B C N tb block_sizes p = Done (p1, std)
          /\ MxmBloc.final_run w A B C N tb p1 = Done p2
          /\ mem p2 = M).
Proof.
  intros HN Hok Hbss Hlen A B C.
  destruct (prepare_ok w N HN Hok) as (q & p & Ha & Hs & Hp).
  pose proof (seeding_ready w N _ p Hok Hp) as Hready.
  destruct (seeding_read w N p Hok Hp) as (HrA & HrB & HrC).
  set (n := Z.to_nat N) in *.
  assert (Hzero : forall i j, 0 <= i < N -> 0 <= j < N ->
            load2 (mem p) C i j = Some 0%float).
  { intros i j Hi Hj. apply (zeros_load _ _ N); assumption. }
  destruct (exec_spec A B C N _ _ _ _ (trace_standard_inb N) (mem p) Hready)
    as (M & Hex & HwfM & HtM & HfM & _ & _ & HcM).
  assert (Hstd : MxmBloc.matrix_multiply_standard A B C N (mem p) = Done M).
  { rewrite standard_is_trace by lia. exact Hex. }
  assert (Hkept : forall k, (k < 2)%nat ->
            read_matrix M (Some (block k)) = read_matrix (mem p) (Some (block k))).
  { intros k Hk.
    apply (read_matrix_kept C _ _ _ (row_table k n)).
    - apply standard_only_rows_of with (A := A) (B := B) (n := N). exact Hstd.
    - destruct Hready as [HtA HtB _ _ _ _ _ _ _ _ _ _].
      destruct k as [|[|k]]; [exact HtA | exact HtB | lia].
    - intros r Hr (tab & Htab & Hin).
      destruct Hready as [_ _ HtC _ _ _ _ _ _ _ _ _].
      unfold C in Htab. rewrite HtC in Htab. injection Htab as <-.
      revert Hin. apply (row_table_disjoint k 2 n); [lia | lia | lia | exact Hr]. }
  exists q, p, M.
  split; [exact Ha|]. split; [exact Hs|]. split; [exact Hstd|].
  split; [exact (eq_trans (Hkept 0%nat ltac:(lia)) HrA)|].
  split; [exact (eq_trans (Hkept 1%nat ltac:(lia)) HrB)|].
  split.
  { intros i j Hi Hj. rewrite HcM by assumption.
    rewrite ks_standard, range_upto by assumption.
    unfold rd at 1. rewrite Hzero by assumption. reflexivity. }
  pose proof (sweep_exact w A B C N tb _ _ _ (mem p) M (proj2 HN) Hready
                Hzero Hex) as Hsweep.
  pose proof (final_run_exact w A B C N tb _ _ _ (mem p) M (proj2 HN) Hready
                Hzero Hex) as Hfinal.
  pose proof (product_same_inputs A B C N _ _ _ (mem p) M Hready Hex)
    as Hsame.
  split.
  - intros k Hk.
    destruct (Hsweep (take k block_sizes) p) as (p1 & std & Hsw & Hm).
    + apply Forall_take. exact Hbss.
    + rewrite length_take. lia.
    + reflexivity.
    + exists p1, std. split; [exact Hsw|]. rewrite Hm, length_take.
      destruct (k `min` length block_sizes)%nat eqn:Hmin; [lia|reflexivity].
  - destruct (Hsweep block_sizes p Hbss Hlen eq_refl)
      as (p1 & std & Hsw & Hm).
    destruct (Hfinal p1) as (p2 & Hfin & Hm2).
    + rewrite Hm. destruct (length block_sizes).
      * split; [exact Hready|]. split; reflexivity.
      * exact Hsame.
    + exists p1, std, p2. auto.
Qed.

Lemma timed_runs_leave_the_product_witness :
  let A := Some (block 0) in
  let B := Some (block 1) in
  let C := Some (block 2) in
  exists q p M,
    MxmBloc.allocate calm 3 start = Done (A, B, C, q)
    /\ MxmBloc.seed calm A B C 3 q = Done p
    /\ MxmBloc.matrix_multiply_standard A B C 3 (mem p) = Done M
    /\ read_matrix M A = Some (seeded calm 3 0)
    /\ read_matrix M B = Some (seeded calm 3 1)
    /\ (forall i j, 0 <= i < 3 -> 0 <= j < 3 ->
          load2 M C i j
          = Some (accumulate (mem p) A B i j (upto 3) 0%float))
    /\ (forall k, (1 <= k <= length [2; 1; 4])%nat ->
          exists p1 std,
            MxmBloc.sweep calm A B C 3 96 (take k [2; 1; 4]) p
            = Done (p1, std)
            /\ mem p1 = M)
    /\ (exists p1 std p2,
          MxmBloc.sweep calm A B C 3 96 [2; 1; 4] p = Done (p1, std)
          /\ MxmBloc.final_run calm A B C 3 96 p1 = Done p2
          /\ mem p2 = M).
Proof.
  apply (timed_runs_leave_the_product calm 3 96 [2; 1; 4]).
  - vm_compute. split; discriminate.
  - intros a _. reflexivity.
  - unfold swept, INT_MAX. repeat constructor; lia.
  - vm_compute. reflexivity.
Defined.

(** ** What is left in memory *)

(** No store creates a block: from [st] to [st'] no location came into
    use. *)
Definition no_new (st st' : store) : Prop :=
  forall l, (tables st !! l = None -> tables st' !! l = None)
            /\ (rows st !! l = None -> rows st' !! l = None).

Lemma no_new_refl (st : store) : no_new st st.
Proof. intros l. auto. Qed.

Lemma no_new_trans (s1 s2 s3 : store) :
  no_new s1 s2 -> no_new s2 s3 -> no_new s1 s3.
Proof.
  intros H12 H23 l. destruct (H12 l), (H23 l). auto.
Qed.

Lemma store_d_no_new (st st' : store) (R : ptr) (j : Z) (v : float) :
  store_d st R j v = Some st' -> no_new st st'.
Proof.
  unfold store_d. destruct R as [r|]; [|discriminate].
  cbn [mbind option_bind].
  destruct (rows st !! r) as [row|] eqn:Hr; [|discriminate].
  cbn [mbind option_bind].
  destruct (idx j) as [m|]; [|discriminate]. cbn [mbind option_bind].
  destruct (m <? length row)%nat; [|discriminate].
  intros H. injection H as <-. intros l. cbn [tables rows].
  split; [auto|]. intros Hl.
  rewrite lookup_insert_ne by congruence. exact Hl.
Qed.

Lemma store2_no_new (st st' : store) (T : ptr) (i j : Z) (v : float) :
  store2 st T i j v = Some st' -> no_new st st'.
Proof.
  unfold store2. destruct (load_row st T i) as [r|]; [|discriminate].
  cbn [mbind option_bind]. apply store_d_no_new.
Qed.

Lemma store_p_no_new (st st' : store) (T : ptr) (i : Z) (v : ptr) :
  store_p st T i v = Some st' -> no_new st st'.
Proof.
  unfold store_p. destruct T as [t|]; [|discriminate].
  cbn [mbind option_bind].
  destruct (tables st !! t) as [tab|] eqn:Ht; [|discriminate].
  cbn [mbind option_bind].
  destruct (idx i) as [m|]; [|discriminate]. cbn [mbind option_bind].
  destruct (m <? length tab)%nat; [|discriminate].
  intros H. injection H as <-. intros l. cbn [tables rows].
  split; [|auto]. intros Hl.
  rewrite lookup_insert_ne by congruence. exact Hl.
Qed.

(** Every block in use is one that [malloc] returned. *)
Definition owned (p : proc) : Prop :=
  forall l, (forall a, (a < n_malloc p)%nat -> l <> block a) ->
            tables (mem p) !! l = None /\ rows (mem p) !! l = None.

Lemma owned_set_mem (p : proc) (m : store) :
  owned p -> no_new (mem p) m -> owned (set_mem p m).
Proof.
  intros Ho Hn l Hl. destruct (Ho l Hl), (Hn l). cbn [mem set_mem]. auto.
Qed.

Lemma malloc_doubles_owned (w : world) (N : Z) (p : proc) :
  owned p -> owned (malloc_doubles w N p).2.
Proof.
  intros Ho l Hl. unfold malloc_doubles in *.
  destruct (malloc_succeeds w (n_malloc p) && (0 <=? N));
    cbn [snd mem count_malloc n_malloc tables rows] in *.
  - destruct (Ho l) as [Ht Hr]; [intros a Ha; apply Hl; lia|].
    split; [exact Ht|].
    rewrite lookup_insert_ne; [exact Hr|].
    intros E. apply (Hl (n_malloc p)); [lia|congruence].
  - apply Ho. intros a Ha. apply Hl. lia.
Qed.

Lemma malloc_pointers_owned (w : world) (N : Z) (p : proc) :
  owned p -> owned (malloc_pointers w N p).2.
Proof.
  intros Ho l Hl. unfold malloc_pointers in *.
  destruct (malloc_succeeds w (n_malloc p) && (0 <=? N));
    cbn [snd mem count_malloc n_malloc tables rows] in *.
  - destruct (Ho l) as [Ht Hr]; [intros a Ha; apply Hl; lia|].
    split; [|exact Hr].
    rewrite lookup_insert_ne; [exact Ht|].
    intros E. apply (Hl (n_malloc p)); [lia|congruence].
  - apply Ho. intros a Ha. apply Hl. lia.
Qed.

Lemma allocate_row_owned (w : world) (T : ptr) (N i : Z) (p p' : proc) :
  MxmBloc.allocate_row w T N i p = Done p' -> owned p -> owned p'.
Proof.
  unfold MxmBloc.allocate_row. intros H Ho.
  pose proof (malloc_doubles_owned w N p Ho) as Ho1.
  destruct (malloc_doubles w N p) as [r p1]. cbn [snd] in Ho1.
  destruct (store_p (mem p1) T i r) as [m|] eqn:Hst; [|discriminate].
  rewrite bind_lift_Some in H. injection H as <-.
  apply owned_set_mem; [exact Ho1|]. eapply store_p_no_new. exact Hst.
Qed.

Lemma allocate_owned (w : world) (N : Z) (A B C : ptr) (p : proc) :
  MxmBloc.allocate w N start = Done (A, B, C, p) -> owned p.
Proof.
  unfold MxmBloc.allocate. intros H.
  assert (Ho0 : owned start) by (intros l _; split; apply lookup_empty).
  pose proof (malloc_pointers_owned w N start Ho0) as Ho1.
  destruct (malloc_pointers w N start) as [A' p1]. cbn [snd] in Ho1.
  pose proof (malloc_pointers_owned w N p1 Ho1) as Ho2.
  destruct (malloc_pointers w N p1) as [B' p2]. cbn [snd] in Ho2.
  pose proof (malloc_pointers_owned w N p2 Ho2) as Ho3.
  destruct (malloc_pointers w N p2) as [C' p3]. cbn [snd] in Ho3.
  destruct (for_loop 0 N 1 (MxmBloc.allocate_rows w A' B' C' N) p3)
    as [p4| |] eqn:Hloop; try discriminate.
  cbn [mbind outcome_bind] in H. injection H as _ _ _ <-.
  revert Ho3.
  apply (for_loop_keeps (fun p p' => owned p -> owned p')
           (MxmBloc.allocate_rows w A' B' C' N) 0 N 1); auto.
  intros i s s'. unfold MxmBloc.allocate_rows.
  destruct (MxmBloc.allocate_row w A' N i s) as [s1| |] eqn:H1;
    try discriminate. cbn [mbind outcome_bind].
  destruct (MxmBloc.allocate_row w B' N i s1) as [s2| |] eqn:H2;
    try discriminate. cbn [mbind outcome_bind].
  intros H3 Ho.
  eapply allocate_row_owned; [exact H3|].
  eapply allocate_row_owned; [exact H2|].
  eapply allocate_row_owned; [exact H1|exact Ho].
Qed.

Lemma seed_cell_owned (w : world) (A B C : ptr) (i j : Z) (p p' : proc) :
  MxmBloc.seed_cell w A B C i j p = Done p' -> owned p -> owned p'.
Proof.
  unfold MxmBloc.seed_cell, MxmBloc.draw, rand.
  cbn [mem set_mem]. intros H Ho.
  destruct (store2 (mem p) A i j _) as [m1|] eqn:H1; [|discriminate].
  rewrite bind_lift_Some in H.
  destruct (store2 m1 B i j _) as [m2|] eqn:H2; [|discriminate].
  rewrite bind_lift_Some in H.
  destruct (store2 m2 C i j 0%float) as [m3|] eqn:H3; [|discriminate].
  rewrite bind_lift_Some in H. injection H as <-.
  intros l Hl. cbn [mem set_mem n_malloc] in *.
  destruct (Ho l Hl) as [Ht Hr].
  apply store2_no_new in H1, H2, H3.
  destruct (H1 l), (H2 l), (H3 l). auto.
Qed.

Lemma seed_owned (w : world) (A B C : ptr) (N : Z) (p p' : proc) :
  MxmBloc.seed w A B C N p = Done p' -> owned p -> owned p'.
Proof.
  unfold MxmBloc.seed. intros H Ho.
  assert (Ho' : owned (srand 42 p)) by exact Ho.
  revert Ho'. revert H.
  apply (for_loop_keeps (fun p p' => owned p -> owned p')); auto.
  intros i s s'.
  apply (for_loop_keeps (fun p p' => owned p -> owned p')); auto.
  intros j s1 s2. apply seed_cell_owned.
Qed.

Lemma delete_lookup_None {X : Type} (m : gmap loc X) (k l : loc) :
  m !! l = None -> delete k m !! l = None.
Proof.
  intros H. destruct (decide (k = l)) as [->|Hne].
  - apply lookup_delete_eq.
  - rewrite lookup_delete_ne by assumption. exact H.
Qed.

(** The memory in which the blocks number [3] to [f - 1] are released,
    the three tables are still in place and no block other than the first
    [3 + 3 n] is in use. *)
Definition released (n f : nat) (m : store) : Prop :=
  tables_at n m
  /\ (forall l, (forall a, (a < 3 + 3 * n)%nat -> l <> block a) ->
        tables m !! l = None /\ rows m !! l = None)
  /\ (forall a, (3 <= a < f)%nat ->
        tables m !! block a = None /\ rows m !! block a = None).

Lemma free_released (n f : nat) (p : proc) (m : store) :
  (3 <= f)%nat -> released n f m ->
  exists m',
    free (Some (block f)) (set_mem p m) = set_mem p m'
    /\ released n (S f) m'.
Proof.
  intros Hf (Ht & Hout & Hrel). unfold free. cbn [mem set_mem].
  eexists. split; [reflexivity|].
  split; [|split].
  - intros k Hk. cbn [tables].
    rewrite lookup_delete_ne by (apply block_ne; lia). apply Ht, Hk.
  - intros l Hl. destruct (Hout l Hl). cbn [tables rows].
    split; apply delete_lookup_None; assumption.
  - intros b Hb. cbn [tables rows].
    destruct (Nat.eq_dec b f) as [->|Hne].
    + split; apply lookup_delete_eq.
    + destruct (Hrel b) as [? ?]; [lia|].
      split; apply delete_lookup_None; assumption.
Qed.

Lemma block_surj (l : loc) : exists a, l = block a.
Proof.
  exists (Nat.pred (Pos.to_nat l)). unfold block. symmetry.
  apply SuccNat2Pos.inv. pose proof (Pos2Nat.is_pos l). lia.
Qed.

(** Releasing the rows and then the tables leaves nothing in memory. *)
Lemma release_exact (N : Z) (p : proc) :
  0 <= N <= INT_MAX -> released (Z.to_nat N) 3 (mem p) ->
  MxmBloc.release (Some (block 0)) (Some (block 1)) (Some (block 2)) N p
  = Done (set_mem p (Store ∅ ∅)).
Proof.
  intros HN Hrel0. unfold MxmBloc.release.
  rewrite for_loop_range by (unfold INT_MIN; lia).
  rewrite range_upto. unfold upto.
  set (n := Z.to_nat N) in *.
  match goal with
  | |- context [run_list (map ?body _) p] =>
      destruct (run_list_count
                  (fun t q => exists m, q = set_mem p m
                                        /\ released n (3 + 3 * t) m)
                  body Z.of_nat n 0%nat p)
        as (q & Hrun & m & -> & Hm)
  end.
  - exists (mem p). split; [symmetry; apply set_mem_id|exact Hrel0].
  - intros i q Hi (m & -> & Hm). cbn [mem set_mem].
    assert (Hrow : forall k, (k < 3)%nat ->
              load_row m (Some (block k)) (Z.of_nat i)
              = Some (Some (block (3 + 3 * i + k)))).
    { intros k Hk. destruct Hm as (Ht & _).
      rewrite (load_row_table m _ (row_table k n)); [|apply Ht, Hk|lia].
      rewrite Nat2Z.id. apply row_table_lookup. lia. }
    rewrite (Hrow 0%nat), (Hrow 1%nat), (Hrow 2%nat) by lia.
    rewrite !bind_lift_Some.
    replace (3 + 3 * i + 0)%nat with (3 + 3 * i)%nat by lia.
    replace (3 + 3 * i + 1)%nat with (S (3 + 3 * i)) by lia.
    replace (3 + 3 * i + 2)%nat with (S (S (3 + 3 * i))) by lia.
    remember (3 + 3 * i)%nat as f eqn:Ef.
    destruct (free_released n f p m) as (m1 & -> & Hm1); [lia|exact Hm|].
    destruct (free_released n (S f) p m1) as (m2 & -> & Hm2);
      [lia|exact Hm1|].
    destruct (free_released n (S (S f)) p m2) as (m3 & -> & Hm3);
      [lia|exact Hm2|].
    exists (set_mem p m3). split; [reflexivity|].
    exists m3. split; [reflexivity|].
    replace (3 + 3 * S i)%nat with (S (S (S f))) by lia. exact Hm3.
  - rewrite Hrun. cbn [mbind outcome_bind]. unfold free. cbn [mem set_mem].
    f_equal. f_equal.
    destruct Hm as (_ & Hout & Hrel).
    assert (Hnone : forall l,
              tables m !! l = None \/ l = block 0 \/ l = block 1
              \/ l = block 2).
    { intros l. destruct (block_surj l) as (a & ->).
      destruct (Nat.lt_ge_cases a 3) as [Hlt|Hge].
      - right. assert (a = 0 \/ a = 1 \/ a = 2)%nat as [->|[->| ->]] by lia;
          auto.
      - left. destruct (Nat.lt_ge_cases a (3 + 3 * n)) as [Hin|Hnot].
        + apply Hrel. lia.
        + apply Hout. intros b Hb E. apply block_inj in E. lia. }
    assert (Hnone' : forall l,
              rows m !! l = None \/ l = block 0 \/ l = block 1
              \/ l = block 2).
    { intros l. destruct (block_surj l) as (a & ->).
      destruct (Nat.lt_ge_cases a 3) as [Hlt|Hge].
      - right. assert (a = 0 \/ a = 1 \/ a = 2)%nat as [->|[->| ->]] by lia;
          auto.
      - left. destruct (Nat.lt_ge_cases a (3 + 3 * n)) as [Hin|Hnot].
        + apply Hrel. lia.
        + apply Hout. intros b Hb E. apply block_inj in E. lia. }
    f_equal; apply map_eq; intros l; rewrite lookup_empty.
    + destruct (Hnone l) as [H|[->|[->| ->]]].
      * repeat apply delete_lookup_None. exact H.
      * do 2 apply delete_lookup_None. apply lookup_delete_eq.
      * apply delete_lookup_None, lookup_delete_eq.
      * apply lookup_delete_eq.
    + destruct (Hnone' l) as [H|[->|[->| ->]]].
      * repeat apply delete_lookup_None. exact H.
      * do 2 apply delete_lookup_None. apply lookup_delete_eq.
      * apply delete_lookup_None, lookup_delete_eq.
      * apply lookup_delete_eq.
Qed.

(** The sweep and the final run, with the process they end in. *)
Lemma sweep_full (w : world) (A B C : ptr) (N tb : Z) (tA tB tC : list ptr)
    (m0 M : store) (bss : list Z) (p : proc) :
  N <= INT_MAX -> wf A B C N tA tB tC m0 ->
  (forall i j, 0 <= i < N -> 0 <= j < N -> load2 m0 C i j = Some 0%float) ->
  exec A B C (trace_standard N) m0 = Done M ->
  Forall (swept N) bss -> Z.of_nat (length bss) < INT_MAX ->
  mem p = m0 ->
  exists std,
    MxmBloc.sweep w A B C N tb bss p
    = Done (Proc (if length bss is O then m0 else M)
                 (n_malloc p) (n_clock p + 2 * length bss) (rng_seed p)
                 (rng_draws p)
                 (stdout p ++ sweep_rows w tb bss (n_clock p) (length bss))
                 (file p ++ sweep_rows w tb bss (n_clock p) (length bss)),
            std).
Proof.
  intros HN Hwf0 Hzero Hex Hbss Hlen Hp. unfold MxmBloc.sweep.
  rewrite for_loop_range by (unfold INT_MIN; lia).
  rewrite range_upto. unfold upto. rewrite Nat2Z.id.
  set (c0 := n_clock p).
  destruct (run_list_count
              (fun t (s : proc * float) =>
                 s.1 = Proc (if t is O then m0 else M) (n_malloc p)
                            (c0 + 2 * t) (rng_seed p) (rng_draws p)
                            (stdout p ++ sweep_rows w tb bss c0 t)
                            (file p ++ sweep_rows w tb bss c0 t)
                 /\ ((0 < t)%nat -> s.2 = timed w c0))
              (MxmBloc.sweep_step w A B C N tb bss)
              Z.of_nat (length bss) 0%nat (p, 0%float))
    as ([q std] & Hrun & Hq & _).
  - split; [|intros H; inversion H]. cbn [fst].
    unfold sweep_rows. cbn [seq map]. rewrite !app_nil_r.
    replace (c0 + 2 * 0)%nat with (n_clock p) by (unfold c0; lia).
    rewrite <- Hp. destruct p; reflexivity.
  - intros t [q std] Ht (Hq & Hstd). cbn [fst snd] in Hq, Hstd.
    destruct (lookup_lt_is_Some_2 bss t) as [bs Hbs]; [lia|].
    assert (Hsw : swept N bs) by (eapply Forall_lookup_1; eassumption).
    destruct Hsw as (H1 & H512 & Hmax).
    rewrite (sweep_step_exact w A B C N tb tA tB tC m0 M HN Hwf0 Hzero Hex
               bss t bs q std Hbs H1 Hmax).
    2: { rewrite Hq. cbn [mem]. destruct t.
         - split; [exact Hwf0|]. split; reflexivity.
         - apply (product_same_inputs A B C N tA tB tC m0 M Hwf0 Hex). }
    eexists. split; [reflexivity|].
    destruct (Z.eqb_spec bs 512) as [|_]; [contradiction|].
    cbn [orb fst snd].
    assert (Hbase : (if Z.of_nat t =? 0 then timed w (n_clock q) else std)
                    = timed w c0).
    { destruct (Z.eqb_spec (Z.of_nat t) 0) as [H0|H0].
      - rewrite Hq. cbn [n_clock]. f_equal. lia.
      - apply Hstd. lia. }
    split; [|intros _; exact Hbase].
    rewrite Hbase, !sweep_rows_S. unfold sweep_row. rewrite Hbs.
    rewrite Hq. cbn [n_malloc n_clock rng_seed rng_draws stdout file default].
    rewrite !app_assoc.
    replace (c0 + 2 * S t)%nat with (S (S (c0 + 2 * t))) by lia.
    reflexivity.
  - cbn [fst] in Hq. exists std. rewrite Hrun, Hq. reflexivity.
Qed.

Lemma final_run_full (w : world) (A B C : ptr) (N tb : Z)
    (tA tB tC : list ptr) (m0 M : store) (p : proc) :
  N <= INT_MAX -> wf A B C N tA tB tC m0 ->
  (forall i j, 0 <= i < N -> 0 <= j < N -> load2 m0 C i j = Some 0%float) ->
  exec A B C (trace_standard N) m0 = Done M ->
  same_inputs A B C N tA tB tC m0 (mem p) ->
  MxmBloc.final_run w A B C N tb p
  = Done (Proc M (n_malloc p) (S (S (n_clock p))) (rng_seed p)
               (rng_draws p)
               (stdout p ++ [standard_row w tb (n_clock p)])
               (file p ++ [standard_row w tb (n_clock p)])).
Proof.
  intros HN Hwf0 Hzero Hex Hsame. unfold MxmBloc.final_run.
  rewrite (clear_back A B C N tA tB tC m0) by assumption.
  cbn [mbind outcome_bind].
  unfold clock. cbn [mem n_malloc n_clock rng_seed rng_draws stdout file
                     set_mem].
  unfold MxmBloc.on_mem. cbn [mem].
  rewrite standard_is_trace, Hex by lia.
  cbn [mbind outcome_bind]. reflexivity.
Qed.

Lemma printf_Proc (fmt : string) (a : list arg) (m : store) (nm nc : nat)
    (sd : Z) (dr : nat) (out fl : list print) :
  printf fmt a (Proc m nm nc sd dr out fl)
  = Proc m nm nc sd dr (out ++ [Print fmt a]) fl.
Proof. reflexivity. Qed.

Lemma fprintf_Proc (fmt : string) (a : list arg) (m : store) (nm nc : nat)
    (sd : Z) (dr : nat) (out fl : list print) :
  fprintf fmt a (Proc m nm nc sd dr out fl)
  = Proc m nm nc sd dr out (fl ++ [Print fmt a]).
Proof. reflexivity. Qed.

(** The driver from the headers on, from a process [p] that holds the
    seeded matrices. *)
Lemma run_tail (w : world) (N : Z) (bss : list Z) (M : store) (p : proc) :
  0 <= N <= INT_MAX ->
  Forall (swept N) bss -> Z.of_nat (length bss) < INT_MAX ->
  ready N (mem p) ->
  (forall i j, 0 <= i < N -> 0 <= j < N ->
     load2 (mem p) (Some (block 2)) i j = Some 0%float) ->
  exec (Some (block 0)) (Some (block 1)) (Some (block 2))
    (trace_standard N) (mem p) = Done M ->
  released (Z.to_nat N) 3 M ->
  forall tb h1 h2 h3 h4 h5 h6 s,
  (let A := Some (block 0) in
   let B := Some (block 1) in
   let C := Some (block 2) in
   let p := fprintf h1.1 h1.2 p in
   let p := fprintf h2.1 h2.2 p in
   let p := fprintf h3.1 h3.2 p in
   let p := printf h4.1 h4.2 p in
   let p := printf h5.1 h5.2 p in
   let p := printf h6.1 h6.2 p in
   '(p, _) ← MxmBloc.sweep w A B C N tb bss p;
   p ← MxmBloc.final_run w A B C N tb p;
   let p := printf s.1 s.2 p in
   p ← MxmBloc.release A B C N p;
   Done (0, p))
  = Done (0, Proc (Store ∅ ∅) (n_malloc p) (n_clock p + 2 * length bss + 2)
                  (rng_seed p) (rng_draws p)
                  (stdout p
                   ++ [Print h4.1 h4.2; Print h5.1 h5.2; Print h6.1 h6.2]
                   ++ sweep_rows w tb bss (n_clock p) (length bss)
                   ++ [standard_row w tb (n_clock p + 2 * length bss);
                       Print s.1 s.2])
                  (file p
                   ++ [Print h1.1 h1.2; Print h2.1 h2.2; Print h3.1 h3.2]
                   ++ sweep_rows w tb bss (n_clock p) (length bss)
                   ++ [standard_row w tb (n_clock p + 2 * length bss)])).
Proof.
  intros HN Hbss Hlen Hready Hzero Hex Hrel tb h1 h2 h3 h4 h5 h6 s.
  destruct p as [m0 nm nc sd dr out fl].
  cbn [mem n_malloc n_clock rng_seed rng_draws stdout file] in *.
  cbv zeta. rewrite !fprintf_Proc, !printf_Proc.
  pose proof (product_same_inputs _ _ _ N _ _ _ m0 M Hready Hex) as Hsame.
  match goal with
  | |- context [MxmBloc.sweep w ?A ?B ?C N tb bss ?p0] =>
      destruct (sweep_full w A B C N tb _ _ _ m0 M bss p0 (proj2 HN)
                  Hready Hzero Hex Hbss Hlen eq_refl) as (std & Hsw);
      cbn [mem n_malloc n_clock rng_seed rng_draws stdout file] in Hsw;
      rewrite Hsw; clear Hsw
  end.
  cbn [mbind outcome_bind].
  match goal with
  | |- context [MxmBloc.final_run w ?A ?B ?C N tb ?p0] =>
      pose proof (final_run_full w A B C N tb _ _ _ m0 M p0 (proj2 HN) Hready
                    Hzero Hex) as Hfin;
      cbn [mem n_malloc n_clock rng_seed rng_draws stdout file] in Hfin;
      rewrite Hfin; clear Hfin
  end.
  2: { destruct (length bss).
       - split; [exact Hready|]. split; reflexivity.
       - exact Hsame. }
  cbn [mbind outcome_bind]. rewrite printf_Proc.
  rewrite release_exact; [|lia|exact Hrel].
  cbn [mbind outcome_bind set_mem mem n_malloc n_clock rng_seed rng_draws
       stdout file].
  rewrite <- !app_assoc. cbn [app].
  replace (S (S (nc + 2 * length bss))) with (nc + 2 * length bss + 2)%nat
    by lia.
  reflexivity.
Qed.

(** The process a complete run ends in. *)
Lemma run_complete (w : world) (N : Z) (bss : list Z) :
  0 <= N <= INT_MAX -> 32 * (N * N * N) <= LLONG_MAX ->
  Forall (swept N) bss -> Z.of_nat (length bss) < INT_MAX ->
  (forall a, (a < 3 + 3 * Z.to_nat N)%nat -> malloc_succeeds w a = true) ->
  fopen_succeeds w = true ->
  let tb := 32 * (N * N * N) in
  let rows := sweep_rows w tb bss 0 (length bss) in
  let last := standard_row w tb (2 * length bss) in
  MxmBloc.run w N bss
  = Done (0, Proc (Store ∅ ∅) (3 + 3 * Z.to_nat N) (2 * length bss + 2) 42
                  (2 * (Z.to_nat N * Z.to_nat N))
                  (header_out N ++ rows ++ [last; saved])
                  (header_file N ++ rows ++ [last])).
Proof.
  intros HN Hb Hbss Hlen Hok Hopen tb rows last.
  destruct (prepare_ok w N) as (q & p & Ha & Hs & Hp); [lia|assumption|].
  pose proof (seeding_ready w N _ p Hok Hp) as Hready.
  destruct (seeding_read w N p Hok Hp) as (_ & _ & HrC).
  assert (Howned : owned p).
  { eapply seed_owned; [exact Hs|]. eapply allocate_owned. exact Ha. }
  assert (Hzero : forall i j, 0 <= i < N -> 0 <= j < N ->
            load2 (mem p) (Some (block 2)) i j = Some 0%float).
  { intros i j Hi Hj. apply (zeros_load _ _ N); assumption. }
  destruct (exec_spec _ _ _ N _ _ _ _ (trace_standard_inb N) (mem p) Hready)
    as (M & Hex & HwfM & HtM & HfM & _).
  assert (Hrel : released (Z.to_nat N) 3 M).
  { split; [|split].
    - intros k Hk. destruct HwfM as [HA HB HC _ _ _ _ _ _ _ _ _].
      unfold table_of in HA, HB, HC. cbn [mbind option_bind] in HA, HB, HC.
      destruct k as [|[|[|k]]]; [assumption..|lia].
    - intros l Hl. rewrite HtM.
      destruct (Howned l) as [Ht Hr].
      { rewrite (sd_malloc _ _ _ _ Hp). exact Hl. }
      split; [exact Ht|]. rewrite HfM; [exact Hr|].
      intros Hin. apply row_table_elem in Hin as (i & Hi & E).
      injection E as E. apply (Hl (3 + 3 * i + 2)%nat); [lia|exact E].
    - intros a Ha'. lia. }
  pose proof (run_tail w N bss M p HN Hbss Hlen Hready Hzero Hex Hrel tb
                ("Block Matrix Multiplication Performance Analysis\n"%string, [])
                ("Matrix size: %d x %d\n\n"%string, [AInt N; AInt N])
                ("Block Size, Time (msec), Bandwidth (MB/s), Speedup vs Standard\n"%string,
                 [])
                ("Block Matrix Multiplication Performance Analysis\n"%string, [])
                ("Matrix size: %d x %d\n\n"%string, [AInt N; AInt N])
                ("Block Size, Time (msec), Bandwidth (MB/s), Speedup\n"%string, [])
                ("\nResults saved to mxm_bloc_results.txt\n"%string, []))
    as Htail.
  cbv zeta in Htail. cbn [fst snd] in Htail.
  rewrite (sd_stdout _ _ _ _ Hp), (sd_file _ _ _ _ Hp),
    (sd_clock _ _ _ _ Hp), (sd_malloc _ _ _ _ Hp), (sd_seed _ _ _ _ Hp),
    (sd_draws _ _ _ _ Hp) in Htail.
  unfold MxmBloc.run. rewrite Ha. cbn [mbind outcome_bind].
  rewrite Hs. cbn [mbind outcome_bind]. rewrite Hopen.
  rewrite total_bytes_eq by lia. rewrite bind_lift_Some.
  exact Htail.
Qed.

(** A complete run of the driver frees what it allocated: the [3 N] rows
    and the three tables, [3 + 3 N] blocks in all, are released before
    [main] returns 0 and nothing is left in memory. *)
Theorem run_releases_all_memory (w : world) (N : Z) (block_sizes : list Z) :
  0 <= N <= INT_MAX -> 32 * (N * N * N) <= LLONG_MAX ->
  Forall (swept N) block_sizes ->
  Z.of_nat (length block_sizes) < INT_MAX ->
  (forall a, (a < 3 + 3 * Z.to_nat N)%nat -> malloc_succeeds w a = true) ->
  fopen_succeeds w = true ->
  exists p,
    MxmBloc.run w N block_sizes = Done (0, p)
    /\ n_malloc p = (3 + 3 * Z.to_nat N)%nat
    /\ mem p = Store ∅ ∅.
Proof.
  intros HN Hb Hbss Hlen Hok Hopen.
  rewrite run_complete by assumption.
  eexists. split; [reflexivity|]. split; reflexivity.
Qed.

Lemma run_releases_all_memory_witness :
  exists p,
    MxmBloc.run calm MxmBloc.N MxmBloc.block_sizes = Done (0, p)
    /\ n_malloc p = (3 + 3 * Z.to_nat MxmBloc.N)%nat
    /\ mem p = Store ∅ ∅.
Proof.
  apply (run_releases_all_memory calm MxmBloc.N MxmBloc.block_sizes).
  - unfold MxmBloc.N, INT_MAX. lia.
  - vm_compute. discriminate.
  - unfold MxmBloc.block_sizes, swept, MxmBloc.N, INT_MAX.
    repeat constructor; lia.
  - vm_compute. reflexivity.
  - intros a _. reflexivity.
  - reflexivity.
Defined.

(** What a complete run of the driver consumes and produces: [clock()] is
    called twice per timed run (the configurations and the final run),
    [rand()] twice per cell after [srand(42)]; the console gets three
    header lines, one line per configuration, the line of the final run
    and the closing message, the file the same without the closing
    message; the measurement lines are the same in both. *)
Theorem run_accounting (w : world) (N : Z) (block_sizes : list Z) :
  0 <= N <= INT_MAX -> 32 * (N * N * N) <= LLONG_MAX ->
  Forall (swept N) block_sizes ->
  Z.of_nat (length block_sizes) < INT_MAX ->
  (forall a, (a < 3 + 3 * Z.to_nat N)%nat -> malloc_succeeds w a = true) ->
  fopen_succeeds w = true ->
  exists p,
    MxmBloc.run w N block_sizes = Done (0, p)
    /\ n_clock p = (2 * (length block_sizes + 1))%nat
    /\ rng_seed p = 42
    /\ rng_draws p = (2 * (Z.to_nat N * Z.to_nat N))%nat
    /\ length (stdout p) = (length block_sizes + 5)%nat
    /\ length (file p) = (length block_sizes + 4)%nat
    /\ (forall t, (t <= length block_sizes)%nat ->
          exists line, stdout p !! (3 + t)%nat = Some line
                       /\ file p !! (3 + t)%nat = Some line)
    /\ stdout p !! (4 + length block_sizes)%nat
       = Some (Print "\nResults saved to mxm_bloc_results.txt\n" []).
Proof.
  intros HN Hb Hbss Hlen Hok Hopen.
  rewrite run_complete by assumption.
  eexists. split; [reflexivity|].
  cbn [n_clock rng_seed rng_draws stdout file].
  split; [lia|]. split; [reflexivity|]. split; [reflexivity|].
  set (rows := sweep_rows w (32 * (N * N * N)) block_sizes 0
                 (length block_sizes)).
  assert (Hrows : length rows = length block_sizes)
    by apply length_sweep_rows.
  split; [rewrite !length_app, Hrows; unfold header_out; cbn [length]; lia|].
  split; [rewrite !length_app, Hrows; unfold header_file; cbn [length]; lia|].
  split.
  - intros t Ht.
    destruct (Nat.lt_ge_cases t (length block_sizes)) as [Hlt|Hge].
    + destruct (lookup_lt_is_Some_2 rows t) as [line Hline]; [lia|].
      exists line.
      split; apply report_lookup; (reflexivity || exact Hline).
    + assert (t = length block_sizes) by lia. subst t.
      eexists.
      split; apply report_lookup_last; (reflexivity || exact Hrows).
  - unfold header_out.
    rewrite lookup_app_r by (cbn [length]; lia).
    rewrite lookup_app_r by (cbn [length]; lia).
    cbn [length]. rewrite Hrows.
    replace (4 + length block_sizes - 3 - length block_sizes)%nat
      with 1%nat by lia.
    reflexivity.
Qed.

Lemma run_accounting_witness :
  exists p,
    MxmBloc.run calm MxmBloc.N MxmBloc.block_sizes = Done (0, p)
    /\ n_clock p = (2 * (length MxmBloc.block_sizes + 1))%nat
    /\ rng_seed p = 42
    /\ rng_draws p = (2 * (Z.to_nat MxmBloc.N * Z.to_nat MxmBloc.N))%nat
    /\ length (stdout p) = (length MxmBloc.block_sizes + 5)%nat
    /\ length (file p) = (length MxmBloc.block_sizes + 4)%nat
    /\ (forall t, (t <= length MxmBloc.block_sizes)%nat ->
          exists line, stdout p !! (3 + t)%nat = Some line
                       /\ file p !! (3 + t)%nat = Some line)
    /\ stdout p !! (4 + length MxmBloc.block_sizes)%nat
       = Some (Print "\nResults saved to mxm_bloc_results.txt\n" []).
Proof.
  apply (run_accounting calm MxmBloc.N MxmBloc.block_sizes).
  - unfold MxmBloc.N, INT_MAX. lia.
  - vm_compute. discriminate.
  - unfold MxmBloc.block_sizes, swept, MxmBloc.N, INT_MAX.
    repeat constructor; lia.
  - vm_compute. reflexivity.
  - intros a _. reflexivity.
  - reflexivity.
Defined.

(** ** A sweep that includes the block size 512 *)

(** The configuration whose elapsed time is the baseline of the
    configuration number [t]: the last one, up to [t], that is the first
    of the sweep or has the block size 512. *)
Fixpoint reference (bss : list Z) (t : nat) : nat :=
  match t with
  | O => O
  | S t' => if default 0 (bss !! t) =? 512 then t else reference bss t'
  end.

Definition general_row (w : world) (tb : Z) (bss : list Z) (c0 i : nat)
    : print :=
  Print MxmBloc.row_format
        (row_args tb (default 0 (bss !! i)) (timed w (c0 + 2 * i))
                  (timed w (c0 + 2 * reference bss i))).

Arguments general_row : simpl never.

Lemma sweep_general (w : world) (A B C : ptr) (N tb : Z)
    (tA tB tC : list ptr) (m0 M : store) (bss : list Z) (p : proc) :
  N <= INT_MAX -> wf A B C N tA tB tC m0 ->
  (forall i j, 0 <= i < N -> 0 <= j < N -> load2 m0 C i j = Some 0%float) ->
  exec A B C (trace_standard N) m0 = Done M ->
  Forall (fun bs => 1 <= bs /\ N - 1 + bs <= INT_MAX) bss ->
  Z.of_nat (length bss) < INT_MAX ->
  mem p = m0 ->
  exists p' std,
    MxmBloc.sweep w A B C N tb bss p = Done (p', std)
    /\ stdout p'
       = stdout p ++ map (general_row w tb bss (n_clock p))
                         (seq 0 (length bss))
    /\ file p'
       = file p ++ map (general_row w tb bss (n_clock p))
                       (seq 0 (length bss)).
Proof.
  intros HN Hwf0 Hzero Hex Hbss Hlen Hp. unfold MxmBloc.sweep.
  rewrite for_loop_range by (unfold INT_MIN; lia).
  rewrite range_upto. unfold upto. rewrite Nat2Z.id.
  set (c0 := n_clock p).
  destruct (run_list_count
              (fun t (s : proc * float) =>
                 s.1 = Proc (if t is O then m0 else M) (n_malloc p)
                            (c0 + 2 * t) (rng_seed p) (rng_draws p)
                            (stdout p
                             ++ map (general_row w tb bss c0) (seq 0 t))
                            (file p
                             ++ map (general_row w tb bss c0) (seq 0 t))
                 /\ (forall t', t = S t' ->
                       s.2 = timed w (c0 + 2 * reference bss t')))
              (MxmBloc.sweep_step w A B C N tb bss)
              Z.of_nat (length bss) 0%nat (p, 0%float))
    as ([q std] & Hrun & Hq & _).
  - split; [|intros t' H; inversion H]. cbn [fst seq map].
    rewrite !app_nil_r.
    replace (c0 + 2 * 0)%nat with (n_clock p) by (unfold c0; lia).
    rewrite <- Hp. destruct p; reflexivity.
  - intros t [q std] Ht (Hq & Hstd). cbn [fst snd] in Hq, Hstd.
    destruct (lookup_lt_is_Some_2 bss t) as [bs Hbs]; [lia|].
    assert (Hsw : 1 <= bs /\ N - 1 + bs <= INT_MAX).
    { exact (proj1 (Forall_lookup _ _) Hbss t bs Hbs). }
    destruct Hsw as (H1 & Hmax).
    rewrite (sweep_step_exact w A B C N tb tA tB tC m0 M HN Hwf0 Hzero Hex
               bss t bs q std Hbs H1 Hmax).
    2: { rewrite Hq. cbn [mem]. destruct t.
         - split; [exact Hwf0|]. split; reflexivity.
         - apply (product_same_inputs A B C N tA tB tC m0 M Hwf0 Hex). }
    eexists. cbn [fst snd].
    assert (Hbase : (if (bs =? 512) || (Z.of_nat t =? 0)
                     then timed w (n_clock q) else std)
                    = timed w (c0 + 2 * reference bss t)).
    { rewrite Hq. cbn [n_clock]. destruct t as [|t'].
      - rewrite orb_true_r. reflexivity.
      - cbn [reference]. rewrite Hbs. change (default 0 (Some bs)) with bs.
        destruct (Z.eqb_spec bs 512) as [|_]; [reflexivity|].
        destruct (Z.eqb_spec (Z.of_nat (S t')) 0); [lia|].
        cbn [orb]. apply Hstd. reflexivity. }
    split; [reflexivity|]. cbn [fst snd].
    split; [|intros t' E; injection E as <-; exact Hbase].
    rewrite Hbase, seq_S, map_app. cbn [Nat.add map].
    unfold general_row at 2 4. rewrite Hbs.
    change (default 0 (Some bs)) with bs.
    rewrite Hq. cbn [n_malloc n_clock rng_seed rng_draws stdout file].
    rewrite !app_assoc.
    replace (c0 + 2 * S t)%nat with (S (S (c0 + 2 * t))) by lia.
    reflexivity.
  - cbn [fst] in Hq. exists q, std.
    split; [exact Hrun|]. rewrite Hq. split; reflexivity.
Qed.

Lemma reference_spec (bss : list Z) (t : nat) :
  (reference bss t <= t)%nat
  /\ (reference bss t = 0%nat \/ bss !! reference bss t = Some 512)
  /\ (forall i, (reference bss t < i <= t)%nat -> bss !! i <> Some 512).
Proof.
  induction t as [|t (IH1 & IH2 & IH3)]; cbn [reference].
  - split; [lia|]. split; [left; reflexivity|]. intros i Hi. lia.
  - destruct (bss !! S t) as [bs|] eqn:Hbs; cbn [default].
    + change (id bs) with bs.
      destruct (Z.eqb_spec bs 512) as [->|Hne].
      * split; [lia|]. split; [right; exact Hbs|]. intros i Hi. lia.
      * split; [lia|]. split; [exact IH2|]. intros i Hi.
        destruct (Nat.eq_dec i (S t)) as [->|Hi'].
        -- rewrite Hbs. congruence.
        -- apply IH3. lia.
    + change (0 =? 512) with false. cbv iota.
      split; [lia|]. split; [exact IH2|]. intros i Hi.
      destruct (Nat.eq_dec i (S t)) as [->|Hi'].
      * rewrite Hbs. discriminate.
      * apply IH3. lia.
Qed.

(** The baseline of the speedup column in general.  Whatever the list of
    block sizes (each at least 1), the line of the configuration number
    [t] reports [baseline / msec] where [baseline] is the elapsed time of
    the configuration number [r], the last one up to [t] that is the first
    of the sweep or has the block size 512: a configuration of block size
    512 resets the baseline to its own elapsed time, for itself and for
    those that follow. *)
Theorem sweep_baseline (w : world) (N tb : Z) (block_sizes : list Z) :
  0 <= N <= INT_MAX ->
  (forall a, (a < 3 + 3 * Z.to_nat N)%nat -> malloc_succeeds w a = true) ->
  Forall (fun bs => 1 <= bs /\ N - 1 + bs <= INT_MAX) block_sizes ->
  Z.of_nat (length block_sizes) < INT_MAX ->
  let A := Some (block 0) in
  let B := Some (block 1) in
  let C := Some (block 2) in
  exists q p p1 std,
    MxmBloc.allocate w N start = Done (A, B, C, q)
    /\ MxmBloc.seed w A B C N q = Done p
    /\ MxmBloc.sweep w A B C N tb block_sizes p = Done (p1, std)
    /\ forall t block_size, block_sizes !! t = Some block_size ->
         exists r,
           let msec := timed w (2 * t) in
           let baseline := timed w (2 * r) in
           let line :=
             Print MxmBloc.row_format
                   [AInt block_size; ADouble msec;
                    ADouble (MxmBloc.bandwidth tb msec);
                    ADouble (baseline / msec)%float] in
           stdout p1 !! t = Some line
           /\ file p1 !! t = Some line
           /\ (r <= t)%nat
           /\ (r = 0%nat \/ block_sizes !! r = Some 512)
           /\ (forall i, (r < i <= t)%nat -> block_sizes !! i <> Some 512).
Proof.
  intros HN Hok Hbss Hlen A B C.
  destruct (prepare_ok w N HN Hok) as (q & p & Ha & Hs & Hp).
  pose proof (seeding_ready w N _ p Hok Hp) as Hready.
  destruct (seeding_read w N p Hok Hp) as (_ & _ & HrC).
  assert (Hzero : forall i j, 0 <= i < N -> 0 <= j < N ->
            load2 (mem p) C i j = Some 0%float).
  { intros i j Hi Hj. apply (zeros_load _ _ N); assumption. }
  destruct (exec_spec A B C N _ _ _ _ (trace_standard_inb N) (mem p) Hready)
    as (M & Hex & _).
  destruct (sweep_general w A B C N tb _ _ _ (mem p) M block_sizes p
              (proj2 HN) Hready Hzero Hex Hbss Hlen eq_refl)
    as (p1 & std & Hsw & Hout & Hfile).
  rewrite (sd_stdout _ _ _ _ Hp), (sd_clock _ _ _ _ Hp) in Hout.
  rewrite (sd_file _ _ _ _ Hp), (sd_clock _ _ _ _ Hp) in Hfile.
  cbn [app] in Hout, Hfile.
  exists q, p, p1, std.
  split; [exact Ha|]. split; [exact Hs|]. split; [exact Hsw|].
  intros t bs Hbs. exists (reference block_sizes t).
  pose proof (lookup_lt_Some _ _ _ Hbs) as Hlt.
  assert (Hline : map (general_row w tb block_sizes 0)
                      (seq 0 (length block_sizes)) !! t
                  = Some (Print MxmBloc.row_format
                            (row_args tb bs (timed w (2 * t))
                               (timed w (2 * reference block_sizes t))))).
  { rewrite list_lookup_fmap, lookup_seq_lt by assumption.
    rewrite Nat.add_0_l. cbn [fmap option_fmap option_map].
    unfold general_row. rewrite Hbs. reflexivity. }
  rewrite Hout, Hfile.
  split; [exact Hline|]. split; [exact Hline|].
  apply reference_spec.
Qed.

Lemma sweep_baseline_witness :
  let A := Some (block 0) in
  let B := Some (block 1) in
  let C := Some (block 2) in
  exists q p p1 std,
    MxmBloc.allocate calm 3 start = Done (A, B, C, q)
    /\ MxmBloc.seed calm A B C 3 q = Done p
    /\ MxmBloc.sweep calm A B C 3 864 [2; 512; 1] p = Done (p1, std)
    /\ forall t block_size, [2; 512; 1] !! t = Some block_size ->
         exists r,
           let msec := timed calm (2 * t) in
           let baseline := timed calm (2 * r) in
           let line :=
             Print MxmBloc.row_format
                   [AInt block_size; ADouble msec;
                    ADouble (MxmBloc.bandwidth 864 msec);
                    ADouble (baseline / msec)%float] in
           stdout p1 !! t = Some line
           /\ file p1 !! t = Some line
           /\ (r <= t)%nat
           /\ (r = 0%nat \/ [2; 512; 1] !! r = Some 512)
           /\ (forall i, (r < i <= t)%nat -> [2; 512; 1] !! i <> Some 512).
Proof.
  apply (sweep_baseline calm 3 864 [2; 512; 1]).
  - vm_compute. split; discriminate.
  - intros a _. reflexivity.
  - unfold INT_MAX. repeat constructor; lia.
  - vm_compute. reflexivity.
Defined.

(** ** When the file does not open *)

(** When every allocation succeeds and [fopen] fails, the blocked
    benchmark exits with [EXIT_FAILURE] after its [3 + 3 N] allocations
    and its [2 N^2] draws: the three tables and all the rows are still
    allocated, [clock()] was never called and nothing but the error
    message was printed. *)
Theorem blocked_benchmark_without_file (w : world) (N : Z)
    (block_sizes : list Z) :
  0 <= N <= INT_MAX ->
  (forall a, (a < 3 + 3 * Z.to_nat N)%nat -> malloc_succeeds w a = true) ->
  fopen_succeeds w = false ->
  exists p,
    MxmBloc.run w N block_sizes = Done (1, p)
    /\ stdout p = [Print "Error opening file!\n" []]
    /\ file p = []
    /\ n_clock p = 0%nat
    /\ n_malloc p = (3 + 3 * Z.to_nat N)%nat
    /\ rng_seed p = 42
    /\ rng_draws p = (2 * (Z.to_nat N * Z.to_nat N))%nat
    /\ (forall k, (k < 3)%nat -> is_Some (tables (mem p) !! block k))
    /\ (forall a, (3 <= a < 3 + 3 * Z.to_nat N)%nat ->
          is_Some (rows (mem p) !! block a)).
Proof.
  intros HN Hok Hopen.
  destruct (prepare_ok w N HN Hok) as (q & p & Ha & Hs & Hp).
  unfold MxmBloc.run. rewrite Ha. cbn [mbind outcome_bind].
  rewrite Hs. cbn [mbind outcome_bind]. rewrite Hopen.
  eexists. split; [reflexivity|].
  destruct Hp as [HtA HtB HtC Hrows _ Hseed Hdraws Hmalloc Hclock Hout Hfile].
  unfold printf.
  cbn [mem n_malloc n_clock rng_seed rng_draws stdout file].
  rewrite Hout. cbn [app].
  repeat (split; [assumption || reflexivity|]).
  split.
  - intros k Hk.
    assert (k = 0 \/ k = 1 \/ k = 2)%nat as [->|[->| ->]] by lia;
      [rewrite HtA|rewrite HtB|rewrite HtC]; eexists; reflexivity.
  - intros a Ha'. destruct (Hrows a Ha' (Hok a ltac:(lia))) as (row & -> & _).
    eexists. reflexivity.
Qed.

Lemma blocked_benchmark_without_file_witness :
  exists p,
    MxmBloc.run read_only MxmBloc.N MxmBloc.block_sizes = Done (1, p)
    /\ stdout p = [Print "Error opening file!\n" []]
    /\ file p = []
    /\ n_clock p = 0%nat
    /\ n_malloc p = (3 + 3 * Z.to_nat MxmBloc.N)%nat
    /\ rng_seed p = 42
    /\ rng_draws p = (2 * (Z.to_nat MxmBloc.N * Z.to_nat MxmBloc.N))%nat
    /\ (forall k, (k < 3)%nat -> is_Some (tables (mem p) !! block k))
    /\ (forall a, (3 <= a < 3 + 3 * Z.to_nat MxmBloc.N)%nat ->
          is_Some (rows (mem p) !! block a)).
Proof.
  apply (blocked_benchmark_without_file read_only MxmBloc.N
           MxmBloc.block_sizes).
  - unfold MxmBloc.N, INT_MAX. lia.
  - intros a _. reflexivity.
  - reflexivity.
Defined.

(** * The driver of the loop-order comparison (second program)

    [main] of the second program of exercice03/mxm_bloc.c, lines 164-289,
    for the dimensions [R1], [C1], [R2] and [C2] of the macros (all 512 in
    the file).  [rand] is never seeded. *)

Module MxmMain.

Definition EXIT_FAILURE : Z := 1.

(** [T[i] = (double * )malloc(count * sizeof(double));] *)
Definition allocate_row (w : world) (T : ptr) (count i : Z) (p : proc)
    : outcome proc :=
  let '(r, p) := malloc_doubles w count p in
  m ← lift (store_p (mem p) T i r);
  Done (set_mem p m).

(** Lines 169-181: the four tables, the rows of [m1], [result_ijk] and
    [result_ikj], then the rows of [m2]. *)
Definition allocate (w : world) (R1 C1 R2 C2 : Z) (p : proc)
    : outcome (ptr * ptr * ptr * ptr * proc) :=
  let '(m1, p) := malloc_pointers w R1 p in
  let '(m2, p) := malloc_pointers w R2 p in
  let '(result_ijk, p) := malloc_pointers w R1 p in
  let '(result_ikj, p) := malloc_pointers w R1 p in
  p ← for_loop 0 R1 1
        (fun i p =>
           p ← allocate_row w m1 C1 i p;
           p ← allocate_row w result_ijk C2 i p;
           allocate_row w result_ikj C2 i p) p;
  p ← for_loop 0 R2 1 (allocate_row w m2 C2) p;
  Done (m1, m2, result_ijk, result_ikj, p).

(** [T[i][j] = (double)(rand() % 10) + 1.0;] *)
Definition fill_cell (w : world) (T : ptr) (i j : Z) (p : proc)
    : outcome proc :=
  let '(r, p) := rand w p in
  m ← lift (store2 (mem p) T i j (double_of_Z (Z.rem r 10) + 1)%float);
  Done (set_mem p m).

(** Lines 184-188 and 190-194. *)
Definition fill (w : world) (T : ptr) (R C : Z) : proc -> outcome proc :=
  for_loop 0 R 1 (fun i => for_loop 0 C 1 (fill_cell w T i)).

(** Lines 220-225. *)
Definition clear_cell (result_ijk result_ikj : ptr) (i j : Z) (p : proc)
    : outcome proc :=
  m ← lift (store2 (mem p) result_ijk i j 0%float);
  m ← lift (store2 m result_ikj i j 0%float);
  Done (set_mem p m).

Definition clear (result_ijk result_ikj : ptr) (R1 C2 : Z)
    : proc -> outcome proc :=
  for_loop 0 R1 1 (fun i => for_loop 0 C2 1 (clear_cell result_ijk result_ikj i)).

(** [long long total_ops = 4LL * R1 * R2 * C2;] and
    [long long total_bytes = total_ops * sizeof(double);] *)
Definition total_bytes (R1 R2 C2 : Z) : option Z :=
  a ← ll_mul 4 R1; b ← ll_mul a R2; ops ← ll_mul b C2;
  Some (to_ll (ops mod 2 ^ 64 * 8)).

(** [rate = total_bytes * (1000.0 / msec) / (1024 * 1024);] *)
Definition rate (total_bytes : Z) (msec : float) : float :=
  (double_of_Z total_bytes * (1000 / msec) / double_of_Z (1024 * 1024))%float.

(** A timed loop nest and its line: lines 233-248 and 252-267. *)
Definition timed_version (w : world) (fmt : string)
    (nest : store -> outcome store) (total_bytes : Z) (p : proc)
    : outcome proc :=
  let '(c0, p) := clock w p in
  let start := seconds w c0 in
  m ← nest (mem p);
  let p := set_mem p m in
  let '(c1, p) := clock w p in
  let end_ := seconds w c1 in
  let msec := elapsed_ms start end_ in
  let rate := rate total_bytes msec in
  Done (fprintf fmt [ADouble msec; ADouble rate]
          (printf fmt [ADouble msec; ADouble rate] p)).

(** Lines 273-284. *)
Definition release (m1 m2 result_ijk result_ikj : ptr) (R1 R2 : Z)
    (p : proc) : outcome proc :=
  p ← for_loop 0 R1 1
        (fun i p =>
           a ← lift (load_row (mem p) m1 i);
           let p := free a p in
           b ← lift (load_row (mem p) result_ijk i);
           let p := free b p in
           c ← lift (load_row (mem p) result_ikj i);
           Done (free c p)) p;
  p ← for_loop 0 R2 1
        (fun i p => a ← lift (load_row (mem p) m2 i); Done (free a p)) p;
  Done (free result_ikj (free result_ijk (free m2 (free m1 p)))).

(** Lines 211-270: from the headers to the closing message. *)
Definition measure (w : world) (m1 m2 result_ijk result_ikj : ptr)
    (R1 C2 R2 : Z) (p : proc) : outcome proc :=
  let p := fprintf "Matrix Multiplication Performance Analysis\n" [] p in
  let p := fprintf "Matrix size: %d x %d\n\n" [AInt R1; AInt C2] p in
  let p := fprintf "Version, Time (msec), Bandwidth (MB/s)\n" [] p in
  let p := printf "Matrix Multiplication Performance Analysis\n" [] p in
  let p := printf "Matrix size: %d x %d\n\n" [AInt R1; AInt C2] p in
  let p := printf "Version, Time (msec), Bandwidth (MB/s)\n" [] p in
  p ← clear result_ijk result_ikj R1 C2 p;
  total_bytes ← lift (total_bytes R1 R2 C2);
  p ← timed_version w "i-j-k (Standard), %.4f, %.2f\n"
        (Mxm.version_ijk m1 m2 result_ijk R1 C2 R2) total_bytes p;
  p ← timed_version w "i-k-j (Optimized), %.4f, %.2f\n"
        (Mxm.version_ikj m1 m2 result_ikj R1 C2 R2) total_bytes p;
  Done (printf "\nResults saved to mxm_results.txt\n" [] p).

(** [main]: the exit status and the final process. *)
Definition run (w : world) (R1 C1 R2 C2 : Z) : outcome (Z * proc) :=
  '(m1, m2, result_ijk, result_ikj, p) ← allocate w R1 C1 R2 C2 start;
  p ← fill w m1 R1 C1 p;
  p ← fill w m2 R2 C2 p;
  if negb (C1 =? R2) then
    Done (EXIT_FAILURE,
          printf "The number of columns in Matrix-1 must be equal to the number of rows in Matrix-2\n"
                 [] p)
  else if fopen_succeeds w then
    p ← measure w m1 m2 result_ijk result_ikj R1 C2 R2 p;
    p ← release m1 m2 result_ijk result_ikj R1 R2 p;
    Done (0, p)
  else
    Done (EXIT_FAILURE, printf "Error opening file!\n" [] p).

Definition main (w : world) : outcome (Z * proc) := run w 512 512 512 512.

End MxmMain.

(** ** The matrices of the second program

    With every allocation successful the tables of [m1], [m2],
    [result_ijk] and [result_ikj] are the blocks 0 to 3; the rows number
    [i] of [m1], [result_ijk] and [result_ikj] are the blocks [4 + 3 i],
    [4 + 3 i + 1] and [4 + 3 i + 2], and the row number [i] of [m2] is the
    block [4 + 3 n + i]. *)

Definition row_block (n k i : nat) : nat :=
  match k with
  | 0%nat => 4 + 3 * i
  | 1%nat => 4 + 3 * n + i
  | 2%nat => 4 + 3 * i + 1
  | _ => 4 + 3 * i + 2
  end%nat.

Definition tab4 (n k : nat) : list ptr :=
  map (fun i => Some (block (row_block n k i))) (seq 0 n).

Arguments row_block : simpl never.
Arguments tab4 : simpl never.

(** The four [n] x [n] matrices are in place. *)
Definition ready4 (n : nat) (st : store) : Prop :=
  (forall k, (k < 4)%nat -> tables st !! block k = Some (tab4 n k))
  /\ (forall a, (4 <= a < 4 + 4 * n)%nat ->
        exists row, rows st !! block a = Some row /\ length row = n).

Lemma row_block_range (n k i : nat) :
  (k < 4)%nat -> (i < n)%nat -> (4 <= row_block n k i < 4 + 4 * n)%nat.
Proof.
  intros Hk Hi. unfold row_block. destruct k as [|[|[|k]]]; lia.
Qed.

Lemma row_block_inj (n k k' i i' : nat) :
  (k < 4)%nat -> (k' < 4)%nat -> (i < n)%nat -> (i' < n)%nat ->
  row_block n k i = row_block n k' i' -> k = k' /\ i = i'.
Proof.
  intros Hk Hk' Hi Hi'. unfold row_block.
  destruct k as [|[|[|k]]], k' as [|[|[|k']]]; lia.
Qed.

Lemma tab4_lookup (n k i : nat) :
  (i < n)%nat -> tab4 n k !! i = Some (Some (block (row_block n k i))).
Proof.
  intros Hi. unfold tab4.
  rewrite list_lookup_fmap, lookup_seq_lt by assumption. reflexivity.
Qed.

Lemma length_tab4 (n k : nat) : length (tab4 n k) = n.
Proof. unfold tab4. rewrite length_map, length_seq. reflexivity. Qed.

Lemma tab4_elem (n k : nat) (p : ptr) :
  p ∈ tab4 n k -> exists i, (i < n)%nat /\ p = Some (block (row_block n k i)).
Proof.
  unfold tab4. intros H. apply list_elem_of_fmap in H as (i & -> & Hi).
  apply elem_of_seq in Hi. exists i. split; [lia|reflexivity].
Qed.

Lemma tab4_nodup (n k : nat) : (k < 4)%nat -> NoDup (tab4 n k).
Proof.
  intros Hk. unfold tab4. apply NoDup_alt. intros i j p Hi Hj.
  rewrite list_lookup_fmap in Hi, Hj.
  destruct (seq 0 n !! i) as [a|] eqn:Ha; [|discriminate].
  destruct (seq 0 n !! j) as [b|] eqn:Hb; [|discriminate].
  apply lookup_seq in Ha as [-> Hlti], Hb as [-> Hltj].
  cbn in Hi, Hj. injection Hi as <-. injection Hj as Hj.
  apply block_inj in Hj.
  apply (row_block_inj n k k) in Hj; lia.
Qed.

Lemma tab4_disjoint (n k k' : nat) (p : ptr) :
  (k < 4)%nat -> (k' < 4)%nat -> k <> k' -> p ∈ tab4 n k -> p ∉ tab4 n k'.
Proof.
  intros Hk Hk' Hne H1 H2.
  apply tab4_elem in H1 as (i & Hi & ->).
  apply tab4_elem in H2 as (i' & Hi' & E).
  injection E as E. apply block_inj in E.
  apply (row_block_inj n k k') in E; lia.
Qed.

(** Any three of the four matrices, in any roles, are well formed. *)
Lemma ready4_wf (n a b c : nat) (st : store) :
  (a < 4)%nat -> (b < 4)%nat -> (c < 4)%nat -> a <> c -> b <> c ->
  ready4 n st ->
  wf (Some (block a)) (Some (block b)) (Some (block c)) (Z.of_nat n)
     (tab4 n a) (tab4 n b) (tab4 n c) st.
Proof.
  intros Ha Hb Hc Hac Hbc (Htab & Hrows).
  assert (Hrow : forall k p, (k < 4)%nat -> p ∈ tab4 n k ->
            row_at (Z.of_nat n) st p).
  { intros k p Hk Hin. apply tab4_elem in Hin as (i & Hi & ->).
    destruct (Hrows (row_block n k i)) as (row & Hr & Hl);
      [apply row_block_range; assumption|].
    exists (block (row_block n k i)), row. rewrite Nat2Z.id. auto. }
  constructor.
  - unfold table_of. cbn [mbind option_bind]. apply Htab, Ha.
  - unfold table_of. cbn [mbind option_bind]. apply Htab, Hb.
  - unfold table_of. cbn [mbind option_bind]. apply Htab, Hc.
  - rewrite length_tab4, Nat2Z.id. reflexivity.
  - rewrite length_tab4, Nat2Z.id. reflexivity.
  - rewrite length_tab4, Nat2Z.id. reflexivity.
  - intros p. apply Hrow, Ha.
  - intros p. apply Hrow, Hb.
  - intros p. apply Hrow, Hc.
  - apply tab4_nodup, Hc.
  - intros p Hp. apply (tab4_disjoint n c a); auto.
  - intros p Hp. apply (tab4_disjoint n c b); auto.
Qed.

(** Writing to the rows of one matrix keeps the four in place. *)
Lemma ready4_kept (n c : nat) (st st' : store) :
  (c < 4)%nat -> ready4 n st ->
  (forall p, p ∈ tab4 n c -> row_at (Z.of_nat n) st' p) ->
  tables st' = tables st ->
  (forall r, Some r ∉ tab4 n c -> rows st' !! r = rows st !! r) ->
  ready4 n st'.
Proof.
  intros Hc (Htab & Hrows) Hrow Ht Hf. split.
  - intros k Hk. rewrite Ht. apply Htab, Hk.
  - intros a Ha.
    destruct (decide (Some (block a) ∈ tab4 n c)) as [Hin|Hnot].
    + destruct (Hrow _ Hin) as (r & row & E & Hr & Hl).
      injection E as <-. exists row. rewrite Nat2Z.id in Hl. auto.
    + rewrite Hf by assumption. apply Hrows, Ha.
Qed.
(** One store into a cell of one of the four matrices. *)
Lemma update_cell (n k : nat) (st : store) (i j : Z) (v : float) :
  (k < 4)%nat -> ready4 n st ->
  0 <= i < Z.of_nat n -> 0 <= j < Z.of_nat n ->
  exists st',
    store2 st (Some (block k)) i j v = Some st'
    /\ ready4 n st'
    /\ no_new st st'
    /\ (forall k' i' j', (k' < 4)%nat ->
          0 <= i' < Z.of_nat n -> 0 <= j' < Z.of_nat n ->
          load2 st' (Some (block k')) i' j'
          = if (k' =? k)%nat && (i' =? i) && (j' =? j) then Some v
            else load2 st (Some (block k')) i' j').
Proof.
  intros Hk Hready Hi Hj.
  set (a := ((k + 1) mod 4)%nat). set (b := ((k + 2) mod 4)%nat).
  assert (Ha : (a < 4)%nat) by (apply Nat.mod_upper_bound; lia).
  assert (Hb : (b < 4)%nat) by (apply Nat.mod_upper_bound; lia).
  assert (Hak : a <> k).
  { unfold a. destruct k as [|[|[|[|k]]]]; cbn; lia. }
  assert (Hbk : b <> k).
  { unfold b. destruct k as [|[|[|[|k]]]]; cbn; lia. }
  pose proof (ready4_wf n a b k st Ha Hb Hk Hak Hbk Hready) as Hwf.
  destruct (store2_step _ _ _ _ _ _ _ st i j v Hwf Hi Hj)
    as (st' & Hst & Hwf' & Ht & Hf & Hc).
  exists st'. split; [exact Hst|].
  split; [|split].
  - apply (ready4_kept n k st st'); auto.
    destruct Hwf' as [_ _ _ _ _ _ _ _ HrC _ _ _]. exact HrC.
  - eapply store2_no_new. exact Hst.
  - intros k' i' j' Hk' Hi' Hj'.
    destruct (Nat.eqb_spec k' k) as [->|Hne]; cbn [andb].
    + apply Hc; assumption.
    + apply (load2_kept st st' _ (tab4 n k') (tab4 n k)); auto.
      * unfold table_of. cbn [mbind option_bind].
        destruct Hready as (Htab & _). apply Htab, Hk'.
      * intros p Hp. apply (tab4_disjoint n k' k); auto.
Qed.
(** The memory [st] is the memory [st0] in which the cells that [D]
    selects were overwritten with the values it gives. *)
Definition painted (n : nat) (D : nat -> Z -> Z -> option float)
    (st0 st : store) : Prop :=
  ready4 n st
  /\ no_new st0 st
  /\ (forall k i j, (k < 4)%nat ->
        0 <= i < Z.of_nat n -> 0 <= j < Z.of_nat n ->
        load2 st (Some (block k)) i j
        = match D k i j with
          | Some v => Some v
          | None => load2 st0 (Some (block k)) i j
          end).

Lemma painted_start (n : nat) (D : nat -> Z -> Z -> option float)
    (st : store) :
  ready4 n st ->
  (forall k i j, (k < 4)%nat ->
     0 <= i < Z.of_nat n -> 0 <= j < Z.of_nat n -> D k i j = None) ->
  painted n D st st.
Proof.
  intros Hr HD. split; [exact Hr|]. split; [apply no_new_refl|].
  intros k i j Hk Hi Hj. rewrite HD by assumption. reflexivity.
Qed.

Lemma painted_ext (n : nat) (D D' : nat -> Z -> Z -> option float)
    (st0 st : store) :
  (forall k i j, (k < 4)%nat ->
     0 <= i < Z.of_nat n -> 0 <= j < Z.of_nat n -> D k i j = D' k i j) ->
  painted n D st0 st -> painted n D' st0 st.
Proof.
  intros Hext (Hr & Hn & Hc). split; [exact Hr|]. split; [exact Hn|].
  intros k i j Hk Hi Hj. rewrite <- Hext by assumption. apply Hc; assumption.
Qed.

Lemma painted_step (n k : nat) (D : nat -> Z -> Z -> option float)
    (st0 st : store) (i j : Z) (v : float) :
  (k < 4)%nat -> 0 <= i < Z.of_nat n -> 0 <= j < Z.of_nat n ->
  painted n D st0 st ->
  exists st',
    store2 st (Some (block k)) i j v = Some st'
    /\ painted n (fun k' i' j' =>
                    if (k' =? k)%nat && (i' =? i) && (j' =? j) then Some v
                    else D k' i' j') st0 st'.
Proof.
  intros Hk Hi Hj (Hr & Hn & Hc).
  destruct (update_cell n k st i j v Hk Hr Hi Hj)
    as (st' & Hst & Hr' & Hn' & Hc').
  exists st'. split; [exact Hst|].
  split; [exact Hr'|]. split; [eapply no_new_trans; eassumption|].
  intros k' i' j' Hk' Hi' Hj'. rewrite Hc' by assumption.
  destruct ((k' =? k)%nat && (i' =? i) && (j' =? j)); [reflexivity|].
  apply Hc; assumption.
Qed.

(** The value [(double)(rand() % 10) + 1.0] of the draw number [q] after
    the seed [seed]. *)
Definition draw_value (w : world) (seed : Z) (q : nat) : float :=
  (double_of_Z (Z.rem (rand_value w seed q) 10) + 1)%float.

Ltac bools :=
  repeat match goal with
    | |- context [(?a =? ?b)%nat] => destruct (Nat.eqb_spec a b)
    | |- context [?a <=? ?b] => destruct (Z.leb_spec a b)
    | |- context [?a <? ?b] => destruct (Z.ltb_spec a b)
    | |- context [?a =? ?b] => destruct (Z.eqb_spec a b)
    end;
  cbn [andb orb]; try reflexivity; try lia.

(** Filling the matrix number [k] draws its [n * n] cells in row-major
    order and changes nothing else. *)
Lemma fill_spec (w : world) (n k : nat) (p : proc) :
  (k < 4)%nat -> Z.of_nat n <= INT_MAX -> ready4 n (mem p) ->
  exists m,
    MxmMain.fill w (Some (block k)) (Z.of_nat n) (Z.of_nat n) p
    = Done (Proc m (n_malloc p) (n_clock p) (rng_seed p)
                 (rng_draws p + n * n) (stdout p) (file p))
    /\ painted n (fun k' i j =>
                    if (k' =? k)%nat
                    then Some (draw_value w (rng_seed p)
                                 (rng_draws p + Z.to_nat i * n + Z.to_nat j))
                    else None) (mem p) m.
Proof.
  intros Hk Hn Hready. unfold MxmMain.fill.
  rewrite for_loop_range by (unfold INT_MIN; lia).
  rewrite range_upto. unfold upto. rewrite Nat2Z.id.
  set (val := fun i j : Z =>
         draw_value w (rng_seed p)
           (rng_draws p + Z.to_nat i * n + Z.to_nat j)).
  set (shape := fun (d : nat) (m : store) =>
         Proc m (n_malloc p) (n_clock p) (rng_seed p) (rng_draws p + d)
              (stdout p) (file p)).
  destruct (run_list_count
              (fun t q => exists m, q = shape (t * n)%nat m
                 /\ painted n (fun k' i j =>
                                 if (k' =? k)%nat && (i <? Z.of_nat t)
                                 then Some (val i j) else None) (mem p) m)
              (fun i => for_loop 0 (Z.of_nat n) 1
                          (MxmMain.fill_cell w (Some (block k)) i))
              Z.of_nat n 0%nat p)
    as (q & Hrun & m & -> & Hm).
  - exists (mem p). split.
    + unfold shape. cbn [Nat.mul]. rewrite Nat.add_0_r. destruct p; reflexivity.
    + apply painted_start; [exact Hready|]. intros k' i j Hk' Hi Hj. bools.
  - intros i q Hi (m & -> & Hm).
    rewrite for_loop_range by (unfold INT_MIN; lia).
    rewrite range_upto. unfold upto. rewrite Nat2Z.id.
    destruct (run_list_count
                (fun t q => exists m', q = shape (i * n + t)%nat m'
                   /\ painted n
                        (fun k' i' j' =>
                           if (k' =? k)%nat
                              && ((i' <? Z.of_nat i)
                                  || ((i' =? Z.of_nat i)
                                      && (j' <? Z.of_nat t)))
                           then Some (val i' j') else None) (mem p) m')
                (MxmMain.fill_cell w (Some (block k)) (Z.of_nat i))
                Z.of_nat n 0%nat (shape (i * n)%nat m))
      as (q & Hrun & m' & -> & Hm').
    + exists m. split; [f_equal; lia|].
      eapply painted_ext; [|exact Hm]. intros k' i' j' Hk' Hi' Hj'.
      cbv beta. bools.
    + intros j q Hj (m1 & -> & Hm1).
      destruct (painted_step n k _ (mem p) m1 (Z.of_nat i) (Z.of_nat j)
                  (val (Z.of_nat i) (Z.of_nat j)) Hk ltac:(lia) ltac:(lia)
                  Hm1) as (m2 & Hst & Hm2).
      exists (shape (i * n + S j)%nat m2). split.
      * unfold MxmMain.fill_cell, rand, shape.
        cbn [mem n_malloc n_clock rng_seed rng_draws stdout file set_mem].
        unfold val, draw_value in Hst. rewrite !Nat2Z.id in Hst.
        replace (rng_draws p + (i * n + j))%nat
          with (rng_draws p + i * n + j)%nat by lia.
        rewrite Hst. rewrite bind_lift_Some.
        unfold set_mem.
        cbn [mem n_malloc n_clock rng_seed rng_draws stdout file].
        f_equal. f_equal. lia.
      * exists m2. split; [reflexivity|].
        eapply painted_ext; [|exact Hm2]. intros k' i' j' Hk' Hi' Hj'.
        cbv beta.
        destruct (Nat.eqb_spec k' k), (Z.ltb_spec i' (Z.of_nat i)),
          (Z.eqb_spec i' (Z.of_nat i)), (Z.eqb_spec j' (Z.of_nat j)),
          (Z.ltb_spec j' (Z.of_nat j)), (Z.ltb_spec j' (Z.of_nat (S j)));
          cbn [andb orb]; try reflexivity; try lia; subst; reflexivity.
    + exists (shape (i * n + (0 + n))%nat m'). split; [exact Hrun|].
      exists m'. split; [f_equal; lia|].
      eapply painted_ext; [|exact Hm']. intros k' i' j' Hk' Hi' Hj'.
      cbv beta.
      destruct (Nat.eqb_spec k' k), (Z.ltb_spec i' (Z.of_nat i)),
        (Z.eqb_spec i' (Z.of_nat i)), (Z.ltb_spec j' (Z.of_nat (0 + n))),
        (Z.ltb_spec i' (Z.of_nat (S i)));
        cbn [andb orb]; try reflexivity; try lia.
  - exists m. split.
    + rewrite Hrun. unfold shape. f_equal.
    + eapply painted_ext; [|exact Hm]. intros k' i' j' Hk' Hi' Hj'.
      cbv beta.
      destruct (Nat.eqb_spec k' k), (Z.ltb_spec i' (Z.of_nat (0 + n)));
        cbn [andb orb]; try reflexivity; try lia.
Qed.
(** No block beyond the first [4 + 4 n] is in use. *)
Definition outside (n : nat) (m : store) : Prop :=
  forall l, (forall a, (a < 4 + 4 * n)%nat -> l <> block a) ->
            tables m !! l = None /\ rows m !! l = None.

Lemma outside_no_new (n : nat) (m m' : store) :
  outside n m -> no_new m m' -> outside n m'.
Proof.
  intros Ho Hn l Hl. destruct (Ho l Hl), (Hn l). auto.
Qed.

(** Clearing the two result matrices. *)
Lemma clear_spec (n : nat) (p : proc) :
  Z.of_nat n <= INT_MAX -> ready4 n (mem p) ->
  exists m,
    MxmMain.clear (Some (block 2)) (Some (block 3)) (Z.of_nat n) (Z.of_nat n) p
    = Done (set_mem p m)
    /\ painted n (fun k' i j =>
                    if (k' =? 2)%nat || (k' =? 3)%nat then Some 0%float
                    else None) (mem p) m.
Proof.
  intros Hn Hready. unfold MxmMain.clear.
  rewrite for_loop_range by (unfold INT_MIN; lia).
  rewrite range_upto. unfold upto. rewrite Nat2Z.id.
  destruct (run_list_count
              (fun t q => exists m, q = set_mem p m
                 /\ painted n (fun k' i j =>
                                 if ((k' =? 2)%nat || (k' =? 3)%nat)
                                    && (i <? Z.of_nat t)
                                 then Some 0%float else None) (mem p) m)
              (fun i => for_loop 0 (Z.of_nat n) 1
                          (MxmMain.clear_cell (Some (block 2))
                             (Some (block 3)) i))
              Z.of_nat n 0%nat p)
    as (q & Hrun & m & -> & Hm).
  - exists (mem p). split; [symmetry; apply set_mem_id|].
    apply painted_start; [exact Hready|]. intros k' i j Hk' Hi Hj.
    destruct (Z.ltb_spec i (Z.of_nat 0)); [lia|].
    rewrite andb_false_r. reflexivity.
  - intros i q Hi (m & -> & Hm).
    rewrite for_loop_range by (unfold INT_MIN; lia).
    rewrite range_upto. unfold upto. rewrite Nat2Z.id.
    destruct (run_list_count
                (fun t q => exists m', q = set_mem p m'
                   /\ painted n
                        (fun k' i' j' =>
                           if ((k' =? 2)%nat || (k' =? 3)%nat)
                              && ((i' <? Z.of_nat i)
                                  || ((i' =? Z.of_nat i)
                                      && (j' <? Z.of_nat t)))
                           then Some 0%float else None) (mem p) m')
                (MxmMain.clear_cell (Some (block 2)) (Some (block 3))
                   (Z.of_nat i))
                Z.of_nat n 0%nat (set_mem p m))
      as (q & Hrun & m' & -> & Hm').
    + exists m. split; [reflexivity|].
      eapply painted_ext; [|exact Hm]. intros k' i' j' Hk' Hi' Hj'.
      cbv beta.
      destruct ((k' =? 2)%nat || (k' =? 3)%nat); cbn [andb]; [|reflexivity].
      destruct (Z.ltb_spec i' (Z.of_nat i)), (Z.eqb_spec i' (Z.of_nat i)),
        (Z.ltb_spec j' (Z.of_nat 0));
        cbn [andb orb]; try reflexivity; try lia.
    + intros j q Hj (m1 & -> & Hm1).
      destruct (painted_step n 2 _ (mem p) m1 (Z.of_nat i) (Z.of_nat j)
                  0%float ltac:(lia) ltac:(lia) ltac:(lia) Hm1)
        as (m2 & Hst2 & Hm2).
      destruct (painted_step n 3 _ (mem p) m2 (Z.of_nat i) (Z.of_nat j)
                  0%float ltac:(lia) ltac:(lia) ltac:(lia) Hm2)
        as (m3 & Hst3 & Hm3).
      exists (set_mem p m3). split.
      * unfold MxmMain.clear_cell. cbn [mem set_mem].
        rewrite Hst2, bind_lift_Some, Hst3, bind_lift_Some. reflexivity.
      * exists m3. split; [reflexivity|].
        eapply painted_ext; [|exact Hm3]. intros k' i' j' Hk' Hi' Hj'.
        cbv beta.
        destruct (Nat.eqb_spec k' 2), (Nat.eqb_spec k' 3),
          (Z.ltb_spec i' (Z.of_nat i)),
          (Z.eqb_spec i' (Z.of_nat i)), (Z.eqb_spec j' (Z.of_nat j)),
          (Z.ltb_spec j' (Z.of_nat j)), (Z.ltb_spec j' (Z.of_nat (S j)));
          cbn [andb orb]; try reflexivity; try lia.
    + exists (set_mem p m'). split; [exact Hrun|].
      exists m'. split; [reflexivity|].
      eapply painted_ext; [|exact Hm']. intros k' i' j' Hk' Hi' Hj'.
      cbv beta.
      destruct ((k' =? 2)%nat || (k' =? 3)%nat); cbn [andb]; [|reflexivity].
      destruct (Z.ltb_spec i' (Z.of_nat i)),
        (Z.eqb_spec i' (Z.of_nat i)), (Z.ltb_spec j' (Z.of_nat (0 + n))),
        (Z.ltb_spec i' (Z.of_nat (S i)));
        cbn [andb orb]; try reflexivity; try lia.
  - exists m. split; [exact Hrun|].
    eapply painted_ext; [|exact Hm]. intros k' i' j' Hk' Hi' Hj'.
    cbv beta.
    destruct ((k' =? 2)%nat || (k' =? 3)%nat); cbn [andb]; [|reflexivity].
    destruct (Z.ltb_spec i' (Z.of_nat (0 + n))); [reflexivity|lia].
Qed.

(** A loop nest of multiply-adds into the result matrix number [c]. *)
Lemma version_step (n c : nat) (ops : list op) (st : store) :
  (2 <= c < 4)%nat -> Forall (inb (Z.of_nat n)) ops ->
  ready4 n st -> outside n st ->
  exists st',
    exec (Some (block 0)) (Some (block 1)) (Some (block c)) ops st = Done st'
    /\ ready4 n st'
    /\ outside n st'
    /\ (forall k i j, (k < 4)%nat -> k <> c ->
          load2 st' (Some (block k)) i j = load2 st (Some (block k)) i j)
    /\ (forall i j, 0 <= i < Z.of_nat n -> 0 <= j < Z.of_nat n ->
          load2 st' (Some (block c)) i j
          = Some (accumulate st (Some (block 0)) (Some (block 1)) i j
                    (ks ops i j) (rd st (Some (block c)) i j))).
Proof.
  intros Hc Hops Hready Hout.
  pose proof (ready4_wf n 0 1 c st ltac:(lia) ltac:(lia) ltac:(lia)
                ltac:(lia) ltac:(lia) Hready) as Hwf.
  destruct (exec_spec _ _ _ _ _ _ _ ops Hops st Hwf)
    as (st' & Hex & Hwf' & Ht & Hf & HA & HB & HC).
  exists st'. split; [exact Hex|].
  split; [|split; [|split]].
  - apply (ready4_kept n c st); [lia|exact Hready| |exact Ht|exact Hf].
    apply (wf_rowsC _ _ _ _ _ _ _ _ Hwf').
  - intros l Hl. destruct (Hout l Hl) as [H1 H2]. rewrite Ht. split; [exact H1|].
    rewrite Hf; [exact H2|]. intros Hin.
    apply tab4_elem in Hin as (i & Hi & E). injection E as ->.
    apply (Hl (row_block n c i)); [|reflexivity].
    pose proof (row_block_range n c i ltac:(lia) Hi). lia.
  - intros k i j Hk Hne.
    apply (load2_kept st st' _ (tab4 n k) (tab4 n c)); auto.
    + unfold table_of. cbn [mbind option_bind]. apply Hready, Hk.
    + intros q Hq. apply (tab4_disjoint n k c); [lia|lia|exact Hne|exact Hq].
  - exact HC.
Qed.
(** ** Allocation in the second program *)

(** The dimensions [R1], [C1], [R2] and [C2]. *)
Record dims : Type := Dims { dR1 : nat; dC1 : nat; dR2 : nat; dC2 : nat }.

Definition square (n : nat) : dims := Dims n n n n.

(** The matrix number [k] (0 for [m1], 1 for [m2], 2 for [result_ijk], 3
    for [result_ikj]) has [rows_of d k] rows of [cols_of d k] doubles. *)
Definition rows_of (d : dims) (k : nat) : nat :=
  if (k =? 1)%nat then dR2 d else dR1 d.

Definition cols_of (d : dims) (k : nat) : nat :=
  if (k =? 0)%nat then dC1 d else dC2 d.

(** The number of allocations, and the length of the row that the
    allocation number [a] requests. *)
Definition blocks (d : dims) : nat := 4 + 3 * dR1 d + dR2 d.

Definition width (d : dims) (a : nat) : nat :=
  if (a <? 4 + 3 * dR1 d)%nat && ((a - 4) mod 3 =? 0)%nat then dC1 d
  else dC2 d.

Lemma block_range (d : dims) (k i : nat) :
  (k < 4)%nat -> (i < rows_of d k)%nat ->
  (4 <= row_block (dR1 d) k i < blocks d)%nat.
Proof.
  intros Hk Hi. unfold row_block, blocks, rows_of in *.
  destruct k as [|[|[|k]]]; cbn [Nat.eqb] in Hi; lia.
Qed.

Lemma width_row_block (d : dims) (k i : nat) :
  (k < 4)%nat -> (i < rows_of d k)%nat ->
  width d (row_block (dR1 d) k i) = cols_of d k.
Proof.
  intros Hk Hi. unfold width, row_block, rows_of, cols_of in *.
  destruct k as [|[|[|k]]]; cbn [Nat.eqb] in *; try lia.
  - replace (4 + 3 * i - 4)%nat with (0 + i * 3)%nat by lia.
    rewrite Nat.Div0.mod_add.
    destruct (Nat.ltb_spec (4 + 3 * i) (4 + 3 * dR1 d)); [reflexivity|lia].
  - destruct (Nat.ltb_spec (4 + 3 * dR1 d + i) (4 + 3 * dR1 d));
      [lia|reflexivity].
  - replace (4 + 3 * i + 1 - 4)%nat with (1 + i * 3)%nat by lia.
    rewrite Nat.Div0.mod_add. rewrite andb_false_r. reflexivity.
  - replace (4 + 3 * i + 2 - 4)%nat with (2 + i * 3)%nat by lia.
    rewrite Nat.Div0.mod_add. rewrite andb_false_r. reflexivity.
Qed.

Lemma rows_of_square (n k : nat) : rows_of (square n) k = n.
Proof. unfold rows_of. destruct (k =? 1)%nat; reflexivity. Qed.

Lemma cols_of_square (n k : nat) : cols_of (square n) k = n.
Proof. unfold cols_of. destruct (k =? 0)%nat; reflexivity. Qed.

Lemma width_square (n a : nat) : width (square n) a = n.
Proof. unfold width. destruct (_ && _); reflexivity. Qed.

(** The table of the matrix number [k] once its rows are requested: the
    entry of a row whose allocation failed is null. *)
Definition tabw (w : world) (d : dims) (k : nat) : list ptr :=
  map (fun i => entry w (row_block (dR1 d) k i)) (seq 0 (rows_of d k)).

Arguments tabw : simpl never.

Lemma tabw_lookup (w : world) (d : dims) (k i : nat) :
  (i < rows_of d k)%nat ->
  tabw w d k !! i = Some (entry w (row_block (dR1 d) k i)).
Proof.
  intros Hi. unfold tabw.
  rewrite list_lookup_fmap, lookup_seq_lt by assumption. reflexivity.
Qed.

Lemma length_tabw (w : world) (d : dims) (k : nat) :
  length (tabw w d k) = rows_of d k.
Proof. unfold tabw. rewrite length_map, length_seq. reflexivity. Qed.

(** The memory [m] after [cnt] calls of [malloc], when the table of the
    matrix number [k], if it could be allocated, has its first [c k] row
    pointers set. *)
Definition alloc4 (w : world) (d : dims) (c : nat -> nat) (cnt : nat)
    (m : store) : Prop :=
  (4 <= cnt)%nat
  /\ (forall k, (k < 4)%nat -> malloc_succeeds w k = true ->
        exists tab, tables m !! block k = Some tab
                    /\ length tab = rows_of d k
                    /\ forall i, (i < c k)%nat ->
                         tab !! i = Some (entry w (row_block (dR1 d) k i)))
  /\ (forall a, (4 <= a < cnt)%nat -> malloc_succeeds w a = true ->
        exists row, rows m !! block a = Some row /\ length row = width d a)
  /\ (forall l, (forall a, (a < cnt)%nat -> l <> block a) ->
        tables m !! l = None /\ rows m !! l = None).

Lemma alloc4_ext (w : world) (d : dims) (c c' : nat -> nat) (cnt : nat)
    (m : store) :
  (forall k, (k < 4)%nat -> c k = c' k) ->
  alloc4 w d c cnt m -> alloc4 w d c' cnt m.
Proof.
  intros Hext (Hc & Ht & Hr & Ho). split; [exact Hc|].
  split; [|split; [exact Hr|exact Ho]].
  intros k Hk Hok. destruct (Ht k Hk Hok) as (tab & H1 & H2 & H3).
  exists tab. rewrite <- Hext by assumption. auto.
Qed.

Definition fresh (m : store) (cnt : nat) : proc :=
  Proc m cnt 0 1 0 [] [].

(** One statement [T[t] = malloc(...)], whether the allocation of the
    row succeeds or not. *)
Lemma allocate_row_step (w : world) (d : dims) (k t : nat) (c : nat -> nat)
    (cnt : nat) (m : store) :
  alloc4 w d c cnt m ->
  malloc_succeeds w k = true -> (k < 4)%nat -> c k = t ->
  (t < rows_of d k)%nat -> cnt = row_block (dR1 d) k t ->
  exists m',
    MxmMain.allocate_row w (Some (block k)) (Z.of_nat (cols_of d k))
      (Z.of_nat t) (fresh m cnt)
    = Done (fresh m' (S cnt))
    /\ alloc4 w d (fun k' => if (k' =? k)%nat then S t else c k') (S cnt) m'.
Proof.
  intros (Hc & Ht & Hr & Ho) Hok Hk Hckt Hck Hcnt.
  destruct (Ht k Hk Hok) as (tab & Htab & Hlen & Hset). rewrite Hckt in Hset.
  assert (Hlt : (t < length tab)%nat) by (rewrite Hlen; exact Hck).
  unfold MxmMain.allocate_row.
  rewrite malloc_doubles_eq by lia. unfold fresh, count_malloc.
  cbn [mem n_malloc n_clock rng_seed rng_draws stdout file tables rows].
  match goal with
  | |- context [store_p ?st _ _ ?v] =>
      rewrite (store_p_table st (block k) tab t v Htab) by lia
  end.
  rewrite bind_lift_Some. unfold set_mem.
  cbn [mem n_malloc n_clock rng_seed rng_draws stdout file tables rows].
  eexists. split; [reflexivity|].
  split; [lia|]. cbn [tables rows]. split; [|split].
  - intros k' Hk' Hok'. destruct (Nat.eqb_spec k' k) as [->|Hne].
    + eexists. split; [apply lookup_insert_eq|].
      split; [rewrite length_insert; exact Hlen|].
      intros i Hi. destruct (Nat.eq_dec i t) as [->|Hi'].
      * rewrite list_lookup_insert_eq by exact Hlt.
        rewrite Hcnt. reflexivity.
      * rewrite list_lookup_insert_ne by congruence. apply Hset. lia.
    + destruct (Ht k' Hk' Hok') as (tab' & H1 & H2 & H3).
      exists tab'. rewrite lookup_insert_ne by (apply block_ne; congruence).
      auto.
  - intros a Ha Hoka. destruct (Nat.eq_dec a cnt) as [->|Hne].
    + rewrite Hoka. eexists. split; [apply lookup_insert_eq|].
      unfold junk_row. rewrite length_map, length_seq, Nat2Z.id.
      rewrite Hcnt. symmetry. apply width_row_block; assumption.
    + destruct (Hr a) as (row & Hrow & Hl); [lia|exact Hoka|].
      exists row. split; [|exact Hl].
      destruct (malloc_succeeds w cnt); [|exact Hrow].
      rewrite lookup_insert_ne by (apply block_ne; congruence). exact Hrow.
  - intros l Hl. destruct (Ho l) as [H1 H2]; [intros a Ha; apply Hl; lia|].
    split.
    + rewrite lookup_insert_ne; [exact H1|].
      intros E. apply (Hl k); [lia|congruence].
    + destruct (malloc_succeeds w cnt); [|exact H2].
      rewrite lookup_insert_ne; [exact H2|].
      intros E. apply (Hl cnt); [lia|congruence].
Qed.

Lemma allocate_row_none (w : world) (N i : Z) (p : proc) :
  MxmMain.allocate_row w None N i p = Fault.
Proof.
  unfold MxmMain.allocate_row.
  destruct (malloc_doubles w N p) as [r p']. reflexivity.
Qed.

(** The four requests for tables, whatever their results. *)
Lemma allocate_tables4 (w : world) (d : dims) :
  exists m0,
    alloc4 w d (fun _ => 0%nat) 4 m0
    /\ MxmMain.allocate w (Z.of_nat (dR1 d)) (Z.of_nat (dC1 d))
         (Z.of_nat (dR2 d)) (Z.of_nat (dC2 d)) start
       = (p ← for_loop 0 (Z.of_nat (dR1 d)) 1
                (fun i p =>
                   p ← MxmMain.allocate_row w (entry w 0)
                         (Z.of_nat (dC1 d)) i p;
                   p ← MxmMain.allocate_row w (entry w 2)
                         (Z.of_nat (dC2 d)) i p;
                   MxmMain.allocate_row w (entry w 3) (Z.of_nat (dC2 d)) i p)
                (fresh m0 4);
          p ← for_loop 0 (Z.of_nat (dR2 d)) 1
                (MxmMain.allocate_row w (entry w 1) (Z.of_nat (dC2 d))) p;
          Done (entry w 0, entry w 1, entry w 2, entry w 3, p)).
Proof.
  unfold MxmMain.allocate.
  rewrite !malloc_pointers_eq by lia. unfold count_malloc, start.
  cbn [mem n_malloc n_clock rng_seed rng_draws stdout file tables rows].
  eexists. split; [|reflexivity].
  split; [lia|]. cbn [tables rows]. split; [|split].
  - intros k Hk Hok.
    assert (Hj : forall a r, length (junk_table w (Z.of_nat r) a) = r).
    { intros a r. unfold junk_table. rewrite length_map, length_seq.
      apply Nat2Z.id. }
    assert (k = 0 \/ k = 1 \/ k = 2 \/ k = 3)%nat as [->|[->|[->| ->]]]
      by lia; rewrite ?Hok;
      destruct (malloc_succeeds w 0), (malloc_succeeds w 1),
        (malloc_succeeds w 2), (malloc_succeeds w 3);
      try discriminate;
      rewrite ?lookup_insert_ne by (apply block_ne; lia);
      rewrite lookup_insert_eq;
      (eexists; split; [reflexivity|]; split; [apply Hj|intros; lia]).
  - intros a Ha. lia.
  - intros l Hl. split; [|apply lookup_empty].
    destruct (malloc_succeeds w 0), (malloc_succeeds w 1),
      (malloc_succeeds w 2), (malloc_succeeds w 3);
      rewrite ?lookup_insert_ne
        by (intros E; eapply Hl; [|symmetry; exact E]; lia);
      apply lookup_empty.
Qed.

(** The tables and rows once every request was made, the four tables
    being allocated. *)
Definition shapew (w : world) (d : dims) (m : store) : Prop :=
  (forall k, (k < 4)%nat -> tables m !! block k = Some (tabw w d k))
  /\ (forall a, (4 <= a < blocks d)%nat -> malloc_succeeds w a = true ->
        exists row, rows m !! block a = Some row /\ length row = width d a).

Lemma entry_ok (w : world) (a : nat) :
  malloc_succeeds w a = true -> entry w a = Some (block a).
Proof. intros H. unfold entry. rewrite H. reflexivity. Qed.

Lemma entry_null (w : world) (a : nat) :
  malloc_succeeds w a = false -> entry w a = None.
Proof. intros H. unfold entry. rewrite H. reflexivity. Qed.

(** The first round of rows, on the tables that were allocated. *)
Lemma allocate_rows_loop (w : world) (d : dims) (m0 : store) :
  Z.of_nat (dR1 d) <= INT_MAX ->
  malloc_succeeds w 0 = true -> malloc_succeeds w 2 = true ->
  malloc_succeeds w 3 = true ->
  alloc4 w d (fun _ => 0%nat) 4 m0 ->
  exists m1,
    for_loop 0 (Z.of_nat (dR1 d)) 1
      (fun i p =>
         p ← MxmMain.allocate_row w (entry w 0) (Z.of_nat (dC1 d)) i p;
         p ← MxmMain.allocate_row w (entry w 2) (Z.of_nat (dC2 d)) i p;
         MxmMain.allocate_row w (entry w 3) (Z.of_nat (dC2 d)) i p)
      (fresh m0 4)
    = Done (fresh m1 (4 + 3 * dR1 d))
    /\ alloc4 w d (fun k => if (k =? 1)%nat then 0%nat else dR1 d)
         (4 + 3 * dR1 d) m1.
Proof.
  intros Hn H0 H2 H3 Hm0.
  rewrite !entry_ok by assumption.
  rewrite for_loop_range by (unfold INT_MIN; lia).
  rewrite range_upto. unfold upto. rewrite Nat2Z.id.
  match goal with
  | |- context [run_list (map ?body _) (fresh m0 4)] =>
      destruct (run_list_count
                  (fun t q => exists m, q = fresh m (4 + 3 * t)
                     /\ alloc4 w d
                          (fun k => if (k =? 1)%nat then 0%nat else t)
                          (4 + 3 * t) m)
                  body Z.of_nat (dR1 d) 0%nat (fresh m0 4))
        as (q & Hrun & m1 & -> & Hm1)
  end.
  - exists m0. split; [reflexivity|].
    eapply alloc4_ext; [|exact Hm0]. intros k Hk.
    destruct (k =? 1)%nat; reflexivity.
  - intros t q Ht (m & -> & Hm).
    destruct (allocate_row_step w d 0 t _ _ _ Hm) as (ma & Ha & Hma);
      [assumption|lia|reflexivity|cbn [rows_of Nat.eqb]; lia|reflexivity|].
    cbn [cols_of Nat.eqb] in Ha. rewrite Ha. cbn [mbind outcome_bind].
    destruct (allocate_row_step w d 2 t _ _ _ Hma) as (mb & Hb & Hmb);
      [assumption|lia|reflexivity|cbn [rows_of Nat.eqb]; lia
      |unfold row_block; lia|].
    cbn [cols_of Nat.eqb] in Hb. rewrite Hb. cbn [mbind outcome_bind].
    destruct (allocate_row_step w d 3 t _ _ _ Hmb) as (mc & Hc & Hmc);
      [assumption|lia|reflexivity|cbn [rows_of Nat.eqb]; lia
      |unfold row_block; lia|].
    cbn [cols_of Nat.eqb] in Hc. rewrite Hc.
    eexists. split; [reflexivity|]. exists mc.
    split; [f_equal; lia|].
    replace (4 + 3 * S t)%nat with (S (S (S (4 + 3 * t)))) by lia.
    eapply alloc4_ext; [|exact Hmc]. intros k Hk. cbv beta.
    assert (k = 0 \/ k = 1 \/ k = 2 \/ k = 3)%nat as [->|[->|[->| ->]]] by lia;
      reflexivity.
  - exists m1. split; [exact Hrun|exact Hm1].
Qed.

(** With the four tables allocated, allocation returns: a row that could
    not be allocated leaves a null pointer in its table. *)
Lemma allocate_shape (w : world) (d : dims) :
  Z.of_nat (dR1 d) <= INT_MAX -> Z.of_nat (dR2 d) <= INT_MAX ->
  (forall k, (k < 4)%nat -> malloc_succeeds w k = true) ->
  exists m,
    MxmMain.allocate w (Z.of_nat (dR1 d)) (Z.of_nat (dC1 d))
      (Z.of_nat (dR2 d)) (Z.of_nat (dC2 d)) start
    = Done (Some (block 0), Some (block 1), Some (block 2), Some (block 3),
            fresh m (blocks d))
    /\ shapew w d m
    /\ (forall l, (forall a, (a < blocks d)%nat -> l <> block a) ->
          tables m !! l = None /\ rows m !! l = None).
Proof.
  intros Hn1 Hn2 Hok.
  destruct (allocate_tables4 w d) as (m0 & Hm0 & ->).
  destruct (allocate_rows_loop w d m0 Hn1) as (m1 & -> & Hm1);
    [apply Hok; lia..|exact Hm0|].
  cbn [mbind outcome_bind].
  rewrite !entry_ok by (apply Hok; lia).
  rewrite for_loop_range by (unfold INT_MIN; lia).
  rewrite range_upto. unfold upto. rewrite Nat2Z.id.
  destruct (run_list_count
              (fun t q => exists m, q = fresh m (4 + 3 * dR1 d + t)
                 /\ alloc4 w d (fun k => if (k =? 1)%nat then t else dR1 d)
                      (4 + 3 * dR1 d + t) m)
              (MxmMain.allocate_row w (Some (block 1)) (Z.of_nat (dC2 d)))
              Z.of_nat (dR2 d) 0%nat (fresh m1 (4 + 3 * dR1 d)))
    as (q & Hrun2 & m2 & -> & Hm2).
  - exists m1. split; [f_equal; lia|].
    replace (4 + 3 * dR1 d + 0)%nat with (4 + 3 * dR1 d)%nat by lia.
    eapply alloc4_ext; [|exact Hm1]. intros k Hk. cbv beta.
    destruct (k =? 1)%nat; reflexivity.
  - intros t q Ht (m & -> & Hm).
    destruct (allocate_row_step w d 1 t _ _ _ Hm) as (ma & Ha & Hma);
      [apply Hok; lia|lia|reflexivity|cbn [rows_of Nat.eqb]; lia
      |reflexivity|].
    cbn [cols_of Nat.eqb] in Ha. rewrite Ha.
    eexists. split; [reflexivity|]. exists ma.
    split; [f_equal; lia|].
    replace (4 + 3 * dR1 d + S t)%nat with (S (4 + 3 * dR1 d + t)) by lia.
    eapply alloc4_ext; [|exact Hma]. intros k Hk. cbv beta.
    assert (k = 0 \/ k = 1 \/ k = 2 \/ k = 3)%nat as [->|[->|[->| ->]]]
      by lia; reflexivity.
  - rewrite Hrun2. cbn [mbind outcome_bind].
    exists m2.
    replace (4 + 3 * dR1 d + (0 + dR2 d))%nat with (blocks d) in *
      by (unfold blocks; lia).
    split; [reflexivity|].
    destruct Hm2 as (_ & Ht & Hr & Ho). split; [split|].
    + intros k Hk. destruct (Ht k Hk (Hok k Hk)) as (tab & -> & Hlen & Hset).
      f_equal. apply list_eq. intros i.
      destruct (Nat.lt_ge_cases i (rows_of d k)) as [Hi|Hi].
      * rewrite tabw_lookup by assumption. apply Hset.
        unfold rows_of in Hi. destruct (k =? 1)%nat; lia.
      * rewrite !lookup_ge_None_2; [reflexivity| |].
        -- rewrite length_tabw. exact Hi.
        -- rewrite Hlen. exact Hi.
    + intros a Ha. apply Hr. lia.
    + exact Ho.
Qed.

Lemma shapew_ready (w : world) (n : nat) (m : store) :
  (forall a, (a < 4 + 4 * n)%nat -> malloc_succeeds w a = true) ->
  shapew w (square n) m -> ready4 n m.
Proof.
  intros Hok (Ht & Hr). split.
  - intros k Hk. rewrite Ht by assumption. f_equal.
    unfold tabw, tab4. rewrite rows_of_square. cbn [dR1 square].
    apply map_ext_in. intros i Hi. apply in_seq in Hi.
    apply entry_ok, Hok.
    pose proof (row_block_range n k i Hk ltac:(lia)). lia.
  - intros a Ha. destruct (Hr a) as (row & Hrow & Hlen).
    + unfold blocks. cbn [dR1 dR2 square]. lia.
    + apply Hok. lia.
    + exists row. rewrite width_square in Hlen. auto.
Qed.

(** With every allocation successful the four matrices are in place, in
    the first [4 + 4 n] blocks. *)
Lemma allocate_exact (w : world) (n : nat) :
  Z.of_nat n <= INT_MAX ->
  (forall a, (a < 4 + 4 * n)%nat -> malloc_succeeds w a = true) ->
  exists m,
    MxmMain.allocate w (Z.of_nat n) (Z.of_nat n) (Z.of_nat n) (Z.of_nat n)
      start
    = Done (Some (block 0), Some (block 1), Some (block 2), Some (block 3),
            fresh m (4 + 4 * n))
    /\ ready4 n m /\ outside n m.
Proof.
  intros Hn Hok.
  destruct (allocate_shape w (square n) Hn Hn) as (m & Hal & Hs & Ho);
    [intros k Hk; apply Hok; lia|].
  cbn [dR1 dC1 dR2 dC2 square] in Hal.
  replace (blocks (square n)) with (4 + 4 * n)%nat in *
    by (unfold blocks; cbn [dR1 dR2 square]; lia).
  exists m. split; [exact Hal|]. split; [|exact Ho].
  apply (shapew_ready w); assumption.
Qed.

(** When a table could not be allocated and there is a row to allocate,
    the allocation loops write through the null pointer. *)
Lemma allocate_table_null (w : world) (n : nat) :
  (1 <= n)%nat -> Z.of_nat n <= INT_MAX ->
  (exists k, (k < 4)%nat /\ malloc_succeeds w k = false) ->
  MxmMain.allocate w (Z.of_nat n) (Z.of_nat n) (Z.of_nat n) (Z.of_nat n) start
  = Fault.
Proof.
  intros Hn1 Hn (k & Hk & Hfail).
  destruct (allocate_tables4 w (square n)) as (m0 & Hm0 & Hal).
  cbn [dR1 dC1 dR2 dC2 square] in Hal. rewrite Hal. clear Hal.
  assert (Hstep : forall k t c cnt m,
            alloc4 w (square n) c cnt m ->
            malloc_succeeds w k = true -> (k < 4)%nat -> c k = t ->
            (t < n)%nat -> cnt = row_block n k t ->
            exists m',
              MxmMain.allocate_row w (Some (block k)) (Z.of_nat n)
                (Z.of_nat t) (fresh m cnt)
              = Done (fresh m' (S cnt))
              /\ alloc4 w (square n)
                   (fun k' => if (k' =? k)%nat then S t else c k') (S cnt) m').
  { intros k' t c cnt m Hm Hok' Hk' Hc Ht Hcnt.
    pose proof (allocate_row_step w (square n) k' t c cnt m Hm Hok' Hk' Hc)
      as H.
    rewrite rows_of_square, cols_of_square in H. apply H; assumption. }
  destruct (malloc_succeeds w 0) eqn:H0.
  2: { rewrite for_loop_first_fault; [reflexivity|unfold INT_MIN; lia..|].
       rewrite (entry_null w 0 H0), allocate_row_none. reflexivity. }
  destruct (malloc_succeeds w 2) eqn:H2.
  2: { rewrite for_loop_first_fault; [reflexivity|unfold INT_MIN; lia..|].
       rewrite (entry_ok w 0 H0).
       destruct (Hstep 0%nat 0%nat _ _ _ Hm0) as (ma & Ha & _);
         [assumption|lia|reflexivity|lia|reflexivity|].
       change (Z.of_nat 0) with 0 in Ha. rewrite Ha.
       cbn [mbind outcome_bind].
       rewrite (entry_null w 2 H2), allocate_row_none. reflexivity. }
  destruct (malloc_succeeds w 3) eqn:H3.
  2: { rewrite for_loop_first_fault; [reflexivity|unfold INT_MIN; lia..|].
       rewrite (entry_ok w 0 H0), (entry_ok w 2 H2).
       destruct (Hstep 0%nat 0%nat _ _ _ Hm0) as (ma & Ha & Hma);
         [assumption|lia|reflexivity|lia|reflexivity|].
       change (Z.of_nat 0) with 0 in Ha. rewrite Ha.
       cbn [mbind outcome_bind].
       destruct (Hstep 2%nat 0%nat _ _ _ Hma) as (mb & Hb & _);
         [assumption|lia|reflexivity|lia|reflexivity|].
       change (Z.of_nat 0) with 0 in Hb. rewrite Hb.
       cbn [mbind outcome_bind].
       rewrite (entry_null w 3 H3), allocate_row_none. reflexivity. }
  assert (H1 : malloc_succeeds w 1 = false).
  { assert (k = 0 \/ k = 1 \/ k = 2 \/ k = 3)%nat as [->|[->|[->| ->]]]
      by lia; congruence. }
  destruct (allocate_rows_loop w (square n) m0 Hn H0 H2 H3 Hm0)
    as (m1 & Hloop & _).
  cbn [dR1 dC1 dR2 dC2 square] in Hloop. rewrite Hloop.
  cbn [mbind outcome_bind].
  rewrite for_loop_first_fault; [reflexivity|unfold INT_MIN; lia..|].
  rewrite (entry_null w 1 H1). apply allocate_row_none.
Qed.

(** ** Release in the second program *)

(** The memory in which the blocks number [4] to [f - 1] are released and
    the four tables are still in place. *)
Definition released4 (n f : nat) (m : store) : Prop :=
  (forall k, (k < 4)%nat -> tables m !! block k = Some (tab4 n k))
  /\ outside n m
  /\ (forall a, (4 <= a < f)%nat ->
        tables m !! block a = None /\ rows m !! block a = None).

Lemma ready4_released (n : nat) (m : store) :
  ready4 n m -> outside n m -> released4 n 4 m.
Proof.
  intros (Ht & _) Ho. split; [exact Ht|]. split; [exact Ho|]. intros a Ha. lia.
Qed.

Lemma free_released4 (n f : nat) (p : proc) (m : store) :
  (4 <= f)%nat -> released4 n f m ->
  exists m',
    free (Some (block f)) (set_mem p m) = set_mem p m'
    /\ released4 n (S f) m'.
Proof.
  intros Hf (Ht & Hout & Hrel). unfold free. cbn [mem set_mem].
  eexists. split; [reflexivity|].
  split; [|split].
  - intros k Hk. cbn [tables].
    rewrite lookup_delete_ne by (apply block_ne; lia). apply Ht, Hk.
  - intros l Hl. destruct (Hout l Hl). cbn [tables rows].
    split; apply delete_lookup_None; assumption.
  - intros b Hb. cbn [tables rows].
    destruct (Nat.eq_dec b f) as [->|Hne].
    + split; apply lookup_delete_eq.
    + destruct (Hrel b) as [? ?]; [lia|].
      split; apply delete_lookup_None; assumption.
Qed.

(** Releasing the rows and then the tables leaves nothing in memory. *)
Lemma release4_exact (n : nat) (p : proc) :
  Z.of_nat n <= INT_MAX -> released4 n 4 (mem p) ->
  MxmMain.release (Some (block 0)) (Some (block 1)) (Some (block 2))
    (Some (block 3)) (Z.of_nat n) (Z.of_nat n) p
  = Done (set_mem p (Store ∅ ∅)).
Proof.
  intros HN Hrel0. unfold MxmMain.release.
  rewrite for_loop_range by (unfold INT_MIN; lia).
  rewrite range_upto. unfold upto. rewrite Nat2Z.id.
  assert (Hrow : forall m f k i, released4 n f m -> (k < 4)%nat -> (i < n)%nat ->
            load_row m (Some (block k)) (Z.of_nat i)
            = Some (Some (block (row_block n k i)))).
  { intros m f k i (Ht & _) Hk Hi.
    rewrite (load_row_table m _ (tab4 n k)); [|apply Ht, Hk|lia].
    rewrite Nat2Z.id. apply tab4_lookup. exact Hi. }
  match goal with
  | |- context [run_list (map ?body _) p] =>
      destruct (run_list_count
                  (fun t q => exists m, q = set_mem p m
                                        /\ released4 n (4 + 3 * t) m)
                  body Z.of_nat n 0%nat p)
        as (q & Hrun & m & -> & Hm)
  end.
  - exists (mem p). split; [symmetry; apply set_mem_id|exact Hrel0].
  - intros i q Hi (m & -> & Hm). cbn [mem set_mem].
    rewrite (Hrow m _ 0%nat i Hm) by lia. rewrite bind_lift_Some.
    change (row_block n 0 i) with (4 + 3 * i)%nat.
    remember (4 + 3 * i)%nat as f eqn:Ef.
    destruct (free_released4 n f p m) as (m1 & -> & Hm1); [lia|exact Hm|].
    cbn [mem set_mem].
    rewrite (Hrow m1 _ 2%nat i Hm1) by lia. rewrite bind_lift_Some.
    replace (row_block n 2 i) with (S f) by (unfold row_block; lia).
    destruct (free_released4 n (S f) p m1) as (m2 & -> & Hm2);
      [lia|exact Hm1|].
    cbn [mem set_mem].
    rewrite (Hrow m2 _ 3%nat i Hm2) by lia. rewrite bind_lift_Some.
    replace (row_block n 3 i) with (S (S f)) by (unfold row_block; lia).
    destruct (free_released4 n (S (S f)) p m2) as (m3 & -> & Hm3);
      [lia|exact Hm2|].
    exists (set_mem p m3). split; [reflexivity|].
    exists m3. split; [reflexivity|].
    replace (4 + 3 * S i)%nat with (S (S (S f))) by lia. exact Hm3.
  - rewrite Hrun. cbn [mbind outcome_bind].
    rewrite for_loop_range by (unfold INT_MIN; lia).
    rewrite range_upto. unfold upto. rewrite Nat2Z.id.
    match goal with
    | |- context [run_list (map ?body _) (set_mem p m)] =>
        destruct (run_list_count
                    (fun t q => exists m', q = set_mem p m'
                                  /\ released4 n (4 + 3 * n + t) m')
                    body Z.of_nat n 0%nat (set_mem p m))
          as (q & Hrun2 & m' & -> & Hm')
    end.
    + exists m. split; [reflexivity|].
      replace (4 + 3 * n + 0)%nat with (4 + 3 * (0 + n))%nat by lia. exact Hm.
    + intros i q Hi (m1 & -> & Hm1). cbn [mem set_mem].
      rewrite (Hrow m1 _ 1%nat i Hm1) by lia. rewrite bind_lift_Some.
      change (row_block n 1 i) with (4 + 3 * n + i)%nat.
      destruct (free_released4 n (4 + 3 * n + i) p m1) as (m2 & -> & Hm2);
        [lia|exact Hm1|].
      exists (set_mem p m2). split; [reflexivity|].
      exists m2. split; [reflexivity|].
      replace (4 + 3 * n + S i)%nat with (S (4 + 3 * n + i)) by lia. exact Hm2.
    + rewrite Hrun2. cbn [mbind outcome_bind]. unfold free. cbn [mem set_mem].
      f_equal. f_equal.
      destruct Hm' as (_ & Hout & Hrel).
      assert (Hnone : forall l,
                (tables m' !! l = None /\ rows m' !! l = None)
                \/ l = block 0 \/ l = block 1 \/ l = block 2 \/ l = block 3).
      { intros l. destruct (block_surj l) as (a & ->).
        destruct (Nat.lt_ge_cases a 4) as [Hlt|Hge].
        - right.
          assert (a = 0 \/ a = 1 \/ a = 2 \/ a = 3)%nat
            as [->|[->|[->| ->]]] by lia; auto.
        - left. destruct (Nat.lt_ge_cases a (4 + 4 * n)) as [Hin|Hnot].
          + apply Hrel. lia.
          + apply Hout. intros b Hb E. apply block_inj in E. lia. }
      f_equal; apply map_eq; intros l; rewrite lookup_empty.
      * destruct (Hnone l) as [[H _]|[->|[->|[->| ->]]]].
        -- repeat apply delete_lookup_None. exact H.
        -- do 3 apply delete_lookup_None. apply lookup_delete_eq.
        -- do 2 apply delete_lookup_None. apply lookup_delete_eq.
        -- apply delete_lookup_None, lookup_delete_eq.
        -- apply lookup_delete_eq.
      * destruct (Hnone l) as [[_ H]|[->|[->|[->| ->]]]].
        -- repeat apply delete_lookup_None. exact H.
        -- do 3 apply delete_lookup_None. apply lookup_delete_eq.
        -- do 2 apply delete_lookup_None. apply lookup_delete_eq.
        -- apply delete_lookup_None, lookup_delete_eq.
        -- apply lookup_delete_eq.
Qed.
Lemma fold_left_ext_in {X Y : Type} (f g : X -> Y -> X) (l : list Y) :
  (forall a y, In y l -> f a y = g a y) ->
  forall a, fold_left f l a = fold_left g l a.
Proof.
  induction l as [|y l IH]; intros H a; simpl; [reflexivity|].
  rewrite H by (left; reflexivity). apply IH.
  intros b z Hz. apply H. right. exact Hz.
Qed.

(** ** The measurements of the second program *)

Lemma total_bytes_cubed (N : Z) :
  0 <= N -> 32 * (N * N * N) <= LLONG_MAX ->
  MxmMain.total_bytes N N N = Some (32 * (N * N * N)).
Proof.
  intros HN Hb. unfold MxmMain.total_bytes.
  assert (H1 : 0 <= N * N) by nia.
  assert (H2 : 0 <= N * N * N) by nia.
  assert (H3 : N <= N * N * N \/ N = 0) by nia.
  assert (H4 : N * N <= N * N * N \/ N = 0) by nia.
  unfold ll_mul, LLONG_MIN, LLONG_MAX in *.
  destruct (Z.leb_spec (-9223372036854775808) (4 * N)); [|lia].
  destruct (Z.leb_spec (4 * N) 9223372036854775807); [|nia].
  cbn [andb mbind option_bind].
  destruct (Z.leb_spec (-9223372036854775808) (4 * N * N)); [|nia].
  destruct (Z.leb_spec (4 * N * N) 9223372036854775807); [|nia].
  cbn [andb mbind option_bind].
  destruct (Z.leb_spec (-9223372036854775808) (4 * N * N * N)); [|nia].
  destruct (Z.leb_spec (4 * N * N * N) 9223372036854775807); [|nia].
  cbn [andb mbind option_bind]. f_equal. unfold to_ll.
  rewrite (Z.mod_small (4 * N * N * N)) by nia.
  rewrite Z.mod_small by nia.
  destruct (Z.ltb_spec (4 * N * N * N * 8) (2 ^ 63)); nia.
Qed.

(** The line of a timed loop nest. *)
Definition version_line (w : world) (fmt : string) (tb : Z) (c : nat)
    : print :=
  Print fmt [ADouble (timed w c); ADouble (MxmMain.rate tb (timed w c))].

Lemma timed_version_exact (w : world) (fmt : string)
    (nest : store -> outcome store) (tb : Z) (m M : store) (nm nc : nat)
    (sd : Z) (dr : nat) (out fl : list print) :
  nest m = Done M ->
  MxmMain.timed_version w fmt nest tb (Proc m nm nc sd dr out fl)
  = Done (Proc M nm (S (S nc)) sd dr (out ++ [version_line w fmt tb nc])
               (fl ++ [version_line w fmt tb nc])).
Proof.
  intros Hnest. unfold MxmMain.timed_version, clock.
  cbn [mem n_malloc n_clock rng_seed rng_draws stdout file].
  rewrite Hnest. reflexivity.
Qed.

Definition ijk_format : string := "i-j-k (Standard), %.4f, %.2f\n".

Definition ikj_format : string := "i-k-j (Optimized), %.4f, %.2f\n".

Definition comparison_header (N : Z) : list print :=
  [Print "Matrix Multiplication Performance Analysis\n" [];
   Print "Matrix size: %d x %d\n\n" [AInt N; AInt N];
   Print "Version, Time (msec), Bandwidth (MB/s)\n" []].

Definition comparison_lines (w : world) (N : Z) (nc : nat) : list print :=
  [version_line w ijk_format (32 * (N * N * N)) nc;
   version_line w ikj_format (32 * (N * N * N)) (S (S nc))].

Definition comparison_saved : print :=
  Print "\nResults saved to mxm_results.txt\n" [].

(** From the headers to the closing message, on matrices in place. *)
Lemma measure_exact (w : world) (n : nat) (m : store) (nm nc : nat) (sd : Z)
    (dr : nat) (out fl : list print) :
  Z.of_nat n <= INT_MAX ->
  32 * (Z.of_nat n * Z.of_nat n * Z.of_nat n) <= LLONG_MAX ->
  ready4 n m -> outside n m ->
  exists M,
    MxmMain.measure w (Some (block 0)) (Some (block 1)) (Some (block 2))
      (Some (block 3)) (Z.of_nat n) (Z.of_nat n) (Z.of_nat n)
      (Proc m nm nc sd dr out fl)
    = Done (Proc M nm (4 + nc) sd dr
                 (out ++ comparison_header (Z.of_nat n)
                      ++ comparison_lines w (Z.of_nat n) nc
                      ++ [comparison_saved])
                 (fl ++ comparison_header (Z.of_nat n)
                     ++ comparison_lines w (Z.of_nat n) nc))
    /\ ready4 n M /\ outside n M
    /\ (forall i j, 0 <= i < Z.of_nat n -> 0 <= j < Z.of_nat n ->
          load2 M (Some (block 2)) i j
          = Some (accumulate m (Some (block 0)) (Some (block 1)) i j
                    (upto (Z.of_nat n)) 0%float)
          /\ load2 M (Some (block 3)) i j = load2 M (Some (block 2)) i j).
Proof.
  intros Hn Hb Hready Hout. unfold MxmMain.measure.
  rewrite !fprintf_Proc, !printf_Proc. cbv zeta.
  match goal with
  | |- context [MxmMain.clear _ _ _ _ ?p] =>
      destruct (clear_spec n p Hn Hready) as (mc & -> & Hmc & Hnew & Hcells)
  end.
  unfold set_mem.
  cbn [mbind outcome_bind mem n_malloc n_clock rng_seed rng_draws stdout file].
  rewrite total_bytes_cubed by (assumption || lia). rewrite bind_lift_Some.
  assert (Houtc : outside n mc) by (eapply outside_no_new; eassumption).
  destruct (version_step n 2 (trace_ijk (Z.of_nat n) (Z.of_nat n) (Z.of_nat n))
              mc ltac:(lia) (trace_ijk_inb _) Hmc Houtc)
    as (s1 & Hex1 & Hr1 & Ho1 & Hk1 & Hc1).
  rewrite (timed_version_exact w _ _ _ mc s1)
    by (rewrite version_ijk_is_trace by assumption; exact Hex1).
  cbn [mbind outcome_bind].
  destruct (version_step n 3 (trace_ikj (Z.of_nat n) (Z.of_nat n) (Z.of_nat n))
              s1 ltac:(lia) (trace_ikj_inb _) Hr1 Ho1)
    as (s2 & Hex2 & Hr2 & Ho2 & Hk2 & Hc2).
  rewrite (timed_version_exact w _ _ _ s1 s2)
    by (rewrite version_ikj_is_trace by assumption; exact Hex2).
  cbn [mbind outcome_bind]. rewrite printf_Proc.
  exists s2. split.
  - unfold comparison_header, comparison_lines, comparison_saved.
    cbn [app]. rewrite <- !app_assoc. reflexivity.
  - split; [exact Hr2|]. split; [exact Ho2|].
    intros i j Hi Hj.
    assert (Hacc : forall s, 
              (forall k i' j', (k < 2)%nat ->
                 load2 s (Some (block k)) i' j' = load2 mc (Some (block k)) i' j') ->
              accumulate s (Some (block 0)) (Some (block 1)) i j
                (upto (Z.of_nat n)) 0%float
              = accumulate mc (Some (block 0)) (Some (block 1)) i j
                  (upto (Z.of_nat n)) 0%float).
    { intros s Hs. apply accumulate_same; intros; apply Hs; lia. }
    assert (Hin : accumulate mc (Some (block 0)) (Some (block 1)) i j
                    (upto (Z.of_nat n)) 0%float
                  = accumulate m (Some (block 0)) (Some (block 1)) i j
                      (upto (Z.of_nat n)) 0%float).
    { unfold accumulate. apply fold_left_ext_in. intros a k Hk.
      unfold upto in Hk. apply in_map_iff in Hk as (q & <- & Hq).
      apply in_seq in Hq. unfold rd.
      rewrite (Hcells 0%nat) by lia. rewrite (Hcells 1%nat) by lia.
      reflexivity. }
    assert (H2 : load2 s2 (Some (block 2)) i j
                 = Some (accumulate m (Some (block 0)) (Some (block 1)) i j
                           (upto (Z.of_nat n)) 0%float)).
    { rewrite Hk2 by lia. rewrite Hc1 by assumption.
      rewrite ks_ijk, range_upto by assumption.
      unfold rd at 1. rewrite (Hcells 2%nat) by lia. cbn [default Nat.eqb orb].
      change (id 0%float) with 0%float. rewrite Hin. reflexivity. }
    split; [exact H2|]. rewrite H2.
    rewrite Hc2 by assumption. rewrite ks_ikj, range_upto by assumption.
    unfold rd at 1. rewrite Hk1 by lia.
    rewrite (Hcells 3%nat) by lia. cbn [default Nat.eqb orb].
    change (id 0%float) with 0%float.
    rewrite (Hacc s1) by (intros; apply Hk1; lia). rewrite Hin. reflexivity.
Qed.
(** ** The whole second program *)

(** The inputs: [m1] takes the first [n * n] draws of the generator, which
    is never seeded, and [m2] the next [n * n]. *)
Definition input_m1 (w : world) (n : nat) (i k : Z) : float :=
  draw_value w 1 (Z.to_nat i * n + Z.to_nat k).

Definition input_m2 (w : world) (n : nat) (k j : Z) : float :=
  draw_value w 1 (n * n + Z.to_nat k * n + Z.to_nat j).

(** Allocation and the two fills. *)
Lemma prepare_exact (w : world) (n : nat) :
  Z.of_nat n <= INT_MAX ->
  (forall a, (a < 4 + 4 * n)%nat -> malloc_succeeds w a = true) ->
  exists p0 p1 m,
    MxmMain.allocate w (Z.of_nat n) (Z.of_nat n) (Z.of_nat n) (Z.of_nat n)
      start
    = Done (Some (block 0), Some (block 1), Some (block 2), Some (block 3),
            p0)
    /\ MxmMain.fill w (Some (block 0)) (Z.of_nat n) (Z.of_nat n) p0 = Done p1
    /\ MxmMain.fill w (Some (block 1)) (Z.of_nat n) (Z.of_nat n) p1
       = Done (Proc m (4 + 4 * n) 0 1 (n * n + n * n) [] [])
    /\ ready4 n m /\ outside n m
    /\ (forall i j, 0 <= i < Z.of_nat n -> 0 <= j < Z.of_nat n ->
          load2 m (Some (block 0)) i j = Some (input_m1 w n i j)
          /\ load2 m (Some (block 1)) i j = Some (input_m2 w n i j)).
Proof.
  intros Hn Hok.
  destruct (allocate_exact w n Hn Hok) as (m0 & Hal & Hr0 & Ho0).
  destruct (fill_spec w n 0 (fresh m0 (4 + 4 * n)) ltac:(lia) Hn Hr0)
    as (ma & Hfa & Hra & Hna & Hca).
  cbn [fresh mem n_malloc n_clock rng_seed rng_draws stdout file] in Hfa, Hca.
  unfold fresh in Hna. cbn [mem] in Hna.
  match type of Hfa with _ = Done ?q =>
    destruct (fill_spec w n 1 q ltac:(lia) Hn Hra)
      as (mb & Hfb & Hrb & Hnb & Hcb)
  end.
  cbn [mem n_malloc n_clock rng_seed rng_draws stdout file] in Hfb, Hcb, Hnb.
  eexists _, _, mb. split; [exact Hal|]. split; [exact Hfa|].
  split; [exact Hfb|]. split; [exact Hrb|].
  split; [eapply outside_no_new; [|exact Hnb];
          eapply outside_no_new; [exact Ho0|exact Hna]|].
  intros i j Hi Hj. split.
  - rewrite (Hcb 0%nat) by lia. cbn [Nat.eqb].
    rewrite (Hca 0%nat) by lia. cbn [Nat.eqb]. reflexivity.
  - rewrite (Hcb 1%nat) by lia. cbn [Nat.eqb]. reflexivity.
Qed.

(** The exit status and the process at the end of a run in which the file
    opens. *)
Lemma comparison_exact (w : world) (n : nat) :
  Z.of_nat n <= INT_MAX ->
  32 * (Z.of_nat n * Z.of_nat n * Z.of_nat n) <= LLONG_MAX ->
  (forall a, (a < 4 + 4 * n)%nat -> malloc_succeeds w a = true) ->
  fopen_succeeds w = true ->
  MxmMain.run w (Z.of_nat n) (Z.of_nat n) (Z.of_nat n) (Z.of_nat n)
  = Done (0, Proc (Store ∅ ∅) (4 + 4 * n) 4 1 (n * n + n * n)
                  (comparison_header (Z.of_nat n)
                     ++ comparison_lines w (Z.of_nat n) 0
                     ++ [comparison_saved])
                  (comparison_header (Z.of_nat n)
                     ++ comparison_lines w (Z.of_nat n) 0)).
Proof.
  intros Hn Hb Hok Hopen.
  destruct (prepare_exact w n Hn Hok)
    as (p0 & p1 & m & Hal & Hf1 & Hf2 & Hr & Ho & _).
  unfold MxmMain.run. rewrite Hal. cbn [mbind outcome_bind].
  rewrite Hf1. cbn [mbind outcome_bind]. rewrite Hf2. cbn [mbind outcome_bind].
  rewrite Z.eqb_refl, Hopen. cbn [negb].
  destruct (measure_exact w n m (4 + 4 * n) 0 1 (n * n + n * n) [] [] Hn Hb
              Hr Ho) as (M & Hme & HrM & HoM & _).
  rewrite Hme. cbn [mbind outcome_bind].
  rewrite release4_exact;
    [|exact Hn|apply ready4_released; assumption].
  reflexivity.
Qed.

(** The exit status and the process at the end of a run in which the file
    does not open. *)
Lemma no_file_exact (w : world) (n : nat) :
  Z.of_nat n <= INT_MAX ->
  (forall a, (a < 4 + 4 * n)%nat -> malloc_succeeds w a = true) ->
  fopen_succeeds w = false ->
  exists m,
    MxmMain.run w (Z.of_nat n) (Z.of_nat n) (Z.of_nat n) (Z.of_nat n)
    = Done (MxmMain.EXIT_FAILURE,
            Proc m (4 + 4 * n) 0 1 (n * n + n * n)
                 [Print "Error opening file!\n" []] [])
    /\ ready4 n m
    /\ (forall i j, 0 <= i < Z.of_nat n -> 0 <= j < Z.of_nat n ->
          load2 m (Some (block 0)) i j = Some (input_m1 w n i j)
          /\ load2 m (Some (block 1)) i j = Some (input_m2 w n i j)).
Proof.
  intros Hn Hok Hopen.
  destruct (prepare_exact w n Hn Hok)
    as (p0 & p1 & m & Hal & Hf1 & Hf2 & Hr & Ho & Hin).
  exists m. split; [|split; assumption].
  unfold MxmMain.run. rewrite Hal. cbn [mbind outcome_bind].
  rewrite Hf1. cbn [mbind outcome_bind]. rewrite Hf2. cbn [mbind outcome_bind].
  rewrite Z.eqb_refl, Hopen. reflexivity.
Qed.
Ltac as_nat N n :=
  let H := fresh "H" in
  assert (H : N = Z.of_nat (Z.to_nat N)) by lia;
  set (n := Z.to_nat N) in *; clearbody n; subst N.

(** When every allocation and [fopen] succeed, the second program returns
    0.  It prints three header lines, the line of the i-j-k nest, the line
    of the i-k-j nest and the closing message, and writes the same lines
    but the closing message to the file.  The i-j-k line reports the time
    between the first two calls of [clock()], the i-k-j line the time
    between the next two, each with the bandwidth
    [4 * N^3 * sizeof(double) * (1000.0 / msec) / (1024 * 1024)], which is
    greater than zero and finite whenever the elapsed time is positive. *)
Theorem comparison_report (w : world) (N : Z) :
  1 <= N <= INT_MAX -> 32 * (N * N * N) <= LLONG_MAX ->
  (forall a, (a < 4 + 4 * Z.to_nat N)%nat -> malloc_succeeds w a = true) ->
  fopen_succeeds w = true ->
  0 < CLOCKS_PER_SEC w < 2 ^ 63 ->
  let sizeof_double := 8 in
  let reported (msec : float) : float :=
    (double_of_Z (4 * (N * N * N) * sizeof_double) * (1000 / msec)
     / double_of_Z (1024 * 1024))%float in
  let line (fmt : string) (msec : float) : print :=
    Print fmt [ADouble msec; ADouble (reported msec)] in
  exists p,
    MxmMain.run w N N N N = Done (0, p)
    /\ stdout p
       = [Print "Matrix Multiplication Performance Analysis\n" [];
          Print "Matrix size: %d x %d\n\n" [AInt N; AInt N];
          Print "Version, Time (msec), Bandwidth (MB/s)\n" [];
          line "i-j-k (Standard), %.4f, %.2f\n"%string (timed w 0);
          line "i-k-j (Optimized), %.4f, %.2f\n"%string (timed w 2);
          Print "\nResults saved to mxm_results.txt\n" []]
    /\ file p
       = [Print "Matrix Multiplication Performance Analysis\n" [];
          Print "Matrix size: %d x %d\n\n" [AInt N; AInt N];
          Print "Version, Time (msec), Bandwidth (MB/s)\n" [];
          line "i-j-k (Standard), %.4f, %.2f\n"%string (timed w 0);
          line "i-k-j (Optimized), %.4f, %.2f\n"%string (timed w 2)]
    /\ (forall c, (0 <? timed w c)%float = true ->
          (0 <? reported (timed w c))%float = true
          /\ (reported (timed w c) <? infinity)%float = true).
Proof.
  intros HN Hb Hok Hopen Hcps sizeof_double reported line.
  assert (Hrep : forall msec,
            reported msec = MxmMain.rate (32 * (N * N * N)) msec).
  { intros msec. unfold reported, MxmMain.rate, sizeof_double.
    replace (4 * (N * N * N) * 8) with (32 * (N * N * N)) by lia.
    reflexivity. }
  as_nat N n.
  rewrite comparison_exact by (assumption || lia).
  eexists. split; [reflexivity|]. cbn [stdout file].
  unfold comparison_header, comparison_lines, comparison_saved, version_line,
    ijk_format, ikj_format, line.
  rewrite !Hrep. cbn [app].
  split; [reflexivity|]. split; [reflexivity|].
  intros c Hc. apply bandwidth_positive.
  - unfold LLONG_MAX in Hb. nia.
  - apply timed_sized, Hcps.
  - exact Hc.
Qed.

Lemma comparison_report_witness :
  let sizeof_double := 8 in
  let reported (msec : float) : float :=
    (double_of_Z (4 * (512 * 512 * 512) * sizeof_double) * (1000 / msec)
     / double_of_Z (1024 * 1024))%float in
  let line (fmt : string) (msec : float) : print :=
    Print fmt [ADouble msec; ADouble (reported msec)] in
  exists p,
    MxmMain.main calm = Done (0, p)
    /\ stdout p
       = [Print "Matrix Multiplication Performance Analysis\n" [];
          Print "Matrix size: %d x %d\n\n" [AInt 512; AInt 512];
          Print "Version, Time (msec), Bandwidth (MB/s)\n" [];
          line "i-j-k (Standard), %.4f, %.2f\n"%string (timed calm 0);
          line "i-k-j (Optimized), %.4f, %.2f\n"%string (timed calm 2);
          Print "\nResults saved to mxm_results.txt\n" []]
    /\ file p
       = [Print "Matrix Multiplication Performance Analysis\n" [];
          Print "Matrix size: %d x %d\n\n" [AInt 512; AInt 512];
          Print "Version, Time (msec), Bandwidth (MB/s)\n" [];
          line "i-j-k (Standard), %.4f, %.2f\n"%string (timed calm 0);
          line "i-k-j (Optimized), %.4f, %.2f\n"%string (timed calm 2)]
    /\ (forall c, (0 <? timed calm c)%float = true ->
          (0 <? reported (timed calm c))%float = true
          /\ (reported (timed calm c) <? infinity)%float = true).
Proof.
  unfold MxmMain.main.
  apply (comparison_report calm 512).
  - unfold INT_MAX. lia.
  - unfold LLONG_MAX. lia.
  - intros a _. reflexivity.
  - reflexivity.
  - cbn [CLOCKS_PER_SEC calm]. lia.
Defined.

(** When every allocation and [fopen] succeed, the second program ends
    with every block released, after [4 + 4 N] calls of [malloc], four
    calls of [clock()] and [2 N^2] calls of [rand()] on the generator's
    default seed: [srand] is never called. *)
Theorem comparison_accounting (w : world) (N : Z) :
  0 <= N <= INT_MAX -> 32 * (N * N * N) <= LLONG_MAX ->
  (forall a, (a < 4 + 4 * Z.to_nat N)%nat -> malloc_succeeds w a = true) ->
  fopen_succeeds w = true ->
  exists p,
    MxmMain.run w N N N N = Done (0, p)
    /\ mem p = Store ∅ ∅
    /\ n_malloc p = (4 + 4 * Z.to_nat N)%nat
    /\ n_clock p = 4%nat
    /\ rng_seed p = 1
    /\ rng_draws p = (2 * (Z.to_nat N * Z.to_nat N))%nat.
Proof.
  intros HN Hb Hok Hopen. as_nat N n.
  rewrite comparison_exact by (assumption || lia).
  eexists. split; [reflexivity|].
  cbn [mem n_malloc n_clock rng_seed rng_draws].
  repeat split; lia.
Qed.

Lemma comparison_accounting_witness :
  exists p,
    MxmMain.main calm = Done (0, p)
    /\ mem p = Store ∅ ∅
    /\ n_malloc p = (4 + 4 * Z.to_nat 512)%nat
    /\ n_clock p = 4%nat
    /\ rng_seed p = 1
    /\ rng_draws p = (2 * (Z.to_nat 512 * Z.to_nat 512))%nat.
Proof.
  unfold MxmMain.main.
  apply (comparison_accounting calm 512).
  - unfold INT_MAX. lia.
  - unfold LLONG_MAX. lia.
  - intros a _. reflexivity.
  - reflexivity.
Defined.

(** When every allocation succeeds, the second program fills [m1] with
    the first [N^2] draws of [rand()] and [m2] with the next [N^2], each
    as [(double)(rand() % 10) + 1.0], in row-major order; after the two
    timed nests every cell of [result_ijk] and of [result_ikj] holds the
    same double: the products [m1[i][k] * m2[k][j]] of these inputs added
    to [0.0] for [k = 0, 1, ..., N - 1] in this order. *)
Theorem comparison_products (w : world) (N : Z) :
  0 <= N <= INT_MAX -> 32 * (N * N * N) <= LLONG_MAX ->
  (forall a, (a < 4 + 4 * Z.to_nat N)%nat -> malloc_succeeds w a = true) ->
  exists m1 m2 result_ijk result_ikj p0 p1 p2,
    MxmMain.allocate w N N N N start
    = Done (m1, m2, result_ijk, result_ikj, p0)
    /\ (p ← MxmMain.fill w m1 N N p0; MxmMain.fill w m2 N N p) = Done p1
    /\ MxmMain.measure w m1 m2 result_ijk result_ikj N N N p1 = Done p2
    /\ forall i j, 0 <= i < N -> 0 <= j < N ->
         load2 (mem p1) m1 i j
         = Some (double_of_Z
                   (Z.rem (rand_value w 1 (Z.to_nat (i * N + j))) 10) + 1)%float
         /\ load2 (mem p1) m2 i j
            = Some (double_of_Z
                      (Z.rem (rand_value w 1 (Z.to_nat (N * N + i * N + j)))
                         10) + 1)%float
         /\ load2 (mem p2) result_ijk i j
            = Some (fold_left
                      (fun acc k =>
                         (acc + rd (mem p1) m1 i k * rd (mem p1) m2 k j)%float)
                      (upto N) 0%float)
         /\ load2 (mem p2) result_ikj i j = load2 (mem p2) result_ijk i j.
Proof.
  intros HN Hb Hok. as_nat N n.
  destruct (prepare_exact w n ltac:(lia) Hok)
    as (p0 & p1 & m & Hal & Hf1 & Hf2 & Hr & Ho & Hin).
  destruct (measure_exact w n m (4 + 4 * n) 0 1 (n * n + n * n) [] []
              ltac:(lia) Hb Hr Ho) as (M & Hme & HrM & HoM & Hcells).
  do 7 eexists. split; [exact Hal|].
  split; [rewrite Hf1; cbn [mbind outcome_bind]; exact Hf2|].
  split; [exact Hme|].
  intros i j Hi Hj. cbn [mem].
  destruct (Hin i j Hi Hj) as [H1 H2]. destruct (Hcells i j Hi Hj) as [H3 H4].
  split; [|split; [|split]].
  - rewrite H1. unfold input_m1, draw_value.
    rewrite Z2Nat.inj_add, Z2Nat.inj_mul, Nat2Z.id by nia. reflexivity.
  - rewrite H2. unfold input_m2, draw_value.
    rewrite !Z2Nat.inj_add, !Z2Nat.inj_mul, !Nat2Z.id by nia. reflexivity.
  - exact H3.
  - exact H4.
Qed.

Lemma comparison_products_witness :
  exists m1 m2 result_ijk result_ikj p0 p1 p2,
    MxmMain.allocate calm 512 512 512 512 start
    = Done (m1, m2, result_ijk, result_ikj, p0)
    /\ (p ← MxmMain.fill calm m1 512 512 p0; MxmMain.fill calm m2 512 512 p)
       = Done p1
    /\ MxmMain.measure calm m1 m2 result_ijk result_ikj 512 512 512 p1
       = Done p2
    /\ forall i j, 0 <= i < 512 -> 0 <= j < 512 ->
         load2 (mem p1) m1 i j
         = Some (double_of_Z
                   (Z.rem (rand_value calm 1 (Z.to_nat (i * 512 + j))) 10)
                 + 1)%float
         /\ load2 (mem p1) m2 i j
            = Some (double_of_Z
                      (Z.rem (rand_value calm 1
                                (Z.to_nat (512 * 512 + i * 512 + j))) 10)
                    + 1)%float
         /\ load2 (mem p2) result_ijk i j
            = Some (fold_left
                      (fun acc k =>
                         (acc + rd (mem p1) m1 i k * rd (mem p1) m2 k j)%float)
                      (upto 512) 0%float)
         /\ load2 (mem p2) result_ikj i j = load2 (mem p2) result_ijk i j.
Proof.
  apply (comparison_products calm 512).
  - unfold INT_MAX. lia.
  - unfold LLONG_MAX. lia.
  - intros a _. reflexivity.
Defined.

(** When every allocation succeeds and [fopen] fails, the second program
    prints [Error opening file!] and exits with [EXIT_FAILURE]: by then it
    has allocated and filled the matrices, which it leaves in memory; it
    has measured nothing and written nothing. *)
Theorem comparison_without_file (w : world) (N : Z) :
  0 <= N <= INT_MAX ->
  (forall a, (a < 4 + 4 * Z.to_nat N)%nat -> malloc_succeeds w a = true) ->
  fopen_succeeds w = false ->
  exists p,
    MxmMain.run w N N N N = Done (1, p)
    /\ stdout p = [Print "Error opening file!\n" []]
    /\ file p = []
    /\ n_clock p = 0%nat
    /\ n_malloc p = (4 + 4 * Z.to_nat N)%nat
    /\ rng_draws p = (2 * (Z.to_nat N * Z.to_nat N))%nat
    /\ (forall k, (k < 4)%nat -> is_Some (tables (mem p) !! block k))
    /\ (forall a, (4 <= a < 4 + 4 * Z.to_nat N)%nat ->
          is_Some (rows (mem p) !! block a)).
Proof.
  intros HN Hok Hopen. as_nat N n.
  destruct (no_file_exact w n ltac:(lia) Hok Hopen)
    as (m & -> & (Ht & Hr) & _).
  eexists. split; [reflexivity|].
  cbn [mem n_malloc n_clock rng_seed rng_draws stdout file].
  split; [reflexivity|]. split; [reflexivity|]. split; [reflexivity|].
  split; [reflexivity|]. split; [lia|]. split.
  - intros k Hk. rewrite Ht by assumption. eexists. reflexivity.
  - intros a Ha. destruct (Hr a Ha) as (row & -> & _). eexists. reflexivity.
Qed.

Lemma comparison_without_file_witness :
  exists p,
    MxmMain.main read_only = Done (1, p)
    /\ stdout p = [Print "Error opening file!\n" []]
    /\ file p = []
    /\ n_clock p = 0%nat
    /\ n_malloc p = (4 + 4 * Z.to_nat 512)%nat
    /\ rng_draws p = (2 * (Z.to_nat 512 * Z.to_nat 512))%nat
    /\ (forall k, (k < 4)%nat -> is_Some (tables (mem p) !! block k))
    /\ (forall a, (4 <= a < 4 + 4 * Z.to_nat 512)%nat ->
          is_Some (rows (mem p) !! block a)).
Proof.
  unfold MxmMain.main.
  apply (comparison_without_file read_only 512).
  - unfold INT_MAX. lia.
  - intros a _. reflexivity.
  - reflexivity.
Defined.
(** ** Allocation failures in the second program *)

(** A nest of two loops over the cells of an [R] x [C] grid returns when
    its body keeps an invariant, which may count the cells; it runs into
    the first row at which the body fails. *)
Lemma grid_done {St : Type} (cell : Z -> Z -> St -> outcome St)
    (I : nat -> St -> Prop) (R C : nat) (s : St) :
  Z.of_nat R <= INT_MAX -> Z.of_nat C <= INT_MAX -> I 0%nat s ->
  (forall i j s0, (i < R)%nat -> (j < C)%nat -> I (i * C + j)%nat s0 ->
     exists s', cell (Z.of_nat i) (Z.of_nat j) s0 = Done s'
                /\ I (S (i * C + j)) s') ->
  exists s',
    for_loop 0 (Z.of_nat R) 1 (fun i => for_loop 0 (Z.of_nat C) 1 (cell i)) s
    = Done s'
    /\ I (R * C)%nat s'.
Proof.
  intros HR HC Hs Hcell.
  rewrite for_loop_range by (unfold INT_MIN; lia).
  rewrite range_upto. unfold upto. rewrite Nat2Z.id.
  destruct (run_list_count (fun t => I (t * C)%nat)
              (fun i => for_loop 0 (Z.of_nat C) 1 (cell i))
              Z.of_nat R 0%nat s Hs) as (s' & Hrun & Hs'); [|eauto].
  intros i s0 Hi Hs0.
  rewrite for_loop_range by (unfold INT_MIN; lia).
  rewrite range_upto. unfold upto. rewrite Nat2Z.id.
  destruct (run_list_count (fun j => I (i * C + j)%nat) (cell (Z.of_nat i))
              Z.of_nat C 0%nat s0) as (s' & Hrun & Hs').
  - rewrite Nat.add_0_r. exact Hs0.
  - intros j s1 Hj Hs1.
    replace (i * C + S j)%nat with (S (i * C + j)) by lia.
    apply Hcell; (lia || assumption).
  - exists s'. split; [exact Hrun|].
    replace (S i * C)%nat with (i * C + (0 + C))%nat by lia. exact Hs'.
Qed.

Lemma grid_fault {St : Type} (cell : Z -> Z -> St -> outcome St)
    (I : nat -> St -> Prop) (R C i0 : nat) (s : St) :
  Z.of_nat R <= INT_MAX -> Z.of_nat C <= INT_MAX -> I 0%nat s ->
  (i0 < R)%nat -> (1 <= C)%nat ->
  (forall i j s0, (i < i0)%nat -> (j < C)%nat -> I (i * C + j)%nat s0 ->
     exists s', cell (Z.of_nat i) (Z.of_nat j) s0 = Done s'
                /\ I (S (i * C + j)) s') ->
  (forall s0, I (i0 * C)%nat s0 -> cell (Z.of_nat i0) 0 s0 = Fault) ->
  for_loop 0 (Z.of_nat R) 1 (fun i => for_loop 0 (Z.of_nat C) 1 (cell i)) s
  = Fault.
Proof.
  intros HR HC Hs Hi0 HC1 Hcell Hfault.
  rewrite for_loop_range by (unfold INT_MIN; lia).
  rewrite range_upto. unfold upto. rewrite Nat2Z.id.
  apply (run_list_count_fault (fun t => I (t * C)%nat) _ Z.of_nat R i0 s
           Hi0 Hs).
  - intros i s0 Hi Hs0.
    rewrite for_loop_range by (unfold INT_MIN; lia).
    rewrite range_upto. unfold upto. rewrite Nat2Z.id.
    destruct (run_list_count (fun j => I (i * C + j)%nat)
                (cell (Z.of_nat i)) Z.of_nat C 0%nat s0)
      as (s' & Hrun & Hs').
    + rewrite Nat.add_0_r. exact Hs0.
    + intros j s1 Hj Hs1.
      replace (i * C + S j)%nat with (S (i * C + j)) by lia.
      apply Hcell; (lia || assumption).
    + exists s'. split; [exact Hrun|].
      replace (S i * C)%nat with (i * C + (0 + C))%nat by lia. exact Hs'.
  - intros s0 Hs0.
    apply for_loop_first_fault; [lia|unfold INT_MIN; lia|lia|].
    apply Hfault, Hs0.
Qed.

(** A store into a row that was allocated, and into one that was not. *)
Lemma store2_shapew (w : world) (d : dims) (k i j : nat) (m : store)
    (v : float) :
  shapew w d m -> (k < 4)%nat -> (i < rows_of d k)%nat ->
  (j < cols_of d k)%nat ->
  malloc_succeeds w (row_block (dR1 d) k i) = true ->
  exists m',
    store2 m (Some (block k)) (Z.of_nat i) (Z.of_nat j) v = Some m'
    /\ shapew w d m' /\ no_new m m'.
Proof.
  intros (Ht & Hr) Hk Hi Hj Hok.
  pose proof (block_range d k i Hk Hi) as Hrange.
  destruct (Hr _ Hrange Hok) as (row & Hrow & Hlen).
  rewrite width_row_block in Hlen by assumption.
  assert (Hst : store2 m (Some (block k)) (Z.of_nat i) (Z.of_nat j) v
                = Some (Store (tables m)
                          (<[block (row_block (dR1 d) k i) := <[j := v]> row]>
                             (rows m)))).
  { unfold store2.
    rewrite (load_row_table m _ (tabw w d k)); [|apply Ht, Hk|lia].
    rewrite Nat2Z.id, tabw_lookup by assumption.
    rewrite (entry_ok w _ Hok). cbn [mbind option_bind].
    unfold store_d. cbn [mbind option_bind]. rewrite Hrow.
    cbn [mbind option_bind]. rewrite idx_ok by lia.
    cbn [mbind option_bind]. rewrite Nat2Z.id.
    assert (Hlt : (j <? length row)%nat = true)
      by (apply Nat.ltb_lt; rewrite Hlen; exact Hj).
    rewrite Hlt. reflexivity. }
  eexists. split; [exact Hst|]. split.
  - split; [exact Ht|]. intros a Ha Hoka. cbn [rows].
    destruct (Nat.eq_dec a (row_block (dR1 d) k i)) as [->|Hne].
    + rewrite lookup_insert_eq. eexists. split; [reflexivity|].
      rewrite length_insert, Hlen. symmetry.
      apply width_row_block; assumption.
    + rewrite lookup_insert_ne by (apply block_ne; congruence).
      apply Hr; assumption.
  - eapply store2_no_new. exact Hst.
Qed.

Lemma store2_null_row (w : world) (d : dims) (k i : nat) (j : Z) (m : store)
    (v : float) :
  shapew w d m -> (k < 4)%nat -> (i < rows_of d k)%nat ->
  malloc_succeeds w (row_block (dR1 d) k i) = false ->
  store2 m (Some (block k)) (Z.of_nat i) j v = None.
Proof.
  intros (Ht & _) Hk Hi Hfail. unfold store2.
  rewrite (load_row_table m _ (tabw w d k)); [|apply Ht, Hk|lia].
  rewrite Nat2Z.id, tabw_lookup by assumption.
  rewrite (entry_null w _ Hfail). reflexivity.
Qed.

(** The process between the allocation and the test of the dimensions,
    after [dr] calls of [rand()]. *)
Definition filling (w : world) (d : dims) (dr : nat) (p : proc) : Prop :=
  exists m, p = Proc m (blocks d) 0 1 dr [] [] /\ shapew w d m.

Lemma fill_cell_ok (w : world) (d : dims) (k i j dr : nat) (p : proc) :
  filling w d dr p -> (k < 4)%nat -> (i < rows_of d k)%nat ->
  (j < cols_of d k)%nat ->
  malloc_succeeds w (row_block (dR1 d) k i) = true ->
  exists p',
    MxmMain.fill_cell w (Some (block k)) (Z.of_nat i) (Z.of_nat j) p = Done p'
    /\ filling w d (S dr) p'.
Proof.
  intros (m & -> & Hs) Hk Hi Hj Hok. unfold MxmMain.fill_cell, rand.
  cbn [mem n_malloc n_clock rng_seed rng_draws stdout file].
  match goal with
  | |- context [store2 _ _ _ _ ?v] =>
      destruct (store2_shapew w d k i j m v Hs Hk Hi Hj Hok)
        as (m' & -> & Hs' & _)
  end.
  rewrite bind_lift_Some. eexists. split; [reflexivity|].
  exists m'. split; [reflexivity|exact Hs'].
Qed.

Lemma fill_cell_null (w : world) (d : dims) (k i dr : nat) (j : Z)
    (p : proc) :
  filling w d dr p -> (k < 4)%nat -> (i < rows_of d k)%nat ->
  malloc_succeeds w (row_block (dR1 d) k i) = false ->
  MxmMain.fill_cell w (Some (block k)) (Z.of_nat i) j p = Fault.
Proof.
  intros (m & -> & Hs) Hk Hi Hfail. unfold MxmMain.fill_cell, rand.
  cbn [mem].
  rewrite (store2_null_row w d k i j m) by assumption. reflexivity.
Qed.

(** Filling a matrix returns when all its rows were allocated, and writes
    through a null pointer when one was not. *)
Lemma fill_rows (w : world) (d : dims) (k dr : nat) (p : proc) :
  Z.of_nat (rows_of d k) <= INT_MAX -> Z.of_nat (cols_of d k) <= INT_MAX ->
  (k < 4)%nat -> filling w d dr p ->
  ((forall i, (i < rows_of d k)%nat ->
      malloc_succeeds w (row_block (dR1 d) k i) = true) ->
   exists p',
     MxmMain.fill w (Some (block k)) (Z.of_nat (rows_of d k))
       (Z.of_nat (cols_of d k)) p
     = Done p'
     /\ filling w d (dr + rows_of d k * cols_of d k) p')
  /\ ((1 <= cols_of d k)%nat ->
      (exists i, (i < rows_of d k)%nat
                 /\ malloc_succeeds w (row_block (dR1 d) k i) = false) ->
      MxmMain.fill w (Some (block k)) (Z.of_nat (rows_of d k))
        (Z.of_nat (cols_of d k)) p
      = Fault).
Proof.
  intros HR HC Hk Hp. unfold MxmMain.fill. split.
  - intros Hok.
    apply (grid_done _ (fun t => filling w d (dr + t)));
      [exact HR|exact HC|rewrite Nat.add_0_r; exact Hp|].
    intros i j s0 Hi Hj Hs0. rewrite Nat.add_succ_r.
    apply fill_cell_ok; auto.
  - intros HC1 (i & Hi & Hfail).
    destruct (first_failure
                (fun i => malloc_succeeds w (row_block (dR1 d) k i))
                (rows_of d k))
      as [Hall|(i0 & Hi0 & Hf0 & Hmin)].
    { rewrite Hall in Hfail by assumption. discriminate. }
    apply (grid_fault _ (fun t => filling w d (dr + t)) _ _ i0);
      [exact HR|exact HC|rewrite Nat.add_0_r; exact Hp|exact Hi0|exact HC1| |].
    + intros i' j s0 Hi' Hj Hs0. rewrite Nat.add_succ_r.
      apply fill_cell_ok; [assumption|assumption|lia|assumption|].
      apply Hmin. exact Hi'.
    + intros s0 Hs0. eapply (fill_cell_null w d k i0); eassumption.
Qed.

(** Clearing the result matrices writes through a null pointer when a row
    of one of them could not be allocated. *)
Lemma clear_null (w : world) (d : dims) (p : proc) :
  Z.of_nat (dR1 d) <= INT_MAX -> Z.of_nat (dC2 d) <= INT_MAX ->
  (1 <= dC2 d)%nat -> shapew w d (mem p) ->
  (exists i, (i < dR1 d)%nat
             /\ (malloc_succeeds w (row_block (dR1 d) 2 i) = false
                 \/ malloc_succeeds w (row_block (dR1 d) 3 i) = false)) ->
  MxmMain.clear (Some (block 2)) (Some (block 3)) (Z.of_nat (dR1 d))
    (Z.of_nat (dC2 d)) p
  = Fault.
Proof.
  intros HR HC HC1 Hp (i & Hi & Hfail). unfold MxmMain.clear.
  destruct (first_failure
              (fun i => malloc_succeeds w (row_block (dR1 d) 2 i)
                        && malloc_succeeds w (row_block (dR1 d) 3 i))
              (dR1 d))
    as [Hall|(i0 & Hi0 & Hf0 & Hmin)].
  { specialize (Hall i Hi). apply andb_true_iff in Hall as [H2 H3].
    destruct Hfail; congruence. }
  apply (grid_fault _ (fun _ q => shapew w d (mem q)) _ _ i0);
    [exact HR|exact HC|exact Hp|exact Hi0|exact HC1| |].
  - intros i' j s0 Hi' Hj Hs0.
    specialize (Hmin i' Hi'). apply andb_true_iff in Hmin as [H2 H3].
    unfold MxmMain.clear_cell.
    destruct (store2_shapew w d 2 i' j (mem s0) 0%float Hs0)
      as (ma & -> & Hma & _);
      [lia|cbn [rows_of Nat.eqb]; lia|cbn [cols_of Nat.eqb]; lia|exact H2|].
    rewrite bind_lift_Some.
    destruct (store2_shapew w d 3 i' j ma 0%float Hma)
      as (mb & -> & Hmb & _);
      [lia|cbn [rows_of Nat.eqb]; lia|cbn [cols_of Nat.eqb]; lia|exact H3|].
    rewrite bind_lift_Some. eexists. split; [reflexivity|]. exact Hmb.
  - intros s0 Hs0. unfold MxmMain.clear_cell.
    destruct (malloc_succeeds w (row_block (dR1 d) 2 i0)) eqn:H2.
    + destruct (store2_shapew w d 2 i0 0 (mem s0) 0%float Hs0)
        as (ma & Hst & Hma & _);
        [lia|cbn [rows_of Nat.eqb]; lia|cbn [cols_of Nat.eqb]; lia|exact H2|].
      change (Z.of_nat 0) with 0 in Hst. rewrite Hst, bind_lift_Some.
      cbn [andb] in Hf0.
      rewrite (store2_null_row w d 3 i0 0 ma);
        [reflexivity|assumption|lia|cbn [rows_of Nat.eqb]; lia|assumption].
    + rewrite (store2_null_row w d 2 i0 0 (mem s0));
        [reflexivity|assumption|lia|cbn [rows_of Nat.eqb]; lia|assumption].
Qed.

(** The blocks of the rows of the result matrices. *)
Definition result_row (n a : nat) : bool :=
  (4 <=? a)%nat && (a <? 4 + 3 * n)%nat && negb ((a - 4) mod 3 =? 0)%nat.

Lemma result_row_spec (n a : nat) :
  result_row n a = true
  <-> exists i, (i < n)%nat
                /\ (a = row_block n 2 i \/ a = row_block n 3 i).
Proof.
  unfold result_row, row_block. split.
  - intros H. apply andb_true_iff in H as [H H3].
    apply andb_true_iff in H as [H1 H2].
    apply Nat.leb_le in H1. apply Nat.ltb_lt in H2.
    apply negb_true_iff, Nat.eqb_neq in H3.
    pose proof (Nat.div_mod_eq (a - 4) 3) as Hdm.
    pose proof (Nat.mod_upper_bound (a - 4) 3 ltac:(lia)) as Hub.
    exists ((a - 4) / 3)%nat. split; [lia|]. lia.
  - intros (i & Hi & [-> | ->]).
    + replace (4 + 3 * i + 1 - 4)%nat with (1 + i * 3)%nat by lia.
      rewrite Nat.Div0.mod_add.
      destruct (Nat.leb_spec 4 (4 + 3 * i + 1)); [|lia].
      destruct (Nat.ltb_spec (4 + 3 * i + 1) (4 + 3 * n)); [|lia].
      reflexivity.
    + replace (4 + 3 * i + 2 - 4)%nat with (2 + i * 3)%nat by lia.
      rewrite Nat.Div0.mod_add.
      destruct (Nat.leb_spec 4 (4 + 3 * i + 2)); [|lia].
      destruct (Nat.ltb_spec (4 + 3 * i + 2) (4 + 3 * n)); [|lia].
      reflexivity.
Qed.

Lemma input_block (n a : nat) :
  (a < 4 + 4 * n)%nat -> result_row n a = false ->
  (a < 4)%nat
  \/ exists k i, (k < 2)%nat /\ (i < n)%nat /\ a = row_block n k i.
Proof.
  intros Ha Hres.
  destruct (Nat.lt_ge_cases a 4) as [Hlt|Hge]; [left; exact Hlt|right].
  destruct (Nat.lt_ge_cases a (4 + 3 * n)) as [H1|H1].
  - unfold result_row in Hres.
    destruct (Nat.leb_spec 4 a); [|lia].
    destruct (Nat.ltb_spec a (4 + 3 * n)); [|lia].
    cbn [andb] in Hres. apply negb_false_iff, Nat.eqb_eq in Hres.
    pose proof (Nat.div_mod_eq (a - 4) 3) as Hdm.
    exists 0%nat, ((a - 4) / 3)%nat. unfold row_block. lia.
  - exists 1%nat, (a - 4 - 3 * n)%nat. unfold row_block. lia.
Qed.
(** The program up to the opening of the file: it has run into a null
    pointer if an allocation other than that of a row of a result matrix
    failed, and otherwise goes on with the inputs filled. *)
Lemma run_prefix (w : world) (n : nat) :
  (1 <= n)%nat -> Z.of_nat n <= INT_MAX ->
  ((exists a, (a < 4 + 4 * n)%nat /\ malloc_succeeds w a = false
              /\ result_row n a = false)
   /\ MxmMain.run w (Z.of_nat n) (Z.of_nat n) (Z.of_nat n) (Z.of_nat n)
      = Fault)
  \/ ((forall a, (a < 4 + 4 * n)%nat -> malloc_succeeds w a = false ->
         result_row n a = true)
      /\ exists p,
           filling w (square n) (n * n + n * n) p
           /\ MxmMain.run w (Z.of_nat n) (Z.of_nat n) (Z.of_nat n) (Z.of_nat n)
              = if fopen_succeeds w then
                  p ← MxmMain.measure w (Some (block 0)) (Some (block 1))
                        (Some (block 2)) (Some (block 3))
                        (Z.of_nat n) (Z.of_nat n) (Z.of_nat n) p;
                  p ← MxmMain.release (Some (block 0)) (Some (block 1))
                        (Some (block 2)) (Some (block 3))
                        (Z.of_nat n) (Z.of_nat n) p;
                  Done (0, p)
                else
                  Done (MxmMain.EXIT_FAILURE,
                        printf "Error opening file!\n" [] p)).
Proof.
  intros Hn1 Hn.
  pose proof (fun k dr p => fill_rows w (square n) k dr p) as Hfill.
  assert (Hfill' : forall k dr p, (k < 4)%nat ->
            filling w (square n) dr p ->
            ((forall i, (i < n)%nat ->
                malloc_succeeds w (row_block n k i) = true) ->
             exists p',
               MxmMain.fill w (Some (block k)) (Z.of_nat n) (Z.of_nat n) p
               = Done p'
               /\ filling w (square n) (dr + n * n) p')
            /\ ((exists i, (i < n)%nat
                           /\ malloc_succeeds w (row_block n k i) = false) ->
                MxmMain.fill w (Some (block k)) (Z.of_nat n) (Z.of_nat n) p
                = Fault)).
  { intros k dr p Hk Hp. specialize (Hfill k dr p).
    rewrite rows_of_square, cols_of_square in Hfill. cbn [dR1 square] in Hfill.
    destruct (Hfill Hn Hn Hk Hp) as [H1 H2]. split; [exact H1|].
    apply H2. exact Hn1. }
  clear Hfill.
  assert (Hblocks : blocks (square n) = (4 + 4 * n)%nat)
    by (unfold blocks; cbn [dR1 dR2 square]; lia).
  destruct (first_failure
              (fun a => malloc_succeeds w a || result_row n a) (4 + 4 * n))
    as [Hall|(a0 & Ha0 & Hf0 & _)].
  - right.
    assert (Hin : forall a, (a < 4 + 4 * n)%nat -> result_row n a = false ->
              malloc_succeeds w a = true).
    { intros a Ha Hres. specialize (Hall a Ha). rewrite Hres in Hall.
      rewrite orb_false_r in Hall. exact Hall. }
    split.
    { intros a Ha Hfail. specialize (Hall a Ha). rewrite Hfail in Hall.
      exact Hall. }
    assert (Hrows : forall k i, (k < 2)%nat -> (i < n)%nat ->
              malloc_succeeds w (row_block n k i) = true).
    { intros k i Hk Hi.
      pose proof (row_block_range n k i ltac:(lia) Hi) as Hr.
      apply Hin; [lia|].
      destruct (result_row n (row_block n k i)) eqn:Hres; [|reflexivity].
      apply result_row_spec in Hres as (i' & Hi' & [E|E]);
        apply row_block_inj in E; lia. }
    destruct (allocate_shape w (square n) Hn Hn) as (m & Hal & Hs & _).
    { intros k Hk. apply Hin; [lia|].
      unfold result_row. destruct (Nat.leb_spec 4 k); [lia|reflexivity]. }
    cbn [dR1 dC1 dR2 dC2 square] in Hal.
    assert (H0 : filling w (square n) 0 (fresh m (blocks (square n))))
      by (exists m; split; [reflexivity|exact Hs]).
    destruct (Hfill' 0%nat _ _ ltac:(lia) H0) as [Hf1 _].
    destruct (Hf1 (fun i Hi => Hrows 0%nat i ltac:(lia) Hi))
      as (p1 & Hfill1 & Hp1).
    destruct (Hfill' 1%nat _ _ ltac:(lia) Hp1) as [Hf2 _].
    destruct (Hf2 (fun i Hi => Hrows 1%nat i ltac:(lia) Hi))
      as (p2 & Hfill2 & Hp2).
    exists p2. split; [exact Hp2|].
    unfold MxmMain.run. rewrite Hal. cbn [mbind outcome_bind].
    rewrite Hfill1. cbn [mbind outcome_bind].
    rewrite Hfill2. cbn [mbind outcome_bind].
    rewrite Z.eqb_refl. reflexivity.
  - left. apply orb_false_iff in Hf0 as [Hfail Hres].
    split; [exists a0; auto|].
    unfold MxmMain.run.
    destruct (first_failure (malloc_succeeds w) 4)
      as [Htabs|(k & Hk & Hkf & _)].
    2: { rewrite allocate_table_null; [reflexivity|assumption..|].
         exists k. auto. }
    destruct (allocate_shape w (square n) Hn Hn Htabs) as (m & Hal & Hs & _).
    cbn [dR1 dC1 dR2 dC2 square] in Hal. rewrite Hal.
    cbn [mbind outcome_bind].
    assert (H0 : filling w (square n) 0 (fresh m (blocks (square n))))
      by (exists m; split; [reflexivity|exact Hs]).
    destruct (Hfill' 0%nat _ _ ltac:(lia) H0) as [Hok1 Hbad1].
    destruct (first_failure
                (fun i => malloc_succeeds w (row_block n 0 i)) n)
      as [Hall1|(i1 & Hi1 & Hif1 & _)].
    2: { rewrite Hbad1; [reflexivity|]. exists i1. auto. }
    destruct (Hok1 Hall1) as (p1 & -> & Hp1). cbn [mbind outcome_bind].
    destruct (Hfill' 1%nat _ _ ltac:(lia) Hp1) as [_ Hbad2].
    rewrite Hbad2; [reflexivity|].
    destruct (input_block n a0 Ha0 Hres) as [Hlt|(k & i & Hk & Hi & ->)].
    { rewrite Htabs in Hfail by assumption. discriminate. }
    assert (k = 0 \/ k = 1)%nat as [->| ->] by lia.
    + rewrite Hall1 in Hfail by assumption. discriminate.
    + exists i. auto.
Qed.

(** A world in which the allocation of the first row of [result_ijk]
    fails and the file cannot be opened. *)
Definition no_row_no_file : world :=
  World 1000000
        (fun t => 2500 * Z.of_nat t)
        (fun a => negb (a =? 5)%nat)
        (fun _ _ => 0.5%float)
        (fun _ _ => None)
        (fun seed t => (seed * 1103515245 + 12345 * Z.of_nat (S t)) mod 32768)
        false.

(** No result of [malloc] is tested in the second program.  Among its
    [4 + 4 N] allocations, the rows of the result matrices are the blocks
    number [4 + 3 i + 1] and [4 + 3 i + 2].  When another allocation
    fails (a table, a row of [m1] or of [m2]) the program writes through
    a null pointer while it allocates or fills.  When only rows of result
    matrices fail, it does so later, when it clears the results, provided
    the file opens; if the file does not open it prints
    [Error opening file!] and exits with [EXIT_FAILURE], the failed
    allocation unnoticed. *)
Theorem comparison_allocation_failure (w : world) (N : Z) :
  1 <= N <= INT_MAX ->
  let n := Z.to_nat N in
  let result_row (a : nat) : Prop :=
    exists i, (i < n)%nat /\ (a = 4 + 3 * i + 1 \/ a = 4 + 3 * i + 2)%nat in
  ((exists a, (a < 4 + 4 * n)%nat /\ malloc_succeeds w a = false
              /\ ~ result_row a) ->
   MxmMain.run w N N N N = Fault)
  /\ ((exists a, (a < 4 + 4 * n)%nat /\ malloc_succeeds w a = false) ->
      fopen_succeeds w = true ->
      MxmMain.run w N N N N = Fault)
  /\ ((forall a, (a < 4 + 4 * n)%nat -> malloc_succeeds w a = false ->
         result_row a) ->
      fopen_succeeds w = false ->
      exists p,
        MxmMain.run w N N N N = Done (1, p)
        /\ stdout p = [Print "Error opening file!\n" []]
        /\ file p = []).
Proof.
  intros HN n0 result_row0.
  assert (Hspec : forall a, result_row n0 a = true <-> result_row0 a).
  { intros a. rewrite result_row_spec. unfold result_row0, row_block.
    reflexivity. }
  assert (HNn : N = Z.of_nat n0) by (unfold n0; lia).
  assert (Hn1 : (1 <= n0)%nat) by (unfold n0; lia).
  clearbody n0. subst N.
  destruct (run_prefix w n0 Hn1 ltac:(lia))
    as [((a0 & Ha0 & Hf0 & Hr0) & Hrun)|(Hall & p & (m & -> & Hs) & Hrun)].
  - split; [intros _; exact Hrun|]. split; [intros _ _; exact Hrun|].
    intros Hres _. specialize (Hres a0 Ha0 Hf0). apply Hspec in Hres.
    congruence.
  - split; [|split].
    + intros (a & Ha & Hfail & Hres). exfalso. apply Hres, Hspec.
      apply Hall; assumption.
    + intros (a & Ha & Hfail) Hopen. rewrite Hrun, Hopen.
      pose proof (Hall a Ha Hfail) as Hres.
      apply result_row_spec in Hres as (i & Hi & Hrow).
      unfold MxmMain.measure. cbv zeta.
      pose proof (clear_null w (square n0)) as Hclear.
      cbn [dR1 dC2 square] in Hclear.
      rewrite Hclear; [reflexivity|lia|lia|lia|exact Hs|].
      exists i. split; [exact Hi|]. destruct Hrow as [E|E]; subst a; auto.
    + intros _ Hopen. rewrite Hrun, Hopen. eexists. split; [reflexivity|].
      split; reflexivity.
Qed.

Lemma comparison_allocation_failure_witness :
  MxmMain.main (out_of_memory_at 7) = Fault
  /\ MxmMain.main (out_of_memory_at 5) = Fault
  /\ exists p,
       MxmMain.main no_row_no_file = Done (1, p)
       /\ stdout p = [Print "Error opening file!\n" []]
       /\ file p = [].
Proof.
  assert (H512 : 1 <= 512 <= INT_MAX) by (unfold INT_MAX; lia).
  unfold MxmMain.main. split; [|split].
  - destruct (comparison_allocation_failure (out_of_memory_at 7) 512 H512)
      as (H1 & _ & _).
    apply H1. exists 7%nat. split; [vm_compute; lia|]. split; [reflexivity|].
    intros (i & _ & [E|E]); lia.
  - destruct (comparison_allocation_failure (out_of_memory_at 5) 512 H512)
      as (_ & H2 & _).
    apply H2; [|reflexivity].
    exists 5%nat. split; [vm_compute; lia|reflexivity].
  - destruct (comparison_allocation_failure no_row_no_file 512 H512)
      as (_ & _ & H3).
    apply H3; [|reflexivity].
    intros a _ Hfail. exists 0%nat. split; [vm_compute; lia|]. left.
    cbn [malloc_succeeds no_row_no_file] in Hfail.
    apply negb_false_iff, Nat.eqb_eq in Hfail. lia.
Defined.

(** The test of the dimensions comes after the allocation and the
    filling.  With [C1 <> R2] (and every allocation successful) the
    program has made its [4 + 3 R1 + R2] allocations and drawn
    [R1 C1 + R2 C2] numbers when it prints that the dimensions do not
    match and exits with [EXIT_FAILURE]; it frees nothing, opens no file
    and measures nothing. *)
Theorem comparison_dimension_mismatch (w : world) (R1 C1 R2 C2 : Z) :
  0 <= R1 <= INT_MAX -> 0 <= C1 <= INT_MAX ->
  0 <= R2 <= INT_MAX -> 0 <= C2 <= INT_MAX ->
  C1 <> R2 ->
  (forall a, (a < 4 + 3 * Z.to_nat R1 + Z.to_nat R2)%nat ->
     malloc_succeeds w a = true) ->
  exists p,
    MxmMain.run w R1 C1 R2 C2 = Done (1, p)
    /\ stdout p
       = [Print "The number of columns in Matrix-1 must be equal to the number of rows in Matrix-2\n"
                []]
    /\ file p = []
    /\ n_clock p = 0%nat
    /\ n_malloc p = (4 + 3 * Z.to_nat R1 + Z.to_nat R2)%nat
    /\ rng_draws p
       = (Z.to_nat R1 * Z.to_nat C1 + Z.to_nat R2 * Z.to_nat C2)%nat
    /\ (forall k, (k < 4)%nat -> is_Some (tables (mem p) !! block k)).
Proof.
  intros HR1 HC1 HR2 HC2 Hne Hok.
  set (d := Dims (Z.to_nat R1) (Z.to_nat C1) (Z.to_nat R2) (Z.to_nat C2)).
  assert (E1 : R1 = Z.of_nat (dR1 d)) by (cbn [dR1 d]; lia).
  assert (E2 : C1 = Z.of_nat (dC1 d)) by (cbn [dC1 d]; lia).
  assert (E3 : R2 = Z.of_nat (dR2 d)) by (cbn [dR2 d]; lia).
  assert (E4 : C2 = Z.of_nat (dC2 d)) by (cbn [dC2 d]; lia).
  assert (Hb : blocks d = (4 + 3 * Z.to_nat R1 + Z.to_nat R2)%nat)
    by reflexivity.
  assert (Hrow : forall k i, (k < 4)%nat -> (i < rows_of d k)%nat ->
            malloc_succeeds w (row_block (dR1 d) k i) = true).
  { intros k i Hk Hi. apply Hok. rewrite <- Hb.
    apply (block_range d k i Hk Hi). }
  destruct (allocate_shape w d) as (m & Hal & Hs & _);
    [lia|lia|intros k Hk; apply Hok; lia|].
  assert (H0 : filling w d 0 (fresh m (blocks d)))
    by (exists m; split; [reflexivity|exact Hs]).
  destruct (fill_rows w d 0 0 _ ltac:(cbn [rows_of Nat.eqb]; lia)
              ltac:(cbn [cols_of Nat.eqb]; lia) ltac:(lia) H0) as [Hf1 _].
  destruct (Hf1 (fun i Hi => Hrow 0%nat i ltac:(lia) Hi))
    as (p1 & Hfill1 & Hp1).
  destruct (fill_rows w d 1 _ _ ltac:(cbn [rows_of Nat.eqb]; lia)
              ltac:(cbn [cols_of Nat.eqb]; lia) ltac:(lia) Hp1) as [Hf2 _].
  destruct (Hf2 (fun i Hi => Hrow 1%nat i ltac:(lia) Hi))
    as (p2 & Hfill2 & (m2 & -> & Hs2)).
  cbn [rows_of cols_of Nat.eqb] in Hfill1, Hfill2.
  unfold MxmMain.run. rewrite E1, E2, E3, E4, Hal. cbn [mbind outcome_bind].
  rewrite Hfill1. cbn [mbind outcome_bind].
  rewrite Hfill2. cbn [mbind outcome_bind].
  destruct (Z.eqb_spec (Z.of_nat (dC1 d)) (Z.of_nat (dR2 d))) as [E|_];
    [exfalso; apply Hne; lia|].
  cbn [negb]. eexists. split; [reflexivity|].
  unfold printf. cbn [mem n_malloc n_clock rng_draws stdout file app].
  rewrite !Nat2Z.id.
  split; [reflexivity|]. split; [reflexivity|]. split; [reflexivity|].
  split; [reflexivity|]. split; [reflexivity|].
  intros k Hk. destruct Hs2 as (Ht & _). rewrite Ht by assumption.
  eexists. reflexivity.
Qed.

Lemma comparison_dimension_mismatch_witness :
  exists p,
    MxmMain.run calm 512 256 512 512 = Done (1, p)
    /\ stdout p
       = [Print "The number of columns in Matrix-1 must be equal to the number of rows in Matrix-2\n"
                []]
    /\ file p = []
    /\ n_clock p = 0%nat
    /\ n_malloc p = (4 + 3 * Z.to_nat 512 + Z.to_nat 512)%nat
    /\ rng_draws p
       = (Z.to_nat 512 * Z.to_nat 256 + Z.to_nat 512 * Z.to_nat 512)%nat
    /\ (forall k, (k < 4)%nat -> is_Some (tables (mem p) !! block k)).
Proof.
  apply (comparison_dimension_mismatch calm 512 256 512 512).
  - unfold INT_MAX. lia.
  - unfold INT_MAX. lia.
  - unfold INT_MAX. lia.
  - unfold INT_MAX. lia.
  - lia.
  - intros a _. reflexivity.
Defined.

(** * A clock that does not advance *)

(** [x - x] is [+0.0] for a zero or a finite [x]. *)
Lemma sub_self (x : float) (a b : Z) :
  sized a b x -> (x - x)%float = 0%float.
Proof.
  unfold sized. intros Hx. apply Prim2SF_inj.
  rewrite FloatAxioms.sub_spec. change (Prim2SF 0) with (S754_zero false).
  destruct (Prim2SF x) as [s|s| |s m e]; cbn [exponent_in] in Hx;
    try contradiction.
  - destruct s; reflexivity.
  - unfold SF64sub, SFsub. rewrite Z.min_id.
    unfold shl_align. rewrite Z.sub_diag. cbn [fst].
    replace (cond_Zopp s (Z.pos m) + cond_Zopp (negb s) (Z.pos m)) with 0
      by (destruct s; cbn [cond_Zopp negb]; lia).
    reflexivity.
Qed.
(** When two calls of [clock()] in a row return the same value, the
    elapsed time between them is [+0.0]. *)
Lemma timed_stalled (w : world) (c : nat) :
  0 < CLOCKS_PER_SEC w < 2 ^ 63 ->
  clock_value w (S c) = clock_value w c ->
  timed w c = 0%float.
Proof.
  intros Hcps Hsame. unfold timed, elapsed_ms. rewrite Hsame.
  rewrite (sub_self _ (-116) 12) by (apply seconds_sized, Hcps).
  vm_compute. reflexivity.
Qed.

(** A byte count divided by an elapsed time of zero is infinite. *)
Lemma bandwidth_at_zero (tb : Z) :
  0 < tb < 2 ^ 63 -> MxmBloc.bandwidth tb 0 = infinity.
Proof.
  intros Htb. unfold MxmBloc.bandwidth.
  change (1000 / 0)%float with infinity.
  assert (Hmul : (double_of_Z tb * infinity)%float = infinity).
  { apply Prim2SF_inj. rewrite FloatAxioms.mul_spec.
    pose proof (double_of_Z_positive tb Htb) as Hp.
    unfold positive_sized in Hp.
    change (Prim2SF infinity) with (S754_infinity false).
    destruct (Prim2SF (double_of_Z tb)) as [s|s| |[] m e];
      try contradiction.
    reflexivity. }
  rewrite Hmul. vm_compute. reflexivity.
Qed.

(** The stride experiment does not guard against a clock that stands
    still: when the two calls of [clock()] around the scan of stride [s]
    return the same value, the line of that stride reports the elapsed
    time [0.0] and, the division by it being unchecked, an infinite
    rate. *)
Theorem stalled_clock_in_stride_experiment (w : world) (s : Z) :
  malloc_succeeds w 0 = true -> 0 < CLOCKS_PER_SEC w < 2 ^ 63 ->
  1 <= s <= Exercice1.MAX_STRIDE ->
  clock_value w (S (2 * (Z.to_nat s - 1)))
  = clock_value w (2 * (Z.to_nat s - 1)) ->
  exists p,
    Exercice1.main w = Done (0, p)
    /\ stdout p !! Z.to_nat s
       = Some (Print "%d, %f, %f, %f\n"
                     [AInt s; ADouble 1000000; ADouble 0; ADouble infinity]).
Proof.
  intros Hm Hcps Hs Hsame. unfold Exercice1.main.
  rewrite experiment_ok
    by (try assumption; unfold Exercice1.MAX_STRIDE, INT_MAX; lia).
  eexists. split; [reflexivity|]. cbn [stdout].
  unfold Exercice1.MAX_STRIDE in Hs.
  replace (Z.to_nat s) with (S (Z.to_nat s - 1)) at 1 by lia.
  rewrite lookup_cons.
  change (Z.to_nat Exercice1.MAX_STRIDE) with 20%nat.
  rewrite list_lookup_fmap, lookup_seq_lt by lia.
  rewrite Nat.add_0_l. cbn [fmap option_fmap option_map].
  unfold stride_line. rewrite ones_sum_million.
  rewrite (timed_stalled w _ Hcps Hsame).
  replace (1 + Z.of_nat (Z.to_nat s - 1)) with s by lia.
  change (stride_rate 1000000 0) with (MxmBloc.bandwidth (8 * 1000000) 0).
  rewrite bandwidth_at_zero by (vm_compute; split; reflexivity).
  reflexivity.
Qed.

Lemma stalled_clock_in_stride_experiment_witness :
  exists p,
    Exercice1.main no_clock = Done (0, p)
    /\ stdout p !! Z.to_nat 7
       = Some (Print "%d, %f, %f, %f\n"
                     [AInt 7; ADouble 1000000; ADouble 0; ADouble infinity]).
Proof.
  apply (stalled_clock_in_stride_experiment no_clock 7).
  - reflexivity.
  - vm_compute. split; reflexivity.
  - unfold Exercice1.MAX_STRIDE. lia.
  - reflexivity.
Defined.

(** The loop-order program does not guard against a clock that stands
    still either: when the two calls of [clock()] around a nest return
    the same value, the line of that nest reports the elapsed time [0.0]
    and an infinite bandwidth. *)
Theorem stalled_clock_in_comparison (w : world) (N : Z) :
  1 <= N <= INT_MAX -> 32 * (N * N * N) <= LLONG_MAX ->
  (forall a, (a < 4 + 4 * Z.to_nat N)%nat -> malloc_succeeds w a = true) ->
  fopen_succeeds w = true ->
  0 < CLOCKS_PER_SEC w < 2 ^ 63 ->
  exists p,
    MxmMain.run w N N N N = Done (0, p)
    /\ (clock_value w 1 = clock_value w 0 ->
        let line :=
          Print "i-j-k (Standard), %.4f, %.2f\n"
                [ADouble 0; ADouble infinity] in
        stdout p !! 3%nat = Some line /\ file p !! 3%nat = Some line)
    /\ (clock_value w 3 = clock_value w 2 ->
        let line :=
          Print "i-k-j (Optimized), %.4f, %.2f\n"
                [ADouble 0; ADouble infinity] in
        stdout p !! 4%nat = Some line /\ file p !! 4%nat = Some line).
Proof.
  intros HN Hb Hok Hopen Hcps.
  assert (Htb : 0 < 32 * (N * N * N) < 2 ^ 63)
    by (unfold LLONG_MAX in Hb; nia).
  as_nat N n.
  rewrite comparison_exact by (assumption || lia).
  eexists. split; [reflexivity|]. cbn [stdout file].
  unfold comparison_header, comparison_lines, version_line. cbn [app].
  split; intros Hsame;
    rewrite (timed_stalled w _ Hcps Hsame);
    change (MxmMain.rate ?tb 0) with (MxmBloc.bandwidth tb 0);
    rewrite (bandwidth_at_zero _ Htb); split; reflexivity.
Qed.

Lemma stalled_clock_in_comparison_witness :
  exists p,
    MxmMain.main no_clock = Done (0, p)
    /\ (clock_value no_clock 1 = clock_value no_clock 0 ->
        let line :=
          Print "i-j-k (Standard), %.4f, %.2f\n"
                [ADouble 0; ADouble infinity] in
        stdout p !! 3%nat = Some line /\ file p !! 3%nat = Some line)
    /\ (clock_value no_clock 3 = clock_value no_clock 2 ->
        let line :=
          Print "i-k-j (Optimized), %.4f, %.2f\n"
                [ADouble 0; ADouble infinity] in
        stdout p !! 4%nat = Some line /\ file p !! 4%nat = Some line).
Proof.
  unfold MxmMain.main.
  apply (stalled_clock_in_comparison no_clock 512).
  - unfold INT_MAX. lia.
  - unfold LLONG_MAX. lia.
  - intros a _. reflexivity.
  - reflexivity.
  - vm_compute. split; reflexivity.
Defined.
